(** * Modbus RTU engine (MODBUS-LIB/Src/Modbus.c): shallow embedding and
      verification of its ring buffer, frame codec, validators, function
      handlers and role tasks. *)

From Stdlib Require Import ZArith Lia Bool List.
From stdpp Require Import base option list.
Import ListNotations.

Local Open Scope Z_scope.

(** ** Machine integers

    The C code works on [uint8_t], [uint16_t], [int8_t], [int16_t] and
    [unsigned int] (32 bits on the STM32).  A value of such a type is a [Z];
    every store into a narrower type is written out as a wrap-around. *)

Definition u8 (x : Z) : Z := x mod 256.
Definition u16 (x : Z) : Z := x mod 65536.
Definition u32 (x : Z) : Z := x mod 4294967296.
Definition i8 (x : Z) : Z := (x + 128) mod 256 - 128.
Definition i16 (x : Z) : Z := (x + 32768) mod 65536 - 32768.

(** [lowByte], [highByte], [bitRead], [bitSet], [bitClear], [bitWrite]
    (Modbus.c lines 20-26).  The macros work on promoted integers; the
    store into the destination type is done by the caller. *)

Definition lowByte (w : Z) : Z := Z.land w 255.
Definition highByte (w : Z) : Z := Z.shiftr w 8.
Definition bitRead (value bit : Z) : Z := Z.land (Z.shiftr value bit) 1.
Definition bitSet (value bit : Z) : Z := Z.lor value (Z.shiftl 1 bit).
Definition bitClear (value bit : Z) : Z :=
  Z.land value (u32 (Z.lnot (Z.shiftl 1 bit))).
Definition bitWrite (value bit : Z) (bitvalue : bool) : Z :=
  if bitvalue then bitSet value bit else bitClear value bit.

(** ** Arrays

    A C array is a list of its cells.  Reading or writing outside the array
    is undefined behaviour in C: the model has no result there ([None]). *)

Definition arr_get (a : list Z) (i : Z) : option Z :=
  if i <? 0 then None else a !! Z.to_nat i.

Definition arr_set (a : list Z) (i v : Z) : option (list Z) :=
  if (0 <=? i) && (i <? Z.of_nat (length a))
  then Some (<[Z.to_nat i := v]> a) else None.

(** ** Frame codec: CRC *)

(** One turn of the inner [j] loop of [calcCRC]. *)
Definition calcCRC_bit (temp : Z) : Z :=
  let flag := Z.land temp 1 in
  let temp := Z.shiftr temp 1 in
  if flag =? 0 then temp else Z.lxor temp 40961.

(** The outer loop, [for (unsigned char i = 0; i < u8length; i++)]; [n] is
    the number of turns left, [i] the counter. *)
Fixpoint calcCRC_loop (n : nat) (Buffer : list Z) (i temp : Z) : option Z :=
  match n with
  | O => Some temp
  | S n' =>
      b ← arr_get Buffer i;
      calcCRC_loop n' Buffer (i + 1) (Nat.iter 8 calcCRC_bit (Z.lxor temp b))
  end.

(** [calcCRC] (lines 985-1008). *)
Definition calcCRC (Buffer : list Z) (u8length : Z) : option Z :=
  temp ← calcCRC_loop (Z.to_nat u8length) Buffer 0 65535;
  let temp2 := Z.shiftr temp 8 in
  let temp := Z.lor (u32 (Z.shiftl temp 8)) temp2 in
  let temp := Z.land temp 65535 in
  Some (u16 temp).

(** The reference CRC-16/Modbus, written after the specification: initial
    value 0xFFFF, reflected (the register moves right), polynomial 0xA001. *)
Definition crc16_shift (crc : Z) : Z :=
  if Z.odd crc then Z.lxor (crc / 2) 40961 else crc / 2.

Definition crc16_byte (crc b : Z) : Z := Nat.iter 8 crc16_shift (Z.lxor crc b).

Definition crc16_modbus (msg : list Z) : Z := fold_left crc16_byte msg 65535.

(** The two bytes of a CRC as they travel: low byte first. *)
Definition crc_wire (crc : Z) : list Z := [crc mod 256; crc / 256].

(** A 16-bit word with its two bytes exchanged. *)
Definition swap16 (w : Z) : Z := (w mod 256) * 256 + w / 256.

Definition is_byte (b : Z) : Prop := 0 <= b < 256.

(** ** Constants

    Modbus.h is not part of the sources at hand.  The constants that the
    specification fixes are defined here; the others are parameters of the
    development, gathered in [ModbusHeader]. *)

(** Modelled from the spec: the frame offsets of Modbus.h (enum MESSAGE).
    A frame is ID, FUNC, then the big-endian pairs ADD_HI:ADD_LO and
    NB_HI:NB_LO, then the byte counter. *)
Definition ID : Z := 0.
Definition FUNC : Z := 1.
Definition ADD_HI : Z := 2.
Definition ADD_LO : Z := 3.
Definition NB_HI : Z := 4.
Definition NB_LO : Z := 5.
Definition BYTE_CNT : Z := 6.

(** Modelled from the spec: the eight supported function codes of Modbus.h
    (enum MB_FC). *)
Definition MB_FC_READ_COILS : Z := 1.
Definition MB_FC_READ_DISCRETE_INPUT : Z := 2.
Definition MB_FC_READ_REGISTERS : Z := 3.
Definition MB_FC_READ_INPUT_REGISTER : Z := 4.
Definition MB_FC_WRITE_COIL : Z := 5.
Definition MB_FC_WRITE_REGISTER : Z := 6.
Definition MB_FC_WRITE_MULTIPLE_COILS : Z := 15.
Definition MB_FC_WRITE_MULTIPLE_REGISTERS : Z := 16.

(** Modelled from the spec: the exception codes of Modbus.h that travel in
    the byte after FUNC | 0x80. *)
Definition EXC_FUNC_CODE : Z := 1.
Definition EXC_ADDR_RANGE : Z := 2.
Definition EXC_REGS_QUANT : Z := 3.

(** Modelled from the spec: the frame lengths of Modbus.h; an exception
    frame has length 3 and an echo response length 6 before the CRC. *)
Definition EXCEPTION_SIZE : Z := 3.
Definition RESPONSE_SIZE : Z := 6.

(** [fctsupported] (lines 145-155). *)
Definition fctsupported : list Z :=
  [ MB_FC_READ_COILS; MB_FC_READ_DISCRETE_INPUT; MB_FC_READ_REGISTERS;
    MB_FC_READ_INPUT_REGISTER; MB_FC_WRITE_COIL; MB_FC_WRITE_REGISTER;
    MB_FC_WRITE_MULTIPLE_COILS; MB_FC_WRITE_MULTIPLE_REGISTERS ].

(** The constants of Modbus.h and ModbusConfig.h whose values the
    specification leaves open.  They are C [int] constants. *)
Class ModbusHeader : Type := {
  MAX_BUFFER : Z;
  MB_SLAVE : Z;
  MB_MASTER : Z;
  USART_HW : Z;
  USART_HW_DMA : Z;
  COM_IDLE : Z;
  COM_WAITING : Z;
  ERR_NOT_MASTER : Z;
  ERR_POLLING : Z;
  ERR_BUFF_OVERFLOW : Z;
  ERR_BAD_CRC : Z;
  ERR_EXCEPTION : Z;
  ERR_BAD_SIZE : Z;
  ERR_TIME_OUT : Z;
  ERR_BAD_SLAVE_ID : Z;
  ERR_OK_QUERY : Z;
  DB_COILS : Z;
  DB_INPUT_COILS : Z;
  DB_HOLDING_REGISTER : Z;
  DB_INPUT_REGISTERS : Z
}.

(** A header to run the model on concrete frames. *)
Definition sample_header : ModbusHeader := {|
  MAX_BUFFER := 128;
  MB_SLAVE := 3;
  MB_MASTER := 4;
  USART_HW := 1;
  USART_HW_DMA := 4;
  COM_IDLE := 0;
  COM_WAITING := 1;
  ERR_NOT_MASTER := -1;
  ERR_POLLING := -2;
  ERR_BUFF_OVERFLOW := -3;
  ERR_BAD_CRC := -4;
  ERR_EXCEPTION := -5;
  ERR_BAD_SIZE := -6;
  ERR_TIME_OUT := -8;
  ERR_BAD_SLAVE_ID := -9;
  ERR_OK_QUERY := -11;
  DB_COILS := 1;
  DB_INPUT_COILS := 2;
  DB_HOLDING_REGISTER := 3;
  DB_INPUT_REGISTERS := 4
|}.

(** ** Data model *)

(** [modbusRingBuffer_t]: the receive ring.  The [u8] fields are 8 bits
    wide. *)
Record modbusRingBuffer_t : Type := mkRing {
  uxBuffer : list Z;
  u8start : Z;
  u8end : Z;
  u8available : Z;
  overflow : bool
}.

(** [modbus_t]: a master telegram.  [u16reg] is the caller's data array. *)
Record modbus_t : Type := mkTelegram {
  tg_u8id : Z;
  tg_u8fct : Z;
  tg_u16RegAdd : Z;
  tg_u16CoilsNo : Z;
  tg_u16reg : list Z;
  tg_u32CurrentTask : Z
}.

(** What the engine asks of its collaborators (UART driver, direction pin,
    kernel), in program order. *)
Inductive event : Type :=
| EvTransmit (frame : list Z)       (* HAL_UART_Transmit_IT / _DMA *)
| EvNotify (task value : Z)         (* xTaskNotify, eSetValueWithOverwrite *)
| EvDirection (tx : bool)           (* EN pin and half-duplex switch *)
| EvTimeoutReset                    (* xTimerReset (xTimerTimeout) *)
| EvTimeoutStop                     (* xTimerStop (xTimerTimeout) *)
| EvSemTake                         (* xSemaphoreTake (ModBusSphrHandle) *)
| EvSemGive                         (* xSemaphoreGive (ModBusSphrHandle) *)
| EvRxAbort                         (* HAL_UART_AbortReceive_IT *)
| EvRxArm.                          (* HAL_UART_Receive_IT *)

(** [modbusHandler_t], with the fields Modbus.c uses.  A bank pointer is
    modelled by the array it points to (a missing bank is the empty array);
    [trace] records the calls made to the collaborators.

    Modelled from the spec: [discrete_inputs], the fourth register bank of
    the instance handle; no function of Modbus.c names it. *)
Record modbusHandler_t : Type := mkHandler {
  uModbusType : Z;
  u8id : Z;
  xTypeHW : Z;
  EN_Port : bool;
  u8Buffer : list Z;
  u8BufferSize : Z;
  xBufferRX : modbusRingBuffer_t;
  u16regsHR : list Z;
  u16regsRO : list Z;
  u16regsCoils : list Z;
  discrete_inputs : list Z;
  u16regHR_size : Z;
  u16regCoils_size : Z;
  i8lastError : Z;
  i8state : Z;
  u16InCnt : Z;
  u16OutCnt : Z;
  u16errCnt : Z;
  trace : list event
}.

Definition set_u8Buffer (v : list Z) (h : modbusHandler_t) : modbusHandler_t :=
  mkHandler (uModbusType h) (u8id h) (xTypeHW h) (EN_Port h) v (u8BufferSize h)
    (xBufferRX h) (u16regsHR h) (u16regsRO h) (u16regsCoils h) (discrete_inputs h)
    (u16regHR_size h) (u16regCoils_size h) (i8lastError h) (i8state h)
    (u16InCnt h) (u16OutCnt h) (u16errCnt h) (trace h).

Definition set_u8BufferSize (v : Z) (h : modbusHandler_t) : modbusHandler_t :=
  mkHandler (uModbusType h) (u8id h) (xTypeHW h) (EN_Port h) (u8Buffer h) v
    (xBufferRX h) (u16regsHR h) (u16regsRO h) (u16regsCoils h) (discrete_inputs h)
    (u16regHR_size h) (u16regCoils_size h) (i8lastError h) (i8state h)
    (u16InCnt h) (u16OutCnt h) (u16errCnt h) (trace h).

Definition set_xBufferRX (v : modbusRingBuffer_t) (h : modbusHandler_t) : modbusHandler_t :=
  mkHandler (uModbusType h) (u8id h) (xTypeHW h) (EN_Port h) (u8Buffer h) (u8BufferSize h)
    v (u16regsHR h) (u16regsRO h) (u16regsCoils h) (discrete_inputs h)
    (u16regHR_size h) (u16regCoils_size h) (i8lastError h) (i8state h)
    (u16InCnt h) (u16OutCnt h) (u16errCnt h) (trace h).

Definition set_u16regsHR (v : list Z) (h : modbusHandler_t) : modbusHandler_t :=
  mkHandler (uModbusType h) (u8id h) (xTypeHW h) (EN_Port h) (u8Buffer h) (u8BufferSize h)
    (xBufferRX h) v (u16regsRO h) (u16regsCoils h) (discrete_inputs h)
    (u16regHR_size h) (u16regCoils_size h) (i8lastError h) (i8state h)
    (u16InCnt h) (u16OutCnt h) (u16errCnt h) (trace h).

Definition set_u16regsCoils (v : list Z) (h : modbusHandler_t) : modbusHandler_t :=
  mkHandler (uModbusType h) (u8id h) (xTypeHW h) (EN_Port h) (u8Buffer h) (u8BufferSize h)
    (xBufferRX h) (u16regsHR h) (u16regsRO h) v (discrete_inputs h)
    (u16regHR_size h) (u16regCoils_size h) (i8lastError h) (i8state h)
    (u16InCnt h) (u16OutCnt h) (u16errCnt h) (trace h).

Definition set_discrete_inputs (v : list Z) (h : modbusHandler_t) : modbusHandler_t :=
  mkHandler (uModbusType h) (u8id h) (xTypeHW h) (EN_Port h) (u8Buffer h) (u8BufferSize h)
    (xBufferRX h) (u16regsHR h) (u16regsRO h) (u16regsCoils h) v
    (u16regHR_size h) (u16regCoils_size h) (i8lastError h) (i8state h)
    (u16InCnt h) (u16OutCnt h) (u16errCnt h) (trace h).

Definition set_i8lastError (v : Z) (h : modbusHandler_t) : modbusHandler_t :=
  mkHandler (uModbusType h) (u8id h) (xTypeHW h) (EN_Port h) (u8Buffer h) (u8BufferSize h)
    (xBufferRX h) (u16regsHR h) (u16regsRO h) (u16regsCoils h) (discrete_inputs h)
    (u16regHR_size h) (u16regCoils_size h) v (i8state h)
    (u16InCnt h) (u16OutCnt h) (u16errCnt h) (trace h).

Definition set_i8state (v : Z) (h : modbusHandler_t) : modbusHandler_t :=
  mkHandler (uModbusType h) (u8id h) (xTypeHW h) (EN_Port h) (u8Buffer h) (u8BufferSize h)
    (xBufferRX h) (u16regsHR h) (u16regsRO h) (u16regsCoils h) (discrete_inputs h)
    (u16regHR_size h) (u16regCoils_size h) (i8lastError h) v
    (u16InCnt h) (u16OutCnt h) (u16errCnt h) (trace h).

Definition set_u16InCnt (v : Z) (h : modbusHandler_t) : modbusHandler_t :=
  mkHandler (uModbusType h) (u8id h) (xTypeHW h) (EN_Port h) (u8Buffer h) (u8BufferSize h)
    (xBufferRX h) (u16regsHR h) (u16regsRO h) (u16regsCoils h) (discrete_inputs h)
    (u16regHR_size h) (u16regCoils_size h) (i8lastError h) (i8state h)
    v (u16OutCnt h) (u16errCnt h) (trace h).

Definition set_u16OutCnt (v : Z) (h : modbusHandler_t) : modbusHandler_t :=
  mkHandler (uModbusType h) (u8id h) (xTypeHW h) (EN_Port h) (u8Buffer h) (u8BufferSize h)
    (xBufferRX h) (u16regsHR h) (u16regsRO h) (u16regsCoils h) (discrete_inputs h)
    (u16regHR_size h) (u16regCoils_size h) (i8lastError h) (i8state h)
    (u16InCnt h) v (u16errCnt h) (trace h).

Definition set_u16errCnt (v : Z) (h : modbusHandler_t) : modbusHandler_t :=
  mkHandler (uModbusType h) (u8id h) (xTypeHW h) (EN_Port h) (u8Buffer h) (u8BufferSize h)
    (xBufferRX h) (u16regsHR h) (u16regsRO h) (u16regsCoils h) (discrete_inputs h)
    (u16regHR_size h) (u16regCoils_size h) (i8lastError h) (i8state h)
    (u16InCnt h) (u16OutCnt h) v (trace h).

Definition set_trace (v : list event) (h : modbusHandler_t) : modbusHandler_t :=
  mkHandler (uModbusType h) (u8id h) (xTypeHW h) (EN_Port h) (u8Buffer h) (u8BufferSize h)
    (xBufferRX h) (u16regsHR h) (u16regsRO h) (u16regsCoils h) (discrete_inputs h)
    (u16regHR_size h) (u16regCoils_size h) (i8lastError h) (i8state h)
    (u16InCnt h) (u16OutCnt h) (u16errCnt h) v.

(** The frames handed to the UART, oldest first. *)
Fixpoint transmitted (tr : list event) : list (list Z) :=
  match tr with
  | [] => []
  | EvTransmit f :: tr' => f :: transmitted tr'
  | _ :: tr' => transmitted tr'
  end.

(** The task notifications posted, oldest first. *)
Fixpoint notified (tr : list event) : list (Z * Z) :=
  match tr with
  | [] => []
  | EvNotify t v :: tr' => (t, v) :: notified tr'
  | _ :: tr' => notified tr'
  end.

(** ** The monad of the engine

    A function of Modbus.c works on the handler it is given and may run into
    undefined behaviour: a computation maps a handler to [None] (no defined
    result) or to a result and the handler afterwards. *)

Definition M (A : Type) : Type := modbusHandler_t -> option (A * modbusHandler_t).

Definition ret {A : Type} (a : A) : M A := fun h => Some (a, h).

Definition bind {A B : Type} (m : M A) (k : A -> M B) : M B :=
  fun h => match m h with
           | Some (a, h') => k a h'
           | None => None
           end.

Definition undefined {A : Type} : M A := fun _ => None.

Definition gets {A : Type} (f : modbusHandler_t -> A) : M A := fun h => Some (f h, h).

Definition modify (f : modbusHandler_t -> modbusHandler_t) : M unit :=
  fun h => Some (tt, f h).

Definition lift {A : Type} (o : option A) : M A :=
  fun h => match o with
           | Some a => Some (a, h)
           | None => None
           end.

Declare Scope modbus_scope.
Delimit Scope modbus_scope with modbus.
Notation "x <- m ;; k" := (bind m (fun x => k))
  (at level 100, m at next level, right associativity) : modbus_scope.
Notation "m ;; k" := (bind m (fun _ => k))
  (at level 100, right associativity) : modbus_scope.

Local Open Scope modbus_scope.

(** [modH->u8Buffer[i]] read and written. *)
Definition rd (i : Z) : M Z := fun h => lift (arr_get (u8Buffer h) i) h.

Definition wr (i v : Z) : M unit :=
  fun h => match arr_set (u8Buffer h) i v with
           | Some b => Some (tt, set_u8Buffer b h)
           | None => None
           end.

Definition emit (e : event) : M unit := modify (fun h => set_trace (trace h ++ [e]) h).

(** [if (c) stmt;] without an [else]. *)
Definition when (c : bool) (m : M unit) : M unit := if c then m else ret tt.

(** [word] (lines 967-974): the union is read back on a little-endian
    core, where [u8[0]] is the low byte of [u16[0]]. *)
Definition word (H L : Z) : Z := u8 H * 256 + u8 L.

Section Engine.

Context `{ModbusHeader}.

(** ** Ring buffer (lines 85-139)

    The operands of [/] and [%] are never negative in Modbus.c, where C's
    truncated division agrees with [Z.div] and [Z.modulo]. *)

(** [RingClear] (lines 133-139). *)
Definition RingClear (r : modbusRingBuffer_t) : modbusRingBuffer_t :=
  mkRing (uxBuffer r) 0 0 0 false.

(** [RingAdd] (lines 85-101). *)
Definition RingAdd (r : modbusRingBuffer_t) (u8Val : Z) : option modbusRingBuffer_t :=
  buf ← arr_set (uxBuffer r) (u8end r) u8Val;
  let e := u8 ((u8end r + 1) mod MAX_BUFFER) in
  if u8available r =? MAX_BUFFER
  then Some (mkRing buf (u8 ((u8start r + 1) mod MAX_BUFFER)) e (u8available r) true)
  else Some (mkRing buf (u8start r) e (u8 (u8available r + 1)) false).

(** The copy loop of [RingGetNBytes] (lines 116-120); [fuel] bounds the
    number of times the loop condition is evaluated. *)
Fixpoint RingGetNBytes_loop (fuel : nat) (r : modbusRingBuffer_t) (buffer : list Z)
    (uNumber uCounter : Z) : option (modbusRingBuffer_t * list Z * Z) :=
  match fuel with
  | O => None
  | S fuel' =>
      if (uCounter <? uNumber) && (uCounter <? u8available r) then
        b ← arr_get (uxBuffer r) (u8start r);
        buffer' ← arr_set buffer uCounter b;
        let r' := mkRing (uxBuffer r) (u8 ((u8start r + 1) mod MAX_BUFFER))
                    (u8end r) (u8available r) (overflow r) in
        RingGetNBytes_loop fuel' r' buffer' uNumber (u8 (uCounter + 1))
      else Some (r, buffer, uCounter)
  end.

(** [RingGetNBytes] (lines 110-126): the ring afterwards, the destination
    array afterwards and the returned count.  The counter is 8 bits wide:
    257 evaluations of the loop condition are enough. *)
Definition RingGetNBytes (r : modbusRingBuffer_t) (buffer : list Z) (uNumber : Z)
    : option (modbusRingBuffer_t * list Z * Z) :=
  if (u8available r =? 0) || (uNumber =? 0) then Some (r, buffer, 0)
  else if uNumber >? MAX_BUFFER then Some (r, buffer, 0)
  else
    '(r1, buffer', uCounter) ← RingGetNBytes_loop 257 r buffer uNumber 0;
    let r2 := mkRing (uxBuffer r1) (u8start r1) (u8end r1)
                (u8 (u8available r1 - uCounter)) (overflow r1) in
    let r3 := mkRing (uxBuffer r2) (u8start r2) (u8end r2) (u8available r2) false in
    Some (RingClear r3, buffer', uCounter).

(** [RingGetAllBytes] (lines 104-107). *)
Definition RingGetAllBytes (r : modbusRingBuffer_t) (buffer : list Z)
    : option (modbusRingBuffer_t * list Z * Z) :=
  RingGetNBytes r buffer (u8available r).

(** [RingCountBytes] (lines 128-131). *)
Definition RingCountBytes (r : modbusRingBuffer_t) : Z := u8available r.

(** ** Frame codec (lines 1018-1112) *)

Definition set_size (v : Z) : M unit := modify (set_u8BufferSize v).

(** [modH->u8BufferSize++] *)
Definition incr_size : M unit :=
  modify (fun h => set_u8BufferSize (u8 (u8BufferSize h + 1)) h).

(** [modH->u16errCnt ++] *)
Definition incr_errCnt : M unit :=
  modify (fun h => set_u16errCnt (u16 (u16errCnt h + 1)) h).

(** [buildException] (lines 1018-1026). *)
Definition buildException (u8exception : Z) : M unit :=
  u8func <- rd FUNC ;;
  id <- gets u8id ;;
  wr ID id ;;
  wr FUNC (u8 (u8func + 128)) ;;
  wr 2 u8exception ;;
  set_size EXCEPTION_SIZE.

(** [sendTxBuffer] (lines 1040-1112).  The wait for the end of the
    transmission (task notification, then the TC bit of the UART) is the
    driver's business and leaves no mark on the handler. *)
Definition sendTxBuffer : M unit :=
  h <- gets (fun h => h) ;;
  u16crc <- lift (calcCRC (u8Buffer h) (u8BufferSize h)) ;;
  wr (u8BufferSize h) (u8 (Z.shiftr u16crc 8)) ;;
  incr_size ;;
  n <- gets u8BufferSize ;;
  wr n (u8 (Z.land u16crc 255)) ;;
  incr_size ;;
  when (EN_Port h) (emit (EvDirection true)) ;;
  h' <- gets (fun h => h) ;;
  emit (EvTransmit (take (Z.to_nat (u8BufferSize h')) (u8Buffer h'))) ;;
  when (EN_Port h) (emit (EvDirection false)) ;;
  when (uModbusType h =? MB_MASTER) (emit EvTimeoutReset) ;;
  set_size 0 ;;
  modify (fun h => set_u16OutCnt (u16 (u16OutCnt h + 1)) h).

(** ** Validators (lines 789-826 and 877-957) *)

(** The search of [fctsupported]. *)
Definition isSupported (func : Z) : bool :=
  existsb (fun c => c =? func) fctsupported.

(** The CRC carried by the last two bytes of the frame and the CRC of what
    precedes them. *)
Definition crc_matches : M bool :=
  n <- gets u8BufferSize ;;
  hi <- rd (n - 2) ;;
  lo <- rd (n - 1) ;;
  let u16MsgCRC := u16 (Z.lor (Z.shiftl hi 8) lo) in
  buf <- gets u8Buffer ;;
  crc <- lift (calcCRC buf (u8 (n - 2))) ;;
  ret (crc =? u16MsgCRC).

(** [word (u8Buffer[hi], u8Buffer[lo])] *)
Definition rd_word (hi lo : Z) : M Z :=
  H <- rd hi ;;
  L <- rd lo ;;
  ret (word H L).

(** [validateRequest] (lines 877-957). *)
Definition validateRequest : M Z :=
  ok <- crc_matches ;;
  if negb ok then incr_errCnt ;; ret (u8 ERR_BAD_CRC)
  else
    func <- rd FUNC ;;
    if negb (isSupported func) then incr_errCnt ;; ret EXC_FUNC_CODE
    else if (func =? MB_FC_READ_COILS) || (func =? MB_FC_READ_DISCRETE_INPUT)
            || (func =? MB_FC_WRITE_MULTIPLE_COILS) then
      ad <- rd_word ADD_HI ADD_LO ;;
      nb <- rd_word NB_HI NB_LO ;;
      size <- gets u16regCoils_size ;;
      let u16AdRegs := u16 (ad / 16) in
      let u16NRegs := u16 (nb / 16) in
      let u16NRegs := if nb mod 16 =? 0 then u16NRegs else u16 (u16NRegs + 1) in
      if u16AdRegs + u16NRegs >? size then ret EXC_ADDR_RANGE
      else
        let u16NRegs := u16 (nb / 8) in
        let u16NRegs := if nb mod 8 =? 0 then u16NRegs else u16 (u16NRegs + 1) in
        let u16NRegs := u16 (u16NRegs + 5) in
        if u16NRegs >? 256 then ret EXC_REGS_QUANT else ret 0
    else if func =? MB_FC_WRITE_COIL then
      ad <- rd_word ADD_HI ADD_LO ;;
      size <- gets u16regCoils_size ;;
      let u16AdRegs := u16 (ad / 16) in
      let u16AdRegs := if ad mod 16 =? 0 then u16AdRegs else u16 (u16AdRegs + 1) in
      if u16AdRegs >? size then ret EXC_ADDR_RANGE else ret 0
    else if func =? MB_FC_WRITE_REGISTER then
      u16AdRegs <- rd_word ADD_HI ADD_LO ;;
      size <- gets u16regHR_size ;;
      if u16AdRegs >? size then ret EXC_ADDR_RANGE else ret 0
    else if (func =? MB_FC_READ_REGISTERS) || (func =? MB_FC_READ_INPUT_REGISTER)
            || (func =? MB_FC_WRITE_MULTIPLE_REGISTERS) then
      u16AdRegs <- rd_word ADD_HI ADD_LO ;;
      u16NRegs <- rd_word NB_HI NB_LO ;;
      size <- gets u16regHR_size ;;
      if u16AdRegs + u16NRegs >? size then ret EXC_ADDR_RANGE
      else
        let u16NRegs := u16 (u16NRegs * 2 + 5) in
        if u16NRegs >? 256 then ret EXC_REGS_QUANT else ret 0
    else ret 0.

(** [validateAnswer] (lines 789-826). *)
Definition validateAnswer : M Z :=
  ok <- crc_matches ;;
  if negb ok then incr_errCnt ;; ret (u8 ERR_BAD_CRC)
  else
    func <- rd FUNC ;;
    if negb (Z.land func 128 =? 0) then incr_errCnt ;; ret (u8 ERR_EXCEPTION)
    else if negb (isSupported func) then incr_errCnt ;; ret EXC_FUNC_CODE
    else ret 0.

(** [getRxBuffer] (lines 836-864); the result is an [int16_t]. *)
Definition getRxBuffer : M Z :=
  hw <- gets xTypeHW ;;
  when (hw =? USART_HW) (emit EvRxAbort) ;;
  r <- gets xBufferRX ;;
  i16result <-
    (if overflow r then
       modify (set_xBufferRX (RingClear r)) ;;
       ret (i16 ERR_BUFF_OVERFLOW)
     else
       buf <- gets u8Buffer ;;
       res <- lift (RingGetAllBytes r buf) ;;
       let '(r', buf', n) := res in
       modify (set_xBufferRX r') ;;
       modify (set_u8Buffer buf') ;;
       set_size n ;;
       modify (fun h => set_u16InCnt (u16 (u16InCnt h + 1)) h) ;;
       ret (i16 n)) ;;
  when (hw =? USART_HW) (emit EvRxArm) ;;
  ret i16result.

(** ** Function handlers of the slave (lines 1123-1372)

    A local [uint16_t *u16regs] that no branch assigns is an indeterminate
    pointer: [None]; reading through it has no defined result. *)

(** The loop of [process_FC1] (lines 1151-1168); [n] turns are left. *)
Fixpoint process_FC1_loop (n : nat) (u16regs : option (list Z))
    (u16StartCoil u16currentCoil u8bitsno : Z) : M unit :=
  match n with
  | O => ret tt
  | S n' =>
      let u16coil := u16 (u16StartCoil + u16currentCoil) in
      let u16currentRegister := u16 (u16coil / 16) in
      let u8currentBit := u8 (u16coil mod 16) in
      regs <- lift u16regs ;;
      w <- lift (arr_get regs u16currentRegister) ;;
      sz <- gets u8BufferSize ;;
      cell <- rd sz ;;
      wr sz (u8 (bitWrite cell u8bitsno (negb (bitRead w u8currentBit =? 0)))) ;;
      let u8bitsno := u8 (u8bitsno + 1) in
      if u8bitsno >? 7 then
        incr_size ;;
        process_FC1_loop n' u16regs u16StartCoil (u16 (u16currentCoil + 1)) 0
      else
        process_FC1_loop n' u16regs u16StartCoil (u16 (u16currentCoil + 1)) u8bitsno
  end.

(** [process_FC1] (lines 1123-1175); the result is an [int8_t]. *)
Definition process_FC1 (Database : Z) : M Z :=
  u16StartCoil <- rd_word ADD_HI ADD_LO ;;
  u16Coilno <- rd_word NB_HI NB_LO ;;
  let u8bytesno := u8 (u16Coilno / 8) in
  let u8bytesno := if u16Coilno mod 8 =? 0 then u8bytesno else u8 (u8bytesno + 1) in
  wr ADD_HI u8bytesno ;;
  set_size ADD_LO ;;
  wr (ADD_LO + u8bytesno - 1) 0 ;;
  coils <- gets u16regsCoils ;;
  let u16regs := if Database =? 1 then Some coils else None in
  process_FC1_loop (Z.to_nat u16Coilno) u16regs u16StartCoil 0 0 ;;
  when (negb (u16Coilno mod 8 =? 0)) incr_size ;;
  sz <- gets u8BufferSize ;;
  let u8CopyBufferSize := u8 (sz + 2) in
  sendTxBuffer ;;
  ret (i8 u8CopyBufferSize).

(** The loop of [process_FC3] (lines 1208-1214); [i] is 16 bits wide. *)
Fixpoint process_FC3_loop (n : nat) (u16regs : option (list Z)) (i : Z) : M unit :=
  match n with
  | O => ret tt
  | S n' =>
      regs <- lift u16regs ;;
      w <- lift (arr_get regs i) ;;
      sz <- gets u8BufferSize ;;
      wr sz (u8 (highByte w)) ;;
      incr_size ;;
      sz <- gets u8BufferSize ;;
      wr sz (u8 (lowByte w)) ;;
      incr_size ;;
      process_FC3_loop n' u16regs (u16 (i + 1))
  end.

(** [process_FC3] (lines 1186-1219).  When [u16StartAdd + u8regsno] is
    beyond 65535 the 16-bit counter never reaches the bound: the loop runs
    until it leaves the bank, and has no defined result. *)
Definition process_FC3 (Database : Z) : M Z :=
  u16StartAdd <- rd_word ADD_HI ADD_LO ;;
  nb <- rd_word NB_HI NB_LO ;;
  let u8regsno := u8 nb in
  wr 2 (u8 (u8regsno * 2)) ;;
  set_size 3 ;;
  hr <- gets u16regsHR ;;
  ro <- gets u16regsRO ;;
  let u16regs :=
    if Database =? DB_HOLDING_REGISTER then Some hr
    else if Database =? DB_INPUT_REGISTERS then Some ro
    else None in
  (if u16StartAdd + u8regsno >? 65535 then undefined
   else process_FC3_loop (Z.to_nat u8regsno) u16regs u16StartAdd) ;;
  sz <- gets u8BufferSize ;;
  let u8CopyBufferSize := u8 (sz + 2) in
  sendTxBuffer ;;
  ret (i8 u8CopyBufferSize).

(** [process_FC5] (lines 1229-1253). *)
Definition process_FC5 : M Z :=
  u16coil <- rd_word ADD_HI ADD_LO ;;
  let u16currentRegister := u16 (u16coil / 16) in
  let u8currentBit := u8 (u16coil mod 16) in
  coils <- gets u16regsCoils ;;
  w <- lift (arr_get coils u16currentRegister) ;;
  v <- rd NB_HI ;;
  coils' <- lift (arr_set coils u16currentRegister
                    (u16 (bitWrite w u8currentBit (v =? 255)))) ;;
  modify (set_u16regsCoils coils') ;;
  set_size 6 ;;
  sz <- gets u8BufferSize ;;
  let u8CopyBufferSize := u8 (sz + 2) in
  sendTxBuffer ;;
  ret (i8 u8CopyBufferSize).

(** [process_FC6] (lines 1263-1279). *)
Definition process_FC6 : M Z :=
  u16add <- rd_word ADD_HI ADD_LO ;;
  u16val <- rd_word NB_HI NB_LO ;;
  hr <- gets u16regsHR ;;
  hr' <- lift (arr_set hr u16add u16val) ;;
  modify (set_u16regsHR hr') ;;
  set_size RESPONSE_SIZE ;;
  sz <- gets u8BufferSize ;;
  let u8CopyBufferSize := u8 (sz + 2) in
  sendTxBuffer ;;
  ret (i8 u8CopyBufferSize).

(** The loop of [process_FC15] (lines 1305-1328). *)
Fixpoint process_FC15_loop (n : nat)
    (u16StartCoil u16currentCoil u8frameByte u8bitsno : Z) : M unit :=
  match n with
  | O => ret tt
  | S n' =>
      let u16coil := u16 (u16StartCoil + u16currentCoil) in
      let u16currentRegister := u16 (u16coil / 16) in
      let u8currentBit := u8 (u16coil mod 16) in
      cell <- rd u8frameByte ;;
      let bTemp := negb (bitRead cell u8bitsno =? 0) in
      coils <- gets u16regsCoils ;;
      w <- lift (arr_get coils u16currentRegister) ;;
      coils' <- lift (arr_set coils u16currentRegister
                        (u16 (bitWrite w u8currentBit bTemp))) ;;
      modify (set_u16regsCoils coils') ;;
      let u8bitsno := u8 (u8bitsno + 1) in
      if u8bitsno >? 7 then
        process_FC15_loop n' u16StartCoil (u16 (u16currentCoil + 1))
          (u8 (u8frameByte + 1)) 0
      else
        process_FC15_loop n' u16StartCoil (u16 (u16currentCoil + 1))
          u8frameByte u8bitsno
  end.

(** [process_FC15] (lines 1289-1336). *)
Definition process_FC15 : M Z :=
  u16StartCoil <- rd_word ADD_HI ADD_LO ;;
  u16Coilno <- rd_word NB_HI NB_LO ;;
  process_FC15_loop (Z.to_nat u16Coilno) u16StartCoil 0 7 0 ;;
  set_size 6 ;;
  sz <- gets u8BufferSize ;;
  let u8CopyBufferSize := u8 (sz + 2) in
  sendTxBuffer ;;
  ret (i8 u8CopyBufferSize).

(** The loop of [process_FC16] (lines 1360-1367). *)
Fixpoint process_FC16_loop (n : nat) (u16StartAdd i : Z) : M unit :=
  match n with
  | O => ret tt
  | S n' =>
      temp <- rd_word ((BYTE_CNT + 1) + i * 2) ((BYTE_CNT + 2) + i * 2) ;;
      hr <- gets u16regsHR ;;
      hr' <- lift (arr_set hr (u16StartAdd + i) temp) ;;
      modify (set_u16regsHR hr') ;;
      process_FC16_loop n' u16StartAdd (u16 (i + 1))
  end.

(** [process_FC16] (lines 1346-1372). *)
Definition process_FC16 : M Z :=
  ahi <- rd ADD_HI ;;
  alo <- rd ADD_LO ;;
  nhi <- rd NB_HI ;;
  nlo <- rd NB_LO ;;
  let u16StartAdd := u16 (Z.lor (Z.shiftl ahi 8) alo) in
  let u16regsno := u16 (Z.lor (Z.shiftl nhi 8) nlo) in
  wr NB_HI 0 ;;
  wr NB_LO (u8 u16regsno) ;;
  set_size RESPONSE_SIZE ;;
  process_FC16_loop (Z.to_nat u16regsno) u16StartAdd 0 ;;
  sz <- gets u8BufferSize ;;
  let u8CopyBufferSize := u8 (sz + 2) in
  sendTxBuffer ;;
  ret (i8 u8CopyBufferSize).

(** ** Slave task (lines 391-487) *)

(** The [switch] of the slave (lines 450-478). *)
Definition slave_dispatch : M unit :=
  func <- rd FUNC ;;
  if func =? MB_FC_READ_COILS then
    r <- process_FC1 DB_COILS ;; modify (set_i8state r)
  else if func =? MB_FC_READ_DISCRETE_INPUT then
    r <- process_FC1 DB_INPUT_COILS ;; modify (set_i8state r)
  else if func =? MB_FC_READ_REGISTERS then
    r <- process_FC3 DB_HOLDING_REGISTER ;; modify (set_i8state r)
  else if func =? MB_FC_READ_INPUT_REGISTER then
    r <- process_FC3 DB_INPUT_REGISTERS ;; modify (set_i8state r)
  else if func =? MB_FC_WRITE_COIL then
    r <- process_FC5 ;; modify (set_i8state r)
  else if func =? MB_FC_WRITE_REGISTER then
    r <- process_FC6 ;; modify (set_i8state r)
  else if func =? MB_FC_WRITE_MULTIPLE_COILS then
    r <- process_FC15 ;; modify (set_i8state r)
  else if func =? MB_FC_WRITE_MULTIPLE_REGISTERS then
    r <- process_FC16 ;; modify (set_i8state r)
  else ret tt.

(** The loop body from the size check on (lines 415-483). *)
Definition slave_frame : M unit :=
  sz <- gets u8BufferSize ;;
  if sz <? 7 then
    modify (set_i8lastError (i8 ERR_BAD_SIZE)) ;;
    incr_errCnt
  else
    b <- rd ID ;;
    id <- gets u8id ;;
    if negb (b =? id) then ret tt
    else
      u8exception <- validateRequest ;;
      if u8exception >? 0 then
        when (negb (u8exception =? ERR_TIME_OUT))
          (buildException u8exception ;; sendTxBuffer) ;;
        modify (set_i8lastError (i8 u8exception))
      else
        modify (set_i8lastError 0) ;;
        emit EvSemTake ;;
        slave_dispatch ;;
        emit EvSemGive.

(** The loop body once the task is woken by its notification (lines
    402-483). *)
Definition slave_on_notify : M unit :=
  hw <- gets xTypeHW ;;
  if (hw =? USART_HW) || (hw =? USART_HW_DMA) then
    r <- getRxBuffer ;;
    if r =? ERR_BUFF_OVERFLOW then
      modify (set_i8lastError (i8 ERR_BUFF_OVERFLOW)) ;;
      incr_errCnt
    else slave_frame
  else slave_frame.

(** One turn of the loop of [StartTaskModbusSlave] (lines 396-485): the
    last error is reset, the task blocks until notified, then handles what
    has arrived. *)
Definition StartTaskModbusSlave_body : M unit :=
  modify (set_i8lastError 0) ;;
  slave_on_notify.

(** ** Master task (lines 527-778) *)

(** The loop of [SendQuery] for function 15 (lines 599-611). *)
Fixpoint SendQuery_FC15_loop (n : nat) (u16reg : list Z) (i : Z) : M unit :=
  match n with
  | O => ret tt
  | S n' =>
      w <- lift (arr_get u16reg (i / 2)) ;;
      sz <- gets u8BufferSize ;;
      wr sz (u8 (if negb (i mod 2 =? 0) then lowByte w else highByte w)) ;;
      incr_size ;;
      SendQuery_FC15_loop n' u16reg (u16 (i + 1))
  end.

(** The loop of [SendQuery] for function 16 (lines 620-627). *)
Fixpoint SendQuery_FC16_loop (n : nat) (u16reg : list Z) (i : Z) : M unit :=
  match n with
  | O => ret tt
  | S n' =>
      w <- lift (arr_get u16reg i) ;;
      sz <- gets u8BufferSize ;;
      wr sz (u8 (highByte w)) ;;
      incr_size ;;
      sz <- gets u8BufferSize ;;
      wr sz (u8 (lowByte w)) ;;
      incr_size ;;
      SendQuery_FC16_loop n' u16reg (u16 (i + 1))
  end.

(** [SendQuery] (lines 527-641).  Binding [telegram.u16reg] to a bank
    pointer makes the caller's array the bank: what the engine later writes
    through the bank is written to the caller's array. *)
Definition SendQuery (telegram : modbus_t) : M Z :=
  emit EvSemTake ;;
  h <- gets (fun h => h) ;;
  let error := 0 in
  let error := if negb (u8id h =? 0) then u8 ERR_NOT_MASTER else error in
  let error := if negb (i8state h =? COM_IDLE) then u8 ERR_POLLING else error in
  let error := if (tg_u8id telegram =? 0) || (tg_u8id telegram >? 247)
               then u8 ERR_BAD_SLAVE_ID else error in
  if negb (error =? 0) then
    modify (set_i8lastError (i8 error)) ;;
    emit EvSemGive ;;
    ret (i8 error)
  else
    let fct := tg_u8fct telegram in
    (if (fct =? MB_FC_READ_COILS) || (fct =? MB_FC_READ_DISCRETE_INPUT)
        || (fct =? MB_FC_WRITE_COIL) || (fct =? MB_FC_WRITE_MULTIPLE_COILS)
     then modify (set_u16regsCoils (tg_u16reg telegram))
     else if (fct =? MB_FC_READ_REGISTERS) || (fct =? MB_FC_READ_INPUT_REGISTER)
             || (fct =? MB_FC_WRITE_REGISTER) || (fct =? MB_FC_WRITE_MULTIPLE_REGISTERS)
     then modify (set_u16regsHR (tg_u16reg telegram))
     else ret tt) ;;
    wr ID (tg_u8id telegram) ;;
    wr FUNC fct ;;
    wr ADD_HI (u8 (highByte (tg_u16RegAdd telegram))) ;;
    wr ADD_LO (u8 (lowByte (tg_u16RegAdd telegram))) ;;
    (if (fct =? MB_FC_READ_COILS) || (fct =? MB_FC_READ_DISCRETE_INPUT)
        || (fct =? MB_FC_READ_REGISTERS) || (fct =? MB_FC_READ_INPUT_REGISTER) then
       wr NB_HI (u8 (highByte (tg_u16CoilsNo telegram))) ;;
       wr NB_LO (u8 (lowByte (tg_u16CoilsNo telegram))) ;;
       set_size 6
     else if fct =? MB_FC_WRITE_COIL then
       w <- lift (arr_get (tg_u16reg telegram) 0) ;;
       wr NB_HI (if w >? 0 then 255 else 0) ;;
       wr NB_LO 0 ;;
       set_size 6
     else if fct =? MB_FC_WRITE_REGISTER then
       w <- lift (arr_get (tg_u16reg telegram) 0) ;;
       wr NB_HI (u8 (highByte w)) ;;
       wr NB_LO (u8 (lowByte w)) ;;
       set_size 6
     else if fct =? MB_FC_WRITE_MULTIPLE_COILS then
       let u8regsno := u8 (tg_u16CoilsNo telegram / 16) in
       let u8bytesno := u8 (u8regsno * 2) in
       let u8bytesno := if tg_u16CoilsNo telegram mod 16 =? 0
                        then u8bytesno else u8 (u8bytesno + 1) in
       wr NB_HI (u8 (highByte (tg_u16CoilsNo telegram))) ;;
       wr NB_LO (u8 (lowByte (tg_u16CoilsNo telegram))) ;;
       wr BYTE_CNT u8bytesno ;;
       set_size 7 ;;
       SendQuery_FC15_loop (Z.to_nat u8bytesno) (tg_u16reg telegram) 0
     else if fct =? MB_FC_WRITE_MULTIPLE_REGISTERS then
       wr NB_HI (u8 (highByte (tg_u16CoilsNo telegram))) ;;
       wr NB_LO (u8 (lowByte (tg_u16CoilsNo telegram))) ;;
       wr BYTE_CNT (u8 (tg_u16CoilsNo telegram * 2)) ;;
       set_size 7 ;;
       SendQuery_FC16_loop (Z.to_nat (tg_u16CoilsNo telegram)) (tg_u16reg telegram) 0
     else ret tt) ;;
    sendTxBuffer ;;
    emit EvSemGive ;;
    modify (set_i8state (i8 COM_WAITING)) ;;
    modify (set_i8lastError 0) ;;
    ret 0.

(** The loop of [get_FC1] (lines 747-759); [i] is 8 bits wide. *)
Fixpoint get_FC1_loop (n : nat) (i : Z) : M unit :=
  match n with
  | O => ret tt
  | S n' =>
      b <- rd (i + 3) ;;
      coils <- gets u16regsCoils ;;
      w <- lift (arr_get coils (i / 2)) ;;
      let v := if negb (i mod 2 =? 0) then word b (lowByte w)
               else word (highByte w) b in
      coils' <- lift (arr_set coils (i / 2) v) ;;
      modify (set_u16regsCoils coils') ;;
      get_FC1_loop n' (u8 (i + 1))
  end.

(** [get_FC1] (lines 743-760).  The bound [u8Buffer[2]] is a byte, which
    the 8-bit counter reaches. *)
Definition get_FC1 : M unit :=
  n <- rd 2 ;;
  get_FC1_loop (Z.to_nat n) 0.

(** The loop of [get_FC3] (lines 773-777). *)
Fixpoint get_FC3_loop (n : nat) (i u8byte : Z) : M unit :=
  match n with
  | O => ret tt
  | S n' =>
      v <- rd_word u8byte (u8byte + 1) ;;
      hr <- gets u16regsHR ;;
      hr' <- lift (arr_set hr i v) ;;
      modify (set_u16regsHR hr') ;;
      get_FC3_loop n' (u8 (i + 1)) (u8 (u8byte + 2))
  end.

(** [get_FC3] (lines 768-778). *)
Definition get_FC3 : M unit :=
  n <- rd 2 ;;
  get_FC3_loop (Z.to_nat (n / 2)) 0 3.

(** The [switch] of the master (lines 702-722). *)
Definition master_dispatch : M unit :=
  func <- rd FUNC ;;
  if (func =? MB_FC_READ_COILS) || (func =? MB_FC_READ_DISCRETE_INPUT) then get_FC1
  else if (func =? MB_FC_READ_INPUT_REGISTER) || (func =? MB_FC_READ_REGISTERS) then get_FC3
  else ret tt.

(** [xTaskNotify (telegram.u32CurrentTask, modH->i8lastError, ...)]: the
    [int8_t] is converted to the 32-bit notification value. *)
Definition notify_lastError (telegram : modbus_t) : M unit :=
  e <- gets i8lastError ;;
  emit (EvNotify (tg_u32CurrentTask telegram) (u32 e)).

(** The loop body of the master once [ulTaskNotifyTake] has returned
    [ulNotificationValue] (lines 663-732). *)
Definition master_on_notify (telegram : modbus_t) (ulNotificationValue : Z) : M unit :=
  modify (set_i8lastError 0) ;;
  if negb (ulNotificationValue =? 0) then
    modify (set_i8state (i8 COM_IDLE)) ;;
    modify (set_i8lastError (i8 ERR_TIME_OUT)) ;;
    incr_errCnt ;;
    notify_lastError telegram
  else
    getRxBuffer ;;
    sz <- gets u8BufferSize ;;
    if sz <? 6 then
      modify (set_i8state (i8 COM_IDLE)) ;;
      modify (set_i8lastError (i8 ERR_BAD_SIZE)) ;;
      incr_errCnt ;;
      notify_lastError telegram
    else
      emit EvTimeoutStop ;;
      r <- validateAnswer ;;
      let u8exception := i8 r in
      if negb (u8exception =? 0) then
        modify (set_i8state (i8 COM_IDLE)) ;;
        modify (set_i8lastError u8exception) ;;
        notify_lastError telegram
      else
        modify (set_i8lastError u8exception) ;;
        emit EvSemTake ;;
        master_dispatch ;;
        modify (set_i8state (i8 COM_IDLE)) ;;
        e <- gets i8lastError ;;
        when (e =? 0)
          (emit EvSemGive ;;
           emit (EvNotify (tg_u32CurrentTask telegram) (u32 ERR_OK_QUERY))).

(** One turn of the loop of [StartTaskModbusMaster] (lines 653-733): a
    telegram is taken from the queue and sent, the task blocks until
    notified with [ulNotificationValue], then handles the outcome. *)
Definition StartTaskModbusMaster_body (telegram : modbus_t)
    (ulNotificationValue : Z) : M unit :=
  SendQuery telegram ;;
  master_on_notify telegram ulNotificationValue.

(** [vTimerCallbackTimeout] (lines 374-388): the value the response-timeout
    timer posts to the master task, as the 32-bit notification value. *)
Definition vTimerCallbackTimeout_value : Z := u32 ERR_TIME_OUT.

(** [vTimerCallbackT35] (lines 355-372): the value the T3.5 timer posts. *)
Definition vTimerCallbackT35_value : Z := 0.

End Engine.

(** ** Sample states

    The interrupt handler of the UART pushes the bytes of a frame into the
    ring one by one; the states below run the model on concrete frames. *)

Section Samples.

Context `{ModbusHeader}.

(** The bytes of [f] pushed in wire order. *)
Fixpoint RingAddAll (r : modbusRingBuffer_t) (f : list Z) : option modbusRingBuffer_t :=
  match f with
  | [] => Some r
  | b :: f' => r' ← RingAdd r b; RingAddAll r' f'
  end.

(** The handler after the UART has received [f]. *)
Definition receive (f : list Z) (h : modbusHandler_t) : option modbusHandler_t :=
  r ← RingAddAll (xBufferRX h) f;
  Some (set_xBufferRX r h).

(** A message followed by its CRC in wire order. *)
Definition with_crc (msg : list Z) : list Z := msg ++ crc_wire (crc16_modbus msg).

Definition empty_ring : modbusRingBuffer_t :=
  mkRing (replicate (Z.to_nat MAX_BUFFER) 0) 0 0 0 false.

(** A started slave with station number [id] and the given banks. *)
Definition slave_handler (id : Z) (hr ro coils di : list Z) : modbusHandler_t :=
  mkHandler MB_SLAVE id USART_HW false (replicate (Z.to_nat MAX_BUFFER) 0) 0
    empty_ring hr ro coils di (Z.of_nat (length hr)) (Z.of_nat (length coils))
    0 0 0 0 0 [].

(** A started master. *)
Definition master_handler : modbusHandler_t :=
  mkHandler MB_MASTER 0 USART_HW false (replicate (Z.to_nat MAX_BUFFER) 0) 0
    empty_ring [] [] [] [] 0 0 0 COM_IDLE 0 0 0 [].

End Samples.

(** ** Notions the statements use *)

Section Notions.

Context `{ModbusHeader}.

(** The calls [sendTxBuffer] makes to send [frame], and the handler once it
    has sent [frame] out of a frame buffer that goes on with [rest]. *)
Definition tx_events (h : modbusHandler_t) (frame : list Z) : list event :=
  (if EN_Port h then [EvDirection true] else [])
  ++ [EvTransmit frame]
  ++ (if EN_Port h then [EvDirection false] else [])
  ++ (if uModbusType h =? MB_MASTER then [EvTimeoutReset] else []).

Definition sent (frame rest : list Z) (h : modbusHandler_t) : modbusHandler_t :=
  set_u16OutCnt (u16 (u16OutCnt h + 1))
    (set_u8BufferSize 0
       (set_trace (trace h ++ tx_events h frame)
          (set_u8Buffer (frame ++ rest) h))).

End Notions.

(** [h'] differs from [h] at most in the frame buffer and its length, the
    ring, the input counter, and calls to the driver that neither transmit
    nor notify. *)
Record rx_only (h h' : modbusHandler_t) : Prop := mkRxOnly {
  rx_uModbusType : uModbusType h' = uModbusType h;
  rx_u8id : u8id h' = u8id h;
  rx_xTypeHW : xTypeHW h' = xTypeHW h;
  rx_EN_Port : EN_Port h' = EN_Port h;
  rx_u16regsHR : u16regsHR h' = u16regsHR h;
  rx_u16regsRO : u16regsRO h' = u16regsRO h;
  rx_u16regsCoils : u16regsCoils h' = u16regsCoils h;
  rx_discrete_inputs : discrete_inputs h' = discrete_inputs h;
  rx_u16regHR_size : u16regHR_size h' = u16regHR_size h;
  rx_u16regCoils_size : u16regCoils_size h' = u16regCoils_size h;
  rx_i8lastError : i8lastError h' = i8lastError h;
  rx_i8state : i8state h' = i8state h;
  rx_u16OutCnt : u16OutCnt h' = u16OutCnt h;
  rx_u16errCnt : u16errCnt h' = u16errCnt h;
  rx_transmitted : transmitted (trace h') = transmitted (trace h);
  rx_notified : notified (trace h') = notified (trace h)
}.

(** Registers as they travel in a response to function 3: two bytes each,
    high byte first; and the words read back from such bytes. *)
Definition encode_regs (ws : list Z) : list Z :=
  flat_map (fun w => [u8 (highByte w); u8 (lowByte w)]) ws.

Fixpoint decode_regs (bs : list Z) : list Z :=
  match bs with
  | hi :: lo :: bs' => word hi lo :: decode_regs bs'
  | _ => []
  end.

(** A register holds 16 bits. *)
Definition is_word (w : Z) : Prop := 0 <= w < 65536.

(** The coil registers after a response to function 1 or 2 with the bytes
    [payload] has been copied over them: byte 2k is the low byte of register
    k, byte 2k+1 its high byte. *)
Fixpoint unpack_coils (payload coils : list Z) : list Z :=
  match payload, coils with
  | lo :: hi :: p, _ :: ws => word hi lo :: unpack_coils p ws
  | [lo], w :: ws => word (highByte w) lo :: ws
  | _, _ => coils
  end.

(** The handler with frame [f] in its frame buffer. *)
Definition holding (f : list Z) (h : modbusHandler_t) : modbusHandler_t :=
  set_u8BufferSize (Z.of_nat (length f))
    (set_u8Buffer (f ++ drop (length f) (u8Buffer h)) h).

(** The handler whose ring holds the bytes of [f], received since the ring
    was last cleared. *)
Definition received (f : list Z) (h : modbusHandler_t) : modbusHandler_t :=
  set_xBufferRX
    (mkRing (f ++ drop (length f) (uxBuffer (xBufferRX h))) 0
       (Z.of_nat (length f)) (Z.of_nat (length f)) false) h.

(** What a turn of a task leaves to observe: the last error, the error
    counter and the frames transmitted. *)
Definition outcome {A : Type} (r : option (A * modbusHandler_t))
    : option (Z * Z * list (list Z)) :=
  match r with
  | Some (_, h) => Some (i8lastError h, u16errCnt h, transmitted (trace h))
  | None => None
  end.

Section Demo.

#[local] Existing Instance sample_header.

(** A slave, station 0x11, with three holding registers, one register of
    coils (16 coils) and a bank of discrete inputs. *)
Definition demo_slave : modbusHandler_t :=
  slave_handler 17 [10; 258; 65535] [7] [0] [255].

Definition demo_master : modbusHandler_t := master_handler.

(** A slave with 130 holding registers. *)
Definition demo_slave_130 : modbusHandler_t :=
  slave_handler 17 (replicate 130 0) [] [0] [].

End Demo.

(** ** Notions for the receive ring *)

Section RingNotions.
Context `{ModbusHeader}.

(** The ring as Modbus.c keeps it: the array has room for MAX_BUFFER bytes,
    [u8start] indexes the oldest byte, [u8available] counts the bytes held
    and [u8end] is the cell after the newest one. *)
Definition ring_wf (r : modbusRingBuffer_t) : Prop :=
  MAX_BUFFER <= Z.of_nat (length (uxBuffer r))
  /\ 0 <= u8start r < MAX_BUFFER
  /\ 0 <= u8available r <= MAX_BUFFER
  /\ u8end r = (u8start r + u8available r) mod MAX_BUFFER.

(** The byte [k] places after the oldest one, and the bytes the ring
    holds, oldest first. *)
Definition ring_cell (r : modbusRingBuffer_t) (k : nat) : Z :=
  default 0 (uxBuffer r !! Z.to_nat ((u8start r + Z.of_nat k) mod MAX_BUFFER)).

Definition ring_contents (r : modbusRingBuffer_t) : list Z :=
  ring_cell r <$> seq 0 (Z.to_nat (u8available r)).

(** The last [n] elements of a list (all of it when it is shorter). *)
Definition newest {A : Type} (n : nat) (l : list A) : list A :=
  drop (length l - n) l.

End RingNotions.

(** ** Notions for a turn of a task *)

Section TurnNotions.
Context `{ModbusHeader}.

(** The handler once [getRxBuffer] has moved the frame [f] that the ring of
    [received f h] holds into the frame buffer. *)
Definition drained (f : list Z) (h : modbusHandler_t) : modbusHandler_t :=
  mkHandler (uModbusType h) (u8id h) (xTypeHW h) (EN_Port h)
    (f ++ drop (length f) (u8Buffer h)) (Z.of_nat (length f))
    (mkRing (f ++ drop (length f) (uxBuffer (xBufferRX h))) 0 0 0 false)
    (u16regsHR h) (u16regsRO h) (u16regsCoils h) (discrete_inputs h)
    (u16regHR_size h) (u16regCoils_size h) (i8lastError h) (i8state h)
    (u16 (u16InCnt h + 1)) (u16OutCnt h) (u16errCnt h)
    (trace h ++ (if xTypeHW h =? USART_HW then [EvRxAbort; EvRxArm] else [])).

(** The frame [f] fits the ring of [h] without filling it, and fits the
    frame buffer. *)
Definition rx_fits (f : list Z) (h : modbusHandler_t) : Prop :=
  (length f <= length (uxBuffer (xBufferRX h)))%nat
  /\ (length f <= length (u8Buffer h))%nat
  /\ Z.of_nat (length f) < MAX_BUFFER <= 256.

(** The slave [h] can take the frame [f] from its UART: the hardware is a
    serial port, the frame fits, and its length is not the value
    [getRxBuffer] returns for an overflow. *)
Definition rx_ready (f : list Z) (h : modbusHandler_t) : Prop :=
  (xTypeHW h = USART_HW \/ xTypeHW h = USART_HW_DMA)
  /\ rx_fits f h
  /\ Z.of_nat (length f) <> ERR_BUFF_OVERFLOW.

(** The four register banks of [h'] are those of [h]. *)
Definition same_banks (h h' : modbusHandler_t) : Prop :=
  u16regsHR h' = u16regsHR h
  /\ u16regsRO h' = u16regsRO h
  /\ u16regsCoils h' = u16regsCoils h
  /\ discrete_inputs h' = discrete_inputs h.

End TurnNotions.

(** ** Notions for queries *)

Section QueryNotions.
Context `{ModbusHeader}.

(** The handler can send the query [telegram]: it is a master (station 0)
    at rest, and the telegram names a station from 1 to 247. *)
Definition query_ready (telegram : modbus_t) (h : modbusHandler_t) : Prop :=
  u8id h = 0 /\ i8state h = COM_IDLE /\ 1 <= tg_u8id telegram <= 247.

(** The first six bytes of a query: station, function, address and
    quantity (or value), each 16-bit field high byte first. *)
Definition query_header (id fct addr nb : Z) : list Z :=
  [id; fct; addr / 256; addr mod 256; nb / 256; nb mod 256].

End QueryNotions.

(** ** Coils and their packing *)

(** Coil [c] of a coil bank: bit [c mod 16] of register [c / 16]. *)
Definition coil (regs : list Z) (c : Z) : bool :=
  Z.testbit (default 0 (regs !! Z.to_nat (c / 16))) (c mod 16).

(** The coils [start], [start + 1], ... ([n] of them) of a bank. *)
Definition coils_from (regs : list Z) (start : Z) (n : nat) : list bool :=
  (fun k => coil regs (start + Z.of_nat k)) <$> seq 0 n.

(** A byte made of up to eight bits, the first bit lowest. *)
Fixpoint pack_byte (bits : list bool) : Z :=
  match bits with
  | [] => 0
  | b :: bits' => Z.b2z b + 2 * pack_byte bits'
  end.

(** [k] bytes made of the bits, eight to a byte. *)
Fixpoint pack_bits_aux (k : nat) (bits : list bool) : list Z :=
  match k with
  | O => []
  | S k' => pack_byte (take 8 bits) :: pack_bits_aux k' (drop 8 bits)
  end.

(** Bits as they travel in a response to function 1 or 2: eight to a byte,
    first bit lowest, the last byte filled up with zeros. *)
Definition pack_bits (bits : list bool) : list Z :=
  pack_bits_aux (Z.to_nat ((Z.of_nat (length bits) + 7) / 8)) bits.

(** What the loop of [process_FC1] leaves in the cells it works on: it
    writes bit after bit from position [j] of the first cell on, and moves
    to the next cell after position 7. *)
Fixpoint fill_bits (bits : list bool) (cells : list Z) (j : Z) : list Z :=
  match bits with
  | [] => cells
  | b :: bits' =>
      match cells with
      | [] => []
      | x :: cells' =>
          let x' := u8 (bitWrite x j b) in
          if j + 1 >? 7 then x' :: fill_bits bits' cells' 0
          else fill_bits bits' (x' :: cells') (j + 1)
      end
  end.

(** Bit [j] of a run of bytes, eight bits to a byte, lowest bit first. *)
Definition payload_bit (bytes : list Z) (j : Z) : bool :=
  Z.testbit (default 0 (bytes !! Z.to_nat (j / 8))) (j mod 8).

(** The byte count [SendQuery] computes for [n] coils (function 15): two
    bytes for each full register, one more if coils are left over. *)
Definition coil_bytes (n : Z) : Z := 2 * (n / 16) + (if n mod 16 =? 0 then 0 else 1).

Section CoilDemo.

#[local] Existing Instance sample_header.

(** A slave, station 0x11, with two registers of coils. *)
Definition demo_coil_slave : modbusHandler_t := slave_handler 17 [] [] [165; 3] [].

End CoilDemo.

(** * Proofs *)

(** ** Machine integers and the CRC *)

(** * Machine integers *)

Lemma u8_id (x : Z) : 0 <= x < 256 -> u8 x = x.
Proof. intros Hx. unfold u8. apply Z.mod_small. lia. Qed.

Lemma u16_id (x : Z) : 0 <= x < 65536 -> u16 x = x.
Proof. intros Hx. unfold u16. apply Z.mod_small. lia. Qed.

Lemma u32_id (x : Z) : 0 <= x < 4294967296 -> u32 x = x.
Proof. intros Hx. unfold u32. apply Z.mod_small. lia. Qed.

Lemma u8_range (x : Z) : 0 <= u8 x < 256.
Proof. unfold u8. apply Z.mod_pos_bound. lia. Qed.

Lemma u16_range (x : Z) : 0 <= u16 x < 65536.
Proof. unfold u16. apply Z.mod_pos_bound. lia. Qed.

Lemma lxor_range (n a b : Z) :
  0 < n -> 0 <= a < 2 ^ n -> 0 <= b < 2 ^ n -> 0 <= Z.lxor a b < 2 ^ n.
Proof.
  intros Hn Ha Hb.
  assert (Hlog : forall x, 0 <= x < 2 ^ n -> Z.log2 x < n).
  { intros x Hx. destruct (Z.eq_dec x 0) as [->|Hne]; [simpl; lia|].
    apply Z.log2_lt_pow2; lia. }
  assert (H0 : 0 <= Z.lxor a b) by (apply Z.lxor_nonneg; lia).
  split; [exact H0|].
  destruct (Z.eq_dec (Z.lxor a b) 0) as [->|Hne]; [apply Z.pow_pos_nonneg; lia|].
  apply Z.log2_lt_pow2; [lia|].
  pose proof (Z.log2_lxor a b ltac:(lia) ltac:(lia)).
  pose proof (Hlog a Ha). pose proof (Hlog b Hb). lia.
Qed.

(** * CRC *)

Lemma calcCRC_bit_shift (t : Z) : calcCRC_bit t = crc16_shift t.
Proof.
  unfold calcCRC_bit, crc16_shift.
  change 1 with (Z.ones 1) at 1. rewrite Z.land_ones by lia.
  rewrite Z.shiftr_div_pow2 by lia. change (2 ^ 1) with 2.
  rewrite Zmod_odd. destruct (Z.odd t); reflexivity.
Qed.

Lemma crc16_shift_range (c : Z) : 0 <= c < 65536 -> 0 <= crc16_shift c < 65536.
Proof.
  intros Hc. unfold crc16_shift.
  assert (0 <= c / 2 < 65536) by (split; [apply Z.div_pos; lia | apply Z.div_lt_upper_bound; lia]).
  destruct (Z.odd c); [|lia].
  apply (lxor_range 16); lia.
Qed.

Lemma crc16_byte_range (c b : Z) :
  0 <= c < 65536 -> is_byte b -> 0 <= crc16_byte c b < 65536.
Proof.
  intros Hc Hb. unfold crc16_byte, is_byte in *.
  assert (Hx : 0 <= Z.lxor c b < 65536) by (apply (lxor_range 16); lia).
  simpl. repeat apply crc16_shift_range. exact Hx.
Qed.

Lemma fold_crc16_range (msg : list Z) (c : Z) :
  0 <= c < 65536 -> Forall is_byte msg -> 0 <= fold_left crc16_byte msg c < 65536.
Proof.
  revert c. induction msg as [|b msg IH]; intros c Hc Hmsg; simpl; [lia|].
  inversion Hmsg; subst. apply IH; [apply crc16_byte_range|]; assumption.
Qed.

Lemma crc16_modbus_range (msg : list Z) :
  Forall is_byte msg -> 0 <= crc16_modbus msg < 65536.
Proof. intros Hmsg. apply fold_crc16_range; [lia | exact Hmsg]. Qed.

Lemma iter_calcCRC_bit (t : Z) : Nat.iter 8 calcCRC_bit t = Nat.iter 8 crc16_shift t.
Proof. simpl. rewrite !calcCRC_bit_shift. reflexivity. Qed.

Lemma arr_get_middle (pre post : list Z) (x : Z) :
  arr_get (pre ++ x :: post) (Z.of_nat (length pre)) = Some x.
Proof.
  unfold arr_get. destruct (Z.ltb_spec (Z.of_nat (length pre)) 0); [lia|].
  rewrite Nat2Z.id. apply list_lookup_middle. reflexivity.
Qed.

Lemma calcCRC_loop_fold (msg pre post : list Z) (temp : Z) :
  calcCRC_loop (length msg) (pre ++ msg ++ post) (Z.of_nat (length pre)) temp
  = Some (fold_left crc16_byte msg temp).
Proof.
  revert pre temp. induction msg as [|b msg IH]; intros pre temp; [reflexivity|].
  cbn [length calcCRC_loop app fold_left].
  rewrite arr_get_middle. cbn [mbind option_bind].
  rewrite iter_calcCRC_bit.
  replace (Z.of_nat (length pre) + 1) with (Z.of_nat (length (pre ++ [b])))
    by (rewrite length_app; simpl; lia).
  replace (pre ++ b :: msg ++ post) with ((pre ++ [b]) ++ msg ++ post)
    by (rewrite <- app_assoc; reflexivity).
  rewrite IH. reflexivity.
Qed.

Lemma swap16_bytes (c : Z) :
  0 <= c < 65536 ->
  Z.land (Z.lor (u32 (Z.shiftl c 8)) (Z.shiftr c 8)) 65535 = swap16 c.
Proof.
  intros Hc. unfold swap16.
  rewrite Z.shiftl_mul_pow2, Z.shiftr_div_pow2 by lia. change (2 ^ 8) with 256.
  rewrite u32_id by lia.
  assert (Hq : 0 <= c / 256 < 256)
    by (split; [apply Z.div_pos; lia | apply Z.div_lt_upper_bound; lia]).
  rewrite <- Z.add_nocarry_lor.
  - change 65535 with (Z.ones 16). rewrite Z.land_ones by lia.
    change (2 ^ 16) with 65536.
    pose proof (Z.div_mod c 256 ltac:(lia)) as Hdm.
    pose proof (Z.mod_pos_bound c 256 ltac:(lia)) as Hm.
    replace (c * 256 + c / 256)
      with ((c `mod` 256 * 256 + c / 256) + (c / 256) * 65536) by lia.
    rewrite Z.mod_add by lia. apply Z.mod_small. lia.
  - apply Z.bits_inj'. intros n Hn. rewrite Z.land_spec, Z.bits_0.
    destruct (Z.lt_ge_cases n 8) as [Hlt|Hge].
    + change 256 with (2 ^ 8). rewrite Z.mul_pow2_bits_low by lia. reflexivity.
    + rewrite (Z.bits_above_log2 (c / 256) n); [apply andb_false_r | lia |].
      destruct (Z.eq_dec (c / 256) 0) as [->|Hne]; [simpl; lia|].
      assert (Z.log2 (c / 256) < 8) by (apply Z.log2_lt_pow2; lia). lia.
Qed.

Lemma swap16_range (c : Z) : 0 <= c < 65536 -> 0 <= swap16 c < 65536.
Proof.
  intros Hc. unfold swap16.
  pose proof (Z.mod_pos_bound c 256 ltac:(lia)).
  assert (0 <= c / 256 < 256)
    by (split; [apply Z.div_pos; lia | apply Z.div_lt_upper_bound; lia]).
  lia.
Qed.

Lemma calcCRC_prefix (msg post : list Z) :
  Forall is_byte msg ->
  calcCRC (msg ++ post) (Z.of_nat (length msg)) = Some (swap16 (crc16_modbus msg)).
Proof.
  intros Hmsg. unfold calcCRC. rewrite Nat2Z.id.
  pose proof (calcCRC_loop_fold msg [] post 65535) as Hl. cbn [app length] in Hl.
  change (Z.of_nat 0) with 0 in Hl. rewrite Hl. cbn [mbind option_bind].
  fold (crc16_modbus msg).
  pose proof (crc16_modbus_range msg Hmsg) as Hr.
  rewrite swap16_bytes by exact Hr.
  rewrite u16_id by (apply swap16_range; exact Hr). reflexivity.
Qed.

Lemma swap16_hi (c : Z) : 0 <= c < 65536 -> u8 (Z.shiftr (swap16 c) 8) = c mod 256.
Proof.
  intros Hc. unfold swap16. rewrite Z.shiftr_div_pow2 by lia. change (2 ^ 8) with 256.
  pose proof (Z.mod_pos_bound c 256 ltac:(lia)).
  assert (0 <= c / 256 < 256)
    by (split; [apply Z.div_pos; lia | apply Z.div_lt_upper_bound; lia]).
  rewrite Z.add_comm, Z.div_add by lia. rewrite (Z.div_small (c / 256)) by lia.
  apply u8_id. lia.
Qed.

Lemma swap16_lo (c : Z) : 0 <= c < 65536 -> u8 (Z.land (swap16 c) 255) = c / 256.
Proof.
  intros Hc. unfold swap16. change 255 with (Z.ones 8). rewrite Z.land_ones by lia.
  change (2 ^ 8) with 256.
  pose proof (Z.mod_pos_bound c 256 ltac:(lia)).
  assert (0 <= c / 256 < 256)
    by (split; [apply Z.div_pos; lia | apply Z.div_lt_upper_bound; lia]).
  rewrite Z.add_comm, Z.mod_add by lia. rewrite (Z.mod_small (c / 256)) by lia.
  apply u8_id. lia.
Qed.

(** ** The send path *)

Ltac msimpl :=
  unfold rd_word, notify_lastError, set_size, incr_size, incr_errCnt, emit, rd, wr,
    when, bind, ret, gets, modify, lift, undefined;
  cbn [uModbusType u8id xTypeHW EN_Port u8Buffer u8BufferSize xBufferRX u16regsHR
       u16regsRO u16regsCoils discrete_inputs u16regHR_size u16regCoils_size
       i8lastError i8state u16InCnt u16OutCnt u16errCnt trace
       set_u8Buffer set_u8BufferSize set_xBufferRX set_u16regsHR set_u16regsCoils
       set_discrete_inputs set_i8lastError set_i8state set_u16InCnt set_u16OutCnt
       set_u16errCnt set_trace].

Ltac msimpl_in H :=
  unfold rd_word, notify_lastError, set_size, incr_size, incr_errCnt, emit, rd, wr,
    when, bind, ret, gets, modify, lift, undefined in H;
  cbn [uModbusType u8id xTypeHW EN_Port u8Buffer u8BufferSize xBufferRX u16regsHR
       u16regsRO u16regsCoils discrete_inputs u16regHR_size u16regCoils_size
       i8lastError i8state u16InCnt u16OutCnt u16errCnt trace
       set_u8Buffer set_u8BufferSize set_xBufferRX set_u16regsHR set_u16regsCoils
       set_discrete_inputs set_i8lastError set_i8state set_u16InCnt set_u16OutCnt
       set_u16errCnt set_trace] in H.

Section Send.
Context `{ModbusHeader}.


Lemma arr_set_middle (pre post : list Z) (x v : Z) :
  arr_set (pre ++ x :: post) (Z.of_nat (length pre)) v = Some (pre ++ v :: post).
Proof.
  unfold arr_set.
  rewrite length_app. cbn [length].
  destruct (Z.leb_spec 0 (Z.of_nat (length pre))); [|lia].
  destruct (Z.ltb_spec (Z.of_nat (length pre)) (Z.of_nat (length pre + S (length post)))); [|lia].
  cbn [andb]. rewrite Nat2Z.id.
  rewrite insert_app_r_alt by lia. rewrite Nat.sub_diag. reflexivity.
Qed.

Lemma sendTxBuffer_frame (h : modbusHandler_t) (msg post : list Z) :
  u8Buffer h = msg ++ post ->
  u8BufferSize h = Z.of_nat (length msg) ->
  Forall is_byte msg ->
  (length msg <= 253)%nat ->
  (2 <= length post)%nat ->
  sendTxBuffer h
  = Some (tt, sent (msg ++ crc_wire (crc16_modbus msg)) (drop 2 post) h).
Proof.
  intros Hbuf Hsize Hmsg Hlen Hpost.
  destruct post as [|p0 [|p1 post]]; cbn [length] in Hpost; try lia.
  pose proof (crc16_modbus_range msg Hmsg) as Hr.
  unfold sendTxBuffer. msimpl.
  rewrite Hbuf, Hsize, calcCRC_prefix by exact Hmsg. msimpl.
  rewrite Hbuf, arr_set_middle. msimpl.
  rewrite Hsize, swap16_hi, swap16_lo by exact Hr.
  rewrite (u8_id (Z.of_nat (length msg) + 1)) by lia.
  replace (Z.of_nat (length msg) + 1)
    with (Z.of_nat (length (msg ++ [crc16_modbus msg mod 256])))
    by (rewrite length_app; cbn [length]; lia).
  replace (msg ++ crc16_modbus msg mod 256 :: p1 :: post)
    with ((msg ++ [crc16_modbus msg mod 256]) ++ p1 :: post)
    by (rewrite <- app_assoc; reflexivity).
  rewrite arr_set_middle. msimpl.
  rewrite u8_id by (rewrite length_app; cbn [length]; lia).
  replace (Z.of_nat (length (msg ++ [crc16_modbus msg mod 256])) + 1)
    with (Z.of_nat (length (msg ++ crc_wire (crc16_modbus msg))))
    by (rewrite !length_app; cbn [length crc_wire]; lia).
  replace ((msg ++ [crc16_modbus msg mod 256]) ++ crc16_modbus msg / 256 :: post)
    with ((msg ++ crc_wire (crc16_modbus msg)) ++ post)
    by (unfold crc_wire; rewrite <- !app_assoc; reflexivity).
  unfold sent, tx_events. cbn [drop].
  destruct (EN_Port h), (uModbusType h =? MB_MASTER); msimpl;
    rewrite Nat2Z.id, take_app_length, <- ?app_assoc; reflexivity.
Qed.
End Send.

(** ** The request validator *)

Ltac break_match :=
  match goal with
  | H : context [match ?x with _ => _ end] |- _ =>
      let E := fresh "E" in destruct x eqn:E
  | |- context [match ?x with _ => _ end] =>
      let E := fresh "E" in destruct x eqn:E
  end.

Ltac inv_some :=
  repeat match goal with
         | H : Some _ = Some _ |- _ => inversion H; subst; clear H
         | H : None = Some _ |- _ => discriminate H
         | H : Some _ = None |- _ => discriminate H
         end.

Section Request.
Context `{ModbusHeader}.

Lemma crc_matches_state (h h' : modbusHandler_t) (b : bool) :
  crc_matches h = Some (b, h') -> h' = h.
Proof.
  unfold crc_matches. msimpl. intros Hc.
  repeat break_match; inv_some; reflexivity.
Qed.

Lemma validateRequest_cases (h h1 : modbusHandler_t) (e : Z) :
  validateRequest h = Some (e, h1) ->
  (h1 = h /\ (e = 0 \/ e = EXC_ADDR_RANGE \/ e = EXC_REGS_QUANT))
  \/ (h1 = set_u16errCnt (u16 (u16errCnt h + 1)) h
      /\ (e = u8 ERR_BAD_CRC \/ e = EXC_FUNC_CODE)).
Proof.
  unfold validateRequest. unfold bind at 1.
  destruct (crc_matches h) as [[ok h0]|] eqn:Hcrc; [|discriminate].
  apply crc_matches_state in Hcrc. subst h0.
  destruct ok; cbn [negb].
  - msimpl. intros Hv.
    repeat (break_match; inv_some; try discriminate);
      first [ left; split; [reflexivity | tauto] | right; split; [reflexivity|tauto] ].
  - msimpl. intros Hv. inv_some. right. split; [reflexivity | tauto].
Qed.

(** What the range check of function 6 compares: a start address equal to
    the size of the bank passes. *)
Lemma validateRequest_FC6_check (h : modbusHandler_t) (ahi alo : Z) :
  crc_matches h = Some (true, h) ->
  arr_get (u8Buffer h) FUNC = Some MB_FC_WRITE_REGISTER ->
  arr_get (u8Buffer h) ADD_HI = Some ahi ->
  arr_get (u8Buffer h) ADD_LO = Some alo ->
  validateRequest h
  = Some ((if word ahi alo >? u16regHR_size h then EXC_ADDR_RANGE else 0), h).
Proof.
  intros Hcrc Hf Hhi Hlo.
  unfold validateRequest. unfold bind at 1. rewrite Hcrc. cbn [negb].
  msimpl. rewrite Hf. cbn [isSupported fctsupported existsb Z.eqb negb orb
    MB_FC_READ_COILS MB_FC_READ_DISCRETE_INPUT MB_FC_READ_REGISTERS
    MB_FC_READ_INPUT_REGISTER MB_FC_WRITE_COIL MB_FC_WRITE_REGISTER
    MB_FC_WRITE_MULTIPLE_COILS MB_FC_WRITE_MULTIPLE_REGISTERS Pos.eqb].
  rewrite Hhi, Hlo.
  destruct (word ahi alo >? u16regHR_size h); reflexivity.
Qed.

(** What the range check of function 5 compares: the number of registers
    that hold the coils before the one addressed. *)
Lemma validateRequest_FC5_check (h : modbusHandler_t) (ahi alo : Z) :
  crc_matches h = Some (true, h) ->
  arr_get (u8Buffer h) FUNC = Some MB_FC_WRITE_COIL ->
  arr_get (u8Buffer h) ADD_HI = Some ahi ->
  arr_get (u8Buffer h) ADD_LO = Some alo ->
  let u16AdRegs :=
    if word ahi alo mod 16 =? 0 then u16 (word ahi alo / 16)
    else u16 (u16 (word ahi alo / 16) + 1) in
  validateRequest h
  = Some ((if u16AdRegs >? u16regCoils_size h then EXC_ADDR_RANGE else 0), h).
Proof.
  intros Hcrc Hf Hhi Hlo u16AdRegs.
  unfold validateRequest. unfold bind at 1. rewrite Hcrc. cbn [negb].
  msimpl. rewrite Hf. cbn [isSupported fctsupported existsb Z.eqb negb orb
    MB_FC_READ_COILS MB_FC_READ_DISCRETE_INPUT MB_FC_READ_REGISTERS
    MB_FC_READ_INPUT_REGISTER MB_FC_WRITE_COIL MB_FC_WRITE_REGISTER
    MB_FC_WRITE_MULTIPLE_COILS MB_FC_WRITE_MULTIPLE_REGISTERS Pos.eqb].
  rewrite Hhi, Hlo. fold u16AdRegs.
  destruct (u16AdRegs >? u16regCoils_size h); reflexivity.
Qed.

End Request.

(** ** Exception frames *)

Lemma transmitted_app (l1 l2 : list event) :
  transmitted (l1 ++ l2) = transmitted l1 ++ transmitted l2.
Proof.
  induction l1 as [|e l1 IH]; [reflexivity|].
  destruct e; cbn [app transmitted]; rewrite IH; reflexivity.
Qed.

Lemma notified_app (l1 l2 : list event) :
  notified (l1 ++ l2) = notified l1 ++ notified l2.
Proof.
  induction l1 as [|e l1 IH]; [reflexivity|].
  destruct e; cbn [app notified]; rewrite IH; reflexivity.
Qed.

Lemma lor_128 (b : Z) : 0 <= b < 128 -> u8 (b + 128) = Z.lor b 128.
Proof.
  intros Hb. rewrite u8_id by lia. apply Z.add_nocarry_lor.
  apply Z.bits_inj'. intros n Hn. rewrite Z.land_spec, Z.bits_0.
  change 128 with (2 ^ 7). rewrite Z.pow2_bits_eqb by lia.
  destruct (Z.eqb_spec 7 n) as [<-|Hne]; [|apply andb_false_r].
  rewrite andb_true_r.
  destruct (Z.eq_dec b 0) as [->|Hb0]; [reflexivity|].
  apply Z.bits_above_log2; [lia|]. apply Z.log2_lt_pow2; lia.
Qed.

Lemma arr_set_lt (l : list Z) (i v : Z) :
  0 <= i < Z.of_nat (length l) -> arr_set l i v = Some (<[Z.to_nat i := v]> l).
Proof.
  intros Hi. unfold arr_set.
  destruct (Z.leb_spec 0 i); [|lia].
  destruct (Z.ltb_spec i (Z.of_nat (length l))); [|lia]. reflexivity.
Qed.

Lemma arr_get_nonneg (l : list Z) (i : Z) : 0 <= i -> arr_get l i = l !! Z.to_nat i.
Proof. intros Hi. unfold arr_get. destruct (Z.ltb_spec i 0); [lia|reflexivity]. Qed.

Section Exception.
Context `{ModbusHeader}.

Lemma transmitted_tx_events (h : modbusHandler_t) (frame : list Z) :
  transmitted (tx_events h frame) = [frame].
Proof.
  unfold tx_events.
  destruct (EN_Port h), (uModbusType h =? MB_MASTER); reflexivity.
Qed.

Lemma notified_tx_events (h : modbusHandler_t) (frame : list Z) :
  notified (tx_events h frame) = [].
Proof.
  unfold tx_events.
  destruct (EN_Port h), (uModbusType h =? MB_MASTER); reflexivity.
Qed.

Lemma buildException_frame (h : modbusHandler_t) (e b0 b1 b2 : Z) (post : list Z) :
  u8Buffer h = b0 :: b1 :: b2 :: post ->
  buildException e h
  = Some (tt, set_u8BufferSize EXCEPTION_SIZE
                (set_u8Buffer (u8id h :: u8 (b1 + 128) :: e :: post) h)).
Proof.
  intros Hbuf. unfold buildException. msimpl. rewrite Hbuf.
  change (arr_get (b0 :: b1 :: b2 :: post) FUNC) with (Some b1). msimpl.
  rewrite Hbuf, arr_set_lt by (cbn [length]; unfold ID; lia). msimpl.
  rewrite arr_set_lt by (rewrite ?length_insert; cbn [length]; unfold FUNC; lia). msimpl.
  rewrite arr_set_lt by (rewrite ?length_insert; cbn [length]; lia).
  reflexivity.
Qed.

(** X29.  What the slave sends on a validation failure other than a CRC
    error (the result of [validateRequest] is neither 0 nor BAD_CRC nor the
    constant ERR_TIME_OUT): the ID byte, the received function byte plus
    0x80 in an 8-bit cell, and the exception code, followed by the CRC.  The
    frame has length 3 when [buildException] returns and 5 bytes on the
    wire, and the code is stored as last error.  The function byte sent is
    the received one OR-ed with 0x80 whenever the received one is below
    0x80. *)
Theorem exception_frame_sent (h h1 : modbusHandler_t) (e b1 b2 : Z) (post : list Z) :
  u8Buffer h = u8id h :: b1 :: b2 :: post ->
  (2 <= length post)%nat ->
  7 <= u8BufferSize h ->
  is_byte (u8id h) ->
  validateRequest h = Some (e, h1) ->
  e <> 0 -> e <> u8 ERR_BAD_CRC -> e <> ERR_TIME_OUT ->
  let frame := [u8id h; u8 (b1 + 128); e] in
  exists h2 h3,
    buildException e h1 = Some (tt, h2)
    /\ u8BufferSize h2 = 3
    /\ take 3 (u8Buffer h2) = frame
    /\ sendTxBuffer h2 = Some (tt, h3)
    /\ slave_frame h = Some (tt, set_i8lastError e h3)
    /\ transmitted (trace h3)
       = transmitted (trace h) ++ [frame ++ crc_wire (crc16_modbus frame)]
    /\ length (frame ++ crc_wire (crc16_modbus frame)) = 5%nat
    /\ (0 <= b1 < 128 -> u8 (b1 + 128) = Z.lor b1 128).
Proof.
  intros Hbuf Hpost Hsize Hid Hval He0 Hecrc Hetime frame.
  pose proof (validateRequest_cases h h1 e Hval) as Hcases.
  assert (He : e = 1 \/ e = 2 \/ e = 3).
  { unfold EXC_ADDR_RANGE, EXC_REGS_QUANT, EXC_FUNC_CODE in Hcases.
    destruct Hcases as [[_ [?|[?|?]]]|[_ [?|?]]]; try contradiction; auto. }
  assert (Hbuf1 : u8Buffer h1 = u8Buffer h /\ u8id h1 = u8id h /\ trace h1 = trace h).
  { destruct Hcases as [[-> _]|[-> _]]; repeat split; reflexivity. }
  destruct Hbuf1 as (Hb1 & Hid1 & Htr1).
  assert (Hframe : Forall is_byte frame).
  { unfold frame. repeat constructor; try apply u8_range; try (unfold is_byte in Hid; lia);
      unfold is_byte; lia. }
  pose (h2 := set_u8BufferSize EXCEPTION_SIZE
                (set_u8Buffer (u8id h1 :: u8 (b1 + 128) :: e :: post) h1)).
  assert (Hbe : buildException e h1 = Some (tt, h2)).
  { apply (buildException_frame h1 e (u8id h) b1 b2 post). rewrite Hb1. exact Hbuf. }
  assert (Hsend : sendTxBuffer h2
                  = Some (tt, sent (frame ++ crc_wire (crc16_modbus frame)) (drop 2 post) h2)).
  { apply sendTxBuffer_frame; try assumption.
    - unfold h2, frame. cbn [u8Buffer set_u8Buffer set_u8BufferSize]. rewrite Hid1. reflexivity.
    - reflexivity.
    - unfold frame. cbn [length]. lia. }
  exists h2, (sent (frame ++ crc_wire (crc16_modbus frame)) (drop 2 post) h2).
  split; [exact Hbe|]. split; [reflexivity|].
  split; [unfold h2, frame; cbn [u8Buffer set_u8Buffer set_u8BufferSize take]; rewrite Hid1; reflexivity|].
  split; [exact Hsend|].
  split.
  { unfold slave_frame. msimpl.
    destruct (Z.ltb_spec (u8BufferSize h) 7); [lia|].
    rewrite Hbuf. change (arr_get (u8id h :: b1 :: b2 :: post) ID) with (Some (u8id h)).
    msimpl.
    rewrite Z.eqb_refl. cbn [negb].
    rewrite Hval.
    assert (Hgt : (e >? 0) = true) by lia. rewrite Hgt.
    destruct (Z.eqb_spec e ERR_TIME_OUT) as [?|_]; [contradiction|]. cbn [negb].
    rewrite Hbe, Hsend.
    replace (i8 e) with e by (unfold i8; destruct He as [->|[->| ->]]; reflexivity).
    reflexivity. }
  split.
  { unfold sent. cbn [trace set_trace set_u16OutCnt set_u8BufferSize].
    rewrite transmitted_app, transmitted_tx_events.
    unfold h2. cbn [trace set_u8Buffer set_u8BufferSize]. rewrite Htr1. reflexivity. }
  split; [reflexivity|].
  apply lor_128.
Qed.

End Exception.

(** ** The response timeout of the master *)

Lemma i8_id (x : Z) : -128 <= x <= 127 -> i8 x = x.
Proof. intros Hx. unfold i8. rewrite Z.mod_small; lia. Qed.

Lemma i16_id (x : Z) : -32768 <= x <= 32767 -> i16 x = x.
Proof. intros Hx. unfold i16. rewrite Z.mod_small; lia. Qed.

Lemma u32_nonzero (x : Z) : -128 <= x <= 127 -> x <> 0 -> u32 x <> 0.
Proof.
  intros Hx Hne. unfold u32.
  destruct (Z_lt_le_dec x 0) as [Hneg|Hpos].
  - replace x with ((x + 4294967296) + (-1) * 4294967296) by lia.
    rewrite Z.mod_add by lia. rewrite Z.mod_small; lia.
  - rewrite Z.mod_small; lia.
Qed.

Section ResponseTimeout.
Context `{ModbusHeader}.

(** C6.  The master, waiting, is notified with the value the response-timeout
    timer posts: the state becomes COM_IDLE, the last error TIMEOUT, the
    16-bit error counter is incremented by one, and the originator is
    notified with that same value.  ERR_TIME_OUT and COM_IDLE are taken to
    fit the 8-bit fields they are stored in, and ERR_TIME_OUT not to be 0. *)
Theorem master_timeout (h : modbusHandler_t) (telegram : modbus_t) :
  i8state h = COM_WAITING ->
  -128 <= ERR_TIME_OUT <= 127 -> ERR_TIME_OUT <> 0 ->
  -128 <= COM_IDLE <= 127 ->
  exists h',
    master_on_notify telegram vTimerCallbackTimeout_value h = Some (tt, h')
    /\ i8state h' = COM_IDLE
    /\ i8lastError h' = ERR_TIME_OUT
    /\ u16errCnt h' = u16 (u16errCnt h + 1)
    /\ (0 <= u16errCnt h < 65535 -> u16errCnt h' = u16errCnt h + 1)
    /\ trace h' = trace h ++ [EvNotify (tg_u32CurrentTask telegram) (u32 ERR_TIME_OUT)]
    /\ notified (trace h')
       = notified (trace h) ++ [(tg_u32CurrentTask telegram, vTimerCallbackTimeout_value)].
Proof.
  intros Hstate Hto Hto0 Hidle.
  pose proof (u32_nonzero ERR_TIME_OUT Hto Hto0) as Hnz.
  unfold master_on_notify, vTimerCallbackTimeout_value.
  destruct (Z.eqb_spec (u32 ERR_TIME_OUT) 0) as [Heq|_]; [contradiction|].
  cbn [negb]. msimpl.
  rewrite (i8_id ERR_TIME_OUT), (i8_id COM_IDLE) by assumption.
  eexists. split; [reflexivity|]. cbn [i8state i8lastError u16errCnt trace
    set_trace set_u16errCnt set_i8lastError set_i8state].
  repeat split.
  - intros Hc. apply u16_id. lia.
  - rewrite notified_app. reflexivity.
Qed.

End ResponseTimeout.

(** ** Draining the ring; frames for another station *)


Section Receive.
Context `{ModbusHeader}.

Lemma RingGetNBytes_loop_count (fuel : nat) :
  forall r buffer uNumber c r' buffer' c',
    RingGetNBytes_loop fuel r buffer uNumber c = Some (r', buffer', c') ->
    0 <= c < 256 -> 0 <= c' < 256.
Proof.
  induction fuel as [|fuel IH]; intros r buffer uNumber c r' buffer' c' Hl Hc;
    cbn [RingGetNBytes_loop] in Hl; [discriminate|].
  destruct ((c <? uNumber) && (c <? u8available r)).
  - destruct (arr_get (uxBuffer r) (u8start r)) as [b|]; [|discriminate].
    cbn [mbind option_bind] in Hl.
    destruct (arr_set buffer c b) as [buffer1|]; [|discriminate].
    cbn [mbind option_bind] in Hl.
    eapply IH; [exact Hl | apply u8_range].
  - inversion Hl; subst. exact Hc.
Qed.

Lemma RingGetNBytes_count (r r' : modbusRingBuffer_t) (buffer buffer' : list Z)
    (uNumber c : Z) :
  RingGetNBytes r buffer uNumber = Some (r', buffer', c) -> 0 <= c < 256.
Proof.
  unfold RingGetNBytes. intros Hg.
  destruct ((u8available r =? 0) || (uNumber =? 0)); [inversion Hg; lia|].
  destruct (uNumber >? MAX_BUFFER); [inversion Hg; lia|].
  destruct (RingGetNBytes_loop 257 r buffer uNumber 0) as [[[r1 b1] c1]|] eqn:Hl;
    [|discriminate].
  cbn [mbind option_bind] in Hg. inversion Hg; subst.
  eapply RingGetNBytes_loop_count; [exact Hl | lia].
Qed.

(** A push counts one byte more, up to the capacity; it raises the overflow
    flag exactly when the ring was full. *)
Lemma RingAdd_count (r r' : modbusRingBuffer_t) (b : Z) :
  RingAdd r b = Some r' ->
  0 <= u8available r <= MAX_BUFFER ->
  MAX_BUFFER <= 255 ->
  RingCountBytes r' = Z.min (RingCountBytes r + 1) MAX_BUFFER
  /\ overflow r' = (RingCountBytes r =? MAX_BUFFER).
Proof.
  unfold RingAdd, RingCountBytes. intros Ha Hav Hmax.
  destruct (arr_set (uxBuffer r) (u8end r) b) as [buf|]; [|discriminate].
  cbn [mbind option_bind] in Ha.
  destruct (Z.eqb_spec (u8available r) MAX_BUFFER) as [Heq|Hne];
    inversion Ha; subst; cbn [u8available overflow].
  - split; [lia | reflexivity].
  - rewrite u8_id by lia. split; [lia | reflexivity].
Qed.

(** Once the flag is up the ring is full: further pushes keep it up. *)
Lemma RingAdd_overflow_sticky (r r' : modbusRingBuffer_t) (b : Z) :
  RingAdd r b = Some r' ->
  overflow r = true ->
  u8available r = MAX_BUFFER ->
  overflow r' = true /\ u8available r' = MAX_BUFFER.
Proof.
  unfold RingAdd. intros Ha Hov Hfull.
  destruct (arr_set (uxBuffer r) (u8end r) b) as [buf|]; [|discriminate].
  cbn [mbind option_bind] in Ha. rewrite Hfull, Z.eqb_refl in Ha.
  inversion Ha; subst. cbn [u8available overflow]. split; reflexivity.
Qed.

(** A drain that returns bytes leaves the ring empty, whatever it held. *)
Lemma RingGetNBytes_empties (r r' : modbusRingBuffer_t) (buffer buffer' : list Z)
    (uNumber c : Z) :
  RingGetNBytes r buffer uNumber = Some (r', buffer', c) ->
  c <> 0 ->
  RingCountBytes r' = 0 /\ u8start r' = 0 /\ u8end r' = 0 /\ overflow r' = false.
Proof.
  unfold RingGetNBytes. intros Hg Hc.
  destruct ((u8available r =? 0) || (uNumber =? 0)); [inversion Hg; subst; lia|].
  destruct (uNumber >? MAX_BUFFER); [inversion Hg; subst; lia|].
  destruct (RingGetNBytes_loop 257 r buffer uNumber 0) as [[[r1 b1] c1]|];
    [|discriminate].
  cbn [mbind option_bind] in Hg. inversion Hg; subst.
  repeat split; reflexivity.
Qed.

(** Bytes pushed into a cleared ring lie at its start, in wire order. *)
Lemma RingAddAll_received (f : list Z) :
  forall (pre post : list Z),
    (length f <= length post)%nat ->
    Z.of_nat (length pre + length f) < MAX_BUFFER ->
    MAX_BUFFER <= 256 ->
    RingAddAll
      (mkRing (pre ++ post) 0 (Z.of_nat (length pre)) (Z.of_nat (length pre)) false) f
    = Some (mkRing (pre ++ f ++ drop (length f) post) 0
              (Z.of_nat (length pre + length f))
              (Z.of_nat (length pre + length f)) false).
Proof.
  induction f as [|b f IH]; intros pre post Hpost Hmax H256.
  - cbn [RingAddAll length app]. rewrite drop_0, Nat.add_0_r. reflexivity.
  - destruct post as [|p post]; cbn [length] in Hpost; [lia|].
    cbn [length] in Hmax.
    cbn [RingAddAll]. unfold RingAdd.
    cbn [uxBuffer u8start u8end u8available overflow].
    rewrite arr_set_middle. cbn [mbind option_bind].
    destruct (Z.eqb_spec (Z.of_nat (length pre)) MAX_BUFFER) as [?|_]; [lia|].
    rewrite Z.mod_small by lia.
    rewrite !u8_id by lia.
    replace (Z.of_nat (length pre) + 1) with (Z.of_nat (length (pre ++ [b])))
      by (rewrite length_app; cbn [length]; lia).
    replace (pre ++ b :: post) with ((pre ++ [b]) ++ post)
      by (rewrite <- app_assoc; reflexivity).
    cbn [mbind option_bind]. rewrite IH by (rewrite ?length_app; cbn [length]; lia).
    rewrite length_app. cbn [length app skipn].
    replace (length pre + 1 + length f)%nat with (length pre + S (length f))%nat by lia.
    rewrite <- !app_assoc. reflexivity.
Qed.

(** The copy loop delivers the bytes in the order they were pushed. *)
Lemma RingGetNBytes_loop_copy (m : nat) :
  forall (fuel k n : nat) (ux done todo : list Z) (e : Z) (ov : bool),
    (n = k + m)%nat ->
    (m < fuel)%nat ->
    (n <= length ux)%nat ->
    length done = k ->
    (m <= length todo)%nat ->
    Z.of_nat n < MAX_BUFFER ->
    MAX_BUFFER <= 256 ->
    exists s,
      RingGetNBytes_loop fuel (mkRing ux (Z.of_nat k) e (Z.of_nat n) ov)
        (done ++ todo) (Z.of_nat n) (Z.of_nat k)
      = Some (mkRing ux s e (Z.of_nat n) ov,
              done ++ take m (drop k ux) ++ drop m todo, Z.of_nat n).
Proof.
  induction m as [|m IH]; intros fuel k n ux done todo e ov Hn Hfuel Hux Hdone Htodo Hmax H256;
    subst k.
  - destruct fuel as [|fuel]; [lia|]. cbn [RingGetNBytes_loop u8available].
    replace n with (length done) by lia.
    rewrite Z.ltb_irrefl. cbn [andb firstn app]. rewrite drop_0.
    eexists. reflexivity.
  - destruct fuel as [|fuel]; [lia|]. cbn [RingGetNBytes_loop u8available uxBuffer u8start
      u8end overflow].
    destruct (Z.ltb_spec (Z.of_nat (length done)) (Z.of_nat n)) as [_|?]; [|lia]. cbn [andb].
    destruct (lookup_lt_is_Some_2 ux (length done) ltac:(lia)) as [b Hb].
    destruct todo as [|t todo]; cbn [length] in Htodo; [lia|].
    rewrite arr_get_nonneg, Nat2Z.id, Hb by lia. cbn [mbind option_bind].
    rewrite arr_set_middle. cbn [mbind option_bind].
    rewrite Z.mod_small by lia. rewrite !u8_id by lia.
    replace (Z.of_nat (length done) + 1) with (Z.of_nat (S (length done))) by lia.
    replace (done ++ b :: todo) with ((done ++ [b]) ++ todo)
      by (rewrite <- app_assoc; reflexivity).
    destruct (IH fuel (S (length done)) n ux (done ++ [b]) todo e ov) as [s Hs];
      try (rewrite ?length_app; cbn [length]; lia).
    exists s. rewrite Hs.
    rewrite (drop_S ux b (length done) Hb). cbn [firstn skipn].
    rewrite <- !app_assoc. reflexivity.
Qed.

Lemma getRxBuffer_effect (h h1 : modbusHandler_t) (rv : Z) :
  getRxBuffer h = Some (rv, h1) ->
  rx_only h h1
  /\ (overflow (xBufferRX h) = false ->
      rv = i16 (u8BufferSize h1) /\ 0 <= u8BufferSize h1 < 256).
Proof.
  unfold getRxBuffer. intros Hg. msimpl_in Hg.
  destruct (xTypeHW h =? USART_HW); msimpl_in Hg;
    destruct (overflow (xBufferRX h)) eqn:Hov.
  1,3: inversion Hg; subst; (split; [|discriminate]);
      constructor; cbn; rewrite ?transmitted_app, ?notified_app, ?app_nil_r; reflexivity.
  all: unfold RingGetAllBytes in Hg; msimpl_in Hg;
      destruct (RingGetNBytes (xBufferRX h) (u8Buffer h) (u8available (xBufferRX h)))
        as [[[r' b'] n]|] eqn:Hr; [|discriminate];
      pose proof (RingGetNBytes_count _ _ _ _ _ _ Hr) as Hn;
      msimpl_in Hg; inversion Hg; subst;
      (split; [constructor; cbn; rewrite ?transmitted_app, ?notified_app, ?app_nil_r; reflexivity
              | intros _; cbn; split; [reflexivity | exact Hn]]).
Qed.

(** The turn of the slave when the drain delivers a frame for another
    station. *)
Lemma slave_on_notify_foreign (h h1 : modbusHandler_t) (rv b : Z) :
  xTypeHW h = USART_HW \/ xTypeHW h = USART_HW_DMA ->
  overflow (xBufferRX h) = false ->
  ~ (7 <= ERR_BUFF_OVERFLOW <= 255) ->
  getRxBuffer h = Some (rv, h1) ->
  7 <= u8BufferSize h1 ->
  arr_get (u8Buffer h1) ID = Some b ->
  b <> u8id h ->
  slave_on_notify h = Some (tt, h1)
  /\ transmitted (trace h1) = transmitted (trace h)
  /\ u16regsHR h1 = u16regsHR h
  /\ u16regsRO h1 = u16regsRO h
  /\ u16regsCoils h1 = u16regsCoils h
  /\ discrete_inputs h1 = discrete_inputs h
  /\ u16errCnt h1 = u16errCnt h
  /\ i8lastError h1 = i8lastError h
  /\ u16OutCnt h1 = u16OutCnt h.
Proof.
  intros Hhw Hov Hcode Hrx Hsize Hb Hne.
  destruct (getRxBuffer_effect h h1 rv Hrx) as [Hsame Hrv].
  destruct (Hrv Hov) as [-> Hrange].
  destruct Hsame.
  split; [|repeat split; assumption].
  unfold slave_on_notify. msimpl.
  assert (Hcond : (xTypeHW h =? USART_HW) || (xTypeHW h =? USART_HW_DMA) = true).
  { destruct Hhw as [-> | ->]; rewrite Z.eqb_refl; [reflexivity | apply orb_true_r]. }
  rewrite Hcond, Hrx.
  rewrite i16_id by lia.
  destruct (Z.eqb_spec (u8BufferSize h1) ERR_BUFF_OVERFLOW) as [Heq|_]; [lia|].
  unfold slave_frame. msimpl.
  destruct (Z.ltb_spec (u8BufferSize h1) 7); [lia|].
  rewrite Hb. destruct (Z.eqb_spec b (u8id h1)) as [Heq|_]; [congruence|].
  reflexivity.
Qed.

(** The interrupt handler leaves the ring as [received] describes. *)
Lemma receive_received (h : modbusHandler_t) (f ux : list Z) :
  xBufferRX h = mkRing ux 0 0 0 false ->
  (length f <= length ux)%nat ->
  Z.of_nat (length f) < MAX_BUFFER ->
  MAX_BUFFER <= 256 ->
  receive f h = Some (received f h).
Proof.
  intros Hr Hux Hmax H256. unfold receive, received. rewrite Hr.
  pose proof (RingAddAll_received f [] ux Hux) as Ha.
  cbn [length app Nat.add] in Ha. change (Z.of_nat 0) with 0 in Ha.
  rewrite Ha by assumption. reflexivity.
Qed.

(** The drain copies the frame to the start of the frame buffer. *)
Lemma getRxBuffer_received (h : modbusHandler_t) (f : list Z) :
  (length f <= length (uxBuffer (xBufferRX h)))%nat ->
  (length f <= length (u8Buffer h))%nat ->
  Z.of_nat (length f) < MAX_BUFFER ->
  MAX_BUFFER <= 256 ->
  exists h1,
    getRxBuffer (received f h) = Some (Z.of_nat (length f), h1)
    /\ u8Buffer h1 = f ++ drop (length f) (u8Buffer h)
    /\ u8BufferSize h1 = Z.of_nat (length f).
Proof.
  intros Hux Hbuf Hmax H256.
  set (ux := f ++ drop (length f) (uxBuffer (xBufferRX h))).
  assert (Hget : RingGetNBytes
                   (mkRing ux 0 (Z.of_nat (length f)) (Z.of_nat (length f)) false)
                   (u8Buffer h) (Z.of_nat (length f))
                 = Some (mkRing ux 0 0 0 false,
                         f ++ drop (length f) (u8Buffer h), Z.of_nat (length f))).
  { unfold RingGetNBytes. cbn [u8available].
    destruct (Z.eqb_spec (Z.of_nat (length f)) 0) as [H0|Hn0].
    - cbn [orb]. destruct f; [|cbn [length] in H0; lia].
      cbn [length app]. rewrite drop_0. reflexivity.
    - cbn [orb]. destruct (Z.gtb_spec (Z.of_nat (length f)) MAX_BUFFER) as [?|_]; [lia|].
      destruct (RingGetNBytes_loop_copy (length f) 257 0 (length f) ux [] (u8Buffer h)
                  (Z.of_nat (length f)) false) as [s Hs];
        try (cbn [length]; lia).
      { unfold ux. rewrite length_app. lia. }
      cbn [app] in Hs. change (Z.of_nat 0) with 0 in Hs. rewrite Hs.
      cbn [mbind option_bind]. unfold RingClear. cbn [uxBuffer].
      rewrite drop_0. unfold ux. rewrite take_app_length. reflexivity. }
  subst ux. unfold getRxBuffer, received. msimpl.
  destruct (xTypeHW h =? USART_HW); msimpl; unfold RingGetAllBytes;
    cbn [u8available overflow]; msimpl; rewrite Hget; msimpl; rewrite i16_id by lia;
    eexists; (split; [reflexivity|]); split; reflexivity.
Qed.

(** The turn of the slave, from its wake-up on, when the ring holds a frame
    for another station. *)
Lemma slave_on_notify_received_foreign (h : modbusHandler_t) (b : Z) (body : list Z) :
  let f := b :: body in
  xTypeHW h = USART_HW \/ xTypeHW h = USART_HW_DMA ->
  7 <= Z.of_nat (length f) ->
  Z.of_nat (length f) < MAX_BUFFER ->
  MAX_BUFFER <= 256 ->
  (length f <= length (uxBuffer (xBufferRX h)))%nat ->
  (length f <= length (u8Buffer h))%nat ->
  ~ (7 <= ERR_BUFF_OVERFLOW <= 255) ->
  b <> u8id h ->
  exists h1,
    slave_on_notify (received f h) = Some (tt, h1)
    /\ transmitted (trace h1) = transmitted (trace h)
    /\ u16regsHR h1 = u16regsHR h
    /\ u16regsRO h1 = u16regsRO h
    /\ u16regsCoils h1 = u16regsCoils h
    /\ discrete_inputs h1 = discrete_inputs h
    /\ u16errCnt h1 = u16errCnt h
    /\ i8lastError h1 = i8lastError h
    /\ u16OutCnt h1 = u16OutCnt h.
Proof.
  intros f Hhw Hlen Hmax H256 Hux Hbuf Hcode Hne.
  destruct (getRxBuffer_received h f Hux Hbuf Hmax H256) as (h1 & Hrx & Hb1 & Hs1).
  exists h1.
  apply (slave_on_notify_foreign (received f h) h1 (Z.of_nat (length f)) b);
    try assumption.
  - reflexivity.
  - rewrite Hs1. exact Hlen.
  - rewrite Hb1. reflexivity.
Qed.

(** C9.  The ring holds a frame [f] of at least 7 bytes, received since the
    ring was last cleared, whose ID byte [b] is not the station number.
    Woken by its notification, the slave drains the ring and ends its turn:
    nothing is transmitted, and the register banks, the error counter, the
    last error and the output counter are as they were.  The same holds of
    the whole turn of the loop, which resets the last error before the task
    blocks: the last error is 0 when the turn ends.  The frame is taken to
    fit the ring and the frame buffer, MAX_BUFFER to be at most 256 (the
    ring indices are 8 bits wide) and ERR_BUFF_OVERFLOW not to be a frame
    length. *)
Theorem foreign_frame_skipped (h : modbusHandler_t) (b : Z) (body : list Z) :
  let f := b :: body in
  xTypeHW h = USART_HW \/ xTypeHW h = USART_HW_DMA ->
  7 <= Z.of_nat (length f) ->
  Z.of_nat (length f) < MAX_BUFFER ->
  MAX_BUFFER <= 256 ->
  (length f <= length (uxBuffer (xBufferRX h)))%nat ->
  (length f <= length (u8Buffer h))%nat ->
  ~ (7 <= ERR_BUFF_OVERFLOW <= 255) ->
  b <> u8id h ->
  (exists h1,
     slave_on_notify (received f h) = Some (tt, h1)
     /\ transmitted (trace h1) = transmitted (trace h)
     /\ u16regsHR h1 = u16regsHR h
     /\ u16regsRO h1 = u16regsRO h
     /\ u16regsCoils h1 = u16regsCoils h
     /\ discrete_inputs h1 = discrete_inputs h
     /\ u16errCnt h1 = u16errCnt h
     /\ i8lastError h1 = i8lastError h
     /\ u16OutCnt h1 = u16OutCnt h)
  /\ (exists h2,
        StartTaskModbusSlave_body (received f h) = Some (tt, h2)
        /\ transmitted (trace h2) = transmitted (trace h)
        /\ u16regsHR h2 = u16regsHR h
        /\ u16regsRO h2 = u16regsRO h
        /\ u16regsCoils h2 = u16regsCoils h
        /\ discrete_inputs h2 = discrete_inputs h
        /\ u16errCnt h2 = u16errCnt h
        /\ i8lastError h2 = 0
        /\ u16OutCnt h2 = u16OutCnt h).
Proof.
  intros f Hhw Hlen Hmax H256 Hux Hbuf Hcode Hne. split.
  - apply slave_on_notify_received_foreign; assumption.
  - exact (slave_on_notify_received_foreign (set_i8lastError 0 h) b body
             Hhw Hlen Hmax H256 Hux Hbuf Hcode Hne).
Qed.


End Receive.

(** ** Function 3: the response of the slave *)


Lemma highByte_range (w : Z) : is_word w -> 0 <= highByte w < 256.
Proof.
  unfold is_word, highByte. intros Hw. rewrite Z.shiftr_div_pow2 by lia.
  change (2 ^ 8) with 256.
  split; [apply Z.div_pos; lia | apply Z.div_lt_upper_bound; lia].
Qed.

Lemma lowByte_mod (w : Z) : lowByte w = w mod 256.
Proof. unfold lowByte. change 255 with (Z.ones 8). apply Z.land_ones. lia. Qed.

Lemma word_bytes (w : Z) : is_word w -> word (u8 (highByte w)) (u8 (lowByte w)) = w.
Proof.
  intros Hw. pose proof (highByte_range w Hw) as Hh.
  unfold word. rewrite lowByte_mod.
  rewrite !(u8_id (u8 _)) by apply u8_range.
  rewrite (u8_id (highByte w)) by exact Hh.
  unfold u8. rewrite Z.mod_mod by lia.
  unfold highByte. rewrite Z.shiftr_div_pow2 by lia. change (2 ^ 8) with 256.
  pose proof (Z.div_mod w 256 ltac:(lia)). lia.
Qed.

Lemma decode_encode (ws : list Z) : Forall is_word ws -> decode_regs (encode_regs ws) = ws.
Proof.
  induction 1 as [|w ws Hw _ IH]; [reflexivity|].
  cbn [encode_regs flat_map app decode_regs]. fold (encode_regs ws).
  rewrite word_bytes, IH by exact Hw. reflexivity.
Qed.

Lemma encode_regs_length (ws : list Z) : length (encode_regs ws) = (2 * length ws)%nat.
Proof.
  induction ws as [|w ws IH]; [reflexivity|].
  cbn [encode_regs flat_map app length]. fold (encode_regs ws). lia.
Qed.

Lemma encode_regs_bytes (ws : list Z) : Forall is_byte (encode_regs ws).
Proof.
  induction ws as [|w ws IH]; [constructor|].
  cbn [encode_regs flat_map app]. fold (encode_regs ws).
  repeat constructor; try apply u8_range. exact IH.
Qed.

Section EncodeLoop.
Context `{ModbusHeader}.

Lemma process_FC3_loop_spec (n : nat) :
  forall (regs : list Z) (i : Z) (h : modbusHandler_t) (pre mid : list Z),
    u8Buffer h = pre ++ mid ->
    u8BufferSize h = Z.of_nat (length pre) ->
    (length pre + 2 * n <= 255)%nat ->
    (2 * n <= length mid)%nat ->
    0 <= i -> i + Z.of_nat n <= 65535 ->
    (Z.to_nat i + n <= length regs)%nat ->
    process_FC3_loop n (Some regs) i h
    = Some (tt, set_u8BufferSize (Z.of_nat (length pre + 2 * n))
                  (set_u8Buffer
                     (pre ++ encode_regs (take n (drop (Z.to_nat i) regs))
                          ++ drop (2 * n) mid) h)).
Proof.
  induction n as [|n IH]; intros regs i h pre mid Hbuf Hsize Hcap Hmid Hi Hi16 Hregs.
  - change (2 * 0)%nat with 0%nat. rewrite take_0, drop_0, Nat.add_0_r.
    cbn [process_FC3_loop encode_regs flat_map app].
    rewrite <- Hbuf, <- Hsize. destruct h; reflexivity.
  - destruct mid as [|m0 [|m1 mid]]; cbn [length] in Hmid; try lia.
    destruct (lookup_lt_is_Some_2 regs (Z.to_nat i) ltac:(lia)) as [w Hw].
    cbn [process_FC3_loop]. msimpl.
    rewrite arr_get_nonneg, Hw by exact Hi.
    rewrite Hsize, Hbuf, arr_set_middle. msimpl.
    rewrite Hsize, (u8_id (Z.of_nat (length pre) + 1)) by lia.
    replace (Z.of_nat (length pre) + 1)
      with (Z.of_nat (length (pre ++ [u8 (highByte w)])))
      by (rewrite length_app; cbn [length]; lia).
    replace (pre ++ u8 (highByte w) :: m1 :: mid)
      with ((pre ++ [u8 (highByte w)]) ++ m1 :: mid)
      by (rewrite <- app_assoc; reflexivity).
    rewrite arr_set_middle. msimpl.
    rewrite (u8_id (_ + 1)) by (rewrite length_app; cbn [length]; lia).
    rewrite u16_id by lia.
    rewrite (IH regs (i + 1) _ (pre ++ [u8 (highByte w); u8 (lowByte w)]) mid).
    + cbn [set_u8Buffer set_u8BufferSize uModbusType u8id xTypeHW EN_Port u8Buffer
           u8BufferSize xBufferRX u16regsHR u16regsRO u16regsCoils discrete_inputs
           u16regHR_size u16regCoils_size i8lastError i8state u16InCnt u16OutCnt
           u16errCnt trace].
      rewrite (drop_S regs w (Z.to_nat i) Hw).
      replace (Z.to_nat (i + 1)) with (S (Z.to_nat i)) by lia.
      cbn [firstn encode_regs flat_map app]. fold (encode_regs (take n (drop (S (Z.to_nat i)) regs))).
      replace (2 * S n)%nat with (S (S (2 * n))) by lia. cbn [skipn].
      rewrite length_app. cbn [length].
      replace (length pre + 2 + 2 * n)%nat with (length pre + S (S (2 * n)))%nat by lia.
      rewrite <- !app_assoc. reflexivity.
    + cbn [u8Buffer set_u8Buffer set_u8BufferSize]. rewrite <- !app_assoc. reflexivity.
    + cbn [u8BufferSize set_u8BufferSize]. rewrite !length_app. cbn [length]. lia.
    + rewrite length_app. cbn [length]. lia.
    + lia.
    + lia.
    + lia.
    + lia.
Qed.

End EncodeLoop.

Section DecodeLoop.
Context `{ModbusHeader}.

Lemma get_FC3_loop_spec (n : nat) :
  forall (i u8byte : Z) (k : nat) (h : modbusHandler_t) (pre payload post : list Z),
    u8Buffer h = pre ++ payload ++ post ->
    length payload = (2 * n)%nat ->
    (k + n <= length (u16regsHR h))%nat ->
    (n = 0%nat \/
     (i = Z.of_nat k /\ u8byte = Z.of_nat (length pre)
      /\ (k + n <= 256)%nat /\ (length pre + 2 * n <= 257)%nat)) ->
    get_FC3_loop n i u8byte h
    = Some (tt, set_u16regsHR
                  (take k (u16regsHR h) ++ decode_regs payload
                     ++ drop (k + n) (u16regsHR h)) h).
Proof.
  induction n as [|n IH]; intros i u8byte k h pre payload post Hbuf Hlen Hk Hpos.
  - destruct payload; [|discriminate].
    cbn [get_FC3_loop decode_regs app]. rewrite Nat.add_0_r, take_drop.
    destruct h; reflexivity.
  - destruct payload as [|hi [|lo payload]]; cbn [length] in Hlen; try lia.
    destruct Hpos as [?|(-> & -> & Hk256 & Hpre)]; [lia|].
    cbn [get_FC3_loop]. msimpl.
    rewrite Hbuf. cbn [app]. rewrite arr_get_middle. msimpl.
    rewrite Hbuf. cbn [app].
    replace (Z.of_nat (length pre) + 1) with (Z.of_nat (length (pre ++ [hi])))
      by (rewrite length_app; cbn [length]; lia).
    replace (pre ++ hi :: lo :: payload ++ post)
      with ((pre ++ [hi]) ++ lo :: payload ++ post)
      by (rewrite <- app_assoc; reflexivity).
    rewrite arr_get_middle. msimpl.
    rewrite arr_set_lt by lia. rewrite Nat2Z.id. msimpl.
    destruct (lookup_lt_is_Some_2 (u16regsHR h) k ltac:(lia)) as [w0 Hw0].
    rewrite (IH _ _ (S k) _ (pre ++ [hi; lo]) payload post).
    + msimpl. cbn [decode_regs app].
      rewrite (take_S_r (<[k:=word hi lo]> (u16regsHR h)) k (word hi lo))
        by (apply list_lookup_insert_eq; lia).
      rewrite take_insert_ge by lia.
      rewrite drop_insert_lt by lia.
      replace (S k + n)%nat with (k + S n)%nat by lia.
      rewrite <- !app_assoc. reflexivity.
    + msimpl. rewrite Hbuf, <- !app_assoc. reflexivity.
    + lia.
    + msimpl. rewrite length_insert. lia.
    + destruct n as [|n]; [left; reflexivity|right].
      rewrite !u8_id by (rewrite ?length_app; cbn [length]; lia).
      rewrite !length_app. cbn [length]. repeat split; lia.
Qed.

End DecodeLoop.

Ltac arr_get_step :=
  match goal with
  | |- context [arr_get ?l ?i] =>
      let E := fresh "E" in
      eassert (E : arr_get l i = Some _) by reflexivity;
      rewrite E; clear E
  end.

Ltac arr_set_step :=
  match goal with
  | |- context [arr_set ?l ?i ?v] =>
      rewrite (arr_set_lt l i v)
        by (rewrite ?length_insert; cbn [length];
            unfold ID, FUNC, ADD_HI, ADD_LO, NB_HI, NB_LO, BYTE_CNT; lia)
  end.

Lemma word_of_bytes (H L : Z) : is_byte H -> is_byte L -> word H L = H * 256 + L.
Proof. unfold is_byte, word. intros HH HL. rewrite !u8_id by lia. reflexivity. Qed.

Lemma word_range (H L : Z) : 0 <= word H L < 65536.
Proof.
  unfold word. pose proof (u8_range H). pose proof (u8_range L). lia.
Qed.

Section Response.
Context `{ModbusHeader}.

Lemma process_FC3_response (h : modbusHandler_t) (b0 b1 ahi alo nhi nlo : Z)
    (post : list Z) :
  u8Buffer h = b0 :: b1 :: ahi :: alo :: nhi :: nlo :: post ->
  is_byte b0 -> is_byte b1 ->
  0 <= word nhi nlo <= 125 ->
  word ahi alo + word nhi nlo <= Z.of_nat (length (u16regsHR h)) <= 65535 ->
  2 * word nhi nlo + 5 <= Z.of_nat (length (u8Buffer h)) ->
  let ws := take (Z.to_nat (word nhi nlo))
              (drop (Z.to_nat (word ahi alo)) (u16regsHR h)) in
  let frame := [b0; b1; 2 * word nhi nlo] ++ encode_regs ws in
  exists r h',
    process_FC3 DB_HOLDING_REGISTER h = Some (r, h')
    /\ transmitted (trace h') = transmitted (trace h) ++ [with_crc frame]
    /\ u16regsHR h' = u16regsHR h.
Proof.
  intros Hbuf Hb0 Hb1 Hqty Hbank Hcap ws frame.
  pose proof (word_range ahi alo) as Hstart.
  set (start := word ahi alo) in *. set (qty := word nhi nlo) in *.
  assert (Hlen : Z.of_nat (length post) + 6 = Z.of_nat (length (u8Buffer h)))
    by (rewrite Hbuf; cbn [length]; lia).
  unfold process_FC3. msimpl.
  do 4 (rewrite Hbuf; arr_get_step; msimpl).
  fold start qty.
  rewrite (u8_id qty) by lia. rewrite (u8_id (qty * 2)) by lia.
  rewrite Hbuf. arr_set_step. msimpl.
  rewrite Z.eqb_refl.
  destruct (Z.gtb_spec (start + qty) 65535) as [?|_]; [lia|].
  rewrite (process_FC3_loop_spec (Z.to_nat qty) (u16regsHR h) start _
             [b0; b1; qty * 2] (alo :: nhi :: nlo :: post))
    by (cbn [length]; first [reflexivity | lia]).
  msimpl.
  replace ([b0; b1; qty * 2] ++
           encode_regs (take (Z.to_nat qty) (drop (Z.to_nat start) (u16regsHR h))) ++
           drop (2 * Z.to_nat qty) (alo :: nhi :: nlo :: post))
    with (frame ++ drop (2 * Z.to_nat qty) (alo :: nhi :: nlo :: post))
    by (unfold frame, ws; rewrite <- app_assoc, (Z.mul_comm 2 qty); reflexivity).
  assert (Hws : length ws = Z.to_nat qty).
  { unfold ws. rewrite length_take, length_drop. lia. }
  assert (Hfl : length frame = (3 + 2 * Z.to_nat qty)%nat).
  { unfold frame. rewrite length_app, encode_regs_length, Hws. reflexivity. }
  erewrite sendTxBuffer_frame.
  - eexists _, _. split; [reflexivity|].
    unfold sent. msimpl. rewrite transmitted_app, transmitted_tx_events.
    split; reflexivity.
  - msimpl. reflexivity.
  - msimpl. rewrite Hfl. reflexivity.
  - unfold frame. repeat apply Forall_cons_2; try assumption;
      [unfold is_byte; lia | apply encode_regs_bytes].
  - rewrite Hfl. lia.
  - rewrite length_drop. cbn [length]. lia.
Qed.

End Response.

(** ** Function 3: from the slave to the master and back *)

Section RoundTrip.
Context `{ModbusHeader}.

Lemma get_FC3_payload (h : modbusHandler_t) (b0 b1 bc : Z) (payload post : list Z) :
  u8Buffer h = b0 :: b1 :: bc :: payload ++ post ->
  0 <= bc <= 255 ->
  length payload = (2 * Z.to_nat (bc / 2))%nat ->
  (Z.to_nat (bc / 2) <= length (u16regsHR h))%nat ->
  get_FC3 h
  = Some (tt, set_u16regsHR
                (decode_regs payload ++ drop (Z.to_nat (bc / 2)) (u16regsHR h)) h).
Proof.
  intros Hbuf Hbc Hlen Hhr.
  assert (Hn : (Z.to_nat (bc / 2) <= 127)%nat).
  { assert (bc / 2 < 128) by (apply Z.div_lt_upper_bound; lia). lia. }
  unfold get_FC3. msimpl. rewrite Hbuf. arr_get_step. msimpl.
  rewrite (get_FC3_loop_spec (Z.to_nat (bc / 2)) 0 3 0 h [b0; b1; bc] payload post).
  - rewrite take_0. reflexivity.
  - rewrite Hbuf. reflexivity.
  - exact Hlen.
  - lia.
  - right. cbn [length]. repeat split; lia.
Qed.

(** C7.  A request for function 3 with quantity in [1,125] on a bank that
    holds the registers asked for: [process_FC3] transmits a frame, and
    [get_FC3], run by a master whose frame buffer starts with that frame,
    writes the original register values to the first [qty] cells of the
    caller's array and leaves the others as they were. *)
Theorem fc3_roundtrip (hs : modbusHandler_t) (b0 b1 ahi alo nhi nlo : Z)
    (post : list Z) :
  u8Buffer hs = b0 :: b1 :: ahi :: alo :: nhi :: nlo :: post ->
  is_byte b0 -> is_byte b1 ->
  1 <= word nhi nlo <= 125 ->
  Forall is_word (u16regsHR hs) ->
  word ahi alo + word nhi nlo <= Z.of_nat (length (u16regsHR hs)) <= 65535 ->
  2 * word nhi nlo + 5 <= Z.of_nat (length (u8Buffer hs)) ->
  let start := Z.to_nat (word ahi alo) in
  let qty := Z.to_nat (word nhi nlo) in
  exists r hs' frame,
    process_FC3 DB_HOLDING_REGISTER hs = Some (r, hs')
    /\ transmitted (trace hs') = transmitted (trace hs) ++ [frame]
    /\ forall (hm : modbusHandler_t) (rest : list Z),
         u8Buffer hm = frame ++ rest ->
         (qty <= length (u16regsHR hm))%nat ->
         exists hm',
           get_FC3 hm = Some (tt, hm')
           /\ take qty (u16regsHR hm') = take qty (drop start (u16regsHR hs))
           /\ drop qty (u16regsHR hm') = drop qty (u16regsHR hm).
Proof.
  intros Hbuf Hb0 Hb1 Hqty Hregs Hbank Hcap start qty.
  pose proof (word_range ahi alo) as Hstart.
  destruct (process_FC3_response hs b0 b1 ahi alo nhi nlo post Hbuf Hb0 Hb1
              ltac:(lia) Hbank Hcap) as (r & hs' & Hrun & Htx & _).
  fold start qty in Htx.
  set (ws := take qty (drop start (u16regsHR hs))) in *.
  exists r, hs', (with_crc ([b0; b1; 2 * word nhi nlo] ++ encode_regs ws)).
  split; [exact Hrun|]. split; [exact Htx|].
  intros hm rest Hm Hhm.
  assert (Hws : length ws = qty).
  { unfold ws. rewrite length_take, length_drop. lia. }
  assert (Hhalf : 2 * word nhi nlo / 2 = word nhi nlo)
    by (rewrite Z.mul_comm; apply Z.div_mul; lia).
  eexists. split.
  - apply (get_FC3_payload hm b0 b1 (2 * word nhi nlo) (encode_regs ws)
             (crc_wire (crc16_modbus ([b0; b1; 2 * word nhi nlo] ++ encode_regs ws))
                ++ rest)).
    + rewrite Hm. unfold with_crc. rewrite <- !app_assoc. reflexivity.
    + lia.
    + rewrite encode_regs_length, Hws, Hhalf. reflexivity.
    + rewrite Hhalf. exact Hhm.
  - cbn [u16regsHR set_u16regsHR]. rewrite Hhalf. fold qty.
    rewrite decode_encode by (unfold ws; apply Forall_take, Forall_drop, Hregs).
    split.
    + rewrite take_app_length' by (symmetry; exact Hws). reflexivity.
    + rewrite drop_app_length' by (symmetry; exact Hws). reflexivity.
Qed.

End RoundTrip.

(** ** Function 1: the parser of the master *)


Lemma list_pair_ind {A : Type} (P : list A -> Prop) :
  P [] -> (forall x, P [x]) -> (forall x y l, P l -> P (x :: y :: l)) ->
  forall l, P l.
Proof.
  intros H0 H1 H2 l.
  assert (Hboth : P l /\ forall x, P (x :: l)).
  { induction l as [|y l [IHl IHx]]; [split; [exact H0 | exact H1]|].
    split; [apply IHx | intros x; apply H2, IHl]. }
  exact (proj1 Hboth).
Qed.

Lemma lowByte_word (H L : Z) : lowByte (word H L) = u8 L.
Proof.
  rewrite lowByte_mod. unfold word.
  rewrite Z.add_comm, Z.mod_add by lia. unfold u8. apply Z.mod_mod. lia.
Qed.

Lemma word_u8_r (H L : Z) : word H (u8 L) = word H L.
Proof. unfold word, u8. rewrite Z.mod_mod by lia. reflexivity. Qed.

Lemma even_index (k : nat) :
  Z.of_nat (2 * k) / 2 = Z.of_nat k /\ Z.of_nat (2 * k) mod 2 = 0.
Proof. split; Z.div_mod_to_equations; lia. Qed.

Lemma odd_index (k : nat) :
  (Z.of_nat (2 * k) + 1) / 2 = Z.of_nat k /\ (Z.of_nat (2 * k) + 1) mod 2 = 1.
Proof. split; Z.div_mod_to_equations; lia. Qed.

Section CoilLoop.
Context `{ModbusHeader}.

Lemma get_FC1_loop_spec (payload : list Z) :
  forall (i : Z) (k : nat) (h : modbusHandler_t) (pre post done todo : list Z),
    u8Buffer h = pre ++ payload ++ post ->
    u16regsCoils h = done ++ todo ->
    length done = k ->
    (length payload <= 2 * length todo)%nat ->
    (payload = [] \/
     (i = Z.of_nat (2 * k) /\ length pre = (2 * k + 3)%nat
      /\ (2 * k + length payload <= 256)%nat)) ->
    get_FC1_loop (length payload) i h
    = Some (tt, set_u16regsCoils (done ++ unpack_coils payload todo) h).
Proof.
  induction payload as [|lo|lo hi payload IH] using list_pair_ind;
    intros i k h pre post done todo Hbuf Hcoils Hdone Htodo Hpos; subst k.
  - cbn [length get_FC1_loop]. destruct todo; cbn [unpack_coils];
      rewrite <- Hcoils; destruct h; reflexivity.
  - destruct Hpos as [?|(-> & Hpre & Hk)]; [discriminate|].
    destruct todo as [|w todo]; cbn [length] in Htodo; [lia|].
    cbn [length get_FC1_loop unpack_coils]. msimpl.
    replace (Z.of_nat (2 * length done) + 3) with (Z.of_nat (length pre)) by lia.
    rewrite Hbuf. cbn [app]. rewrite arr_get_middle. msimpl.
    rewrite (proj1 (even_index (length done))).
    rewrite Hcoils, arr_get_middle. msimpl.
    rewrite (proj2 (even_index (length done))).
    cbn [Z.eqb negb]. rewrite arr_set_middle. reflexivity.
  - destruct Hpos as [?|(-> & Hpre & Hk)]; [discriminate|].
    destruct todo as [|w todo]; cbn [length] in Htodo; [lia|].
    cbn [length] in Hk.
    cbn [length get_FC1_loop unpack_coils]. msimpl.
    (* first turn: the low byte of register k *)
    replace (Z.of_nat (2 * length done) + 3) with (Z.of_nat (length pre)) by lia.
    rewrite Hbuf. cbn [app]. rewrite arr_get_middle. msimpl.
    rewrite (proj1 (even_index (length done))).
    rewrite Hcoils, arr_get_middle. msimpl.
    rewrite (proj2 (even_index (length done))).
    cbn [Z.eqb negb]. rewrite arr_set_middle. msimpl.
    (* second turn: its high byte *)
    rewrite (u8_id (Z.of_nat (2 * length done) + 1)) by lia.
    replace (Z.of_nat (2 * length done) + 1 + 3) with (Z.of_nat (length (pre ++ [lo])))
      by (rewrite length_app; cbn [length]; lia).
    rewrite Hbuf. cbn [app].
    replace (pre ++ lo :: hi :: payload ++ post)
      with ((pre ++ [lo]) ++ hi :: payload ++ post)
      by (rewrite <- app_assoc; reflexivity).
    rewrite arr_get_middle. msimpl.
    rewrite (proj1 (odd_index (length done))).
    rewrite arr_get_middle. msimpl.
    rewrite (proj2 (odd_index (length done))).
    cbn [Z.eqb negb]. rewrite arr_set_middle. msimpl.
    rewrite lowByte_word, word_u8_r.
    rewrite (IH _ (S (length done)) _ (pre ++ [lo; hi]) post (done ++ [word hi lo]) todo).
    + msimpl. rewrite <- app_assoc. reflexivity.
    + msimpl. rewrite Hbuf, <- app_assoc. reflexivity.
    + msimpl. rewrite <- app_assoc. reflexivity.
    + rewrite length_app. cbn [length]. lia.
    + lia.
    + destruct payload as [|p0 payload]; [left; reflexivity|right].
      cbn [length] in *. rewrite length_app. cbn [length].
      rewrite u8_id by lia. repeat split; lia.
Qed.

End CoilLoop.

(** ** The answer validator *)

Lemma lor_shift_byte (H L : Z) : 0 <= L < 256 -> Z.lor (Z.shiftl H 8) L = H * 256 + L.
Proof.
  intros HL. rewrite Z.shiftl_mul_pow2 by lia. change (2 ^ 8) with 256.
  symmetry. apply Z.add_nocarry_lor.
  apply Z.bits_inj'. intros n Hn. rewrite Z.land_spec, Z.bits_0.
  destruct (Z.lt_ge_cases n 8) as [Hlt|Hge].
  - change 256 with (2 ^ 8). rewrite Z.mul_pow2_bits_low by lia. reflexivity.
  - rewrite (Z.bits_above_log2 L n); [apply andb_false_r | lia |].
    destruct (Z.eq_dec L 0) as [->|Hne]; [simpl; lia|].
    assert (Z.log2 L < 8) by (apply Z.log2_lt_pow2; lia). lia.
Qed.

Lemma isSupported_codes (func : Z) :
  isSupported func = true ->
  func = 1 \/ func = 2 \/ func = 3 \/ func = 4 \/ func = 5 \/ func = 6
  \/ func = 15 \/ func = 16.
Proof.
  unfold isSupported, fctsupported, MB_FC_READ_COILS, MB_FC_READ_DISCRETE_INPUT,
    MB_FC_READ_REGISTERS, MB_FC_READ_INPUT_REGISTER, MB_FC_WRITE_COIL,
    MB_FC_WRITE_REGISTER, MB_FC_WRITE_MULTIPLE_COILS, MB_FC_WRITE_MULTIPLE_REGISTERS.
  cbn [existsb]. rewrite !orb_true_iff, !Z.eqb_eq. intros Hs. lia.
Qed.

Section Answer.
Context `{ModbusHeader}.

Lemma crc_matches_valid (h : modbusHandler_t) (msg rest : list Z) :
  u8Buffer h = with_crc msg ++ rest ->
  u8BufferSize h = Z.of_nat (length (with_crc msg)) ->
  Forall is_byte msg ->
  (length msg <= 253)%nat ->
  crc_matches h = Some (true, h).
Proof.
  intros Hbuf Hsize Hmsg Hlen.
  pose proof (crc16_modbus_range msg Hmsg) as Hr.
  assert (Hq : 0 <= crc16_modbus msg / 256 < 256)
    by (split; [apply Z.div_pos; lia | apply Z.div_lt_upper_bound; lia]).
  unfold with_crc, crc_wire in Hbuf, Hsize.
  rewrite length_app in Hsize. cbn [length] in Hsize.
  rewrite <- app_assoc in Hbuf. cbn [app] in Hbuf.
  unfold crc_matches. msimpl. rewrite Hsize, Hbuf.
  replace (Z.of_nat (length msg + 2) - 2) with (Z.of_nat (length msg)) by lia.
  rewrite arr_get_middle. msimpl. rewrite Hbuf.
  replace (Z.of_nat (length msg + 2) - 1)
    with (Z.of_nat (length (msg ++ [crc16_modbus msg mod 256])))
    by (rewrite length_app; cbn [length]; lia).
  replace (msg ++ crc16_modbus msg mod 256 :: crc16_modbus msg / 256 :: rest)
    with ((msg ++ [crc16_modbus msg mod 256]) ++ crc16_modbus msg / 256 :: rest)
    by (rewrite <- app_assoc; reflexivity).
  rewrite arr_get_middle. msimpl. rewrite Hbuf.
  rewrite u8_id by lia. rewrite calcCRC_prefix by exact Hmsg.
  rewrite lor_shift_byte by exact Hq.
  pose proof (Z.mod_pos_bound (crc16_modbus msg) 256 ltac:(lia)).
  rewrite u16_id by lia.
  unfold swap16. rewrite Z.eqb_refl. reflexivity.
Qed.

Lemma validateAnswer_accepts (h : modbusHandler_t) (func : Z) :
  crc_matches h = Some (true, h) ->
  arr_get (u8Buffer h) FUNC = Some func ->
  isSupported func = true ->
  validateAnswer h = Some (0, h).
Proof.
  intros Hcrc Hfunc Hsup.
  unfold validateAnswer. unfold bind at 1. rewrite Hcrc. cbn [negb].
  msimpl. rewrite Hfunc, Hsup. cbn [negb].
  assert (Hbit : Z.land func 128 = 0).
  { destruct (isSupported_codes func Hsup) as [->|[->|[->|[->|[->|[->|[->| ->]]]]]]];
      reflexivity. }
  rewrite Hbit. reflexivity.
Qed.

End Answer.

(** ** The master accepts an answer *)

Section Master.
Context `{ModbusHeader}.

Lemma get_FC1_payload (h : modbusHandler_t) (b0 b1 bc : Z) (tail : list Z) :
  u8Buffer h = b0 :: b1 :: bc :: tail ->
  0 <= bc <= 255 ->
  (Z.to_nat bc <= length tail)%nat ->
  (Z.to_nat bc <= 2 * length (u16regsCoils h))%nat ->
  get_FC1 h
  = Some (tt, set_u16regsCoils
                (unpack_coils (take (Z.to_nat bc) tail) (u16regsCoils h)) h).
Proof.
  intros Hbuf Hbc Htail Hcoils.
  unfold get_FC1. msimpl. rewrite Hbuf. arr_get_step. msimpl.
  assert (Hlen : length (take (Z.to_nat bc) tail) = Z.to_nat bc)
    by (rewrite length_take; lia).
  rewrite <- Hlen at 1.
  rewrite (get_FC1_loop_spec (take (Z.to_nat bc) tail) 0 0 h [b0; b1; bc]
             (drop (Z.to_nat bc) tail) [] (u16regsCoils h)).
  - reflexivity.
  - rewrite take_drop. exact Hbuf.
  - reflexivity.
  - reflexivity.
  - lia.
  - right. rewrite Hlen. cbn [length]. repeat split; lia.
Qed.

(** The turn of the master when the drain delivers a frame with a valid CRC
    and a supported function byte. *)
Lemma master_on_notify_answer (h h1 : modbusHandler_t) (telegram : modbus_t)
    (rv b0 func bc : Z) (body rest : list Z) :
  let msg := b0 :: func :: bc :: body in
  let tail := drop 3 (u8Buffer h1) in
  getRxBuffer (set_i8lastError 0 h) = Some (rv, h1) ->
  u8Buffer h1 = with_crc msg ++ rest ->
  u8BufferSize h1 = Z.of_nat (length (with_crc msg)) ->
  (1 <= length body)%nat ->
  (length (with_crc msg) <= 255)%nat ->
  Forall is_byte msg ->
  isSupported func = true ->
  (func = 1 \/ func = 2 ->
   (Z.to_nat bc <= length tail)%nat
   /\ (Z.to_nat bc <= 2 * length (u16regsCoils h))%nat) ->
  (func = 3 \/ func = 4 ->
   (2 * Z.to_nat (bc / 2) <= length tail)%nat
   /\ (Z.to_nat (bc / 2) <= length (u16regsHR h))%nat) ->
  exists h3,
    validateAnswer h1 = Some (0, h1)
    /\ master_on_notify telegram vTimerCallbackT35_value h = Some (tt, h3)
    /\ notified (trace h3)
       = notified (trace h) ++ [(tg_u32CurrentTask telegram, u32 ERR_OK_QUERY)]
    /\ i8state h3 = i8 COM_IDLE
    /\ i8lastError h3 = 0
    /\ u16regsCoils h3
       = (if (func =? 1) || (func =? 2)
          then unpack_coils (take (Z.to_nat bc) tail) (u16regsCoils h)
          else u16regsCoils h)
    /\ u16regsHR h3
       = (if (func =? 3) || (func =? 4)
          then decode_regs (take (2 * Z.to_nat (bc / 2)) tail)
                 ++ drop (Z.to_nat (bc / 2)) (u16regsHR h)
          else u16regsHR h).
Proof.
  intros msg tail Hrx Hbuf Hsize Hbody Hlen Hmsg Hsup Hc Hr.
  destruct (getRxBuffer_effect _ _ _ Hrx) as [Hsame _].
  destruct Hsame as [_ _ _ _ HsHR _ HsCoils _ _ _ _ _ _ _ _ HsNot].
  cbn [u16regsHR u16regsCoils trace set_i8lastError] in *.
  rewrite <- HsCoils, <- HsHR, <- HsNot in *.
  assert (Hlm : (length msg <= 253)%nat).
  { unfold with_crc, crc_wire in Hlen. rewrite length_app in Hlen.
    cbn [length] in Hlen. lia. }
  assert (Hcells : u8Buffer h1 = b0 :: func :: bc :: tail).
  { unfold tail. rewrite Hbuf. reflexivity. }
  assert (Hbc : 0 <= bc <= 255).
  { inversion Hmsg as [|? ? _ Hm1]; inversion Hm1 as [|? ? _ Hm2];
      inversion Hm2 as [|? ? Hb _]. unfold is_byte in Hb. lia. }
  assert (Hsz : 6 <= u8BufferSize h1 <= 255).
  { rewrite Hsize. unfold with_crc, crc_wire. rewrite length_app.
    unfold with_crc, crc_wire in Hlen. rewrite length_app in Hlen.
    unfold msg in *. cbn [length] in *. lia. }
  assert (Hval : forall tr, validateAnswer (set_trace tr h1) = Some (0, set_trace tr h1)).
  { intros tr. apply (validateAnswer_accepts _ func);
      [|cbn [u8Buffer set_trace]; rewrite Hcells; reflexivity|exact Hsup].
    apply (crc_matches_valid _ msg rest);
      [exact Hbuf | exact Hsize | exact Hmsg | exact Hlm]. }
  assert (Hval1 : validateAnswer h1 = Some (0, h1)).
  { apply (validateAnswer_accepts _ func); [|rewrite Hcells; reflexivity|exact Hsup].
    apply (crc_matches_valid _ msg rest); assumption. }
  unfold master_on_notify, vTimerCallbackT35_value. cbn [Z.eqb negb].
  unfold bind at 1. cbn [modify].
  unfold bind at 1. rewrite Hrx.
  unfold bind at 1. cbn [gets].
  destruct (Z.ltb_spec (u8BufferSize h1) 6) as [?|_]; [lia|].
  unfold bind at 1. unfold emit at 1. cbn [modify].
  unfold bind at 1. rewrite Hval.
  change (i8 0) with 0. cbn [Z.eqb negb].
  msimpl. unfold master_dispatch. msimpl. rewrite Hcells. arr_get_step. msimpl.
  destruct (isSupported_codes func Hsup) as [->|[->|[->|[->|[->|[->|[->| ->]]]]]]];
    cbn [Z.eqb orb MB_FC_READ_COILS MB_FC_READ_DISCRETE_INPUT MB_FC_READ_REGISTERS
         MB_FC_READ_INPUT_REGISTER].
  1,2: destruct Hc as [Hc1 Hc2]; [tauto|];
    erewrite (get_FC1_payload _ b0 _ bc tail); msimpl;
      [ eexists; split; [exact Hval1|]; split; [reflexivity|]; msimpl;
        rewrite !notified_app; cbn [notified app];
        rewrite ?app_nil_r; repeat split; reflexivity
      | exact Hcells | exact Hbc | exact Hc1 | exact Hc2 ].
  1,2: destruct Hr as [Hr1 Hr2]; [tauto|];
    erewrite (get_FC3_payload _ b0 _ bc (take (2 * Z.to_nat (bc / 2)) tail)
                (drop (2 * Z.to_nat (bc / 2)) tail)); msimpl;
      [ eexists; split; [exact Hval1|]; split; [reflexivity|]; msimpl;
        rewrite !notified_app; cbn [notified app];
        rewrite ?app_nil_r; repeat split; reflexivity
      | rewrite take_drop; exact Hcells | exact Hbc
      | rewrite length_take; lia | exact Hr2 ].
  all: msimpl; eexists; split; [exact Hval1|]; split; [reflexivity|]; msimpl;
    rewrite !notified_app; cbn [notified app];
    rewrite ?app_nil_r; repeat split; reflexivity.
Qed.

(** C10.  The ring of the master holds a frame with a valid CRC and a
    supported function byte (whose bit 0x80 is then clear).  Whatever the ID
    byte [b0] of the frame and whatever the telegram asked, the master,
    woken by T3.5, drains the ring, [validateAnswer] returns 0, the payload
    is parsed into the caller's array (the coil bank for functions 1 and 2,
    the holding bank for 3 and 4) and the originator is notified with
    OK_QUERY.  The frame is taken to fit the ring and the frame buffer, and
    the byte count it announces to lie within the frame buffer and the
    caller's array. *)
Theorem master_accepts_any_station_id (h : modbusHandler_t) (telegram : modbus_t)
    (b0 func bc : Z) (body : list Z) :
  let f := with_crc (b0 :: func :: bc :: body) in
  let tail := drop 3 (f ++ drop (length f) (u8Buffer h)) in
  (1 <= length body)%nat ->
  Z.of_nat (length f) < MAX_BUFFER ->
  MAX_BUFFER <= 256 ->
  (length f <= length (uxBuffer (xBufferRX h)))%nat ->
  (length f <= length (u8Buffer h))%nat ->
  Forall is_byte (b0 :: func :: bc :: body) ->
  isSupported func = true ->
  (func = 1 \/ func = 2 ->
   (Z.to_nat bc <= length tail)%nat
   /\ (Z.to_nat bc <= 2 * length (u16regsCoils h))%nat) ->
  (func = 3 \/ func = 4 ->
   (2 * Z.to_nat (bc / 2) <= length tail)%nat
   /\ (Z.to_nat (bc / 2) <= length (u16regsHR h))%nat) ->
  exists h1 h3,
    getRxBuffer (set_i8lastError 0 (received f h)) = Some (Z.of_nat (length f), h1)
    /\ validateAnswer h1 = Some (0, h1)
    /\ master_on_notify telegram vTimerCallbackT35_value (received f h) = Some (tt, h3)
    /\ notified (trace h3)
       = notified (trace h) ++ [(tg_u32CurrentTask telegram, u32 ERR_OK_QUERY)]
    /\ i8state h3 = i8 COM_IDLE
    /\ i8lastError h3 = 0
    /\ u16regsCoils h3
       = (if (func =? 1) || (func =? 2)
          then unpack_coils (take (Z.to_nat bc) tail) (u16regsCoils h)
          else u16regsCoils h)
    /\ u16regsHR h3
       = (if (func =? 3) || (func =? 4)
          then decode_regs (take (2 * Z.to_nat (bc / 2)) tail)
                 ++ drop (Z.to_nat (bc / 2)) (u16regsHR h)
          else u16regsHR h).
Proof.
  intros f tail Hbody Hmax H256 Hux Hbuf Hmsg Hsup Hc Hr.
  destruct (getRxBuffer_received (set_i8lastError 0 h) f Hux Hbuf Hmax H256)
    as (h1 & Hrx & Hb1 & Hs1).
  change (received f (set_i8lastError 0 h))
    with (set_i8lastError 0 (received f h)) in Hrx.
  cbn [u8Buffer set_i8lastError] in Hb1.
  destruct (master_on_notify_answer (received f h) h1 telegram (Z.of_nat (length f))
              b0 func bc body (drop (length f) (u8Buffer h)))
    as (h3 & Hval & Hrun & Hnot & Hst & Herr & Hcoils & Hhr);
    try assumption.
  - subst f. lia.
  - rewrite Hb1. exact Hc.
  - rewrite Hb1. exact Hr.
  - exists h1, h3. rewrite Hb1 in Hcoils, Hhr.
    repeat split; assumption.
Qed.


End Master.

Section Codec.
Context `{ModbusHeader}.

(** C1.  For every byte sequence [b] (at most 255 bytes, the range of the
    8-bit length argument), [calcCRC] returns the reference CRC-16/Modbus of
    [b] with its two bytes exchanged; [sendTxBuffer], which stores the high
    byte of that result and then its low byte, therefore puts the low byte
    of the CRC on the wire first (for a message of at most 253 bytes, so
    that the 8-bit frame length does not wrap).  For 01 04 02 FF FF the
    reference CRC is 0x80B8, [calcCRC] returns it byte-exchanged, and the
    bytes that travel are B8 then 80. *)
Theorem calcCRC_wire_order (b : list Z) :
  Forall is_byte b ->
  (length b <= 255)%nat ->
  calcCRC b (Z.of_nat (length b)) = Some (swap16 (crc16_modbus b))
  /\ (forall (h : modbusHandler_t) (post : list Z),
        u8Buffer h = b ++ post ->
        u8BufferSize h = Z.of_nat (length b) ->
        (length b <= 253)%nat ->
        (2 <= length post)%nat ->
        exists h',
          sendTxBuffer h = Some (tt, h')
          /\ transmitted (trace h')
             = transmitted (trace h) ++ [b ++ crc_wire (crc16_modbus b)])
  /\ (crc16_modbus [1; 4; 2; 255; 255] = 32952
      /\ calcCRC [1; 4; 2; 255; 255] 5 = Some (swap16 32952)
      /\ crc_wire 32952 = [184; 128]).
Proof.
  intros Hb Hlen. split; [|split].
  - pose proof (calcCRC_prefix b [] Hb) as Hc. rewrite app_nil_r in Hc. exact Hc.
  - intros h post Hbuf Hsize Hl Hpost.
    eexists. split; [apply (sendTxBuffer_frame h b post); assumption|].
    unfold sent. cbn [trace set_trace set_u16OutCnt set_u8BufferSize].
    rewrite transmitted_app, transmitted_tx_events. reflexivity.
  - repeat split.
Qed.

End Codec.

(** ** The engine run on concrete frames *)



Section Runs.

#[local] Existing Instance sample_header.


(** C2 (the code departs from the claim).  A slave with three holding
    registers and one register of coils.  Function 6 at start address 3,
    one past the bank, passes [validateRequest] (result 0), and
    [process_FC6] then writes outside the bank; function 5 at coil 16, the
    first coil past the bank, passes as well, and [process_FC5] then reads
    outside the bank.  The sibling check of function 3 rejects the same
    start address 3 with quantity 1. *)
Theorem validateRequest_one_past_accepted :
  let h6 := holding (with_crc [17; 6; 0; 3; 0; 1]) demo_slave in
  let h5 := holding (with_crc [17; 5; 0; 16; 255; 0]) demo_slave in
  let h3 := holding (with_crc [17; 3; 0; 3; 0; 1]) demo_slave in
  (u16regHR_size h6 = 3 /\ rd_word ADD_HI ADD_LO h6 = Some (3, h6)
   /\ validateRequest h6 = Some (0, h6)
   /\ process_FC6 h6 = None)
  /\ (u16regCoils_size h5 = 1 /\ rd_word ADD_HI ADD_LO h5 = Some (16, h5)
      /\ validateRequest h5 = Some (0, h5)
      /\ process_FC5 h5 = None)
  /\ validateRequest h3 = Some (EXC_ADDR_RANGE, h3).
Proof. vm_compute. repeat split. Qed.

(** C3 (the code departs from the claim).  Three bytes are pushed into a
    cleared ring, so that the count is 3; a drain of 2 bytes returns them
    and leaves the count at 0, not at 3 - 2: the third byte is lost. *)
Theorem RingGetNBytes_partial_drain_empties :
  let r3 := mkRing ([1; 2; 3] ++ replicate 125 0) 0 3 3 false in
  RingAddAll empty_ring [1; 2; 3] = Some r3
  /\ RingCountBytes r3 = 3
  /\ RingGetNBytes r3 [0; 0; 0; 0] 2 = Some (RingClear r3, [1; 2; 0; 0], 2)
  /\ RingCountBytes (RingClear r3) = 0.
Proof. vm_compute. repeat split. Qed.

(** C4 (the code departs from the claim).  A request for four of the three
    holding registers is answered with ILLEGAL_DATA_ADDRESS and a request
    for 126 registers with ILLEGAL_DATA_VALUE; the last error is written but
    the error counter stays at 0.  The sibling path of an unsupported
    function code counts the error. *)
Theorem address_error_not_counted :
  u16errCnt demo_slave = 0
  /\ outcome (StartTaskModbusSlave_body
                (received (with_crc [17; 3; 0; 0; 0; 4]) demo_slave))
     = Some (EXC_ADDR_RANGE, 0, [with_crc [17; 131; 2]])
  /\ outcome (StartTaskModbusSlave_body
                (received (with_crc [17; 3; 0; 0; 0; 126]) demo_slave_130))
     = Some (EXC_REGS_QUANT, 0, [with_crc [17; 131; 3]])
  /\ outcome (StartTaskModbusSlave_body
                (received (with_crc [17; 7; 0; 0; 0]) demo_slave))
     = Some (EXC_FUNC_CODE, 1, [with_crc [17; 135; 1]]).
Proof. vm_compute. repeat split. Qed.

(** C5 (the code departs from the claim).  A request addressed to the slave
    with the unsupported function byte 0x83: the validation fails with
    ILLEGAL_FUNCTION, and the frame transmitted carries the function byte
    0x03, which is not 0x83 | 0x80 and has bit 0x80 clear: the sum
    [u8func + 0x80] of [buildException] has wrapped in its 8-bit cell.  The
    sibling request with the unsupported function byte 0x07 is answered
    with the function byte 0x87. *)
Theorem exception_frame_counterexample :
  let h := holding (with_crc [17; 131; 0; 0; 0]) demo_slave in
  let h7 := holding (with_crc [17; 7; 0; 0; 0]) demo_slave in
  arr_get (u8Buffer h) ID = Some (u8id h)
  /\ arr_get (u8Buffer h) FUNC = Some 131
  /\ validateRequest h = Some (EXC_FUNC_CODE, set_u16errCnt 1 h)
  /\ outcome (slave_frame h) = Some (EXC_FUNC_CODE, 1, [with_crc [17; 3; 1]])
  /\ Z.lor 131 128 <> 3
  /\ Z.land 3 128 = 0
  /\ outcome (slave_frame h7) = Some (EXC_FUNC_CODE, 1, [with_crc [17; 135; 1]])
  /\ Z.lor 7 128 = 135.
Proof. vm_compute. repeat split. discriminate. Qed.

(** C8 (the code departs from the claim).  A request for the first eight
    discrete inputs, on a slave whose coils are all 0 and whose discrete
    inputs are any bank [di].  Whatever the value of the [Database] argument,
    [process_FC1] either answers with the coils (data byte 0, when
    [Database] is 1) or reads through a pointer that was never assigned (no
    defined result): the answer never depends on [di]. *)
Theorem FC2_never_reads_discrete_inputs (Database : Z) (di : list Z) :
  let h := holding (with_crc [17; 2; 0; 0; 0; 8]) (set_discrete_inputs di demo_slave) in
  match outcome (process_FC1 Database h) with
  | Some (_, _, frames) => Database = 1 /\ frames = [with_crc [17; 2; 1; 0]]
  | None => Database <> 1
  end.
Proof.
  intros h. unfold process_FC1.
  destruct (Z.eqb_spec Database 1) as [Heq|Hne].
  - vm_compute. split; [exact Heq | reflexivity].
  - vm_compute. exact Hne.
Qed.

End Runs.

(** ** Instances of the theorems *)

Ltac solve_closed :=
  vm_compute;
  first [ solve [ repeat split;
                  first [ reflexivity
                        | let Hc := fresh "Hc" in intros Hc; discriminate Hc ] ]
        | lia ].

Section Witnesses.

#[local] Existing Instance sample_header.

Lemma calcCRC_wire_order_witness :
  calcCRC [1; 4; 2; 255; 255] 5 = Some (swap16 (crc16_modbus [1; 4; 2; 255; 255]))
  /\ exists h',
       sendTxBuffer (holding [1; 4; 2; 255; 255] demo_slave) = Some (tt, h')
       /\ transmitted (trace h') = [[1; 4; 2; 255; 255; 184; 128]].
Proof.
  assert (Hb : Forall is_byte [1; 4; 2; 255; 255])
    by (repeat constructor; unfold is_byte; lia).
  assert (Hl : (length [1; 4; 2; 255; 255] <= 255)%nat) by solve_closed.
  destruct (calcCRC_wire_order [1; 4; 2; 255; 255] Hb Hl) as (Hcrc & Hsend & _).
  split; [exact Hcrc|].
  apply (Hsend (holding [1; 4; 2; 255; 255] demo_slave) (replicate 123 0));
    [reflexivity | reflexivity | solve_closed | solve_closed].
Defined.

Lemma exception_frame_sent_witness :
  exists h3,
    slave_frame (holding (with_crc [17; 3; 0; 0; 0; 4]) demo_slave)
    = Some (tt, set_i8lastError EXC_ADDR_RANGE h3)
    /\ transmitted (trace h3) = [with_crc [17; 131; 2]].
Proof.
  pose (h := holding (with_crc [17; 3; 0; 0; 0; 4]) demo_slave).
  assert (H1 : u8Buffer h = u8id h :: 3 :: 0 :: drop 3 (u8Buffer h)) by reflexivity.
  assert (H2 : (2 <= length (drop 3 (u8Buffer h)))%nat) by solve_closed.
  assert (H3 : 7 <= u8BufferSize h) by solve_closed.
  assert (H4 : is_byte (u8id h)) by solve_closed.
  assert (H5 : validateRequest h = Some (EXC_ADDR_RANGE, h)) by solve_closed.
  assert (H6 : EXC_ADDR_RANGE <> 0) by solve_closed.
  assert (H7 : EXC_ADDR_RANGE <> u8 ERR_BAD_CRC) by solve_closed.
  assert (H8 : EXC_ADDR_RANGE <> ERR_TIME_OUT) by solve_closed.
  destruct (exception_frame_sent h h EXC_ADDR_RANGE 3 0 (drop 3 (u8Buffer h))
              H1 H2 H3 H4 H5 H6 H7 H8)
    as (h2 & h3 & _ & _ & _ & _ & Hrun & Htx & _).
  exists h3. split; [exact Hrun | exact Htx].
Defined.

Lemma master_timeout_witness :
  exists h',
    master_on_notify (mkTelegram 17 3 0 1 [0] 77) vTimerCallbackTimeout_value
      (set_i8state COM_WAITING demo_master) = Some (tt, h')
    /\ i8state h' = COM_IDLE
    /\ i8lastError h' = ERR_TIME_OUT
    /\ u16errCnt h' = 1
    /\ notified (trace h') = [(77, vTimerCallbackTimeout_value)].
Proof.
  assert (H1 : i8state (set_i8state COM_WAITING demo_master) = COM_WAITING)
    by reflexivity.
  assert (H2 : -128 <= ERR_TIME_OUT <= 127) by solve_closed.
  assert (H3 : ERR_TIME_OUT <> 0) by solve_closed.
  assert (H4 : -128 <= COM_IDLE <= 127) by solve_closed.
  destruct (master_timeout (set_i8state COM_WAITING demo_master)
              (mkTelegram 17 3 0 1 [0] 77) H1 H2 H3 H4)
    as (h' & Hrun & Hst & Herr & Hcnt & _ & _ & Hnot).
  exists h'. repeat split; assumption.
Defined.

Lemma fc3_roundtrip_witness :
  exists r hs' frame,
    process_FC3 DB_HOLDING_REGISTER
      (holding (with_crc [17; 3; 0; 1; 0; 2]) demo_slave) = Some (r, hs')
    /\ transmitted (trace hs') = [frame]
    /\ exists hm',
         get_FC3 (holding frame (set_u16regsHR [0; 0; 0] demo_master)) = Some (tt, hm')
         /\ take 2 (u16regsHR hm') = [258; 65535].
Proof.
  pose (hs := holding (with_crc [17; 3; 0; 1; 0; 2]) demo_slave).
  assert (H1 : u8Buffer hs = 17 :: 3 :: 0 :: 1 :: 0 :: 2 :: drop 6 (u8Buffer hs))
    by reflexivity.
  assert (H2 : is_byte 17) by (unfold is_byte; lia).
  assert (H3 : is_byte 3) by (unfold is_byte; lia).
  assert (H4 : 1 <= word 0 2 <= 125) by solve_closed.
  assert (H5 : Forall is_word (u16regsHR hs))
    by (repeat constructor; unfold is_word; lia).
  assert (H6 : word 0 1 + word 0 2 <= Z.of_nat (length (u16regsHR hs)) <= 65535)
    by solve_closed.
  assert (H7 : 2 * word 0 2 + 5 <= Z.of_nat (length (u8Buffer hs)))
    by solve_closed.
  destruct (fc3_roundtrip hs 17 3 0 1 0 2 (drop 6 (u8Buffer hs)) H1 H2 H3 H4 H5 H6 H7)
    as (r & hs' & frame & Hrun & Htx & Hback).
  exists r, hs', frame. split; [exact Hrun|]. split; [exact Htx|].
  pose (hm := holding frame (set_u16regsHR [0; 0; 0] demo_master)).
  assert (H9 : u8Buffer hm = frame ++ drop (length frame) (u8Buffer demo_master))
    by reflexivity.
  assert (H10 : (Z.to_nat (word 0 2) <= length (u16regsHR hm))%nat)
    by solve_closed.
  destruct (Hback hm _ H9 H10) as (hm' & Hget & Htake & _).
  exists hm'. split; [exact Hget | exact Htake].
Defined.

Lemma foreign_frame_skipped_witness :
  exists h1,
    slave_on_notify (received (with_crc [18; 3; 0; 0; 0; 1]) demo_slave) = Some (tt, h1)
    /\ transmitted (trace h1) = []
    /\ u16regsHR h1 = [10; 258; 65535]
    /\ u16errCnt h1 = 0
    /\ i8lastError h1 = 0
    /\ u16OutCnt h1 = 0.
Proof.
  pose (body := [3; 0; 0; 0; 1] ++ crc_wire (crc16_modbus [18; 3; 0; 0; 0; 1])).
  assert (H1 : xTypeHW demo_slave = USART_HW \/ xTypeHW demo_slave = USART_HW_DMA)
    by (left; reflexivity).
  assert (H2 : 7 <= Z.of_nat (length (18 :: body))) by solve_closed.
  assert (H3 : Z.of_nat (length (18 :: body)) < MAX_BUFFER) by solve_closed.
  assert (H4 : MAX_BUFFER <= 256) by solve_closed.
  assert (H5 : (length (18%Z :: body) <= length (uxBuffer (xBufferRX demo_slave)))%nat)
    by solve_closed.
  assert (H6 : (length (18%Z :: body) <= length (u8Buffer demo_slave))%nat)
    by solve_closed.
  assert (H7 : ~ (7 <= ERR_BUFF_OVERFLOW <= 255))
    by (vm_compute; intros [Hc _]; apply Hc; reflexivity).
  assert (H8 : 18 <> u8id demo_slave) by solve_closed.
  destruct (foreign_frame_skipped demo_slave 18 body H1 H2 H3 H4 H5 H6 H7 H8)
    as ((h1 & Hrun & Htx & Hhr & _ & _ & _ & Herr & Hlast & Hout) & _).
  exists h1.
  split; [exact Hrun|]. split; [exact Htx|]. split; [exact Hhr|].
  split; [exact Herr|]. split; [exact Hlast | exact Hout].
Defined.

Lemma master_accepts_any_station_id_witness :
  exists h3,
    master_on_notify (mkTelegram 17 3 0 1 [0] 77) vTimerCallbackT35_value
      (received (with_crc [34; 3; 2; 0; 42]) (set_u16regsHR [0] demo_master))
    = Some (tt, h3)
    /\ notified (trace h3) = [(77, u32 ERR_OK_QUERY)]
    /\ u16regsHR h3 = [42].
Proof.
  pose (h := set_u16regsHR [0] demo_master).
  pose (body := [0; 42]).
  pose (f := with_crc (34 :: 3 :: 2 :: body)).
  pose (tail := drop 3 (f ++ drop (length f) (u8Buffer h))).
  assert (H1 : (1 <= length body)%nat) by solve_closed.
  assert (H2 : Z.of_nat (length f) < MAX_BUFFER) by solve_closed.
  assert (H3 : MAX_BUFFER <= 256) by solve_closed.
  assert (H4 : (length f <= length (uxBuffer (xBufferRX h)))%nat) by solve_closed.
  assert (H5 : (length f <= length (u8Buffer h))%nat) by solve_closed.
  assert (H6 : Forall is_byte (34 :: 3 :: 2 :: body))
    by (repeat constructor; unfold is_byte; lia).
  assert (H7 : isSupported 3 = true) by reflexivity.
  assert (H8 : 3 = 1 \/ 3 = 2 ->
               (Z.to_nat 2 <= length tail)%nat
               /\ (Z.to_nat 2 <= 2 * length (u16regsCoils h))%nat)
    by (intros [Hc|Hc]; discriminate Hc).
  assert (H9 : 3 = 3 \/ 3 = 4 ->
               (2 * Z.to_nat (2 / 2) <= length tail)%nat
               /\ (Z.to_nat (2 / 2) <= length (u16regsHR h))%nat)
    by (intros _; solve_closed).
  destruct (master_accepts_any_station_id h (mkTelegram 17 3 0 1 [0] 77)
              34 3 2 body H1 H2 H3 H4 H5 H6 H7 H8 H9)
    as (h1 & h3 & _ & _ & Hrun & Hnot & _ & _ & _ & Hhr).
  exists h3. split; [exact Hrun|]. split; [exact Hnot|].
  rewrite Hhr. reflexivity.
Defined.

End Witnesses.

(** * Further properties of the engine *)

(** ** The receive ring as a queue *)

Section RingFacts.
Context `{ModbusHeader}.

Lemma mod_add_small (s k M : Z) :
  0 <= s < M -> 0 <= k <= M ->
  (s + k) mod M = if s + k <? M then s + k else s + k - M.
Proof.
  intros Hs Hk. destruct (Z.ltb_spec (s + k) M).
  - apply Z.mod_small. lia.
  - symmetry. apply (Z.mod_unique_pos _ _ 1); lia.
Qed.

Lemma ring_contents_length (r : modbusRingBuffer_t) :
  length (ring_contents r) = Z.to_nat (u8available r).
Proof. unfold ring_contents. rewrite length_fmap, length_seq. reflexivity. Qed.

Lemma ring_contents_lookup (r : modbusRingBuffer_t) (i : nat) :
  ring_contents r !! i
  = if decide (i < Z.to_nat (u8available r))%nat then Some (ring_cell r i) else None.
Proof.
  unfold ring_contents. rewrite list_lookup_fmap.
  destruct (decide (i < Z.to_nat (u8available r))%nat) as [Hlt|Hge].
  - rewrite lookup_seq_lt by exact Hlt. reflexivity.
  - rewrite lookup_seq_ge by lia. reflexivity.
Qed.

Lemma RingAdd_fifo_aux (r : modbusRingBuffer_t) (b : Z) :
  ring_wf r -> MAX_BUFFER <= 255 ->
  exists r',
    RingAdd r b = Some r'
    /\ ring_wf r'
    /\ RingCountBytes r' = Z.min (RingCountBytes r + 1) MAX_BUFFER
    /\ overflow r' = (RingCountBytes r =? MAX_BUFFER)
    /\ ring_contents r'
       = (if RingCountBytes r =? MAX_BUFFER then drop 1 (ring_contents r)
          else ring_contents r) ++ [b].
Proof.
  intros (Hlen & Hs & Ha & He) Hmax.
  destruct r as [ux s e a ov]. cbn [uxBuffer u8start u8end u8available] in *.
  unfold RingAdd, RingCountBytes. cbn [uxBuffer u8start u8end u8available overflow].
  assert (He' : 0 <= e < MAX_BUFFER) by (subst e; apply Z.mod_pos_bound; lia).
  rewrite arr_set_lt by lia. cbn [mbind option_bind].
  assert (Hend : u8 ((e + 1) mod MAX_BUFFER) = (e + 1) mod MAX_BUFFER).
  { apply u8_id. pose proof (Z.mod_pos_bound (e + 1) MAX_BUFFER). lia. }
  destruct (Z.eqb_spec a MAX_BUFFER) as [Hfull|Hroom].
  - (* full: the oldest byte is overwritten *)
    assert (Hes : e = s).
    { subst e a. rewrite mod_add_small by lia.
      destruct (Z.ltb_spec (s + MAX_BUFFER) MAX_BUFFER); lia. }
    assert (Hst : u8 ((s + 1) mod MAX_BUFFER) = (s + 1) mod MAX_BUFFER).
    { apply u8_id. pose proof (Z.mod_pos_bound (s + 1) MAX_BUFFER). lia. }
    eexists. split; [reflexivity|].
    rewrite Hst, Hend. cbn [u8available overflow]. split; [|split; [|split]].
    + unfold ring_wf. cbn [uxBuffer u8start u8end u8available].
      rewrite length_insert. repeat split; try lia.
      * apply Z.mod_pos_bound. lia.
      * apply Z.mod_pos_bound. lia.
      * subst a. rewrite Hes.
        rewrite (mod_add_small ((s + 1) mod MAX_BUFFER) MAX_BUFFER)
          by (pose proof (Z.mod_pos_bound (s + 1) MAX_BUFFER); lia).
        pose proof (Z.mod_pos_bound (s + 1) MAX_BUFFER).
        destruct (Z.ltb_spec ((s + 1) mod MAX_BUFFER + MAX_BUFFER) MAX_BUFFER); lia.
    + lia.
    + reflexivity.
    + apply list_eq. intros i.
      rewrite ring_contents_lookup. cbn [u8available].
      destruct (decide (i < Z.to_nat a)%nat) as [Hi|Hi].
      * unfold ring_cell. cbn [uxBuffer u8start].
        assert (Hidx : ((s + 1) mod MAX_BUFFER + Z.of_nat i) mod MAX_BUFFER
                       = (s + Z.of_nat (S i)) mod MAX_BUFFER).
        { rewrite Zplus_mod_idemp_l. f_equal. lia. }
        rewrite Hidx.
        destruct (decide (S i < Z.to_nat a)%nat) as [Hlt|Hlast].
        -- rewrite lookup_app_l
             by (rewrite length_drop, ring_contents_length; cbn [u8available]; lia).
           rewrite lookup_drop. rewrite ring_contents_lookup. cbn [u8available].
           destruct (decide (1 + i < Z.to_nat a)%nat); [|lia].
           unfold ring_cell. cbn [uxBuffer u8start].
           rewrite list_lookup_insert_ne; [reflexivity|].
           rewrite Hes. rewrite mod_add_small by lia.
           destruct (Z.ltb_spec (s + Z.of_nat (S i)) MAX_BUFFER); lia.
        -- rewrite lookup_app_r
             by (rewrite length_drop, ring_contents_length; cbn [u8available]; lia).
           rewrite length_drop, ring_contents_length. cbn [u8available].
           replace (i - (Z.to_nat a - 1))%nat with 0%nat by lia.
           cbn [lookup list_lookup].
           replace ((s + Z.of_nat (S i)) mod MAX_BUFFER) with e.
           2:{ rewrite Hes. rewrite mod_add_small by lia.
               destruct (Z.ltb_spec (s + Z.of_nat (S i)) MAX_BUFFER); lia. }
           rewrite list_lookup_insert_eq by lia. reflexivity.
      * symmetry. apply lookup_ge_None_2.
        rewrite length_app, length_drop, ring_contents_length.
        cbn [u8available length]. lia.
  - (* room left *)
    assert (Hav : u8 (a + 1) = a + 1) by (apply u8_id; lia).
    eexists. split; [reflexivity|].
    rewrite Hend, Hav. cbn [u8available overflow]. split; [|split; [|split]].
    + unfold ring_wf. cbn [uxBuffer u8start u8end u8available].
      rewrite length_insert. repeat split; try lia.
      subst e. rewrite Zplus_mod_idemp_l. f_equal. lia.
    + lia.
    + reflexivity.
    + apply list_eq. intros i.
      rewrite ring_contents_lookup. cbn [u8available].
      destruct (decide (i < Z.to_nat (a + 1))%nat) as [Hi|Hi].
      * unfold ring_cell. cbn [uxBuffer u8start].
        destruct (decide (i < Z.to_nat a)%nat) as [Hlt|Hlast].
        -- rewrite lookup_app_l by (rewrite ring_contents_length; cbn [u8available]; lia).
           rewrite ring_contents_lookup. cbn [u8available].
           destruct (decide (i < Z.to_nat a)%nat); [|lia].
           unfold ring_cell. cbn [uxBuffer u8start].
           rewrite list_lookup_insert_ne; [reflexivity|].
           subst e. rewrite !mod_add_small by lia.
           destruct (Z.ltb_spec (s + a) MAX_BUFFER);
             destruct (Z.ltb_spec (s + Z.of_nat i) MAX_BUFFER); lia.
        -- rewrite lookup_app_r by (rewrite ring_contents_length; cbn [u8available]; lia).
           rewrite ring_contents_length. cbn [u8available].
           replace (i - Z.to_nat a)%nat with 0%nat by lia.
           cbn [lookup list_lookup].
           replace ((s + Z.of_nat i) mod MAX_BUFFER) with e
             by (subst e; f_equal; lia).
           rewrite list_lookup_insert_eq by lia. reflexivity.
      * symmetry. apply lookup_ge_None_2.
        rewrite length_app, ring_contents_length. cbn [u8available length]. lia.
Qed.

Lemma RingGetNBytes_loop_fifo (m : nat) :
  forall (fuel k : nat) (ux : list Z) (s e a : Z) (ov : bool) (done todo : list Z) (n : Z),
    Z.of_nat (k + m) = Z.min n a ->
    (m < fuel)%nat ->
    MAX_BUFFER <= Z.of_nat (length ux) ->
    0 <= s < MAX_BUFFER ->
    0 <= a <= MAX_BUFFER ->
    MAX_BUFFER <= 255 ->
    length done = k ->
    (m <= length todo)%nat ->
    RingGetNBytes_loop fuel (mkRing ux ((s + Z.of_nat k) mod MAX_BUFFER) e a ov)
      (done ++ todo) n (Z.of_nat k)
    = Some (mkRing ux ((s + Z.min n a) mod MAX_BUFFER) e a ov,
            done ++ (ring_cell (mkRing ux s e a ov) <$> seq k m) ++ drop m todo,
            Z.min n a).
Proof.
  induction m as [|m IH];
    intros fuel k ux s e a ov done todo n Hc Hfuel Hlen Hs Ha Hmax Hdone Htodo;
    subst k.
  - destruct fuel as [|fuel]; [lia|].
    cbn [RingGetNBytes_loop u8available].
    replace ((Z.of_nat (length done) <? n) && (Z.of_nat (length done) <? a)) with false
      by (symmetry; apply andb_false_iff;
          destruct (Z.ltb_spec (Z.of_nat (length done)) n); destruct (Z.ltb_spec (Z.of_nat (length done)) a);
          auto; lia).
    rewrite <- Hc, Nat.add_0_r. cbn [seq fmap list_fmap app]. rewrite drop_0.
    reflexivity.
  - destruct fuel as [|fuel]; [lia|].
    cbn [RingGetNBytes_loop u8available uxBuffer u8start u8end overflow].
    replace ((Z.of_nat (length done) <? n) && (Z.of_nat (length done) <? a)) with true
      by (symmetry; apply andb_true_iff; split; apply Z.ltb_lt; lia).
    assert (Hidx : 0 <= (s + Z.of_nat (length done)) mod MAX_BUFFER < MAX_BUFFER)
      by (apply Z.mod_pos_bound; lia).
    assert (Hin : (Z.to_nat ((s + Z.of_nat (length done)) mod MAX_BUFFER) < length ux)%nat) by lia.
    destruct (lookup_lt_is_Some_2 ux _ Hin) as [b Hb].
    rewrite arr_get_nonneg, Hb by lia. cbn [mbind option_bind].
    destruct todo as [|t todo]; cbn [length] in Htodo; [lia|].
    rewrite arr_set_middle. cbn [mbind option_bind].
    rewrite (u8_id (Z.of_nat (length done) + 1)) by lia.
    rewrite (u8_id (((s + Z.of_nat (length done)) mod MAX_BUFFER + 1) mod MAX_BUFFER))
      by (pose proof (Z.mod_pos_bound ((s + Z.of_nat (length done)) mod MAX_BUFFER + 1) MAX_BUFFER); lia).
    rewrite Zplus_mod_idemp_l.
    replace (s + Z.of_nat (length done) + 1) with (s + Z.of_nat (S (length done))) by lia.
    replace (Z.of_nat (length done) + 1) with (Z.of_nat (S (length done))) by lia.
    replace (done ++ b :: todo) with ((done ++ [b]) ++ todo)
      by (rewrite <- app_assoc; reflexivity).
    rewrite (IH fuel (S (length done)) ux s e a ov (done ++ [b]) todo n);
      try (rewrite ?length_app; cbn [length]; lia).
    cbn [seq fmap list_fmap skipn]. unfold ring_cell at 2.
    cbn [uxBuffer u8start]. rewrite Hb. cbn [default].
    rewrite <- !app_assoc. reflexivity.
Qed.

Lemma RingGetNBytes_fifo_aux (r : modbusRingBuffer_t) (buffer : list Z) (uNumber : Z) :
  let c := if uNumber >? MAX_BUFFER then 0 else Z.min uNumber (u8available r) in
  ring_wf r ->
  MAX_BUFFER <= 255 ->
  0 <= uNumber <= 255 ->
  (Z.to_nat c <= length buffer)%nat ->
  RingGetNBytes r buffer uNumber
  = Some (if c =? 0 then r else RingClear r,
          take (Z.to_nat c) (ring_contents r) ++ drop (Z.to_nat c) buffer,
          c).
Proof.
  intros c (Hlen & Hs & Ha & He) Hmax Hn Hbuf. subst c.
  destruct r as [ux s e a ov]. cbn [uxBuffer u8start u8end u8available] in *.
  unfold RingGetNBytes. cbn [u8available].
  destruct (Z.eqb_spec a 0) as [Ha0|Ha0]; cbn [orb].
  { subst a. destruct (uNumber >? MAX_BUFFER);
      [|rewrite Z.min_r by lia]; cbn [Z.eqb Z.to_nat firstn app]; rewrite drop_0; reflexivity. }
  destruct (Z.eqb_spec uNumber 0) as [Hn0|Hn0].
  { subst uNumber. destruct (0 >? MAX_BUFFER);
      [|rewrite Z.min_l by lia]; cbn [Z.eqb Z.to_nat firstn app]; rewrite drop_0; reflexivity. }
  destruct (Z.gtb_spec uNumber MAX_BUFFER) as [Hbig|Hfit].
  { cbn [Z.eqb Z.to_nat firstn app]. rewrite drop_0. reflexivity. }
  pose proof (RingGetNBytes_loop_fifo (Z.to_nat (Z.min uNumber a)) 257 0 ux s e a ov []
                buffer uNumber) as Hloop.
  cbn [app length] in Hloop. change (Z.of_nat 0) with 0 in Hloop.
  rewrite Z.add_0_r, (Z.mod_small s) in Hloop by lia.
  rewrite Hloop by (try reflexivity; lia).
  cbn [mbind option_bind]. unfold RingClear. cbn [uxBuffer].
  destruct (Z.eqb_spec (Z.min uNumber a) 0) as [?|_]; [lia|].
  unfold ring_contents. cbn [u8available].
  rewrite <- fmap_take, take_seq.
  replace (Z.to_nat (Z.min uNumber a) `min` Z.to_nat a)%nat
    with (Z.to_nat (Z.min uNumber a)) by lia.
  reflexivity.
Qed.

(** X2.  A drain of a well-formed ring returns the oldest bytes in the order
    they were pushed: as many as asked for, or as the ring holds, whichever
    is less, and none when more than MAX_BUFFER are asked for.  Unless it
    returns no byte, it leaves the ring cleared, whatever it still held.
    MAX_BUFFER is at most 255, as the 8-bit counters of the ring need. *)
Theorem RingGetNBytes_fifo (r : modbusRingBuffer_t) (buffer : list Z) (uNumber : Z) :
  let c := if uNumber >? MAX_BUFFER then 0 else Z.min uNumber (u8available r) in
  ring_wf r ->
  MAX_BUFFER <= 255 ->
  0 <= uNumber <= 255 ->
  (Z.to_nat c <= length buffer)%nat ->
  RingGetNBytes r buffer uNumber
  = Some (if c =? 0 then r else RingClear r,
          take (Z.to_nat c) (ring_contents r) ++ drop (Z.to_nat c) buffer,
          c).
Proof. exact (RingGetNBytes_fifo_aux r buffer uNumber). Qed.

(** X1.  A push into a well-formed ring is always defined and keeps the ring
    well formed.  It appends the byte to the bytes held; when the ring is
    full it drops the oldest byte to make room, leaves the count at
    MAX_BUFFER and raises the overflow flag, and otherwise it counts one
    byte more and lowers the flag. *)
Theorem RingAdd_fifo (r : modbusRingBuffer_t) (b : Z) :
  ring_wf r -> MAX_BUFFER <= 255 ->
  exists r',
    RingAdd r b = Some r'
    /\ ring_wf r'
    /\ RingCountBytes r' = Z.min (RingCountBytes r + 1) MAX_BUFFER
    /\ overflow r' = (RingCountBytes r =? MAX_BUFFER)
    /\ ring_contents r'
       = (if RingCountBytes r =? MAX_BUFFER then drop 1 (ring_contents r)
          else ring_contents r) ++ [b].
Proof. apply RingAdd_fifo_aux. Qed.

Lemma newest_push {A : Type} (n : nat) (c l : list A) (x : A) :
  (length c <= n)%nat ->
  newest n ((if decide (length c = n) then drop 1 c else c) ++ [x] ++ l)
  = newest n (c ++ x :: l).
Proof.
  intros Hc. unfold newest. destruct (decide (length c = n)) as [Hfull|Hroom].
  - destruct c as [|y c]; cbn [length] in *.
    + subst n. cbn [skipn app length]. reflexivity.
    + cbn [skipn app]. rewrite drop_0.
      rewrite !length_app. cbn [length app]. rewrite length_app. cbn [length].
      replace (S (length c + S (length l)) - n)%nat
        with (S (length c + S (length l) - n))%nat by lia.
      cbn [skipn]. reflexivity.
  - reflexivity.
Qed.

Lemma RingAddAll_fifo (l : list Z) :
  forall (r : modbusRingBuffer_t),
    ring_wf r -> MAX_BUFFER <= 255 ->
    exists r',
      RingAddAll r l = Some r'
      /\ ring_wf r'
      /\ ring_contents r' = newest (Z.to_nat MAX_BUFFER) (ring_contents r ++ l)
      /\ (l <> [] ->
          overflow r' = (MAX_BUFFER <? u8available r + Z.of_nat (length l))).
Proof.
  induction l as [|b l IH]; intros r Hwf Hmax.
  - exists r. cbn [RingAddAll]. split; [reflexivity|]. split; [exact Hwf|].
    split; [|congruence].
    rewrite app_nil_r. unfold newest.
    destruct Hwf as (_ & _ & Ha & _).
    rewrite ring_contents_length.
    replace (Z.to_nat (u8available r) - Z.to_nat MAX_BUFFER)%nat with 0%nat by lia.
    rewrite drop_0. reflexivity.
  - destruct (RingAdd_fifo_aux r b Hwf Hmax) as (r1 & Hadd & Hwf1 & Hcnt & Hov & Hcont).
    destruct (IH r1 Hwf1 Hmax) as (r' & Hall & Hwf' & Hcont' & Hov').
    exists r'. cbn [RingAddAll]. rewrite Hadd. cbn [mbind option_bind].
    split; [exact Hall|]. split; [exact Hwf'|].
    unfold RingCountBytes in *.
    pose proof Hwf as (_ & _ & Ha & _).
    split.
    + rewrite Hcont', Hcont.
      rewrite <- (newest_push (Z.to_nat MAX_BUFFER) (ring_contents r) l b)
        by (rewrite ring_contents_length; lia).
      rewrite ring_contents_length.
      destruct (Z.eqb_spec (u8available r) MAX_BUFFER) as [Hfull|Hroom];
        destruct (decide (Z.to_nat (u8available r) = Z.to_nat MAX_BUFFER)); try lia;
        rewrite <- app_assoc; reflexivity.
    + intros _. destruct l as [|b' l].
      * cbn [RingAddAll] in Hall. inversion Hall; subst r'. rewrite Hov.
        cbn [length]. destruct (Z.eqb_spec (u8available r) MAX_BUFFER);
          destruct (Z.ltb_spec MAX_BUFFER (u8available r + Z.of_nat 1)); try reflexivity; lia.
      * rewrite Hov' by discriminate. rewrite Hcnt. cbn [length].
        destruct (Z.ltb_spec MAX_BUFFER (Z.min (u8available r + 1) MAX_BUFFER
                                          + Z.of_nat (S (length l))));
          destruct (Z.ltb_spec MAX_BUFFER (u8available r + Z.of_nat (S (S (length l)))));
          try reflexivity; lia.
Qed.

(** X3.  Bytes pushed into a cleared ring and then drained come back in the
    order they were pushed; when more than MAX_BUFFER bytes were pushed, the
    newest MAX_BUFFER of them come back and the overflow flag was up.
    MAX_BUFFER is at most 255, as the 8-bit counters of the ring need. *)
Theorem ring_push_drain (r : modbusRingBuffer_t) (l buffer : list Z) :
  ring_wf r ->
  u8available r = 0 ->
  MAX_BUFFER <= 255 ->
  l <> [] ->
  (Z.to_nat MAX_BUFFER `min` length l <= length buffer)%nat ->
  exists r',
    RingAddAll r l = Some r'
    /\ RingCountBytes r' = Z.min (Z.of_nat (length l)) MAX_BUFFER
    /\ overflow r' = (MAX_BUFFER <? Z.of_nat (length l))
    /\ RingGetAllBytes r' buffer
       = Some (RingClear r',
               newest (Z.to_nat MAX_BUFFER) l
                 ++ drop (Z.to_nat MAX_BUFFER `min` length l) buffer,
               Z.min (Z.of_nat (length l)) MAX_BUFFER).
Proof.
  intros Hwf Hempty Hmax Hl Hbuf.
  destruct (RingAddAll_fifo l r Hwf Hmax) as (r' & Hall & Hwf' & Hcont & Hov).
  assert (Hc0 : ring_contents r = []).
  { apply length_zero_iff_nil. rewrite ring_contents_length, Hempty. reflexivity. }
  rewrite Hc0 in Hcont. cbn [app] in Hcont.
  assert (Hav : u8available r' = Z.min (Z.of_nat (length l)) MAX_BUFFER).
  { pose proof (ring_contents_length r') as Hlen. rewrite Hcont in Hlen.
    unfold newest in Hlen. rewrite length_drop in Hlen.
    destruct Hwf' as (_ & _ & Ha & _). lia. }
  assert (Hpos : 0 < Z.of_nat (length l)) by (destruct l; [congruence|cbn [length]; lia]).
  pose proof Hwf as (_ & Hs & _ & _).
  exists r'. split; [exact Hall|]. split; [exact Hav|].
  split; [rewrite (Hov Hl), Hempty; reflexivity|].
  unfold RingGetAllBytes.
  pose proof (RingGetNBytes_fifo_aux r' buffer (u8available r') Hwf' Hmax) as Hget.
  cbn zeta in Hget.
  destruct (Z.gtb_spec (u8available r') MAX_BUFFER) as [?|_]; [lia|].
  rewrite Z.min_id in Hget.
  destruct (Z.eqb_spec (u8available r') 0) as [?|_]; [lia|].
  rewrite Hget by lia.
  assert (Htake : take (Z.to_nat (u8available r')) (ring_contents r') = ring_contents r')
    by (rewrite <- ring_contents_length; apply firstn_all).
  rewrite Htake, Hcont.
  replace (Z.to_nat (u8available r')) with (Z.to_nat MAX_BUFFER `min` length l)%nat by lia.
  rewrite Hav. reflexivity.
Qed.

End RingFacts.

(** ** The CRC test *)

Section CrcCheck.
Context `{ModbusHeader}.

Lemma crc_matches_bytes (h : modbusHandler_t) (msg : list Z) (c1 c2 : Z) (rest : list Z) :
  u8Buffer h = msg ++ c1 :: c2 :: rest ->
  u8BufferSize h = Z.of_nat (length msg + 2) ->
  Forall is_byte msg -> is_byte c1 -> is_byte c2 ->
  (length msg <= 253)%nat ->
  crc_matches h
  = Some (bool_decide ([c1; c2] = crc_wire (crc16_modbus msg)), h).
Proof.
  intros Hbuf Hsize Hmsg Hc1 Hc2 Hlen.
  pose proof (crc16_modbus_range msg Hmsg) as Hr.
  unfold is_byte in Hc1, Hc2.
  unfold crc_matches. msimpl. rewrite Hsize, Hbuf.
  replace (Z.of_nat (length msg + 2) - 2) with (Z.of_nat (length msg)) by lia.
  rewrite arr_get_middle. msimpl. rewrite Hbuf.
  replace (Z.of_nat (length msg + 2) - 1) with (Z.of_nat (length (msg ++ [c1])))
    by (rewrite length_app; cbn [length]; lia).
  replace (msg ++ c1 :: c2 :: rest) with ((msg ++ [c1]) ++ c2 :: rest)
    by (rewrite <- app_assoc; reflexivity).
  rewrite arr_get_middle. msimpl. rewrite Hbuf.
  rewrite u8_id by lia. rewrite calcCRC_prefix by exact Hmsg.
  rewrite lor_shift_byte by exact Hc2.
  rewrite u16_id by lia.
  do 2 f_equal.
  unfold swap16, crc_wire.
  pose proof (Z.mod_pos_bound (crc16_modbus msg) 256 ltac:(lia)) as Hm.
  assert (Hq : 0 <= crc16_modbus msg / 256 < 256)
    by (split; [apply Z.div_pos; lia | apply Z.div_lt_upper_bound; lia]).
  destruct (Z.eqb_spec (crc16_modbus msg mod 256 * 256 + crc16_modbus msg / 256)
              (c1 * 256 + c2)) as [Heq|Hne].
  - symmetry. apply bool_decide_eq_true. f_equal; [lia|f_equal; lia].
  - symmetry. apply bool_decide_eq_false. intros Hw. inversion Hw; subst. lia.
Qed.

(** X6.  The CRC test of the two validators accepts a frame exactly when its
    last two bytes are the CRC-16/Modbus of the bytes before them, low byte
    first; the test changes nothing in the handler. *)
Theorem crc_matches_exact (h : modbusHandler_t) (msg : list Z) (c1 c2 : Z)
    (rest : list Z) :
  u8Buffer h = msg ++ c1 :: c2 :: rest ->
  u8BufferSize h = Z.of_nat (length msg + 2) ->
  Forall is_byte msg -> is_byte c1 -> is_byte c2 ->
  (length msg <= 253)%nat ->
  exists ok,
    crc_matches h = Some (ok, h)
    /\ (ok = true <-> [c1; c2] = crc_wire (crc16_modbus msg)).
Proof.
  intros Hbuf Hsize Hmsg Hc1 Hc2 Hlen.
  eexists. split.
  - apply (crc_matches_bytes h msg c1 c2 rest); assumption.
  - apply bool_decide_eq_true.
Qed.

End CrcCheck.

(** ** A turn of the slave task *)

Section Turn.
Context `{ModbusHeader}.

Lemma RingGetNBytes_received (ux buffer f : list Z) :
  (length f <= length ux)%nat ->
  (length f <= length buffer)%nat ->
  Z.of_nat (length f) < MAX_BUFFER ->
  MAX_BUFFER <= 256 ->
  RingGetNBytes
    (mkRing (f ++ drop (length f) ux) 0 (Z.of_nat (length f)) (Z.of_nat (length f)) false)
    buffer (Z.of_nat (length f))
  = Some (mkRing (f ++ drop (length f) ux) 0 0 0 false,
          f ++ drop (length f) buffer, Z.of_nat (length f)).
Proof.
  intros Hux Hbuf Hmax H256.
  unfold RingGetNBytes. cbn [u8available].
  destruct (Z.eqb_spec (Z.of_nat (length f)) 0) as [H0|Hn0].
  - cbn [orb]. destruct f; [|cbn [length] in H0; lia].
    cbn [length app]. rewrite !drop_0. reflexivity.
  - cbn [orb]. destruct (Z.gtb_spec (Z.of_nat (length f)) MAX_BUFFER) as [?|_]; [lia|].
    destruct (RingGetNBytes_loop_copy (length f) 257 0 (length f)
                (f ++ drop (length f) ux) [] buffer
                (Z.of_nat (length f)) false) as [s Hs];
      try (cbn [length]; lia).
    { rewrite length_app. lia. }
    cbn [app] in Hs. change (Z.of_nat 0) with 0 in Hs. rewrite Hs.
    cbn [mbind option_bind]. unfold RingClear. cbn [uxBuffer].
    rewrite drop_0, take_app_length. reflexivity.
Qed.

Lemma getRxBuffer_drained (h : modbusHandler_t) (f : list Z) :
  rx_fits f h ->
  getRxBuffer (received f h) = Some (Z.of_nat (length f), drained f h).
Proof.
  intros (Hux & Hbuf & [Hmax H256]).
  pose proof (RingGetNBytes_received (uxBuffer (xBufferRX h)) (u8Buffer h) f
                Hux Hbuf Hmax H256) as Hget.
  unfold getRxBuffer, received, drained. msimpl.
  destruct (xTypeHW h =? USART_HW); msimpl; unfold RingGetAllBytes;
    cbn [u8available overflow]; msimpl; rewrite Hget; msimpl; rewrite i16_id by lia;
    rewrite <- ?app_assoc, ?app_nil_r; reflexivity.
Qed.

Lemma slave_turn (h : modbusHandler_t) (f : list Z) :
  rx_ready f h ->
  StartTaskModbusSlave_body (received f h)
  = slave_frame (drained f (set_i8lastError 0 h)).
Proof.
  intros (Hhw & Hfits & Hcode).
  unfold StartTaskModbusSlave_body, slave_on_notify.
  unfold bind at 1. unfold modify at 1. unfold bind at 1. unfold gets at 1.
  change (xTypeHW (set_i8lastError 0 (received f h))) with (xTypeHW h).
  assert (Hcond : (xTypeHW h =? USART_HW) || (xTypeHW h =? USART_HW_DMA) = true).
  { destruct Hhw as [-> | ->]; rewrite Z.eqb_refl; [reflexivity | apply orb_true_r]. }
  rewrite Hcond. unfold bind at 1.
  change (set_i8lastError 0 (received f h)) with (received f (set_i8lastError 0 h)).
  rewrite (getRxBuffer_drained (set_i8lastError 0 h) f Hfits).
  destruct (Z.eqb_spec (Z.of_nat (length f)) ERR_BUFF_OVERFLOW) as [?|_]; [contradiction|].
  reflexivity.
Qed.

(** X5.  A frame shorter than 7 bytes, whatever station it names, is not
    answered: the slave records ERR_BAD_SIZE as the last error, counts one
    error and one incoming frame, transmits nothing and leaves the banks as
    they were. *)
Theorem slave_short_frame (h : modbusHandler_t) (f : list Z) :
  rx_ready f h ->
  (length f < 7)%nat ->
  exists h',
    StartTaskModbusSlave_body (received f h) = Some (tt, h')
    /\ i8lastError h' = i8 ERR_BAD_SIZE
    /\ u16errCnt h' = u16 (u16errCnt h + 1)
    /\ u16InCnt h' = u16 (u16InCnt h + 1)
    /\ transmitted (trace h') = transmitted (trace h)
    /\ same_banks h h'.
Proof.
  intros Hrx Hlen. rewrite (slave_turn h f Hrx).
  unfold slave_frame. msimpl. unfold drained at 1. cbn [u8BufferSize].
  destruct (Z.ltb_spec (Z.of_nat (length f)) 7) as [_|?]; [|lia].
  eexists. split; [reflexivity|]. cbn.
  rewrite transmitted_app.
  repeat split; try reflexivity.
  destruct (xTypeHW h =? USART_HW); cbn; rewrite app_nil_r; reflexivity.
Qed.

(** X4.  When the ring has overflowed, the slave discards what the ring
    holds: it clears the ring, leaves the frame buffer alone, records
    ERR_BUFF_OVERFLOW as the last error, counts one error, and transmits
    nothing. *)
Theorem slave_ring_overflow (h : modbusHandler_t) :
  xTypeHW h = USART_HW \/ xTypeHW h = USART_HW_DMA ->
  overflow (xBufferRX h) = true ->
  -32768 <= ERR_BUFF_OVERFLOW <= 32767 ->
  exists h',
    StartTaskModbusSlave_body h = Some (tt, h')
    /\ xBufferRX h' = RingClear (xBufferRX h)
    /\ u8Buffer h' = u8Buffer h
    /\ u8BufferSize h' = u8BufferSize h
    /\ u16InCnt h' = u16InCnt h
    /\ i8lastError h' = i8 ERR_BUFF_OVERFLOW
    /\ u16errCnt h' = u16 (u16errCnt h + 1)
    /\ transmitted (trace h') = transmitted (trace h)
    /\ same_banks h h'.
Proof.
  intros Hhw Hov Hcode.
  assert (Hcond : (xTypeHW h =? USART_HW) || (xTypeHW h =? USART_HW_DMA) = true).
  { destruct Hhw as [-> | ->]; rewrite Z.eqb_refl; [reflexivity | apply orb_true_r]. }
  unfold StartTaskModbusSlave_body, slave_on_notify, getRxBuffer. msimpl.
  rewrite Hcond. msimpl.
  destruct (xTypeHW h =? USART_HW); msimpl; rewrite Hov; msimpl;
    rewrite i16_id, Z.eqb_refl by lia; msimpl;
    (eexists; split; [reflexivity|]); cbn;
    rewrite ?transmitted_app; cbn; rewrite ?app_nil_r;
    repeat split; reflexivity.
Qed.

End Turn.

(** ** Frames with a wrong CRC *)

Section SlaveErrors.
Context `{ModbusHeader}.

Lemma transmitted_drained (f : list Z) (h : modbusHandler_t) :
  transmitted (trace (drained f h)) = transmitted (trace h).
Proof.
  unfold drained. cbn [trace]. rewrite transmitted_app.
  destruct (xTypeHW h =? USART_HW); cbn; rewrite app_nil_r; reflexivity.
Qed.

(** X7.  A frame that names the slave but whose CRC does not match is
    answered: [validateRequest] returns ERR_BAD_CRC as a byte, which is
    positive and is not ERR_TIME_OUT, so the slave counts one error and
    transmits an exception frame that carries that byte as exception
    code. *)
Theorem slave_bad_crc_answered (h : modbusHandler_t) (func c1 c2 : Z) (body : list Z) :
  let msg := u8id h :: func :: body in
  let f := msg ++ [c1; c2] in
  rx_ready f h ->
  (3 <= length body)%nat ->
  Forall is_byte f ->
  [c1; c2] <> crc_wire (crc16_modbus msg) ->
  u8 ERR_BAD_CRC <> 0 ->
  u8 ERR_BAD_CRC <> ERR_TIME_OUT ->
  exists h',
    StartTaskModbusSlave_body (received f h) = Some (tt, h')
    /\ transmitted (trace h')
       = transmitted (trace h) ++ [with_crc [u8id h; u8 (func + 128); u8 ERR_BAD_CRC]]
    /\ i8lastError h' = i8 (u8 ERR_BAD_CRC)
    /\ u16errCnt h' = u16 (u16errCnt h + 1)
    /\ same_banks h h'.
Proof.
  intros msg f Hrx Hbody Hbytes Hcrc Hnz Hnt.
  rewrite (slave_turn h f Hrx).
  destruct Hrx as (_ & (_ & Hbuf & [Hmax H256]) & _).
  destruct body as [|b2 [|b3 [|b4 body]]]; cbn [length] in Hbody; try lia.
  set (h1 := drained f (set_i8lastError 0 h)).
  assert (Hlenf : length f = (length msg + 2)%nat)
    by (unfold f; rewrite length_app; reflexivity).
  assert (Hb1 : u8Buffer h1 = msg ++ c1 :: c2 :: drop (length f) (u8Buffer h)).
  { unfold h1, drained, f. cbn [u8Buffer set_i8lastError].
    rewrite <- app_assoc. reflexivity. }
  assert (Hmsgb : Forall is_byte msg /\ is_byte c1 /\ is_byte c2).
  { unfold f in Hbytes. apply Forall_app in Hbytes. destruct Hbytes as [Hm Hc].
    inversion Hc as [|? ? Hc1 Hc']; subst. inversion Hc'; subst. auto. }
  destruct Hmsgb as (Hmsgb & Hc1 & Hc2).
  assert (Hid : is_byte (u8id h)) by (inversion Hmsgb; assumption).
  assert (Hchk : crc_matches h1 = Some (false, h1)).
  { rewrite (crc_matches_bytes h1 msg c1 c2 (drop (length f) (u8Buffer h)));
      try assumption.
    - rewrite bool_decide_eq_false_2 by exact Hcrc. reflexivity.
    - unfold h1, drained. cbn [u8BufferSize]. rewrite Hlenf. reflexivity.
    - lia. }
  set (e := u8 ERR_BAD_CRC) in *.
  pose proof (u8_range ERR_BAD_CRC) as He. fold e in He.
  set (h2 := set_u16errCnt (u16 (u16errCnt h1 + 1)) h1).
  assert (Hval : validateRequest h1 = Some (e, h2)).
  { unfold validateRequest. unfold bind at 1. rewrite Hchk. cbn [negb].
    unfold incr_errCnt, bind, modify, ret. reflexivity. }
  set (post := body ++ c1 :: c2 :: drop (length f) (u8Buffer h)).
  assert (Hb2 : u8Buffer h2 = u8id h :: func :: b2 :: b3 :: b4 :: post).
  { unfold h2. cbn [u8Buffer set_u16errCnt]. rewrite Hb1. unfold msg, post.
    cbn [app]. reflexivity. }
  set (frame := [u8id h; u8 (func + 128); e]).
  set (h3 := set_u8BufferSize EXCEPTION_SIZE
               (set_u8Buffer (u8id h2 :: u8 (func + 128) :: e :: b3 :: b4 :: post) h2)).
  assert (Hbe : buildException e h2 = Some (tt, h3)).
  { apply (buildException_frame h2 e (u8id h) func b2 (b3 :: b4 :: post)). exact Hb2. }
  assert (Hsend : sendTxBuffer h3
                  = Some (tt, sent (frame ++ crc_wire (crc16_modbus frame))
                                (drop 2 (b3 :: b4 :: post)) h3)).
  { apply sendTxBuffer_frame.
    - reflexivity.
    - reflexivity.
    - unfold frame.
      constructor; [exact Hid|]. constructor; [apply u8_range|].
      constructor; [exact He|]. constructor.
    - unfold frame. cbn [length]. lia.
    - cbn [length]. lia. }
  eexists. split.
  { unfold slave_frame. msimpl.
    change (u8BufferSize h1) with (Z.of_nat (length f)).
    destruct (Z.ltb_spec (Z.of_nat (length f)) 7) as [Hlt|_];
      [rewrite Hlenf in Hlt; unfold msg in Hlt; cbn [length] in Hlt; lia|].
    rewrite Hb1. unfold msg at 1.
    change (arr_get ((u8id h :: func :: b2 :: b3 :: b4 :: body) ++ _) ID)
      with (Some (u8id h)).
    cbv beta iota. change (u8id h1) with (u8id h). rewrite Z.eqb_refl. cbn [negb].
    rewrite Hval.
    assert (Hgt : (e >? 0) = true) by lia. rewrite Hgt.
    destruct (Z.eqb_spec e ERR_TIME_OUT) as [?|_]; [contradiction|]. cbn [negb].
    rewrite Hbe, Hsend. reflexivity. }
  cbn [i8lastError set_i8lastError].
  split; [|split; [reflexivity|split; [reflexivity|repeat split; reflexivity]]].
  unfold sent. cbn [trace set_trace set_u16OutCnt set_u8BufferSize set_i8lastError].
  rewrite transmitted_app, transmitted_tx_events.
  change (trace h3) with (trace (drained f (set_i8lastError 0 h))).
  rewrite transmitted_drained. reflexivity.
Qed.

End SlaveErrors.

(** ** The bit macros *)

Lemma bits_small (x n : Z) :
  0 <= n -> (forall k, n <= k -> Z.testbit x k = false) -> 0 <= x < 2 ^ n.
Proof.
  intros Hn Hhigh.
  assert (Hx : x = x mod 2 ^ n).
  { apply Z.bits_inj'. intros k Hk. rewrite Z.testbit_mod_pow2 by exact Hn.
    destruct (Z.ltb_spec k n) as [Hlt|Hge]; cbn [andb]; [reflexivity|].
    apply Hhigh. exact Hge. }
  rewrite Hx. apply Z.mod_pos_bound. apply Z.pow_pos_nonneg; lia.
Qed.

Lemma small_bits (x n k : Z) :
  0 <= x < 2 ^ n -> 0 <= n <= k -> Z.testbit x k = false.
Proof.
  intros Hx Hk. rewrite <- (Z.mod_small x (2 ^ n)) by exact Hx.
  apply Z.mod_pow2_bits_high. exact Hk.
Qed.

Lemma bitRead_testbit (value bit : Z) :
  0 <= bit -> bitRead value bit = Z.b2z (Z.testbit value bit).
Proof.
  intros Hb. unfold bitRead. change 1 with (Z.ones 1) at 1.
  rewrite Z.land_ones by lia. change (2 ^ 1) with 2.
  rewrite <- Z.bit0_mod, Z.shiftr_spec by lia. reflexivity.
Qed.

Lemma bitRead_eqb (value bit : Z) :
  0 <= bit -> negb (bitRead value bit =? 0) = Z.testbit value bit.
Proof.
  intros Hb. rewrite bitRead_testbit by exact Hb.
  destruct (Z.testbit value bit); reflexivity.
Qed.

Lemma bitWrite_testbit (value bit : Z) (x : bool) (k : Z) :
  0 <= bit < 32 -> 0 <= k < 32 ->
  Z.testbit (bitWrite value bit x) k = if k =? bit then x else Z.testbit value k.
Proof.
  intros Hb Hk. unfold bitWrite, bitSet, bitClear, u32.
  destruct x.
  - rewrite Z.lor_spec, Z.shiftl_1_l, Z.pow2_bits_eqb by lia.
    rewrite (Z.eqb_sym bit k).
    destruct (k =? bit); [apply orb_true_r | apply orb_false_r].
  - change 4294967296 with (2 ^ 32).
    rewrite Z.land_spec, Z.testbit_mod_pow2, Z.lnot_spec, Z.shiftl_1_l,
      Z.pow2_bits_eqb by lia.
    rewrite (Z.eqb_sym bit k).
    destruct (Z.ltb_spec k 32); [|lia].
    destruct (k =? bit); cbn [negb andb]; [apply andb_false_r | apply andb_true_r].
Qed.

Lemma bitWrite_high (value bit : Z) (x : bool) (n k : Z) :
  0 <= value < 2 ^ n -> 0 <= bit < n -> 0 <= n <= k ->
  Z.testbit (bitWrite value bit x) k = false.
Proof.
  intros Hv Hb Hk. unfold bitWrite, bitSet, bitClear.
  destruct x.
  - rewrite Z.lor_spec, Z.shiftl_1_l, Z.pow2_bits_eqb by lia.
    rewrite (small_bits value n k) by assumption.
    destruct (Z.eqb_spec bit k); [lia|reflexivity].
  - rewrite Z.land_spec, (small_bits value n k) by assumption. reflexivity.
Qed.

Lemma bitWrite_range (value bit : Z) (x : bool) (n : Z) :
  0 <= value < 2 ^ n -> 0 <= bit < n ->
  0 <= bitWrite value bit x < 2 ^ n.
Proof.
  intros Hv Hb. apply bits_small; [lia|].
  intros k Hk. apply (bitWrite_high value bit x n k); lia.
Qed.

(** ** Write requests *)

Section SlaveWrites.
Context `{ModbusHeader}.

Lemma slave_frame_dispatch (h1 : modbusHandler_t) (func : Z) (rest : list Z) :
  u8Buffer h1 = u8id h1 :: func :: rest ->
  7 <= u8BufferSize h1 ->
  validateRequest h1 = Some (0, h1) ->
  slave_frame h1
  = match slave_dispatch (set_trace (trace h1 ++ [EvSemTake]) (set_i8lastError 0 h1)) with
    | Some (_, h') => Some (tt, set_trace (trace h' ++ [EvSemGive]) h')
    | None => None
    end.
Proof.
  intros Hbuf Hsize Hval. unfold slave_frame. msimpl.
  destruct (Z.ltb_spec (u8BufferSize h1) 7); [lia|].
  rewrite Hbuf. change (arr_get (u8id h1 :: func :: rest) ID) with (Some (u8id h1)).
  cbv beta iota. rewrite Z.eqb_refl. cbn [negb]. rewrite Hval.
  reflexivity.
Qed.

Lemma process_FC6_echo (h : modbusHandler_t) (b0 ahi alo vhi vlo : Z) (post : list Z) :
  let msg := [b0; MB_FC_WRITE_REGISTER; ahi; alo; vhi; vlo] in
  u8Buffer h = msg ++ post ->
  Forall is_byte msg ->
  (2 <= length post)%nat ->
  word ahi alo < Z.of_nat (length (u16regsHR h)) ->
  process_FC6 h
  = Some (8, sent (with_crc msg) (drop 2 post)
               (set_u8BufferSize 6
                  (set_u16regsHR
                     (<[Z.to_nat (word ahi alo) := word vhi vlo]> (u16regsHR h)) h))).
Proof.
  intros msg Hbuf Hbytes Hpost Hreg.
  pose proof (word_range ahi alo) as Hw.
  unfold process_FC6. msimpl. subst msg. cbn [app] in Hbuf.
  do 4 (rewrite ?Hbuf; arr_get_step; cbv beta iota).
  rewrite arr_set_lt by lia. cbv beta iota.
  match goal with
  | |- match sendTxBuffer ?h6 with _ => _ end = _ =>
      rewrite (sendTxBuffer_frame h6 [b0; MB_FC_WRITE_REGISTER; ahi; alo; vhi; vlo] post);
        try assumption; try reflexivity
  end.
  cbn [length]. lia.
Qed.

(** The handler when the slave has drained the frame [f], taken the
    semaphore and is about to dispatch on the function code. *)
Lemma slave_turn_accepted (h : modbusHandler_t) (func : Z) (body : list Z) :
  let msg := u8id h :: func :: body in
  let f := with_crc msg in
  let h1 := drained f (set_i8lastError 0 h) in
  rx_ready f h ->
  Forall is_byte msg ->
  (3 <= length body)%nat ->
  crc_matches h1 = Some (true, h1)
  /\ (validateRequest h1 = Some (0, h1) ->
      StartTaskModbusSlave_body (received f h)
      = match slave_dispatch (set_trace (trace h1 ++ [EvSemTake]) h1) with
        | Some (_, h') => Some (tt, set_trace (trace h' ++ [EvSemGive]) h')
        | None => None
        end).
Proof.
  intros msg f h1 Hrx Hbytes Hbody.
  pose proof Hrx as (_ & (_ & Hbuf & [Hmax H256]) & _).
  assert (Hlenf : length f = (length msg + 2)%nat)
    by (unfold f, with_crc, crc_wire; rewrite length_app; reflexivity).
  split.
  - apply (crc_matches_valid h1 msg (drop (length f) (u8Buffer h))).
    + reflexivity.
    + reflexivity.
    + exact Hbytes.
    + lia.
  - intros Hval. rewrite (slave_turn h f Hrx). fold h1.
    rewrite (slave_frame_dispatch h1 func
               (body ++ crc_wire (crc16_modbus msg) ++ drop (length f) (u8Buffer h))).
    + reflexivity.
    + unfold h1, drained, f, with_crc. cbn [u8Buffer u8id set_i8lastError].
      unfold msg. rewrite <- app_assoc. reflexivity.
    + change (u8BufferSize h1) with (Z.of_nat (length f)).
      rewrite Hlenf. unfold msg. cbn [length]. lia.
    + exact Hval.
Qed.

Lemma slave_write_register_turn (h : modbusHandler_t) (ahi alo vhi vlo : Z) :
  let msg := [u8id h; MB_FC_WRITE_REGISTER; ahi; alo; vhi; vlo] in
  let f := with_crc msg in
  rx_ready f h ->
  Forall is_byte msg ->
  word ahi alo <= u16regHR_size h ->
  word ahi alo < Z.of_nat (length (u16regsHR h)) ->
  exists h',
    StartTaskModbusSlave_body (received f h) = Some (tt, h')
    /\ u16regsHR h' = <[Z.to_nat (word ahi alo) := word vhi vlo]> (u16regsHR h)
    /\ transmitted (trace h') = transmitted (trace h) ++ [f]
    /\ i8lastError h' = 0
    /\ u16errCnt h' = u16errCnt h
    /\ u16regsRO h' = u16regsRO h
    /\ u16regsCoils h' = u16regsCoils h
    /\ discrete_inputs h' = discrete_inputs h.
Proof.
  intros msg f Hrx Hbytes Hsize Hreg.
  destruct (slave_turn_accepted h MB_FC_WRITE_REGISTER [ahi; alo; vhi; vlo] Hrx Hbytes)
    as [Hcrc Hturn]; [cbn [length]; lia|].
  fold msg f in Hcrc, Hturn.
  set (h1 := drained f (set_i8lastError 0 h)) in *.
  assert (Hval : validateRequest h1 = Some (0, h1)).
  { rewrite (validateRequest_FC6_check h1 ahi alo Hcrc); try reflexivity.
    change (u16regHR_size h1) with (u16regHR_size h).
    destruct (Z.gtb_spec (word ahi alo) (u16regHR_size h)); [lia|reflexivity]. }
  rewrite (Hturn Hval).
  set (h2 := set_trace (trace h1 ++ [EvSemTake]) h1).
  assert (Hproc : slave_dispatch h2
                  = match process_FC6 h2 with
                    | Some (r, h') => Some (tt, set_i8state r h')
                    | None => None
                    end) by reflexivity.
  rewrite Hproc.
  rewrite (process_FC6_echo h2 (u8id h) ahi alo vhi vlo
             (crc_wire (crc16_modbus msg) ++ drop (length f) (u8Buffer h))).
  - eexists. split; [reflexivity|].
    unfold sent. msimpl.
    rewrite !transmitted_app, transmitted_tx_events.
    change (trace h2) with (trace (drained f (set_i8lastError 0 h)) ++ [EvSemTake]).
    rewrite transmitted_app, transmitted_drained.
    cbn [transmitted set_i8lastError trace]. rewrite !app_nil_r.
    repeat split; reflexivity.
  - reflexivity.
  - exact Hbytes.
  - unfold crc_wire. cbn [length app]. lia.
  - exact Hreg.
Qed.

(** X8.  A request to write one holding register (function 6), addressed
    to the slave, with a valid CRC and an address that [validateRequest]
    lets through: the slave stores the value in that register and leaves
    the others alone, answers with the very frame it received, and records
    no error. *)
Theorem slave_write_register (h : modbusHandler_t) (ahi alo vhi vlo : Z) :
  let msg := [u8id h; MB_FC_WRITE_REGISTER; ahi; alo; vhi; vlo] in
  let f := with_crc msg in
  rx_ready f h ->
  Forall is_byte msg ->
  word ahi alo <= u16regHR_size h ->
  word ahi alo < Z.of_nat (length (u16regsHR h)) ->
  exists h',
    StartTaskModbusSlave_body (received f h) = Some (tt, h')
    /\ u16regsHR h' = <[Z.to_nat (word ahi alo) := word vhi vlo]> (u16regsHR h)
    /\ transmitted (trace h') = transmitted (trace h) ++ [f]
    /\ i8lastError h' = 0
    /\ u16errCnt h' = u16errCnt h
    /\ u16regsRO h' = u16regsRO h
    /\ u16regsCoils h' = u16regsCoils h
    /\ discrete_inputs h' = discrete_inputs h.
Proof. exact (slave_write_register_turn h ahi alo vhi vlo). Qed.

Lemma process_FC5_echo (h : modbusHandler_t) (b0 ahi alo vhi vlo w : Z) (post : list Z) :
  let msg := [b0; MB_FC_WRITE_COIL; ahi; alo; vhi; vlo] in
  let c := word ahi alo in
  u8Buffer h = msg ++ post ->
  Forall is_byte msg ->
  (2 <= length post)%nat ->
  u16regsCoils h !! Z.to_nat (c / 16) = Some w ->
  is_word w ->
  process_FC5 h
  = Some (8, sent (with_crc msg) (drop 2 post)
               (set_u8BufferSize 6
                  (set_u16regsCoils
                     (<[Z.to_nat (c / 16) := bitWrite w (c mod 16) (vhi =? 255)]>
                        (u16regsCoils h)) h))).
Proof.
  intros msg c Hbuf Hbytes Hpost Hw Hword.
  pose proof (word_range ahi alo) as Hc. fold c in Hc.
  assert (Hreg : 0 <= c / 16 < 4096)
    by (split; [apply Z.div_pos; lia | apply Z.div_lt_upper_bound; lia]).
  assert (Hbit : 0 <= c mod 16 < 16) by (apply Z.mod_pos_bound; lia).
  pose proof (lookup_lt_Some _ _ _ Hw) as Hlt.
  unfold process_FC5. msimpl. subst msg. cbn [app] in Hbuf.
  do 2 (rewrite ?Hbuf; arr_get_step; cbv beta iota).
  fold c. rewrite (u16_id (c / 16)), (u8_id (c mod 16)) by lia.
  rewrite arr_get_nonneg, Hw by lia. cbv beta iota.
  rewrite ?Hbuf; arr_get_step; cbv beta iota.
  rewrite arr_set_lt by lia. cbv beta iota.
  rewrite u16_id
    by (apply (bitWrite_range w (c mod 16) (vhi =? 255) 16); [exact Hword | lia]).
  match goal with
  | |- match sendTxBuffer ?h6 with _ => _ end = _ =>
      rewrite (sendTxBuffer_frame h6 [b0; MB_FC_WRITE_COIL; ahi; alo; vhi; vlo] post);
        try assumption; try reflexivity
  end.
  cbn [length]. lia.
Qed.

Lemma slave_write_coil_turn (h : modbusHandler_t) (ahi alo vhi vlo w : Z) :
  let msg := [u8id h; MB_FC_WRITE_COIL; ahi; alo; vhi; vlo] in
  let f := with_crc msg in
  let c := word ahi alo in
  rx_ready f h ->
  Forall is_byte msg ->
  (if c mod 16 =? 0 then c / 16 else c / 16 + 1) <= u16regCoils_size h ->
  u16regsCoils h !! Z.to_nat (c / 16) = Some w ->
  is_word w ->
  exists h' w',
    StartTaskModbusSlave_body (received f h) = Some (tt, h')
    /\ u16regsCoils h' = <[Z.to_nat (c / 16) := w']> (u16regsCoils h)
    /\ is_word w'
    /\ (forall k, 0 <= k < 16 ->
        Z.testbit w' k = if k =? c mod 16 then vhi =? 255 else Z.testbit w k)
    /\ transmitted (trace h') = transmitted (trace h) ++ [f]
    /\ i8lastError h' = 0
    /\ u16errCnt h' = u16errCnt h
    /\ u16regsHR h' = u16regsHR h
    /\ u16regsRO h' = u16regsRO h
    /\ discrete_inputs h' = discrete_inputs h.
Proof.
  intros msg f c Hrx Hbytes Hsize Hw Hword.
  pose proof (word_range ahi alo) as Hc. fold c in Hc.
  assert (Hreg : 0 <= c / 16 < 4096)
    by (split; [apply Z.div_pos; lia | apply Z.div_lt_upper_bound; lia]).
  assert (Hbit : 0 <= c mod 16 < 16) by (apply Z.mod_pos_bound; lia).
  destruct (slave_turn_accepted h MB_FC_WRITE_COIL [ahi; alo; vhi; vlo] Hrx Hbytes)
    as [Hcrc Hturn]; [cbn [length]; lia|].
  fold msg f in Hcrc, Hturn.
  set (h1 := drained f (set_i8lastError 0 h)) in *.
  assert (Hval : validateRequest h1 = Some (0, h1)).
  { rewrite (validateRequest_FC5_check h1 ahi alo Hcrc); try reflexivity.
    fold c. change (u16regCoils_size h1) with (u16regCoils_size h).
    rewrite (u16_id (c / 16)) by lia.
    destruct (c mod 16 =? 0).
    - destruct (Z.gtb_spec (c / 16) (u16regCoils_size h)); [lia|reflexivity].
    - rewrite u16_id by lia.
      destruct (Z.gtb_spec (c / 16 + 1) (u16regCoils_size h)); [lia|reflexivity]. }
  rewrite (Hturn Hval).
  set (h2 := set_trace (trace h1 ++ [EvSemTake]) h1).
  assert (Hproc : slave_dispatch h2
                  = match process_FC5 h2 with
                    | Some (r, h') => Some (tt, set_i8state r h')
                    | None => None
                    end) by reflexivity.
  rewrite Hproc.
  rewrite (process_FC5_echo h2 (u8id h) ahi alo vhi vlo w
             (crc_wire (crc16_modbus msg) ++ drop (length f) (u8Buffer h))).
  - eexists _, (bitWrite w (c mod 16) (vhi =? 255)). split; [reflexivity|].
    unfold sent. msimpl.
    rewrite !transmitted_app, transmitted_tx_events.
    change (trace h2) with (trace (drained f (set_i8lastError 0 h)) ++ [EvSemTake]).
    rewrite transmitted_app, transmitted_drained.
    cbn [transmitted set_i8lastError trace]. rewrite !app_nil_r.
    split; [reflexivity|].
    split; [apply (bitWrite_range w (c mod 16) (vhi =? 255) 16); [exact Hword | lia]|].
    split; [intros k Hk; apply bitWrite_testbit; lia|].
    repeat split; reflexivity.
  - reflexivity.
  - exact Hbytes.
  - unfold crc_wire. cbn [length app]. lia.
  - exact Hw.
  - exact Hword.
Qed.

(** X9.  A request to write one coil (function 5), addressed to the slave,
    with a valid CRC and an address that [validateRequest] lets through:
    the slave sets the coil when the value byte NB_HI is 0xFF and clears it
    for every other value, leaves the other coils alone, answers with the
    very frame it received, and records no error. *)
Theorem slave_write_coil (h : modbusHandler_t) (ahi alo vhi vlo w : Z) :
  let msg := [u8id h; MB_FC_WRITE_COIL; ahi; alo; vhi; vlo] in
  let f := with_crc msg in
  let c := word ahi alo in
  rx_ready f h ->
  Forall is_byte msg ->
  (if c mod 16 =? 0 then c / 16 else c / 16 + 1) <= u16regCoils_size h ->
  u16regsCoils h !! Z.to_nat (c / 16) = Some w ->
  is_word w ->
  exists h' w',
    StartTaskModbusSlave_body (received f h) = Some (tt, h')
    /\ u16regsCoils h' = <[Z.to_nat (c / 16) := w']> (u16regsCoils h)
    /\ is_word w'
    /\ (forall k, 0 <= k < 16 ->
        Z.testbit w' k = if k =? c mod 16 then vhi =? 255 else Z.testbit w k)
    /\ transmitted (trace h') = transmitted (trace h) ++ [f]
    /\ i8lastError h' = 0
    /\ u16errCnt h' = u16errCnt h
    /\ u16regsHR h' = u16regsHR h
    /\ u16regsRO h' = u16regsRO h
    /\ discrete_inputs h' = discrete_inputs h.
Proof. exact (slave_write_coil_turn h ahi alo vhi vlo w). Qed.

Lemma process_FC16_loop_spec (n : nat) :
  forall (s : Z) (k : nat) (h : modbusHandler_t) (pre payload post : list Z),
    u8Buffer h = pre ++ payload ++ post ->
    length pre = (7 + 2 * k)%nat ->
    length payload = (2 * n)%nat ->
    0 <= s ->
    (Z.to_nat s + k + n <= length (u16regsHR h))%nat ->
    Z.of_nat (k + n) <= 65535 ->
    process_FC16_loop n s (Z.of_nat k) h
    = Some (tt, set_u16regsHR
                  (take (Z.to_nat s + k) (u16regsHR h) ++ decode_regs payload
                     ++ drop (Z.to_nat s + k + n) (u16regsHR h)) h).
Proof.
  induction n as [|n IH]; intros s k h pre payload post Hbuf Hpre Hlen Hs Hk Hmax.
  - destruct payload; [|discriminate].
    cbn [process_FC16_loop decode_regs app]. rewrite Nat.add_0_r, take_drop.
    destruct h; reflexivity.
  - destruct payload as [|hi [|lo payload]]; cbn [length] in Hlen; try lia.
    cbn [process_FC16_loop]. msimpl.
    replace (BYTE_CNT + 1 + Z.of_nat k * 2) with (Z.of_nat (length pre))
      by (unfold BYTE_CNT; lia).
    replace (BYTE_CNT + 2 + Z.of_nat k * 2) with (Z.of_nat (length (pre ++ [hi])))
      by (rewrite length_app; cbn [length]; unfold BYTE_CNT; lia).
    rewrite Hbuf. cbn [app]. rewrite arr_get_middle. msimpl.
    rewrite Hbuf. cbn [app].
    replace (pre ++ hi :: lo :: payload ++ post)
      with ((pre ++ [hi]) ++ lo :: payload ++ post)
      by (rewrite <- app_assoc; reflexivity).
    rewrite arr_get_middle. msimpl.
    rewrite arr_set_lt by lia. msimpl.
    rewrite (u16_id (Z.of_nat k + 1)) by lia.
    replace (Z.of_nat k + 1) with (Z.of_nat (S k)) by lia.
    replace (Z.to_nat (s + Z.of_nat k)) with (Z.to_nat s + k)%nat by lia.
    rewrite (IH _ (S k) _ (pre ++ [hi; lo]) payload post).
    + msimpl. cbn [decode_regs app].
      replace (Z.to_nat s + S k)%nat with (S (Z.to_nat s + k)) by lia.
      rewrite (take_S_r (<[(Z.to_nat s + k)%nat:=word hi lo]> (u16regsHR h))
                 (Z.to_nat s + k) (word hi lo))
        by (apply list_lookup_insert_eq; lia).
      rewrite take_insert_ge by lia.
      rewrite drop_insert_lt by lia.
      replace (S (Z.to_nat s + k) + n)%nat with (Z.to_nat s + k + S n)%nat by lia.
      rewrite <- !app_assoc. reflexivity.
    + msimpl. rewrite Hbuf, <- !app_assoc. reflexivity.
    + rewrite length_app. cbn [length]. lia.
    + lia.
    + exact Hs.
    + msimpl. rewrite length_insert. lia.
    + lia.
Qed.

Lemma validateRequest_regs_check (h : modbusHandler_t) (func ahi alo nhi nlo : Z) :
  crc_matches h = Some (true, h) ->
  arr_get (u8Buffer h) FUNC = Some func ->
  func = MB_FC_READ_REGISTERS \/ func = MB_FC_READ_INPUT_REGISTER
  \/ func = MB_FC_WRITE_MULTIPLE_REGISTERS ->
  arr_get (u8Buffer h) ADD_HI = Some ahi ->
  arr_get (u8Buffer h) ADD_LO = Some alo ->
  arr_get (u8Buffer h) NB_HI = Some nhi ->
  arr_get (u8Buffer h) NB_LO = Some nlo ->
  validateRequest h
  = Some ((if word ahi alo + word nhi nlo >? u16regHR_size h then EXC_ADDR_RANGE
           else if u16 (word nhi nlo * 2 + 5) >? 256 then EXC_REGS_QUANT
           else 0), h).
Proof.
  intros Hcrc Hf Hfunc Hahi Halo Hnhi Hnlo.
  unfold validateRequest. unfold bind at 1. rewrite Hcrc. cbn [negb].
  msimpl. rewrite Hf.
  destruct Hfunc as [->|[->| ->]];
    cbn [isSupported fctsupported existsb Z.eqb negb orb
      MB_FC_READ_COILS MB_FC_READ_DISCRETE_INPUT MB_FC_READ_REGISTERS
      MB_FC_READ_INPUT_REGISTER MB_FC_WRITE_COIL MB_FC_WRITE_REGISTER
      MB_FC_WRITE_MULTIPLE_COILS MB_FC_WRITE_MULTIPLE_REGISTERS Pos.eqb];
    rewrite Hahi, Halo, Hnhi, Hnlo;
    destruct (word ahi alo + word nhi nlo >? u16regHR_size h); try reflexivity;
    destruct (u16 (word nhi nlo * 2 + 5) >? 256); reflexivity.
Qed.

Lemma process_FC16_answer (h : modbusHandler_t) (b0 ahi alo nhi nlo b6 : Z)
    (tail : list Z) :
  let start := word ahi alo in
  let n := word nhi nlo in
  u8Buffer h = [b0; MB_FC_WRITE_MULTIPLE_REGISTERS; ahi; alo; nhi; nlo; b6] ++ tail ->
  Forall is_byte [b0; ahi; alo; nhi; nlo] ->
  n <= 125 ->
  (1 <= length tail)%nat ->
  (2 * Z.to_nat n <= length tail)%nat ->
  start + n <= Z.of_nat (length (u16regsHR h)) ->
  let msg := [b0; MB_FC_WRITE_MULTIPLE_REGISTERS; ahi; alo; 0; n] in
  let hr := take (Z.to_nat start) (u16regsHR h)
            ++ decode_regs (take (2 * Z.to_nat n) tail)
            ++ drop (Z.to_nat (start + n)) (u16regsHR h) in
  exists rest,
    process_FC16 h
    = Some (8, sent (with_crc msg) rest
                 (set_u16regsHR hr (set_u8BufferSize 6 h))).
Proof.
  intros start n Hbuf Hbytes Hn Htail1 Htail2 Hbank msg hr.
  pose proof (word_range ahi alo) as Hstart. fold start in Hstart.
  pose proof (word_range nhi nlo) as Hqty. fold n in Hqty.
  assert (Hb : is_byte b0 /\ is_byte ahi /\ is_byte alo /\ is_byte nhi /\ is_byte nlo).
  { inversion Hbytes as [|? ? H0 Hb1]; subst. inversion Hb1 as [|? ? H1 Hb2]; subst.
    inversion Hb2 as [|? ? H2 Hb3]; subst. inversion Hb3 as [|? ? H3 Hb4]; subst.
    inversion Hb4; subst. auto. }
  destruct Hb as (Hb0 & Hahi & Halo & Hnhi & Hnlo).
  unfold is_byte in Hb0, Hahi, Halo, Hnhi, Hnlo.
  unfold process_FC16. msimpl. cbn [app] in Hbuf.
  do 4 (rewrite ?Hbuf; arr_get_step; cbv beta iota).
  rewrite !lor_shift_byte by lia.
  rewrite <- (word_of_bytes ahi alo), <- (word_of_bytes nhi nlo) by (unfold is_byte; lia).
  fold start n. rewrite (u16_id start), (u16_id n), (u8_id n) by lia.
  rewrite Hbuf. arr_set_step. cbv beta iota. cbn [u8Buffer set_u8Buffer].
  arr_set_step. cbv beta iota.
  cbn [insert list_insert Z.to_nat NB_HI NB_LO Pos.to_nat Pos.iter_op Nat.add].
  set (h6 := set_u8BufferSize RESPONSE_SIZE (set_u8Buffer _ _)).
  change (process_FC16_loop (Z.to_nat n) start 0 h6)
    with (process_FC16_loop (Z.to_nat n) start (Z.of_nat 0) h6).
  rewrite (process_FC16_loop_spec (Z.to_nat n) start 0 h6
             [b0; MB_FC_WRITE_MULTIPLE_REGISTERS; ahi; alo; 0; n; b6]
             (take (2 * Z.to_nat n) tail) (drop (2 * Z.to_nat n) tail)).
  - cbv beta iota. cbn [u8BufferSize set_u16regsHR].
    change (u16regsHR h6) with (u16regsHR h).
    rewrite Nat.add_0_r.
    replace (Z.to_nat start + Z.to_nat n)%nat with (Z.to_nat (start + n)) by lia.
    fold hr.
    match goal with
    | |- context [sendTxBuffer ?h7] =>
        rewrite (sendTxBuffer_frame h7 msg (b6 :: tail))
    end.
    + eexists. unfold sent. msimpl. reflexivity.
    + reflexivity.
    + reflexivity.
    + unfold msg, MB_FC_WRITE_MULTIPLE_REGISTERS.
      repeat (constructor; [unfold is_byte; lia|]). constructor.
    + unfold msg. cbn [length]. lia.
    + cbn [length]. lia.
  - unfold h6. cbn [u8Buffer set_u8Buffer set_u8BufferSize app].
    rewrite take_drop. reflexivity.
  - reflexivity.
  - rewrite length_take. lia.
  - lia.
  - change (u16regsHR h6) with (u16regsHR h). lia.
  - lia.
Qed.

Lemma slave_write_registers_turn (h : modbusHandler_t) (ahi alo nhi nlo : Z)
    (body : list Z) :
  let msg := u8id h :: MB_FC_WRITE_MULTIPLE_REGISTERS :: ahi :: alo :: nhi :: nlo :: body in
  let f := with_crc msg in
  let start := word ahi alo in
  let n := word nhi nlo in
  let tail := drop 7 (f ++ drop (length f) (u8Buffer h)) in
  rx_ready f h ->
  Forall is_byte msg ->
  n <= 125 ->
  start + n <= u16regHR_size h ->
  start + n <= Z.of_nat (length (u16regsHR h)) ->
  (2 * Z.to_nat n <= length tail)%nat ->
  exists h',
    StartTaskModbusSlave_body (received f h) = Some (tt, h')
    /\ u16regsHR h'
       = take (Z.to_nat start) (u16regsHR h)
           ++ decode_regs (take (2 * Z.to_nat n) tail)
           ++ drop (Z.to_nat (start + n)) (u16regsHR h)
    /\ transmitted (trace h')
       = transmitted (trace h)
           ++ [with_crc [u8id h; MB_FC_WRITE_MULTIPLE_REGISTERS; ahi; alo; 0; n]]
    /\ i8lastError h' = 0
    /\ u16errCnt h' = u16errCnt h
    /\ u16regsRO h' = u16regsRO h
    /\ u16regsCoils h' = u16regsCoils h
    /\ discrete_inputs h' = discrete_inputs h.
Proof.
  intros msg f start n tail Hrx Hbytes Hn Hsize Hbank Htail.
  pose proof (word_range ahi alo) as Hstart. fold start in Hstart.
  pose proof (word_range nhi nlo) as Hqty. fold n in Hqty.
  destruct (slave_turn_accepted h MB_FC_WRITE_MULTIPLE_REGISTERS
              (ahi :: alo :: nhi :: nlo :: body) Hrx Hbytes)
    as [Hcrc Hturn]; [cbn [length]; lia|].
  fold msg f in Hcrc, Hturn.
  set (h1 := drained f (set_i8lastError 0 h)) in *.
  assert (Hb1 : u8Buffer h1
                = [u8id h; MB_FC_WRITE_MULTIPLE_REGISTERS; ahi; alo; nhi; nlo]
                    ++ body ++ crc_wire (crc16_modbus msg) ++ drop (length f) (u8Buffer h)).
  { unfold h1, drained, f, with_crc, msg. cbn [u8Buffer set_i8lastError app].
    rewrite <- app_assoc. reflexivity. }
  assert (Hval : validateRequest h1 = Some (0, h1)).
  { rewrite (validateRequest_regs_check h1 MB_FC_WRITE_MULTIPLE_REGISTERS ahi alo nhi nlo
               Hcrc); try (rewrite Hb1; reflexivity); [|auto].
    fold start n. change (u16regHR_size h1) with (u16regHR_size h).
    destruct (Z.gtb_spec (start + n) (u16regHR_size h)); [lia|].
    rewrite u16_id by lia.
    destruct (Z.gtb_spec (n * 2 + 5) 256); [lia|reflexivity]. }
  rewrite (Hturn Hval).
  set (h2 := set_trace (trace h1 ++ [EvSemTake]) h1).
  assert (Hproc : slave_dispatch h2
                  = match process_FC16 h2 with
                    | Some (r, h') => Some (tt, set_i8state r h')
                    | None => None
                    end) by (unfold slave_dispatch, h2; msimpl; rewrite Hb1; reflexivity).
  rewrite Hproc.
  set (stale := drop (length f) (u8Buffer h)) in *.
  set (crc := crc_wire (crc16_modbus msg)) in *.
  assert (Hcl : length crc = 2%nat) by reflexivity.
  destruct (body ++ crc ++ stale) as [|b6 tail'] eqn:Hrest.
  { apply (f_equal length) in Hrest. rewrite !length_app in Hrest.
    cbn [length] in Hrest. lia. }
  assert (Htl : tail = tail').
  { unfold tail. fold stale. unfold f, with_crc. fold crc.
    rewrite <- app_assoc. unfold msg at 1. cbn [app skipn].
    rewrite Hrest. reflexivity. }
  assert (Hhead : Forall is_byte [u8id h; ahi; alo; nhi; nlo]).
  { unfold msg in Hbytes.
    inversion Hbytes as [|? ? H0 Hb]; subst. inversion Hb as [|? ? _ Hb']; subst.
    inversion Hb' as [|? ? H2 Hb2]; subst. inversion Hb2 as [|? ? H3 Hb3]; subst.
    inversion Hb3 as [|? ? H4 Hb4]; subst. inversion Hb4 as [|? ? H5 _]; subst.
    repeat (constructor; [assumption|]). constructor. }
  destruct (process_FC16_answer h2 (u8id h) ahi alo nhi nlo b6 tail') as [rest Hrun].
  - unfold h2. cbn [u8Buffer set_trace]. rewrite Hb1. reflexivity.
  - exact Hhead.
  - exact Hn.
  - apply (f_equal length) in Hrest. rewrite !length_app in Hrest.
    cbn [length] in Hrest. lia.
  - rewrite <- Htl. exact Htail.
  - exact Hbank.
  - fold start n in Hrun. rewrite Hrun.
    eexists. split; [reflexivity|].
    unfold sent. msimpl.
    rewrite !transmitted_app, transmitted_tx_events.
    change (trace h2) with (trace (drained f (set_i8lastError 0 h)) ++ [EvSemTake]).
    rewrite transmitted_app, transmitted_drained.
    cbn [transmitted set_i8lastError trace]. rewrite !app_nil_r.
    rewrite Htl.
    repeat split; reflexivity.
Qed.

(** X10.  A request to write [n] holding registers (function 16), addressed
    to the slave, with a valid CRC, at most 125 registers and a range that
    [validateRequest] lets through.  The slave copies [n] big-endian words
    into the registers from the start address on, taking them from offset 7
    of the frame buffer: neither the byte count of the request nor the
    length of the frame received is looked at, so that bytes past the end
    of a short request are the CRC and what the buffer held before.  The
    other registers are left alone, and the answer is the header of the
    request with the quantity in one byte. *)
Theorem slave_write_registers (h : modbusHandler_t) (ahi alo nhi nlo : Z)
    (body : list Z) :
  let msg := u8id h :: MB_FC_WRITE_MULTIPLE_REGISTERS :: ahi :: alo :: nhi :: nlo :: body in
  let f := with_crc msg in
  let start := word ahi alo in
  let n := word nhi nlo in
  let tail := drop 7 (f ++ drop (length f) (u8Buffer h)) in
  rx_ready f h ->
  Forall is_byte msg ->
  n <= 125 ->
  start + n <= u16regHR_size h ->
  start + n <= Z.of_nat (length (u16regsHR h)) ->
  (2 * Z.to_nat n <= length tail)%nat ->
  exists h',
    StartTaskModbusSlave_body (received f h) = Some (tt, h')
    /\ u16regsHR h'
       = take (Z.to_nat start) (u16regsHR h)
           ++ decode_regs (take (2 * Z.to_nat n) tail)
           ++ drop (Z.to_nat (start + n)) (u16regsHR h)
    /\ transmitted (trace h')
       = transmitted (trace h)
           ++ [with_crc [u8id h; MB_FC_WRITE_MULTIPLE_REGISTERS; ahi; alo; 0; n]]
    /\ i8lastError h' = 0
    /\ u16errCnt h' = u16errCnt h
    /\ u16regsRO h' = u16regsRO h
    /\ u16regsCoils h' = u16regsCoils h
    /\ discrete_inputs h' = discrete_inputs h.
Proof. exact (slave_write_registers_turn h ahi alo nhi nlo body). Qed.

End SlaveWrites.

(** ** Read requests for registers *)

Section SlaveReads.
Context `{ModbusHeader}.

Lemma process_FC3_answer (h : modbusHandler_t) (Database b0 b1 ahi alo nhi nlo : Z)
    (post regs : list Z) :
  u8Buffer h = b0 :: b1 :: ahi :: alo :: nhi :: nlo :: post ->
  is_byte b0 -> is_byte b1 ->
  (if Database =? DB_HOLDING_REGISTER then Some (u16regsHR h)
   else if Database =? DB_INPUT_REGISTERS then Some (u16regsRO h) else None)
  = Some regs ->
  0 <= word nhi nlo <= 125 ->
  word ahi alo + word nhi nlo <= Z.of_nat (length regs) <= 65535 ->
  2 * word nhi nlo + 5 <= Z.of_nat (length (u8Buffer h)) ->
  let ws := take (Z.to_nat (word nhi nlo)) (drop (Z.to_nat (word ahi alo)) regs) in
  let frame := [b0; b1; 2 * word nhi nlo] ++ encode_regs ws in
  exists r rest buf sz,
    process_FC3 Database h
    = Some (r, sent (with_crc frame) rest (set_u8BufferSize sz (set_u8Buffer buf h))).
Proof.
  intros Hbuf Hb0 Hb1 Hdb Hqty Hbank Hcap ws frame.
  pose proof (word_range ahi alo) as Hstart.
  set (start := word ahi alo) in *. set (qty := word nhi nlo) in *.
  assert (Hlen : Z.of_nat (length post) + 6 = Z.of_nat (length (u8Buffer h)))
    by (rewrite Hbuf; cbn [length]; lia).
  unfold process_FC3. msimpl.
  do 4 (rewrite Hbuf; arr_get_step; msimpl).
  fold start qty.
  rewrite (u8_id qty) by lia. rewrite (u8_id (qty * 2)) by lia.
  rewrite Hbuf. arr_set_step. msimpl.
  rewrite Hdb.
  destruct (Z.gtb_spec (start + qty) 65535) as [?|_]; [lia|].
  rewrite (process_FC3_loop_spec (Z.to_nat qty) regs start _
             [b0; b1; qty * 2] (alo :: nhi :: nlo :: post))
    by (cbn [length]; first [reflexivity | lia]).
  msimpl.
  replace ([b0; b1; qty * 2] ++
           encode_regs (take (Z.to_nat qty) (drop (Z.to_nat start) regs)) ++
           drop (2 * Z.to_nat qty) (alo :: nhi :: nlo :: post))
    with (frame ++ drop (2 * Z.to_nat qty) (alo :: nhi :: nlo :: post))
    by (unfold frame, ws; rewrite <- app_assoc, (Z.mul_comm 2 qty); reflexivity).
  assert (Hws : length ws = Z.to_nat qty).
  { unfold ws. rewrite length_take, length_drop. lia. }
  assert (Hfl : length frame = (3 + 2 * Z.to_nat qty)%nat).
  { unfold frame. rewrite length_app, encode_regs_length, Hws. reflexivity. }
  erewrite sendTxBuffer_frame.
  - eexists _, _, _, _. unfold sent. msimpl. reflexivity.
  - msimpl. reflexivity.
  - msimpl. rewrite Hfl. reflexivity.
  - unfold frame. repeat apply Forall_cons_2; try assumption;
      [unfold is_byte; lia | apply encode_regs_bytes].
  - rewrite Hfl. lia.
  - rewrite length_drop. cbn [length]. lia.
Qed.

Lemma slave_read_registers_turn (h : modbusHandler_t) (func ahi alo nhi nlo : Z) :
  let msg := [u8id h; func; ahi; alo; nhi; nlo] in
  let f := with_crc msg in
  let start := word ahi alo in
  let n := word nhi nlo in
  let bank := if func =? MB_FC_READ_REGISTERS then u16regsHR h else u16regsRO h in
  func = MB_FC_READ_REGISTERS \/ func = MB_FC_READ_INPUT_REGISTER ->
  DB_HOLDING_REGISTER <> DB_INPUT_REGISTERS ->
  rx_ready f h ->
  Forall is_byte msg ->
  n <= 125 ->
  start + n <= u16regHR_size h ->
  start + n <= Z.of_nat (length bank) <= 65535 ->
  2 * n + 5 <= Z.of_nat (length (u8Buffer h)) ->
  exists h',
    StartTaskModbusSlave_body (received f h) = Some (tt, h')
    /\ transmitted (trace h')
       = transmitted (trace h)
           ++ [with_crc ([u8id h; func; 2 * n]
                           ++ encode_regs (take (Z.to_nat n) (drop (Z.to_nat start) bank)))]
    /\ i8lastError h' = 0
    /\ u16errCnt h' = u16errCnt h
    /\ same_banks h h'.
Proof.
  intros msg f start n bank Hfunc Hdb Hrx Hbytes Hn Hsize Hbank Hcap.
  pose proof (word_range ahi alo) as Hstart. fold start in Hstart.
  pose proof (word_range nhi nlo) as Hqty. fold n in Hqty.
  destruct (slave_turn_accepted h func [ahi; alo; nhi; nlo] Hrx Hbytes)
    as [Hcrc Hturn]; [cbn [length]; lia|].
  fold msg f in Hcrc, Hturn.
  set (h1 := drained f (set_i8lastError 0 h)) in *.
  assert (Hval : validateRequest h1 = Some (0, h1)).
  { rewrite (validateRequest_regs_check h1 func ahi alo nhi nlo Hcrc);
      try reflexivity; [|tauto].
    fold start n. change (u16regHR_size h1) with (u16regHR_size h).
    destruct (Z.gtb_spec (start + n) (u16regHR_size h)); [lia|].
    rewrite u16_id by lia.
    destruct (Z.gtb_spec (n * 2 + 5) 256); [lia|reflexivity]. }
  rewrite (Hturn Hval).
  set (h2 := set_trace (trace h1 ++ [EvSemTake]) h1).
  set (db := if func =? MB_FC_READ_REGISTERS then DB_HOLDING_REGISTER
             else DB_INPUT_REGISTERS).
  assert (Hproc : slave_dispatch h2
                  = match process_FC3 db h2 with
                    | Some (r, h') => Some (tt, set_i8state r h')
                    | None => None
                    end).
  { unfold db. destruct Hfunc as [-> | ->]; reflexivity. }
  rewrite Hproc.
  assert (Hid : is_byte (u8id h) /\ is_byte func).
  { inversion Hbytes as [|? ? H0 Hb]; subst. inversion Hb; subst. auto. }
  destruct (process_FC3_answer h2 db (u8id h) func ahi alo nhi nlo
              (crc_wire (crc16_modbus msg) ++ drop (length f) (u8Buffer h)) bank)
    as (r & rest & buf & sz & Hrun).
  - reflexivity.
  - apply Hid.
  - apply Hid.
  - unfold db, bank. change (u16regsHR h2) with (u16regsHR h).
    change (u16regsRO h2) with (u16regsRO h).
    destruct Hfunc as [-> | ->]; cbn [Z.eqb MB_FC_READ_REGISTERS MB_FC_READ_INPUT_REGISTER
                                      Pos.eqb].
    + rewrite Z.eqb_refl. reflexivity.
    + destruct (Z.eqb_spec DB_INPUT_REGISTERS DB_HOLDING_REGISTER) as [Heq|_];
        [congruence|]. rewrite Z.eqb_refl. reflexivity.
  - fold n. lia.
  - fold start n. exact Hbank.
  - fold n. change (u8Buffer h2) with (f ++ drop (length f) (u8Buffer h)).
    destruct Hrx as (_ & (_ & Hbuf & _) & _).
    rewrite length_app, length_drop. lia.
  - fold start n in Hrun. rewrite Hrun.
    eexists. split; [reflexivity|].
    unfold sent. msimpl.
    rewrite !transmitted_app, transmitted_tx_events.
    change (trace h2) with (trace (drained f (set_i8lastError 0 h)) ++ [EvSemTake]).
    rewrite transmitted_app, transmitted_drained.
    cbn [transmitted set_i8lastError trace]. rewrite !app_nil_r.
    repeat split; reflexivity.
Qed.

(** X11.  A request to read [n] registers (function 3 or 4), addressed to
    the slave, with a valid CRC.  For both functions [validateRequest]
    compares the range with the size of the holding bank; function 3 then
    reads the holding bank and function 4 the input bank.  When the range
    lies in the bank read and [n] is at most 125, the slave answers with
    the byte count [2 * n] and the registers, high byte first, and changes
    no bank. *)
Theorem slave_read_registers (h : modbusHandler_t) (func ahi alo nhi nlo : Z) :
  let msg := [u8id h; func; ahi; alo; nhi; nlo] in
  let f := with_crc msg in
  let start := word ahi alo in
  let n := word nhi nlo in
  let bank := if func =? MB_FC_READ_REGISTERS then u16regsHR h else u16regsRO h in
  func = MB_FC_READ_REGISTERS \/ func = MB_FC_READ_INPUT_REGISTER ->
  DB_HOLDING_REGISTER <> DB_INPUT_REGISTERS ->
  rx_ready f h ->
  Forall is_byte msg ->
  n <= 125 ->
  start + n <= u16regHR_size h ->
  start + n <= Z.of_nat (length bank) <= 65535 ->
  2 * n + 5 <= Z.of_nat (length (u8Buffer h)) ->
  exists h',
    StartTaskModbusSlave_body (received f h) = Some (tt, h')
    /\ transmitted (trace h')
       = transmitted (trace h)
           ++ [with_crc ([u8id h; func; 2 * n]
                           ++ encode_regs (take (Z.to_nat n) (drop (Z.to_nat start) bank)))]
    /\ i8lastError h' = 0
    /\ u16errCnt h' = u16errCnt h
    /\ same_banks h h'.
Proof. exact (slave_read_registers_turn h func ahi alo nhi nlo). Qed.

End SlaveReads.

(** ** Queries of the master *)

Section Queries.
Context `{ModbusHeader}.

Lemma highByte_word_byte (w : Z) : is_word w -> u8 (highByte w) = w / 256.
Proof.
  intros Hw. pose proof (highByte_range w Hw) as Hr.
  rewrite u8_id by exact Hr. unfold highByte. rewrite Z.shiftr_div_pow2 by lia.
  reflexivity.
Qed.

Lemma lowByte_word_byte (w : Z) : u8 (lowByte w) = w mod 256.
Proof.
  rewrite lowByte_mod. apply u8_id. apply Z.mod_pos_bound. lia.
Qed.

Lemma query_header_bytes (id fct addr nb : Z) :
  is_byte id -> is_byte fct -> is_word addr -> is_word nb ->
  Forall is_byte (query_header id fct addr nb).
Proof.
  unfold is_byte, is_word, query_header. intros Hid Hf Ha Hn.
  assert (Hd : forall w, 0 <= w < 65536 -> 0 <= w / 256 < 256)
    by (intros w Hw; split; [apply Z.div_pos; lia | apply Z.div_lt_upper_bound; lia]).
  assert (Hm : forall w, 0 <= w mod 256 < 256)
    by (intros w; apply Z.mod_pos_bound; lia).
  repeat (constructor; [unfold is_byte; auto|]). constructor.
Qed.

Lemma word_div_mod (w : Z) : is_word w -> word (w / 256) (w mod 256) = w.
Proof.
  intros Hw. rewrite <- (word_bytes w Hw) at 3.
  rewrite highByte_word_byte, lowByte_word_byte by exact Hw. reflexivity.
Qed.

Lemma SendQuery_read_frame (h : modbusHandler_t) (telegram : modbus_t) :
  let fct := tg_u8fct telegram in
  let msg := query_header (tg_u8id telegram) fct (tg_u16RegAdd telegram)
               (tg_u16CoilsNo telegram) in
  query_ready telegram h ->
  fct = MB_FC_READ_COILS \/ fct = MB_FC_READ_DISCRETE_INPUT
  \/ fct = MB_FC_READ_REGISTERS \/ fct = MB_FC_READ_INPUT_REGISTER ->
  is_word (tg_u16RegAdd telegram) ->
  is_word (tg_u16CoilsNo telegram) ->
  (8 <= length (u8Buffer h))%nat ->
  let h0 := if (fct =? MB_FC_READ_COILS) || (fct =? MB_FC_READ_DISCRETE_INPUT)
            then set_u16regsCoils (tg_u16reg telegram) h
            else set_u16regsHR (tg_u16reg telegram) h in
  SendQuery telegram h
  = Some (0, set_i8lastError 0
               (set_i8state (i8 COM_WAITING)
                  (set_trace
                     (trace h ++ [EvSemTake] ++ tx_events h (with_crc msg) ++ [EvSemGive])
                     (set_u16OutCnt (u16 (u16OutCnt h + 1))
                        (set_u8BufferSize 0
                           (set_u8Buffer (with_crc msg ++ drop 8 (u8Buffer h)) h0)))))).
Proof.
  intros fct msg (Hid & Hst & Htid) Hfct Hadd Hnb Hbuf h0.
  destruct (u8Buffer h) as [|x0 [|x1 [|x2 [|x3 [|x4 [|x5 [|x6 [|x7 rest]]]]]]]] eqn:Hb;
    cbn [length] in Hbuf; try lia.
  unfold SendQuery. msimpl.
  rewrite Hid, Hst, !Z.eqb_refl. cbn [negb].
  destruct (Z.eqb_spec (tg_u8id telegram) 0) as [?|_]; [lia|].
  destruct (Z.gtb_spec (tg_u8id telegram) 247) as [?|_]; [lia|].
  cbn [orb Z.eqb negb].
  fold fct.
  assert (Hmsgb : Forall is_byte msg).
  { apply query_header_bytes; try assumption; unfold is_byte; [lia|].
    unfold MB_FC_READ_COILS, MB_FC_READ_DISCRETE_INPUT, MB_FC_READ_REGISTERS,
      MB_FC_READ_INPUT_REGISTER in Hfct. lia. }
  assert (Hsel : (fct =? MB_FC_READ_COILS) || (fct =? MB_FC_READ_DISCRETE_INPUT)
                 || (fct =? MB_FC_READ_REGISTERS) || (fct =? MB_FC_READ_INPUT_REGISTER)
                 = true).
  { destruct Hfct as [->|[->|[->| ->]]]; reflexivity. }
  rewrite !highByte_word_byte, !lowByte_word_byte by assumption.
  destruct Hfct as [Hf|[Hf|[Hf|Hf]]]; unfold h0; rewrite Hf;
    cbn [Z.eqb Pos.eqb orb MB_FC_READ_COILS MB_FC_READ_DISCRETE_INPUT MB_FC_READ_REGISTERS
         MB_FC_READ_INPUT_REGISTER MB_FC_WRITE_COIL MB_FC_WRITE_MULTIPLE_COILS
         MB_FC_WRITE_REGISTER MB_FC_WRITE_MULTIPLE_REGISTERS];
    msimpl; rewrite Hb;
    repeat (arr_set_step; msimpl);
    cbn [insert list_insert Z.to_nat ID FUNC ADD_HI ADD_LO NB_HI NB_LO Pos.to_nat
         Pos.iter_op Nat.add];
    (match goal with
     | |- context [sendTxBuffer ?h7] =>
         rewrite (sendTxBuffer_frame h7 msg ([x6; x7] ++ rest));
           [|unfold msg, query_header; rewrite ?Hf; reflexivity
            |reflexivity|exact Hmsgb|unfold msg, query_header; cbn [length]; lia
            |cbn [length app]; lia]
     end);
    unfold sent, tx_events; msimpl; rewrite <- !app_assoc; reflexivity.
Qed.

Lemma i8_u8 (x : Z) : -128 <= x <= 127 -> i8 (u8 x) = x.
Proof.
  intros Hx. unfold i8, u8.
  destruct (Z.ltb_spec x 0).
  - replace (x mod 256) with (x + 256)
      by (apply (Z.mod_unique_pos _ _ (-1)); lia).
    replace ((x + 256 + 128) mod 256) with (x + 128)
      by (apply (Z.mod_unique_pos _ _ 1); lia).
    lia.
  - rewrite (Z.mod_small x) by lia. rewrite Z.mod_small by lia. lia.
Qed.

Lemma u8_nonzero (x : Z) : -128 <= x <= 127 -> x <> 0 -> u8 x <> 0.
Proof.
  intros Hx Hn Hz. pose proof (i8_u8 x Hx) as Hi. rewrite Hz in Hi.
  change (i8 0) with 0 in Hi. lia.
Qed.

(** X12.  [SendQuery] refuses to send when the handler is not station 0,
    is not at rest, or the telegram names station 0 or a station above 247.
    The last of these tests that fails decides the code (ERR_BAD_SLAVE_ID
    before ERR_POLLING before ERR_NOT_MASTER); the code is returned and
    stored as last error, and nothing else happens: no byte of the frame
    buffer is written, nothing is transmitted and no bank is bound. *)
Theorem SendQuery_rejected (h : modbusHandler_t) (telegram : modbus_t) :
  let bad_id := (tg_u8id telegram =? 0) || (tg_u8id telegram >? 247) in
  let error := if bad_id then ERR_BAD_SLAVE_ID
               else if negb (i8state h =? COM_IDLE) then ERR_POLLING
               else ERR_NOT_MASTER in
  u8id h <> 0 \/ i8state h <> COM_IDLE \/ bad_id = true ->
  -128 <= error <= 127 ->
  error <> 0 ->
  SendQuery telegram h
  = Some (error, set_trace (trace h ++ [EvSemTake; EvSemGive])
                   (set_i8lastError error h)).
Proof.
  intros bad_id error Hbad Hrange Hnz.
  pose proof (i8_u8 error Hrange) as Hi8.
  pose proof (u8_nonzero error Hrange Hnz) as Hu8.
  unfold SendQuery. msimpl. fold bad_id.
  assert (Herr : (if bad_id then u8 ERR_BAD_SLAVE_ID
                  else if negb (i8state h =? COM_IDLE) then u8 ERR_POLLING
                       else if negb (u8id h =? 0) then u8 ERR_NOT_MASTER else 0)
                 = u8 error).
  { unfold error. destruct bad_id; [reflexivity|].
    destruct (Z.eqb_spec (i8state h) COM_IDLE) as [Hst|Hst]; cbn [negb]; [|reflexivity].
    destruct (Z.eqb_spec (u8id h) 0) as [Hid|Hid]; cbn [negb]; [|reflexivity].
    destruct Hbad as [?|[?|?]]; [contradiction|contradiction|discriminate]. }
  rewrite Herr.
  destruct (Z.eqb_spec (u8 error) 0) as [?|_]; [contradiction|]. cbn [negb].
  msimpl. rewrite Hi8, <- app_assoc. reflexivity.
Qed.

(** X13.  A master at rest that sends a read query (function 1, 2, 3 or 4)
    transmits the station, the function, the address and the quantity, each
    16-bit field high byte first, followed by the CRC; it binds the caller's
    array as coil bank (functions 1 and 2) or holding bank (3 and 4), starts
    waiting (COM_WAITING), clears the last error and counts one frame
    sent. *)
Theorem SendQuery_read (h : modbusHandler_t) (telegram : modbus_t) :
  let fct := tg_u8fct telegram in
  let q := with_crc (query_header (tg_u8id telegram) fct (tg_u16RegAdd telegram)
                       (tg_u16CoilsNo telegram)) in
  query_ready telegram h ->
  fct = MB_FC_READ_COILS \/ fct = MB_FC_READ_DISCRETE_INPUT
  \/ fct = MB_FC_READ_REGISTERS \/ fct = MB_FC_READ_INPUT_REGISTER ->
  is_word (tg_u16RegAdd telegram) ->
  is_word (tg_u16CoilsNo telegram) ->
  (8 <= length (u8Buffer h))%nat ->
  exists h',
    SendQuery telegram h = Some (0, h')
    /\ trace h' = trace h ++ [EvSemTake] ++ tx_events h q ++ [EvSemGive]
    /\ transmitted (trace h') = transmitted (trace h) ++ [q]
    /\ i8state h' = i8 COM_WAITING
    /\ i8lastError h' = 0
    /\ u16OutCnt h' = u16 (u16OutCnt h + 1)
    /\ u16regsCoils h'
       = (if (fct =? MB_FC_READ_COILS) || (fct =? MB_FC_READ_DISCRETE_INPUT)
          then tg_u16reg telegram else u16regsCoils h)
    /\ u16regsHR h'
       = (if (fct =? MB_FC_READ_COILS) || (fct =? MB_FC_READ_DISCRETE_INPUT)
          then u16regsHR h else tg_u16reg telegram).
Proof.
  intros fct q Hready Hfct Hadd Hnb Hbuf.
  rewrite (SendQuery_read_frame h telegram Hready Hfct Hadd Hnb Hbuf).
  eexists. split; [reflexivity|]. fold fct. msimpl.
  split; [reflexivity|].
  split.
  { rewrite !transmitted_app, transmitted_tx_events. cbn [transmitted].
    rewrite app_nil_r. reflexivity. }
  destruct ((fct =? MB_FC_READ_COILS) || (fct =? MB_FC_READ_DISCRETE_INPUT));
    repeat split; reflexivity.
Qed.

End Queries.

(** ** Answers the master refuses *)

Section MasterAnswers.
Context `{ModbusHeader}.

Lemma notified_drained (f : list Z) (h : modbusHandler_t) :
  notified (trace (drained f h)) = notified (trace h).
Proof.
  unfold drained. cbn [trace]. rewrite notified_app.
  destruct (xTypeHW h =? USART_HW); cbn; rewrite app_nil_r; reflexivity.
Qed.

(** The master once T3.5 has woken it and it has drained the frame [f]. *)
Lemma master_turn (h : modbusHandler_t) (telegram : modbus_t) (f : list Z) :
  rx_fits f h ->
  let h1 := drained f (set_i8lastError 0 h) in
  master_on_notify telegram vTimerCallbackT35_value (received f h)
  = if Z.of_nat (length f) <? 6 then
      Some (tt, set_trace (trace h1 ++ [EvNotify (tg_u32CurrentTask telegram)
                                          (u32 (i8 ERR_BAD_SIZE))])
                  (set_u16errCnt (u16 (u16errCnt h + 1))
                     (set_i8lastError (i8 ERR_BAD_SIZE)
                        (set_i8state (i8 COM_IDLE) h1))))
    else
      match validateAnswer (set_trace (trace h1 ++ [EvTimeoutStop]) h1) with
      | Some (r, h2) =>
          if negb (i8 r =? 0) then
            Some (tt, set_trace (trace h2 ++ [EvNotify (tg_u32CurrentTask telegram)
                                                (u32 (i8 r))])
                        (set_i8lastError (i8 r) (set_i8state (i8 COM_IDLE) h2)))
          else
            match master_dispatch (set_trace (trace h2 ++ [EvSemTake])
                                     (set_i8lastError (i8 r) h2)) with
            | Some (_, h3) =>
                if i8lastError h3 =? 0 then
                  Some (tt, set_trace
                              (trace h3 ++ [EvSemGive;
                                            EvNotify (tg_u32CurrentTask telegram)
                                              (u32 ERR_OK_QUERY)])
                              (set_i8state (i8 COM_IDLE) h3))
                else Some (tt, set_i8state (i8 COM_IDLE) h3)
            | None => None
            end
      | None => None
      end.
Proof.
  intros Hfits h1.
  unfold master_on_notify, vTimerCallbackT35_value. cbn [Z.eqb negb].
  unfold bind at 1. cbn [modify].
  unfold bind at 1.
  change (set_i8lastError 0 (received f h)) with (received f (set_i8lastError 0 h)).
  rewrite (getRxBuffer_drained (set_i8lastError 0 h) f Hfits). fold h1.
  unfold bind at 1. cbn [gets].
  change (u8BufferSize h1) with (Z.of_nat (length f)).
  destruct (Z.of_nat (length f) <? 6).
  - msimpl. reflexivity.
  - unfold bind at 1. unfold emit at 1. cbn [modify].
    unfold bind at 1.
    destruct (validateAnswer (set_trace (trace h1 ++ [EvTimeoutStop]) h1))
      as [[r h2]|]; [|reflexivity].
    destruct (negb (i8 r =? 0)).
    + msimpl. reflexivity.
    + msimpl.
      destruct (master_dispatch (set_trace (trace h2 ++ [EvSemTake])
                                   (set_i8lastError (i8 r) h2))) as [[[] h3]|];
        [|reflexivity].
      msimpl. destruct (i8lastError h3 =? 0); msimpl;
        rewrite <- ?app_assoc; reflexivity.
Qed.

(** X14.  An answer shorter than 6 bytes is refused before it is looked
    at: the master comes to rest, records ERR_BAD_SIZE, counts one error and
    notifies the originator with that code; no bank is written.  The 5-byte
    exception frames that a slave sends are such answers. *)
Theorem master_short_answer (h : modbusHandler_t) (telegram : modbus_t) (f : list Z) :
  rx_fits f h ->
  (length f < 6)%nat ->
  exists h',
    master_on_notify telegram vTimerCallbackT35_value (received f h) = Some (tt, h')
    /\ i8state h' = i8 COM_IDLE
    /\ i8lastError h' = i8 ERR_BAD_SIZE
    /\ u16errCnt h' = u16 (u16errCnt h + 1)
    /\ notified (trace h')
       = notified (trace h) ++ [(tg_u32CurrentTask telegram, u32 (i8 ERR_BAD_SIZE))]
    /\ transmitted (trace h') = transmitted (trace h)
    /\ same_banks h h'.
Proof.
  intros Hfits Hlen. rewrite (master_turn h telegram f Hfits).
  destruct (Z.ltb_spec (Z.of_nat (length f)) 6) as [_|?]; [|lia].
  eexists. split; [reflexivity|]. msimpl.
  rewrite notified_app, transmitted_app, notified_drained, transmitted_drained.
  cbn [notified transmitted trace set_i8lastError]. rewrite app_nil_r.
  repeat split; reflexivity.
Qed.

(** X15.  An answer of at least 6 bytes whose CRC does not match is
    refused: the master counts one error, comes to rest, records
    ERR_BAD_CRC and notifies the originator with that code; nothing is
    transmitted and no bank is written. *)
Theorem master_bad_crc (h : modbusHandler_t) (telegram : modbus_t) (msg : list Z)
    (c1 c2 : Z) :
  let f := msg ++ [c1; c2] in
  rx_fits f h ->
  (4 <= length msg)%nat ->
  Forall is_byte f ->
  [c1; c2] <> crc_wire (crc16_modbus msg) ->
  -128 <= ERR_BAD_CRC <= 127 ->
  ERR_BAD_CRC <> 0 ->
  exists h',
    master_on_notify telegram vTimerCallbackT35_value (received f h) = Some (tt, h')
    /\ i8state h' = i8 COM_IDLE
    /\ i8lastError h' = ERR_BAD_CRC
    /\ u16errCnt h' = u16 (u16errCnt h + 1)
    /\ notified (trace h')
       = notified (trace h) ++ [(tg_u32CurrentTask telegram, u32 ERR_BAD_CRC)]
    /\ transmitted (trace h') = transmitted (trace h)
    /\ same_banks h h'.
Proof.
  intros f Hfits Hlen Hbytes Hcrc Hrange Hnz.
  rewrite (master_turn h telegram f Hfits).
  pose proof Hfits as (_ & _ & [Hmax H256]).
  assert (Hlenf : length f = (length msg + 2)%nat)
    by (unfold f; rewrite length_app; reflexivity).
  destruct (Z.ltb_spec (Z.of_nat (length f)) 6) as [?|_]; [lia|].
  set (h1 := drained f (set_i8lastError 0 h)).
  set (h1' := set_trace (trace h1 ++ [EvTimeoutStop]) h1).
  assert (Hmsgb : Forall is_byte msg /\ is_byte c1 /\ is_byte c2).
  { unfold f in Hbytes. apply Forall_app in Hbytes. destruct Hbytes as [Hm Hc].
    inversion Hc as [|? ? Hc1 Hc']; subst. inversion Hc'; subst. auto. }
  destruct Hmsgb as (Hmsgb & Hc1 & Hc2).
  assert (Hchk : crc_matches h1' = Some (false, h1')).
  { rewrite (crc_matches_bytes h1' msg c1 c2 (drop (length f) (u8Buffer h)));
      try assumption.
    - rewrite bool_decide_eq_false_2 by exact Hcrc. reflexivity.
    - unfold h1', h1, drained, f. cbn [u8Buffer set_trace set_i8lastError].
      rewrite <- app_assoc. reflexivity.
    - unfold h1', h1, drained. cbn [u8BufferSize set_trace]. rewrite Hlenf. reflexivity.
    - lia. }
  assert (Hval : validateAnswer h1'
                 = Some (u8 ERR_BAD_CRC, set_u16errCnt (u16 (u16errCnt h1' + 1)) h1')).
  { unfold validateAnswer. unfold bind at 1. rewrite Hchk. cbn [negb].
    unfold incr_errCnt, bind, modify, ret. reflexivity. }
  rewrite Hval, (i8_u8 ERR_BAD_CRC Hrange).
  destruct (Z.eqb_spec ERR_BAD_CRC 0) as [?|_]; [contradiction|]. cbn [negb].
  eexists. split; [reflexivity|]. msimpl.
  rewrite !notified_app, !transmitted_app.
  change (trace h1') with (trace (drained f (set_i8lastError 0 h)) ++ [EvTimeoutStop]).
  rewrite notified_app, transmitted_app, notified_drained, transmitted_drained.
  cbn [notified transmitted trace set_i8lastError]. rewrite !app_nil_r.
  repeat split; reflexivity.
Qed.

(** X16.  An answer of at least 6 bytes with a valid CRC whose function
    byte has bit 0x80 set is an exception answer: the master counts one
    error, comes to rest, records ERR_EXCEPTION and notifies the originator
    with that code; the exception code carried by the frame is not looked
    at and no bank is written. *)
Theorem master_exception_answer (h : modbusHandler_t) (telegram : modbus_t)
    (b0 func : Z) (body : list Z) :
  let f := with_crc (b0 :: func :: body) in
  rx_fits f h ->
  (2 <= length body)%nat ->
  Forall is_byte (b0 :: func :: body) ->
  Z.land func 128 <> 0 ->
  -128 <= ERR_EXCEPTION <= 127 ->
  ERR_EXCEPTION <> 0 ->
  exists h',
    master_on_notify telegram vTimerCallbackT35_value (received f h) = Some (tt, h')
    /\ i8state h' = i8 COM_IDLE
    /\ i8lastError h' = ERR_EXCEPTION
    /\ u16errCnt h' = u16 (u16errCnt h + 1)
    /\ notified (trace h')
       = notified (trace h) ++ [(tg_u32CurrentTask telegram, u32 ERR_EXCEPTION)]
    /\ transmitted (trace h') = transmitted (trace h)
    /\ same_banks h h'.
Proof.
  intros f Hfits Hlen Hbytes Hbit Hrange Hnz.
  rewrite (master_turn h telegram f Hfits).
  pose proof Hfits as (_ & _ & [Hmax H256]).
  set (msg := b0 :: func :: body) in *.
  assert (Hlenf : length f = (length msg + 2)%nat)
    by (unfold f, with_crc, crc_wire; rewrite length_app; reflexivity).
  destruct (Z.ltb_spec (Z.of_nat (length f)) 6) as [Hlt|_];
    [rewrite Hlenf in Hlt; unfold msg in Hlt; cbn [length] in Hlt; lia|].
  set (h1 := drained f (set_i8lastError 0 h)).
  set (h1' := set_trace (trace h1 ++ [EvTimeoutStop]) h1).
  assert (Hchk : crc_matches h1' = Some (true, h1')).
  { apply (crc_matches_valid h1' msg (drop (length f) (u8Buffer h))).
    - reflexivity.
    - reflexivity.
    - exact Hbytes.
    - lia. }
  assert (Hval : validateAnswer h1'
                 = Some (u8 ERR_EXCEPTION, set_u16errCnt (u16 (u16errCnt h1' + 1)) h1')).
  { unfold validateAnswer. unfold bind at 1. rewrite Hchk. cbn [negb].
    msimpl. unfold h1', h1, drained, f, with_crc, msg.
    cbn [u8Buffer set_trace set_i8lastError app].
    change (arr_get (b0 :: func :: _) FUNC) with (Some func). cbv beta iota.
    destruct (Z.eqb_spec (Z.land func 128) 0) as [?|_]; [contradiction|].
    reflexivity. }
  rewrite Hval, (i8_u8 ERR_EXCEPTION Hrange).
  destruct (Z.eqb_spec ERR_EXCEPTION 0) as [?|_]; [contradiction|]. cbn [negb].
  eexists. split; [reflexivity|]. msimpl.
  rewrite !notified_app, !transmitted_app.
  change (trace h1') with (trace (drained f (set_i8lastError 0 h)) ++ [EvTimeoutStop]).
  rewrite notified_app, transmitted_app, notified_drained, transmitted_drained.
  cbn [notified transmitted trace set_i8lastError]. rewrite !app_nil_r.
  repeat split; reflexivity.
Qed.

(** X27.  An answer of at least 6 bytes with a valid CRC whose function
    byte has bit 0x80 clear and is none of the eight supported codes is
    refused: the master counts one error, comes to rest, records
    EXC_FUNC_CODE (1) and notifies the originator with that code; no bank
    is written. *)
Theorem master_unsupported_answer (h : modbusHandler_t) (telegram : modbus_t)
    (b0 func : Z) (body : list Z) :
  let f := with_crc (b0 :: func :: body) in
  rx_fits f h ->
  (2 <= length body)%nat ->
  Forall is_byte (b0 :: func :: body) ->
  Z.land func 128 = 0 ->
  isSupported func = false ->
  exists h',
    master_on_notify telegram vTimerCallbackT35_value (received f h) = Some (tt, h')
    /\ i8state h' = i8 COM_IDLE
    /\ i8lastError h' = EXC_FUNC_CODE
    /\ u16errCnt h' = u16 (u16errCnt h + 1)
    /\ notified (trace h')
       = notified (trace h) ++ [(tg_u32CurrentTask telegram, EXC_FUNC_CODE)]
    /\ transmitted (trace h') = transmitted (trace h)
    /\ same_banks h h'.
Proof.
  intros f Hfits Hlen Hbytes Hbit Hsup.
  rewrite (master_turn h telegram f Hfits).
  pose proof Hfits as (_ & _ & [Hmax H256]).
  set (msg := b0 :: func :: body) in *.
  assert (Hlenf : length f = (length msg + 2)%nat)
    by (unfold f, with_crc, crc_wire; rewrite length_app; reflexivity).
  destruct (Z.ltb_spec (Z.of_nat (length f)) 6) as [Hlt|_];
    [rewrite Hlenf in Hlt; unfold msg in Hlt; cbn [length] in Hlt; lia|].
  set (h1 := drained f (set_i8lastError 0 h)).
  set (h1' := set_trace (trace h1 ++ [EvTimeoutStop]) h1).
  assert (Hchk : crc_matches h1' = Some (true, h1')).
  { apply (crc_matches_valid h1' msg (drop (length f) (u8Buffer h))).
    - reflexivity.
    - reflexivity.
    - exact Hbytes.
    - lia. }
  assert (Hval : validateAnswer h1'
                 = Some (EXC_FUNC_CODE, set_u16errCnt (u16 (u16errCnt h1' + 1)) h1')).
  { unfold validateAnswer. unfold bind at 1. rewrite Hchk. cbn [negb].
    msimpl. unfold h1', h1, drained, f, with_crc, msg.
    cbn [u8Buffer set_trace set_i8lastError app].
    change (arr_get (b0 :: func :: _) FUNC) with (Some func). cbv beta iota.
    rewrite Hbit, Hsup. reflexivity. }
  rewrite Hval. change (i8 EXC_FUNC_CODE) with 1. cbn [Z.eqb negb].
  eexists. split; [reflexivity|]. msimpl.
  rewrite !notified_app, !transmitted_app.
  change (trace h1') with (trace (drained f (set_i8lastError 0 h)) ++ [EvTimeoutStop]).
  rewrite notified_app, transmitted_app, notified_drained, transmitted_drained.
  cbn [notified transmitted trace set_i8lastError]. rewrite !app_nil_r.
  repeat split; reflexivity.
Qed.

End MasterAnswers.

(** ** Transactions on registers *)

Section Transactions.
Context `{ModbusHeader}.

Lemma SendQuery_single_frame (h : modbusHandler_t) (telegram : modbus_t) (v : Z) :
  let fct := tg_u8fct telegram in
  let nb := if fct =? MB_FC_WRITE_COIL then (if v >? 0 then 65280 else 0) else v in
  let msg := query_header (tg_u8id telegram) fct (tg_u16RegAdd telegram) nb in
  query_ready telegram h ->
  fct = MB_FC_WRITE_COIL \/ fct = MB_FC_WRITE_REGISTER ->
  is_word (tg_u16RegAdd telegram) ->
  tg_u16reg telegram !! 0%nat = Some v ->
  is_word v ->
  (8 <= length (u8Buffer h))%nat ->
  let h0 := if fct =? MB_FC_WRITE_COIL
            then set_u16regsCoils (tg_u16reg telegram) h
            else set_u16regsHR (tg_u16reg telegram) h in
  SendQuery telegram h
  = Some (0, set_i8lastError 0
               (set_i8state (i8 COM_WAITING)
                  (set_trace
                     (trace h ++ [EvSemTake] ++ tx_events h (with_crc msg) ++ [EvSemGive])
                     (set_u16OutCnt (u16 (u16OutCnt h + 1))
                        (set_u8BufferSize 0
                           (set_u8Buffer (with_crc msg ++ drop 8 (u8Buffer h)) h0)))))).
Proof.
  intros fct nb msg (Hid & Hst & Htid) Hfct Hadd Hv Hword Hbuf h0.
  destruct (u8Buffer h) as [|x0 [|x1 [|x2 [|x3 [|x4 [|x5 [|x6 [|x7 rest]]]]]]]] eqn:Hb;
    cbn [length] in Hbuf; try lia.
  unfold SendQuery. msimpl.
  rewrite Hid, Hst, !Z.eqb_refl. cbn [negb].
  destruct (Z.eqb_spec (tg_u8id telegram) 0) as [?|_]; [lia|].
  destruct (Z.gtb_spec (tg_u8id telegram) 247) as [?|_]; [lia|].
  cbn [orb Z.eqb negb].
  fold fct.
  assert (Hnb : is_word nb).
  { unfold nb. destruct (fct =? MB_FC_WRITE_COIL); [|exact Hword].
    destruct (v >? 0); unfold is_word; lia. }
  assert (Hmsgb : Forall is_byte msg).
  { apply query_header_bytes; try assumption; unfold is_byte; [lia|].
    unfold MB_FC_WRITE_COIL, MB_FC_WRITE_REGISTER in Hfct. lia. }
  assert (Hv0 : arr_get (tg_u16reg telegram) 0 = Some v) by exact Hv.
  rewrite !highByte_word_byte, !lowByte_word_byte by assumption.
  destruct Hfct as [Hf|Hf]; unfold h0; rewrite Hf;
    cbn [Z.eqb Pos.eqb orb MB_FC_READ_COILS MB_FC_READ_DISCRETE_INPUT MB_FC_READ_REGISTERS
         MB_FC_READ_INPUT_REGISTER MB_FC_WRITE_COIL MB_FC_WRITE_MULTIPLE_COILS
         MB_FC_WRITE_REGISTER MB_FC_WRITE_MULTIPLE_REGISTERS];
    msimpl; rewrite Hb;
    do 4 (arr_set_step; msimpl);
    rewrite Hv0; msimpl;
    rewrite ?highByte_word_byte, ?lowByte_word_byte by assumption;
    do 2 (arr_set_step; msimpl);
    cbn [insert list_insert Z.to_nat ID FUNC ADD_HI ADD_LO NB_HI NB_LO Pos.to_nat
         Pos.iter_op Nat.add];
    (match goal with
     | |- context [sendTxBuffer ?h7] =>
         rewrite (sendTxBuffer_frame h7 msg ([x6; x7] ++ rest));
           [|unfold msg, query_header, nb; rewrite ?Hf;
             cbn [Z.eqb Pos.eqb MB_FC_WRITE_COIL MB_FC_WRITE_REGISTER];
             try (destruct (v >? 0)); reflexivity
            |reflexivity|exact Hmsgb|unfold msg, query_header; cbn [length]; lia
            |cbn [length app]; lia]
     end);
    unfold sent, tx_events; msimpl; rewrite <- !app_assoc; reflexivity.
Qed.

Lemma SendQuery_FC16_loop_encode (n : nat) :
  forall (regs : list Z) (i : Z) (h : modbusHandler_t),
    SendQuery_FC16_loop n regs i h = process_FC3_loop n (Some regs) i h.
Proof.
  induction n as [|n IH]; intros regs i h; [reflexivity|].
  cbn [SendQuery_FC16_loop process_FC3_loop]. msimpl.
  destruct (arr_get regs i) as [w|]; [|reflexivity].
  destruct (arr_set (u8Buffer h) (u8BufferSize h) (u8 (highByte w))) as [b1|];
    [|reflexivity].
  msimpl.
  destruct (arr_set b1 (u8 (u8BufferSize h + 1)) (u8 (lowByte w))) as [b2|];
    [|reflexivity].
  msimpl. apply IH.
Qed.

Lemma SendQuery_registers_frame (h : modbusHandler_t) (telegram : modbus_t) :
  let n := tg_u16CoilsNo telegram in
  let regs := tg_u16reg telegram in
  let msg := query_header (tg_u8id telegram) MB_FC_WRITE_MULTIPLE_REGISTERS
               (tg_u16RegAdd telegram) n
             ++ [2 * n] ++ encode_regs (take (Z.to_nat n) regs) in
  query_ready telegram h ->
  tg_u8fct telegram = MB_FC_WRITE_MULTIPLE_REGISTERS ->
  is_word (tg_u16RegAdd telegram) ->
  0 <= n <= 123 ->
  (Z.to_nat n <= length regs)%nat ->
  (9 + 2 * Z.to_nat n <= length (u8Buffer h))%nat ->
  SendQuery telegram h
  = Some (0, set_i8lastError 0
               (set_i8state (i8 COM_WAITING)
                  (set_trace
                     (trace h ++ [EvSemTake] ++ tx_events h (with_crc msg) ++ [EvSemGive])
                     (set_u16OutCnt (u16 (u16OutCnt h + 1))
                        (set_u8BufferSize 0
                           (set_u8Buffer
                              (with_crc msg ++ drop (9 + 2 * Z.to_nat n) (u8Buffer h))
                              (set_u16regsHR regs h))))))).
Proof.
  intros n regs msg (Hid & Hst & Htid) Hfct Hadd Hn Hregs Hbuf.
  destruct (u8Buffer h) as [|x0 [|x1 [|x2 [|x3 [|x4 [|x5 [|x6 rest]]]]]]] eqn:Hb;
    cbn [length] in Hbuf; try lia.
  assert (Hnw : is_word n) by (unfold is_word; lia).
  unfold SendQuery. msimpl.
  rewrite Hid, Hst, !Z.eqb_refl. cbn [negb].
  destruct (Z.eqb_spec (tg_u8id telegram) 0) as [?|_]; [lia|].
  destruct (Z.gtb_spec (tg_u8id telegram) 247) as [?|_]; [lia|].
  cbn [orb Z.eqb negb].
  rewrite Hfct.
  cbn [Z.eqb Pos.eqb orb MB_FC_READ_COILS MB_FC_READ_DISCRETE_INPUT MB_FC_READ_REGISTERS
       MB_FC_READ_INPUT_REGISTER MB_FC_WRITE_COIL MB_FC_WRITE_MULTIPLE_COILS
       MB_FC_WRITE_REGISTER MB_FC_WRITE_MULTIPLE_REGISTERS].
  msimpl. rewrite Hb.
  rewrite !highByte_word_byte, !lowByte_word_byte by assumption.
  fold n regs.
  rewrite (u8_id (n * 2)) by lia.
  do 7 (arr_set_step; msimpl).
  cbn [insert list_insert Z.to_nat ID FUNC ADD_HI ADD_LO NB_HI NB_LO BYTE_CNT Pos.to_nat
       Pos.iter_op Nat.add].
  rewrite SendQuery_FC16_loop_encode.
  set (pre := [tg_u8id telegram; 16; tg_u16RegAdd telegram / 256;
               tg_u16RegAdd telegram mod 256; n / 256; n mod 256; n * 2]).
  match goal with
  | |- context [process_FC3_loop _ _ _ ?h7] =>
      rewrite (process_FC3_loop_spec (Z.to_nat n) regs 0 h7 pre rest);
        [|reflexivity|reflexivity|unfold pre; cbn [length]; lia|lia|lia|lia|
          cbn [Z.to_nat]; lia]
  end.
  msimpl. cbn [Z.to_nat]. rewrite drop_0.
  assert (Hmsg : msg = pre ++ encode_regs (take (Z.to_nat n) regs)).
  { unfold msg, pre, query_header, MB_FC_WRITE_MULTIPLE_REGISTERS.
    rewrite (Z.mul_comm 2 n). reflexivity. }
  assert (Hml : length msg = (7 + 2 * Z.to_nat n)%nat).
  { rewrite Hmsg, length_app, encode_regs_length, length_take. unfold pre.
    cbn [length]. lia. }
  match goal with
  | |- context [sendTxBuffer ?h8] =>
      rewrite (sendTxBuffer_frame h8 msg (drop (2 * Z.to_nat n) rest))
  end.
  - unfold sent, tx_events, with_crc. msimpl.
    rewrite drop_drop. cbn [skipn].
    replace (2 * Z.to_nat n + 2)%nat with (S (S (2 * Z.to_nat n))) by lia.
    rewrite <- !app_assoc. reflexivity.
  - msimpl. rewrite Hmsg, <- app_assoc. reflexivity.
  - msimpl. rewrite Hml. unfold pre. cbn [length]. reflexivity.
  - rewrite Hmsg. apply Forall_app. split; [|apply encode_regs_bytes].
    unfold pre.
    assert (Hq := query_header_bytes (tg_u8id telegram) 16 (tg_u16RegAdd telegram) n).
    unfold query_header in Hq.
    assert (Hall : Forall is_byte
                     [tg_u8id telegram; 16; tg_u16RegAdd telegram / 256;
                      tg_u16RegAdd telegram mod 256; n / 256; n mod 256])
      by (apply Hq; try assumption; unfold is_byte; lia).
    change [tg_u8id telegram; 16; tg_u16RegAdd telegram / 256;
            tg_u16RegAdd telegram mod 256; n / 256; n mod 256; n * 2]
      with ([tg_u8id telegram; 16; tg_u16RegAdd telegram / 256;
             tg_u16RegAdd telegram mod 256; n / 256; n mod 256] ++ [n * 2]).
    apply Forall_app. split; [exact Hall|].
    constructor; [unfold is_byte; lia|constructor].
  - rewrite Hml. lia.
  - rewrite length_drop. lia.
Qed.

Lemma with_crc_length (msg : list Z) : length (with_crc msg) = (length msg + 2)%nat.
Proof. unfold with_crc, crc_wire. rewrite length_app. reflexivity. Qed.

(** X17.  A whole read of registers.  A master at rest queries [n]
    registers (1 to 125) of a slave with function 3 or 4; the slave, given
    the query the master transmitted, answers; the master, given that
    answer, stores the registers in the caller's array and notifies the
    originator with OK_QUERY.  The first [n] cells of the caller's array
    then hold the slave's registers from the address asked (holding bank for
    function 3, input bank for function 4), the other cells are as they
    were. *)
Theorem read_registers_transaction (hm hs : modbusHandler_t) (telegram : modbus_t) :
  let fct := tg_u8fct telegram in
  let addr := tg_u16RegAdd telegram in
  let n := tg_u16CoilsNo telegram in
  let bank := if fct =? MB_FC_READ_REGISTERS then u16regsHR hs else u16regsRO hs in
  let ws := take (Z.to_nat n) (drop (Z.to_nat addr) bank) in
  let q := with_crc (query_header (u8id hs) fct addr n) in
  let r := with_crc ([u8id hs; fct; 2 * n] ++ encode_regs ws) in
  query_ready telegram hm ->
  tg_u8id telegram = u8id hs ->
  fct = MB_FC_READ_REGISTERS \/ fct = MB_FC_READ_INPUT_REGISTER ->
  is_word addr ->
  1 <= n <= 125 ->
  (8 <= length (u8Buffer hm))%nat ->
  rx_fits r hm ->
  (Z.to_nat n <= length (tg_u16reg telegram))%nat ->
  DB_HOLDING_REGISTER <> DB_INPUT_REGISTERS ->
  rx_ready q hs ->
  addr + n <= u16regHR_size hs ->
  addr + n <= Z.of_nat (length bank) <= 65535 ->
  Forall is_word bank ->
  2 * n + 5 <= Z.of_nat (length (u8Buffer hs)) ->
  exists hm1 hs1 hm2,
    SendQuery telegram hm = Some (0, hm1)
    /\ transmitted (trace hm1) = transmitted (trace hm) ++ [q]
    /\ StartTaskModbusSlave_body (received q hs) = Some (tt, hs1)
    /\ transmitted (trace hs1) = transmitted (trace hs) ++ [r]
    /\ master_on_notify telegram vTimerCallbackT35_value (received r hm1) = Some (tt, hm2)
    /\ u16regsHR hm2 = ws ++ drop (Z.to_nat n) (tg_u16reg telegram)
    /\ notified (trace hm2)
       = notified (trace hm) ++ [(tg_u32CurrentTask telegram, u32 ERR_OK_QUERY)]
    /\ i8state hm2 = i8 COM_IDLE
    /\ i8lastError hm2 = 0.
Proof.
  intros fct addr n bank ws q r Hready Hsame Hfct Hadd Hn Hbufm Hfits Harr Hdb Hrx
    Hsize Hbank Hwords Hbufs.
  pose proof Hready as (_ & _ & Htid).
  assert (Hnw : is_word n) by (unfold is_word; lia).
  assert (Hfb : is_byte fct).
  { unfold is_byte, MB_FC_READ_REGISTERS, MB_FC_READ_INPUT_REGISTER in *. lia. }
  assert (Hidb : is_byte (u8id hs)) by (unfold is_byte; lia).
  assert (Hqb : Forall is_byte (query_header (u8id hs) fct addr n))
    by (apply query_header_bytes; assumption).
  (* the query *)
  pose proof (SendQuery_read_frame hm telegram Hready
                ltac:(fold fct; tauto) Hadd Hnw Hbufm) as Hsend.
  cbv zeta in Hsend. fold fct addr n in Hsend. rewrite Hsame in Hsend. fold q in Hsend.
  assert (Hsel : (fct =? MB_FC_READ_COILS) || (fct =? MB_FC_READ_DISCRETE_INPUT) = false)
    by (destruct Hfct as [-> | ->]; reflexivity).
  rewrite Hsel in Hsend.
  match type of Hsend with _ = Some (_, ?x) => set (hm1 := x) in * end.
  (* the slave *)
  pose proof (slave_read_registers_turn hs fct (addr / 256) (addr mod 256)
                (n / 256) (n mod 256)) as Hstep.
  cbv zeta in Hstep. rewrite !word_div_mod in Hstep by assumption.
  destruct (Hstep Hfct Hdb Hrx Hqb ltac:(lia) Hsize Hbank Hbufs)
    as (hs1 & Hslave & Htx & _).
  clear Hstep. fold bank ws r in Htx. fold q in Hslave.
  (* the answer *)
  assert (Hwsl : length ws = Z.to_nat n).
  { pose proof Hadd as Hadd'. unfold is_word in Hadd'.
    unfold ws. rewrite length_take, length_drop. lia. }
  assert (Hwsw : Forall is_word ws).
  { unfold ws. apply Forall_take, Forall_drop. exact Hwords. }
  set (msg := u8id hs :: fct :: 2 * n :: encode_regs ws).
  assert (Hr : r = with_crc msg) by reflexivity.
  assert (Hml : length msg = (3 + 2 * Z.to_nat n)%nat).
  { unfold msg. cbn [length]. rewrite encode_regs_length, Hwsl. lia. }
  assert (Hfits1 : rx_fits r (set_i8lastError 0 hm1)).
  { destruct Hfits as (Hux & Hb & Hmax). unfold rx_fits, hm1.
    cbn [xBufferRX u8Buffer set_i8lastError set_i8state set_trace set_u16OutCnt
         set_u8BufferSize set_u8Buffer set_u16regsHR].
    split; [exact Hux|]. split; [|exact Hmax].
    rewrite length_app, length_drop.
    unfold q. rewrite with_crc_length. unfold query_header. cbn [length]. lia. }
  pose proof (getRxBuffer_drained (set_i8lastError 0 hm1) r Hfits1) as Hget.
  change (received r (set_i8lastError 0 hm1))
    with (set_i8lastError 0 (received r hm1)) in Hget.
  set (h1 := drained r (set_i8lastError 0 hm1)) in *.
  set (rest := drop (length r) (u8Buffer hm1)).
  assert (Hb1 : u8Buffer h1 = with_crc msg ++ rest)
    by (unfold h1, rest, drained; cbn [u8Buffer]; exact eq_refl).
  assert (Htail : drop 3 (u8Buffer h1)
                  = encode_regs ws ++ crc_wire (crc16_modbus msg) ++ rest).
  { rewrite Hb1. unfold with_crc, msg. cbn [app skipn].
    rewrite <- app_assoc. reflexivity. }
  assert (Hbc : Z.to_nat (2 * n / 2) = Z.to_nat n)
    by (rewrite (Z.mul_comm 2 n), Z.div_mul by lia; reflexivity).
  destruct (master_on_notify_answer (received r hm1) h1 telegram
              (Z.of_nat (length r)) (u8id hs) fct (2 * n) (encode_regs ws) rest)
    as (hm2 & _ & Hrun & Hnot & Hst & Herr & _ & Hhr).
  - exact Hget.
  - exact Hb1.
  - reflexivity.
  - rewrite encode_regs_length, Hwsl. lia.
  - fold msg. rewrite with_crc_length, Hml. lia.
  - fold msg. unfold msg.
    constructor; [exact Hidb|]. constructor; [exact Hfb|].
    constructor; [unfold is_byte; lia|]. apply encode_regs_bytes.
  - destruct Hfct as [-> | ->]; reflexivity.
  - intros Hc. exfalso.
    unfold MB_FC_READ_REGISTERS, MB_FC_READ_INPUT_REGISTER in Hfct. lia.
  - intros _. rewrite Htail, Hbc. split.
    + rewrite length_app, encode_regs_length, Hwsl. lia.
    + exact Harr.
  - exists hm1, hs1, hm2.
    split; [exact Hsend|].
    split.
    { unfold hm1. cbn [trace set_i8lastError set_i8state set_trace].
      rewrite !transmitted_app, transmitted_tx_events. cbn [transmitted].
      rewrite app_nil_r. reflexivity. }
    split; [exact Hslave|]. split; [exact Htx|]. split; [exact Hrun|].
    split.
    { rewrite Hhr.
      assert (Hf34 : (fct =? 3) || (fct =? 4) = true)
        by (destruct Hfct as [-> | ->]; reflexivity).
      rewrite Hf34, Htail, Hbc.
      replace (2 * Z.to_nat n)%nat with (length (encode_regs ws))
        by (rewrite encode_regs_length, Hwsl; reflexivity).
      rewrite take_app_length, decode_encode by exact Hwsw.
      reflexivity. }
    split.
    { rewrite Hnot. unfold hm1.
      cbn [trace received set_xBufferRX set_i8lastError set_i8state set_trace].
      rewrite !notified_app, notified_tx_events. cbn [notified].
      rewrite !app_nil_r. reflexivity. }
    split; [exact Hst|exact Herr].
Qed.

(** X18.  A whole write of registers.  A master at rest sends [n] registers
    (at most 123) of the caller's array with function 16; the slave, given
    the query the master transmitted, stores them from the address asked
    and answers; the master, given that answer, notifies the originator with
    OK_QUERY.  The slave's holding registers in the range then equal the
    caller's values, the others are as they were. *)
Theorem write_registers_transaction (hm hs : modbusHandler_t) (telegram : modbus_t) :
  let addr := tg_u16RegAdd telegram in
  let n := tg_u16CoilsNo telegram in
  let regs := tg_u16reg telegram in
  let q := with_crc (query_header (u8id hs) MB_FC_WRITE_MULTIPLE_REGISTERS addr n
                       ++ [2 * n] ++ encode_regs (take (Z.to_nat n) regs)) in
  let r := with_crc [u8id hs; MB_FC_WRITE_MULTIPLE_REGISTERS; addr / 256; addr mod 256;
                     0; n] in
  query_ready telegram hm ->
  tg_u8id telegram = u8id hs ->
  tg_u8fct telegram = MB_FC_WRITE_MULTIPLE_REGISTERS ->
  is_word addr ->
  0 <= n <= 123 ->
  (Z.to_nat n <= length regs)%nat ->
  Forall is_word regs ->
  (9 + 2 * Z.to_nat n <= length (u8Buffer hm))%nat ->
  rx_fits r hm ->
  rx_ready q hs ->
  addr + n <= u16regHR_size hs ->
  addr + n <= Z.of_nat (length (u16regsHR hs)) ->
  exists hm1 hs1 hm2,
    SendQuery telegram hm = Some (0, hm1)
    /\ transmitted (trace hm1) = transmitted (trace hm) ++ [q]
    /\ StartTaskModbusSlave_body (received q hs) = Some (tt, hs1)
    /\ u16regsHR hs1
       = take (Z.to_nat addr) (u16regsHR hs) ++ take (Z.to_nat n) regs
           ++ drop (Z.to_nat (addr + n)) (u16regsHR hs)
    /\ transmitted (trace hs1) = transmitted (trace hs) ++ [r]
    /\ master_on_notify telegram vTimerCallbackT35_value (received r hm1) = Some (tt, hm2)
    /\ notified (trace hm2)
       = notified (trace hm) ++ [(tg_u32CurrentTask telegram, u32 ERR_OK_QUERY)]
    /\ i8state hm2 = i8 COM_IDLE
    /\ i8lastError hm2 = 0
    /\ u16regsHR hm2 = regs.
Proof.
  intros addr n regs q r Hready Hsame Hfct Hadd Hn Harr Hwords Hbufm Hfits Hrx
    Hsize Hbank.
  pose proof Hready as (_ & _ & Htid).
  pose proof Hadd as Hadd'. unfold is_word in Hadd'.
  assert (Hnw : is_word n) by (unfold is_word; lia).
  assert (Hidb : is_byte (u8id hs)) by (unfold is_byte; lia).
  set (enc := encode_regs (take (Z.to_nat n) regs)).
  assert (Hencl : length enc = (2 * Z.to_nat n)%nat)
    by (unfold enc; rewrite encode_regs_length, length_take; lia).
  assert (Hqh : Forall is_byte (query_header (u8id hs) MB_FC_WRITE_MULTIPLE_REGISTERS addr n))
    by (apply query_header_bytes; try assumption; unfold is_byte,
          MB_FC_WRITE_MULTIPLE_REGISTERS; lia).
  (* the query *)
  pose proof (SendQuery_registers_frame hm telegram Hready Hfct Hadd Hn Harr Hbufm)
    as Hsend.
  cbv zeta in Hsend. fold addr n regs in Hsend. rewrite Hsame in Hsend.
  fold enc in Hsend. fold q in Hsend.
  match type of Hsend with _ = Some (_, ?x) => set (hm1 := x) in * end.
  (* the slave *)
  pose proof (slave_write_registers_turn hs (addr / 256) (addr mod 256)
                (n / 256) (n mod 256) ([2 * n] ++ enc)) as Hstep.
  cbv zeta in Hstep. rewrite !word_div_mod in Hstep by assumption.
  set (msg := u8id hs :: MB_FC_WRITE_MULTIPLE_REGISTERS :: addr / 256 :: addr mod 256
              :: n / 256 :: n mod 256 :: [2 * n] ++ enc) in *.
  assert (Hq : q = with_crc msg) by reflexivity.
  rewrite <- Hq in Hstep.
  assert (Htail : drop 7 (q ++ drop (length q) (u8Buffer hs))
                  = enc ++ crc_wire (crc16_modbus msg) ++ drop (length q) (u8Buffer hs)).
  { rewrite Hq at 1. unfold with_crc, msg. cbn [app skipn].
    rewrite <- app_assoc. reflexivity. }
  rewrite Htail in Hstep.
  replace (2 * Z.to_nat n)%nat with (length enc) in Hstep by exact Hencl.
  rewrite take_app_length in Hstep.
  change (decode_regs enc)
    with (decode_regs (encode_regs (take (Z.to_nat n) regs))) in Hstep.
  rewrite decode_encode in Hstep by (apply Forall_take; exact Hwords).
  destruct Hstep as (hs1 & Hslave & Hhr & Htx & _).
  { exact Hrx. }
  { unfold msg. change (u8id hs :: MB_FC_WRITE_MULTIPLE_REGISTERS :: addr / 256
                          :: addr mod 256 :: n / 256 :: n mod 256 :: [2 * n] ++ enc)
      with (query_header (u8id hs) MB_FC_WRITE_MULTIPLE_REGISTERS addr n
              ++ [2 * n] ++ enc).
    apply Forall_app. split; [exact Hqh|].
    constructor; [unfold is_byte; lia|]. apply encode_regs_bytes. }
  { lia. }
  { exact Hsize. }
  { exact Hbank. }
  { rewrite !length_app. lia. }
  (* the answer *)
  set (amsg := [u8id hs; MB_FC_WRITE_MULTIPLE_REGISTERS; addr / 256; addr mod 256; 0; n]).
  assert (Hfits1 : rx_fits r (set_i8lastError 0 hm1)).
  { destruct Hfits as (Hux & Hb & Hmax). unfold rx_fits, hm1.
    cbn [xBufferRX u8Buffer set_i8lastError set_i8state set_trace set_u16OutCnt
         set_u8BufferSize set_u8Buffer set_u16regsHR].
    split; [exact Hux|]. split; [|exact Hmax].
    rewrite length_app, length_drop, with_crc_length, !length_app, Hencl.
    unfold query_header, r. rewrite with_crc_length. cbn [length]. unfold r in Hb.
    rewrite with_crc_length in Hb. cbn [length] in Hb. lia. }
  pose proof (getRxBuffer_drained (set_i8lastError 0 hm1) r Hfits1) as Hget.
  change (received r (set_i8lastError 0 hm1))
    with (set_i8lastError 0 (received r hm1)) in Hget.
  destruct (master_on_notify_answer (received r hm1)
              (drained r (set_i8lastError 0 hm1)) telegram
              (Z.of_nat (length r)) (u8id hs) MB_FC_WRITE_MULTIPLE_REGISTERS (addr / 256)
              [addr mod 256; 0; n] (drop (length r) (u8Buffer hm1)))
    as (hm2 & _ & Hrun & Hnot & Hst & Herr & _ & Hhrm).
  - exact Hget.
  - unfold drained. cbn [u8Buffer]. exact eq_refl.
  - unfold drained. cbn [u8BufferSize]. exact eq_refl.
  - cbn [length]. lia.
  - rewrite with_crc_length. cbn [length]. lia.
  - assert (Hd : 0 <= addr / 256 < 256)
      by (split; [apply Z.div_pos; lia | apply Z.div_lt_upper_bound; lia]).
    pose proof (Z.mod_pos_bound addr 256 ltac:(lia)) as Hm.
    unfold MB_FC_WRITE_MULTIPLE_REGISTERS.
    repeat (constructor; [unfold is_byte; lia|]). constructor.
  - reflexivity.
  - unfold MB_FC_WRITE_MULTIPLE_REGISTERS. intros [?|?]; discriminate.
  - unfold MB_FC_WRITE_MULTIPLE_REGISTERS. intros [?|?]; discriminate.
  - exists hm1, hs1, hm2.
    split; [exact Hsend|].
    split.
    { unfold hm1. cbn [trace set_i8lastError set_i8state set_trace].
      rewrite !transmitted_app, transmitted_tx_events. cbn [transmitted].
      rewrite app_nil_r. reflexivity. }
    split; [exact Hslave|]. split; [exact Hhr|]. split; [exact Htx|].
    split; [exact Hrun|].
    split.
    { rewrite Hnot. unfold hm1.
      cbn [trace received set_xBufferRX set_i8lastError set_i8state set_trace].
      rewrite !notified_app, notified_tx_events. cbn [notified].
      rewrite !app_nil_r. reflexivity. }
    split; [exact Hst|]. split; [exact Herr|].
    rewrite Hhrm. reflexivity.
Qed.

End Transactions.

(** ** Read requests for coils *)

Lemma pack_byte_testbit (bits : list bool) :
  forall k, 0 <= k ->
  Z.testbit (pack_byte bits) k = default false (bits !! Z.to_nat k).
Proof.
  induction bits as [|b bits IH]; intros k Hk.
  - cbn [pack_byte]. rewrite Z.bits_0. reflexivity.
  - cbn [pack_byte]. destruct (Z.eq_dec k 0) as [->|Hne].
    + rewrite Z.add_b2z_double_bit0. reflexivity.
    + replace k with (Z.succ (k - 1)) by lia.
      rewrite Z.add_comm, Z.testbit_succ_r by lia.
      rewrite IH by lia.
      replace (Z.to_nat (Z.succ (k - 1))) with (S (Z.to_nat (k - 1))) by lia.
      reflexivity.
Qed.

Lemma u8_testbit (x k : Z) : Z.testbit (u8 x) k = (k <? 8) && Z.testbit x k.
Proof. unfold u8. change 256 with (2 ^ 8). apply Z.testbit_mod_pow2. lia. Qed.

Lemma fill_bits_cons (b : bool) (bits' : list bool) (x : Z) (cells : list Z) (j : Z) :
  fill_bits (b :: bits') (x :: cells) j
  = if j + 1 >? 7 then u8 (bitWrite x j b) :: fill_bits bits' cells 0
    else fill_bits bits' (u8 (bitWrite x j b) :: cells) (j + 1).
Proof. reflexivity. Qed.

Lemma fill_within (bs : list bool) :
  forall (b : bool) (x : Z) (cells : list Z) (j : Z) (bits' : list bool),
    0 <= j ->
    j + 1 + Z.of_nat (length bs) <= 8 ->
    exists y,
      (forall k, 0 <= k ->
         Z.testbit y k
         = if (j <=? k) && (k <? j + 1 + Z.of_nat (length bs))
           then default false ((b :: bs) !! Z.to_nat (k - j))
           else (k <? 8) && Z.testbit x k)
      /\ fill_bits ((b :: bs) ++ bits') (x :: cells) j
         = if j + 1 + Z.of_nat (length bs) =? 8 then y :: fill_bits bits' cells 0
           else fill_bits bits' (y :: cells) (j + 1 + Z.of_nat (length bs)).
Proof.
  induction bs as [|b1 bs IH]; intros b x cells j bits' Hj Hfit.
  - exists (u8 (bitWrite x j b)). cbn [length] in *. split.
    + intros k Hk. rewrite u8_testbit.
      destruct (Z.ltb_spec k 8) as [Hk8|Hk8]; cbn [andb].
      * rewrite bitWrite_testbit by lia.
        destruct (Z.eqb_spec k j) as [->|Hne].
        -- destruct (Z.leb_spec j j); [|lia].
           destruct (Z.ltb_spec j (j + 1 + Z.of_nat 0)); [|lia].
           cbn [andb]. rewrite Z.sub_diag. reflexivity.
        -- destruct (Z.leb_spec j k); destruct (Z.ltb_spec k (j + 1 + Z.of_nat 0));
             cbn [andb]; try reflexivity; lia.
      * destruct (Z.leb_spec j k); destruct (Z.ltb_spec k (j + 1 + Z.of_nat 0));
          cbn [andb]; try reflexivity; lia.
    + cbn [app]. rewrite fill_bits_cons. change (Z.of_nat 0) with 0.
      rewrite Z.add_0_r.
      destruct (Z.gtb_spec (j + 1) 7); destruct (Z.eqb_spec (j + 1) 8);
        try reflexivity; lia.
  - cbn [length] in Hfit.
    destruct (IH b1 (u8 (bitWrite x j b)) cells (j + 1) bits' ltac:(lia) ltac:(lia))
      as (y & Hbits & Hfill).
    exists y. split.
    + intros k Hk. rewrite (Hbits k Hk). cbn [length].
      rewrite u8_testbit.
      destruct (Z.ltb_spec k 8) as [Hk8|Hk8]; cbn [andb];
        [rewrite bitWrite_testbit by lia|];
        destruct (Z.leb_spec (j + 1) k);
        destruct (Z.ltb_spec k (j + 1 + 1 + Z.of_nat (length bs)));
        destruct (Z.leb_spec j k);
        destruct (Z.ltb_spec k (j + 1 + Z.of_nat (S (length bs))));
        try destruct (Z.eqb_spec k j) as [->|Hne];
        cbn [andb]; try lia; try reflexivity.
      * replace (Z.to_nat (k - j)) with (S (Z.to_nat (k - (j + 1)))) by lia.
        reflexivity.
      * rewrite Z.sub_diag. reflexivity.
    + cbn [app]. rewrite fill_bits_cons.
      destruct (Z.gtb_spec (j + 1) 7); [lia|].
      cbn [app] in Hfill. rewrite Hfill. cbn [length].
      replace (j + 1 + Z.of_nat (S (length bs))) with (j + 1 + 1 + Z.of_nat (length bs))
        by lia.
      reflexivity.
Qed.

Lemma fill_byte (b : bool) (bs : list bool) (x : Z) (cells : list Z) (bits' : list bool) :
  1 + Z.of_nat (length bs) <= 8 ->
  1 + Z.of_nat (length bs) = 8 \/ x = 0 ->
  fill_bits ((b :: bs) ++ bits') (x :: cells) 0
  = if 1 + Z.of_nat (length bs) =? 8 then pack_byte (b :: bs) :: fill_bits bits' cells 0
    else fill_bits bits' (pack_byte (b :: bs) :: cells) (1 + Z.of_nat (length bs)).
Proof.
  intros Hfit Hfull.
  destruct (fill_within bs b x cells 0 bits' ltac:(lia) ltac:(lia)) as (y & Hbits & Hfill).
  assert (Hy : y = pack_byte (b :: bs)).
  { apply Z.bits_inj'. intros k Hk.
    rewrite (Hbits k Hk), pack_byte_testbit by exact Hk.
    rewrite Z.sub_0_r.
    destruct (Z.leb_spec 0 k); [|lia].
    destruct (Z.ltb_spec k (0 + 1 + Z.of_nat (length bs))) as [Hin|Hout]; cbn [andb];
      [reflexivity|].
    rewrite lookup_ge_None_2 by (cbn [length]; lia). cbn [default].
    destruct Hfull as [Hf| ->].
    - destruct (Z.ltb_spec k 8); [lia|]. reflexivity.
    - rewrite Z.bits_0. apply andb_false_r. }
  rewrite Hfill, Hy. reflexivity.
Qed.

Lemma fill_bits_pack (k : nat) :
  forall (bits : list bool) (cells : list Z),
    (8 * k < length bits + 8)%nat ->
    (length bits <= 8 * k)%nat ->
    (k <= length cells)%nat ->
    ((length bits < 8 * k)%nat -> cells !! (k - 1)%nat = Some 0) ->
    fill_bits bits cells 0 = pack_bits_aux k bits ++ drop k cells.
Proof.
  induction k as [|k IH]; intros bits cells Hlo Hhi Hcells Hzero.
  - destruct bits; [|cbn [length] in Hhi; lia]. reflexivity.
  - destruct bits as [|b bs0]; [cbn [length] in Hlo; lia|].
    destruct cells as [|x cells]; [cbn [length] in Hcells; lia|].
    cbn [length] in *.
    destruct (le_lt_dec 7 (length bs0)) as [Hfull|Hpart].
    + rewrite <- (take_drop 7 bs0) at 1.
      change (b :: take 7 bs0 ++ drop 7 bs0) with ((b :: take 7 bs0) ++ drop 7 bs0).
      rewrite fill_byte by (rewrite length_take; lia).
      rewrite length_take.
      replace (1 + Z.of_nat (7 `min` length bs0)) with 8 by lia.
      cbn [Z.eqb Pos.eqb pack_bits_aux app].
      change (take 8 (b :: bs0)) with (b :: take 7 bs0).
      change (drop 8 (b :: bs0)) with (drop 7 bs0).
      change (drop (S k) (x :: cells)) with (drop k cells).
      rewrite (IH (drop 7 bs0) cells); try (rewrite ?length_drop; lia).
      * reflexivity.
      * rewrite length_drop. intros Hlt.
        destruct k as [|k]; [lia|].
        replace (S k - 1)%nat with k by lia.
        rewrite <- (Hzero ltac:(lia)).
        replace (S (S k) - 1)%nat with (S k) by lia. reflexivity.
    + assert (Hk : k = 0%nat) by lia. subst k.
      assert (Hx : x = 0).
      { specialize (Hzero ltac:(lia)). cbn in Hzero. congruence. }
      subst x.
      rewrite <- (app_nil_r (b :: bs0)) at 1.
      rewrite fill_byte by lia.
      destruct (Z.eqb_spec (1 + Z.of_nat (length bs0)) 8) as [?|_]; [lia|].
      cbn [fill_bits pack_bits_aux app].
      rewrite take_ge by (cbn [length]; lia).
      reflexivity.
Qed.

Lemma coils_from_shift (regs : list Z) (c : Z) (n : nat) :
  forall i,
    (fun k => coil regs (c + Z.of_nat k)) <$> seq (S i) n
    = (fun k => coil regs (c + 1 + Z.of_nat k)) <$> seq i n.
Proof.
  induction n as [|n IH]; intros i; [reflexivity|].
  cbn [seq fmap list_fmap]. f_equal.
  - f_equal. lia.
  - apply IH.
Qed.

Lemma coils_from_S (regs : list Z) (c : Z) (n : nat) :
  coils_from regs c (S n) = coil regs c :: coils_from regs (c + 1) n.
Proof.
  unfold coils_from. cbn [seq fmap list_fmap]. f_equal.
  - f_equal. lia.
  - apply coils_from_shift.
Qed.

Lemma coils_from_length (regs : list Z) (c : Z) (n : nat) :
  length (coils_from regs c n) = n.
Proof. unfold coils_from. rewrite length_fmap, length_seq. reflexivity. Qed.

Section CoilReads.
Context `{ModbusHeader}.

Lemma process_FC1_loop_fill (n : nat) :
  forall (regs : list Z) (start cur j : Z) (h : modbusHandler_t) (pre cells : list Z),
    u8Buffer h = pre ++ cells ->
    u8BufferSize h = Z.of_nat (length pre) ->
    0 <= j <= 7 -> 0 <= start -> 0 <= cur ->
    start + cur + Z.of_nat n <= 65536 ->
    (start + cur + Z.of_nat n + 15) / 16 <= Z.of_nat (length regs) ->
    j + Z.of_nat n <= 8 * Z.of_nat (length cells) ->
    Z.of_nat (length pre) + (j + Z.of_nat n) / 8 <= 255 ->
    process_FC1_loop n (Some regs) start cur j h
    = Some (tt, set_u8BufferSize (Z.of_nat (length pre) + (j + Z.of_nat n) / 8)
                  (set_u8Buffer
                     (pre ++ fill_bits (coils_from regs (start + cur) n) cells j) h)).
Proof.
  induction n as [|n IH];
    intros regs start cur j h pre cells Hbuf Hsize Hj Hstart Hcur Hmax Hregs Hcells Hcap.
  - cbn [process_FC1_loop coils_from seq fmap list_fmap fill_bits].
    change (Z.of_nat 0) with 0. rewrite Z.add_0_r, Z.div_small, Z.add_0_r by lia.
    rewrite <- Hbuf, <- Hsize. destruct h; reflexivity.
  - destruct cells as [|x cells]; [cbn [length] in Hcells; lia|].
    set (c := start + cur) in *.
    assert (Hc16 : 0 <= c / 16 < 4096)
      by (split; [apply Z.div_pos; lia | apply Z.div_lt_upper_bound; lia]).
    assert (Hbit : 0 <= c mod 16 < 16) by (apply Z.mod_pos_bound; lia).
    assert (Hin : c / 16 < Z.of_nat (length regs)).
    { assert (c / 16 + 1 <= (c + Z.of_nat (S n) + 15) / 16); [|lia].
      replace (c / 16 + 1) with ((c + 1 * 16) / 16) by (rewrite Z.div_add; lia).
      apply Z.div_le_mono; lia. }
    destruct (lookup_lt_is_Some_2 regs (Z.to_nat (c / 16)) ltac:(lia)) as [w Hw].
    assert (Hcoil : negb (bitRead w (c mod 16) =? 0) = coil regs c).
    { rewrite bitRead_eqb by lia. unfold coil. rewrite Hw. reflexivity. }
    cbn [process_FC1_loop]. msimpl. fold c.
    rewrite (u16_id c), (u16_id (c / 16)), (u8_id (c mod 16)) by lia.
    rewrite arr_get_nonneg, Hw by lia. cbv beta iota.
    rewrite Hsize, Hbuf, arr_get_middle. cbv beta iota.
    rewrite ?Hsize, ?Hbuf. rewrite arr_set_middle. cbv beta iota. rewrite Hcoil.
    rewrite (u8_id (j + 1)) by lia. rewrite coils_from_S, fill_bits_cons.
    set (x' := u8 (bitWrite x j (coil regs c))).
    assert (Hcdef : c = start + cur) by reflexivity.
    assert (Hn8 : 0 <= Z.of_nat n / 8) by (apply Z.div_pos; lia).
    destruct (Z.gtb_spec (j + 1) 7) as [Hwrap|Hstay].
    1: assert (Hdiv : (j + Z.of_nat (S n)) / 8 = 1 + Z.of_nat n / 8)
         by (replace (j + Z.of_nat (S n)) with (Z.of_nat n + 1 * 8) by lia;
             rewrite Z.div_add by lia; lia).
    2: assert (Hdiv : (j + Z.of_nat (S n)) / 8 = (j + 1 + Z.of_nat n) / 8)
         by (f_equal; lia).
    all: rewrite Hdiv in Hcap |- *.
    + msimpl. rewrite Hsize, (u8_id (Z.of_nat (length pre) + 1)) by lia.
      destruct (Nat.eq_dec n 0%nat) as [->|Hn0].
      { cbn [process_FC1_loop coils_from seq fmap list_fmap fill_bits].
        change (Z.of_nat 0 / 8) with 0. rewrite Z.add_0_r. reflexivity. }
      rewrite (u16_id (cur + 1)) by lia.
      rewrite (IH regs start (cur + 1) 0 _ (pre ++ [x']) cells).
      * msimpl. rewrite length_app. cbn [length].
        replace (c + 1) with (start + (cur + 1)) by (unfold c; lia).
        rewrite <- app_assoc. cbn [app].
        replace (Z.of_nat (length pre + 1) + (0 + Z.of_nat n) / 8)
          with (Z.of_nat (length pre) + (1 + Z.of_nat n / 8))
          by (rewrite Z.add_0_l; lia).
        reflexivity.
      * msimpl. rewrite <- app_assoc. reflexivity.
      * msimpl. rewrite length_app. cbn [length]. lia.
      * lia.
      * lia.
      * lia.
      * lia.
      * replace (start + (cur + 1) + Z.of_nat n + 15)
          with (c + Z.of_nat (S n) + 15) by (unfold c; lia). exact Hregs.
      * cbn [length] in Hcells. lia.
      * rewrite length_app. cbn [length]. rewrite Z.add_0_l. lia.
    + msimpl.
      destruct (Nat.eq_dec n 0%nat) as [->|Hn0].
      { cbn [process_FC1_loop coils_from seq fmap list_fmap fill_bits].
        change (Z.of_nat 0) with 0. rewrite Z.add_0_r, Z.div_small, Z.add_0_r by lia.
        rewrite <- Hsize. destruct h; reflexivity. }
      rewrite (u16_id (cur + 1)) by lia.
      rewrite (IH regs start (cur + 1) (j + 1) _ pre (x' :: cells)).
      * msimpl.
        replace (c + 1) with (start + (cur + 1)) by (unfold c; lia).
        reflexivity.
      * reflexivity.
      * exact Hsize.
      * lia.
      * lia.
      * lia.
      * lia.
      * replace (start + (cur + 1) + Z.of_nat n + 15)
          with (c + Z.of_nat (S n) + 15) by (unfold c; lia). exact Hregs.
      * cbn [length] in *. lia.
      * lia.
Qed.

Lemma pack_byte_range (bits : list bool) :
  (length bits <= 8)%nat -> 0 <= pack_byte bits < 256.
Proof.
  intros Hlen. change 256 with (2 ^ 8). apply bits_small; [lia|].
  intros k Hk. rewrite pack_byte_testbit by lia.
  rewrite lookup_ge_None_2 by lia. reflexivity.
Qed.

Lemma pack_bits_aux_bytes (k : nat) :
  forall bits, Forall is_byte (pack_bits_aux k bits).
Proof.
  induction k as [|k IH]; intros bits; cbn [pack_bits_aux]; constructor.
  - apply pack_byte_range. rewrite length_take. lia.
  - apply IH.
Qed.

Lemma pack_bits_aux_length (k : nat) :
  forall bits, length (pack_bits_aux k bits) = k.
Proof.
  induction k as [|k IH]; intros bits; cbn [pack_bits_aux length]; [reflexivity|].
  rewrite IH. reflexivity.
Qed.

Lemma process_FC1_answer (h : modbusHandler_t) (b0 b1 ahi alo nhi nlo : Z)
    (post : list Z) :
  let start := word ahi alo in
  let n := word nhi nlo in
  let bytesno := (n + 7) / 8 in
  u8Buffer h = b0 :: b1 :: ahi :: alo :: nhi :: nlo :: post ->
  is_byte b0 -> is_byte b1 ->
  1 <= n <= 2000 ->
  start + n <= 65536 ->
  (start + n + 15) / 16 <= Z.of_nat (length (u16regsCoils h)) ->
  bytesno + 5 <= Z.of_nat (length (u8Buffer h)) ->
  let frame := [b0; b1; bytesno]
               ++ pack_bits (coils_from (u16regsCoils h) start (Z.to_nat n)) in
  exists r rest buf sz,
    process_FC1 1 h
    = Some (r, sent (with_crc frame) rest (set_u8BufferSize sz (set_u8Buffer buf h))).
Proof.
  intros start n bytesno Hbuf Hb0 Hb1 Hn Hmax Hregs Hcap frame.
  pose proof (word_range ahi alo) as Hstart. fold start in Hstart.
  assert (Hlen : Z.of_nat (length post) + 6 = Z.of_nat (length (u8Buffer h)))
    by (rewrite Hbuf; cbn [length]; lia).
  assert (Hbn : bytesno = n / 8 + (if n mod 8 =? 0 then 0 else 1)).
  { unfold bytesno. destruct (Z.eqb_spec (n mod 8) 0); Z.div_mod_to_equations; lia. }
  assert (Hbr : 1 <= bytesno <= 250) by (unfold bytesno; Z.div_mod_to_equations; lia).
  assert (Hn8 : 0 <= n / 8 <= 250) by (Z.div_mod_to_equations; lia).
  unfold process_FC1. msimpl.
  do 4 (rewrite Hbuf; arr_get_step; msimpl).
  fold start n.
  replace (if n mod 8 =? 0 then u8 (n / 8) else u8 (u8 (n / 8) + 1)) with bytesno
    by (rewrite Hbn; destruct (n mod 8 =? 0); rewrite ?(u8_id (n / 8)) by lia;
        rewrite ?u8_id by lia; lia).
  rewrite Hbuf. arr_set_step. msimpl.
  set (cells := [alo; nhi; nlo] ++ post).
  change (<[Z.to_nat ADD_HI:=bytesno]> (b0 :: b1 :: ahi :: alo :: nhi :: nlo :: post))
    with ([b0; b1; bytesno] ++ cells).
  assert (Hcl : Z.of_nat (length cells) + 3 = Z.of_nat (length (u8Buffer h)))
    by (unfold cells; rewrite length_app; cbn [length]; lia).
  set (k := Z.to_nat bytesno).
  replace (ADD_LO + bytesno - 1)
    with (Z.of_nat (length ([b0; b1; bytesno] ++ take (k - 1) cells)))
    by (rewrite length_app, length_take; cbn [length]; unfold ADD_LO, k; lia).
  destruct (lookup_lt_is_Some_2 cells (k - 1) ltac:(unfold k; lia)) as [old Hold].
  set (cells0 := take (k - 1) cells ++ 0 :: drop (S (k - 1)) cells).
  assert (Hset : arr_set ([b0; b1; bytesno] ++ cells)
                   (Z.of_nat (length ([b0; b1; bytesno] ++ take (k - 1) cells))) 0
                 = Some ([b0; b1; bytesno] ++ cells0)).
  { rewrite <- (take_drop_middle cells (k - 1) old Hold) at 1.
    rewrite app_assoc, arr_set_middle, <- app_assoc. reflexivity. }
  rewrite Hset. msimpl.
  assert (Hc0l : length cells0 = length cells).
  { unfold cells0. rewrite length_app, length_take. cbn [length].
    rewrite length_drop. unfold k. lia. }
  assert (Hc0z : cells0 !! (k - 1)%nat = Some 0).
  { unfold cells0. rewrite lookup_app_r by (rewrite length_take; lia).
    rewrite length_take.
    replace (k - 1 - (k - 1) `min` length cells)%nat with 0%nat by (unfold k; lia).
    reflexivity. }
  cbn [Z.eqb Pos.eqb].
  match goal with
  | |- context [process_FC1_loop _ _ _ _ _ ?h5] =>
      rewrite (process_FC1_loop_fill (Z.to_nat n) (u16regsCoils h) start 0 0 h5
                 [b0; b1; bytesno] cells0)
  end.
  2: reflexivity.
  2: reflexivity.
  2-4: lia.
  2: lia.
  2: rewrite Z.add_0_r, Z2Nat.id by lia; exact Hregs.
  2: rewrite Hc0l, Z2Nat.id by lia; unfold bytesno in *; Z.div_mod_to_equations; lia.
  2: cbn [length]; rewrite Z.add_0_l, Z2Nat.id by lia; lia.
  rewrite Z.add_0_r, Z.add_0_l, Z2Nat.id by lia.
  set (bits := coils_from (u16regsCoils h) start (Z.to_nat n)).
  assert (Hbl : length bits = Z.to_nat n) by apply coils_from_length.
  rewrite (fill_bits_pack k bits cells0).
  2-3: rewrite Hbl; unfold k, bytesno; Z.div_mod_to_equations; lia.
  2: rewrite Hc0l; unfold k; lia.
  2: intros _; exact Hc0z.
  msimpl.
  assert (Hpk : pack_bits_aux k bits = pack_bits bits).
  { unfold pack_bits. rewrite Hbl, Z2Nat.id by lia. reflexivity. }
  rewrite Hpk.
  assert (Hfl : length frame = (3 + k)%nat).
  { unfold frame. fold bits. rewrite length_app, <- Hpk, pack_bits_aux_length.
    reflexivity. }
  assert (Hsz : (if negb (n mod 8 =? 0) then u8 (Z.of_nat 3 + n / 8 + 1)
                 else Z.of_nat 3 + n / 8) = Z.of_nat (length frame)).
  { rewrite Hfl. unfold k. rewrite Hbn.
    destruct (n mod 8 =? 0); cbn [negb]; rewrite ?u8_id by lia; lia. }
  destruct (negb (n mod 8 =? 0)) eqn:Hodd; msimpl; cbn [length] in Hsz |- *;
    rewrite Hsz;
    (erewrite (sendTxBuffer_frame _ frame (drop k cells0));
     [ eexists _, _, _, _; unfold sent; msimpl; reflexivity
     | msimpl; unfold frame; fold bits; rewrite <- app_assoc; reflexivity
     | reflexivity
     | unfold frame; fold bits; rewrite <- Hpk;
       apply Forall_app; split;
       [ repeat (constructor; [first [assumption | unfold is_byte; lia]|]); constructor
       | apply pack_bits_aux_bytes ]
     | rewrite Hfl; unfold k; lia
     | rewrite length_drop, Hc0l; unfold k; lia ]).
Qed.

Lemma validateRequest_coils_check (h : modbusHandler_t) (func ahi alo nhi nlo : Z) :
  crc_matches h = Some (true, h) ->
  arr_get (u8Buffer h) FUNC = Some func ->
  func = MB_FC_READ_COILS \/ func = MB_FC_READ_DISCRETE_INPUT
  \/ func = MB_FC_WRITE_MULTIPLE_COILS ->
  arr_get (u8Buffer h) ADD_HI = Some ahi ->
  arr_get (u8Buffer h) ADD_LO = Some alo ->
  arr_get (u8Buffer h) NB_HI = Some nhi ->
  arr_get (u8Buffer h) NB_LO = Some nlo ->
  validateRequest h
  = Some ((if word ahi alo / 16 + (word nhi nlo + 15) / 16 >? u16regCoils_size h
           then EXC_ADDR_RANGE
           else if (word nhi nlo + 7) / 8 + 5 >? 256 then EXC_REGS_QUANT
           else 0), h).
Proof.
  intros Hcrc Hf Hfunc Hahi Halo Hnhi Hnlo.
  pose proof (word_range ahi alo) as Ha. pose proof (word_range nhi nlo) as Hn.
  set (ad := word ahi alo) in *. set (nb := word nhi nlo) in *.
  assert (H16 : (if nb mod 16 =? 0 then u16 (nb / 16) else u16 (u16 (nb / 16) + 1))
                = (nb + 15) / 16).
  { assert (0 <= nb / 16 < 4096) by (Z.div_mod_to_equations; lia).
    rewrite (u16_id (nb / 16)) by lia.
    destruct (Z.eqb_spec (nb mod 16) 0); rewrite ?u16_id by lia;
      Z.div_mod_to_equations; lia. }
  assert (H8 : u16 ((if nb mod 8 =? 0 then u16 (nb / 8) else u16 (u16 (nb / 8) + 1)) + 5)
               = (nb + 7) / 8 + 5).
  { assert (0 <= nb / 8 < 8192) by (Z.div_mod_to_equations; lia).
    rewrite (u16_id (nb / 8)) by lia.
    destruct (Z.eqb_spec (nb mod 8) 0); rewrite ?(u16_id (nb / 8 + 1)) by lia;
      rewrite u16_id by lia; Z.div_mod_to_equations; lia. }
  assert (Had : u16 (ad / 16) = ad / 16)
    by (apply u16_id; Z.div_mod_to_equations; lia).
  unfold validateRequest. unfold bind at 1. rewrite Hcrc. cbn [negb].
  msimpl. rewrite Hf.
  destruct Hfunc as [->|[->| ->]];
    cbn [isSupported fctsupported existsb Z.eqb negb orb
      MB_FC_READ_COILS MB_FC_READ_DISCRETE_INPUT MB_FC_READ_REGISTERS
      MB_FC_READ_INPUT_REGISTER MB_FC_WRITE_COIL MB_FC_WRITE_REGISTER
      MB_FC_WRITE_MULTIPLE_COILS MB_FC_WRITE_MULTIPLE_REGISTERS Pos.eqb];
    rewrite Hahi, Halo, Hnhi, Hnlo; fold ad nb; rewrite Had, H16, H8;
    destruct (ad / 16 + (nb + 15) / 16 >? u16regCoils_size h); try reflexivity;
    destruct ((nb + 7) / 8 + 5 >? 256); reflexivity.
Qed.

Lemma slave_read_coils_turn (h : modbusHandler_t) (ahi alo nhi nlo : Z) :
  let msg := [u8id h; MB_FC_READ_COILS; ahi; alo; nhi; nlo] in
  let f := with_crc msg in
  let start := word ahi alo in
  let n := word nhi nlo in
  let bytesno := (n + 7) / 8 in
  DB_COILS = 1 ->
  rx_ready f h ->
  Forall is_byte msg ->
  1 <= n <= 2000 ->
  start / 16 + (n + 15) / 16 <= u16regCoils_size h ->
  start + n <= 65536 ->
  (start + n + 15) / 16 <= Z.of_nat (length (u16regsCoils h)) ->
  bytesno + 5 <= Z.of_nat (length (u8Buffer h)) ->
  exists h',
    StartTaskModbusSlave_body (received f h) = Some (tt, h')
    /\ transmitted (trace h')
       = transmitted (trace h)
           ++ [with_crc ([u8id h; MB_FC_READ_COILS; bytesno]
                           ++ pack_bits (coils_from (u16regsCoils h) start (Z.to_nat n)))]
    /\ i8lastError h' = 0
    /\ u16errCnt h' = u16errCnt h
    /\ same_banks h h'.
Proof.
  intros msg f start n bytesno Hdb Hrx Hbytes Hn Hsize Hmax Hregs Hcap.
  destruct (slave_turn_accepted h MB_FC_READ_COILS [ahi; alo; nhi; nlo] Hrx Hbytes)
    as [Hcrc Hturn]; [cbn [length]; lia|].
  fold msg f in Hcrc, Hturn.
  set (h1 := drained f (set_i8lastError 0 h)) in *.
  assert (Hval : validateRequest h1 = Some (0, h1)).
  { rewrite (validateRequest_coils_check h1 MB_FC_READ_COILS ahi alo nhi nlo Hcrc);
      try reflexivity; [|tauto].
    fold start n. change (u16regCoils_size h1) with (u16regCoils_size h).
    destruct (Z.gtb_spec (start / 16 + (n + 15) / 16) (u16regCoils_size h)); [lia|].
    destruct (Z.gtb_spec ((n + 7) / 8 + 5) 256); [|reflexivity].
    exfalso. Z.div_mod_to_equations. lia. }
  rewrite (Hturn Hval).
  set (h2 := set_trace (trace h1 ++ [EvSemTake]) h1).
  assert (Hproc : slave_dispatch h2
                  = match process_FC1 1 h2 with
                    | Some (r, h') => Some (tt, set_i8state r h')
                    | None => None
                    end).
  { unfold slave_dispatch. msimpl. rewrite Hdb. reflexivity. }
  rewrite Hproc.
  assert (Hid : is_byte (u8id h))
    by (inversion Hbytes; assumption).
  destruct (process_FC1_answer h2 (u8id h) MB_FC_READ_COILS ahi alo nhi nlo
              (crc_wire (crc16_modbus msg) ++ drop (length f) (u8Buffer h)))
    as (r & rest & buf & sz & Hrun).
  - reflexivity.
  - exact Hid.
  - unfold is_byte, MB_FC_READ_COILS. lia.
  - fold n. exact Hn.
  - fold start n. exact Hmax.
  - fold start n. exact Hregs.
  - fold n bytesno. change (u8Buffer h2) with (f ++ drop (length f) (u8Buffer h)).
    destruct Hrx as (_ & (_ & Hbuf & _) & _).
    rewrite length_app, length_drop. lia.
  - fold start n bytesno in Hrun. change (u16regsCoils h2) with (u16regsCoils h) in Hrun.
    rewrite Hrun.
    eexists. split; [reflexivity|].
    unfold sent. msimpl.
    rewrite !transmitted_app, transmitted_tx_events.
    change (trace h2) with (trace (drained f (set_i8lastError 0 h)) ++ [EvSemTake]).
    rewrite transmitted_app, transmitted_drained.
    cbn [transmitted set_i8lastError trace]. rewrite !app_nil_r.
    repeat split; reflexivity.
Qed.

(** X19.  A request to read [n] coils (function 1, with 1 to 2000 coils),
    addressed to the slave, with a valid CRC and a range in the coil bank.
    When the header constant DB_COILS is 1, the value [process_FC1] tests
    for, the slave answers with the byte count [(n + 7) / 8] and the coils
    from the start address on, eight to a byte, the first coil in the lowest
    bit and the last byte filled up with zeros; it changes no bank. *)
Theorem slave_read_coils (h : modbusHandler_t) (ahi alo nhi nlo : Z) :
  let msg := [u8id h; MB_FC_READ_COILS; ahi; alo; nhi; nlo] in
  let f := with_crc msg in
  let start := word ahi alo in
  let n := word nhi nlo in
  let bytesno := (n + 7) / 8 in
  DB_COILS = 1 ->
  rx_ready f h ->
  Forall is_byte msg ->
  1 <= n <= 2000 ->
  start / 16 + (n + 15) / 16 <= u16regCoils_size h ->
  start + n <= 65536 ->
  (start + n + 15) / 16 <= Z.of_nat (length (u16regsCoils h)) ->
  bytesno + 5 <= Z.of_nat (length (u8Buffer h)) ->
  exists h',
    StartTaskModbusSlave_body (received f h) = Some (tt, h')
    /\ transmitted (trace h')
       = transmitted (trace h)
           ++ [with_crc ([u8id h; MB_FC_READ_COILS; bytesno]
                           ++ pack_bits (coils_from (u16regsCoils h) start (Z.to_nat n)))]
    /\ i8lastError h' = 0
    /\ u16errCnt h' = u16errCnt h
    /\ same_banks h h'.
Proof. exact (slave_read_coils_turn h ahi alo nhi nlo). Qed.

End CoilReads.

(** ** A transaction that reads coils *)

Lemma pack_bits_aux_lookup (k : nat) :
  forall (bits : list bool) (j : nat),
    (j < k)%nat ->
    pack_bits_aux k bits !! j = Some (pack_byte (take 8 (drop (8 * j) bits))).
Proof.
  induction k as [|k IH]; intros bits j Hj; [lia|].
  cbn [pack_bits_aux]. destruct j as [|j].
  - cbn [lookup list_lookup]. rewrite Nat.mul_0_r, drop_0. reflexivity.
  - cbn [lookup list_lookup]. change (list_lookup j) with (lookup (M:=list Z) j).
    rewrite IH by lia. rewrite drop_drop.
    replace (8 + 8 * j)%nat with (8 * S j)%nat by lia. reflexivity.
Qed.

(** Bit [i] of byte [j] of the packed bits is bit [8 * j + i] of the
    list, and 0 past its end. *)
Lemma pack_bits_testbit (bits : list bool) (c : Z) :
  0 <= c < 8 * ((Z.of_nat (length bits) + 7) / 8) ->
  Z.testbit (default 0 (pack_bits bits !! Z.to_nat (c / 8))) (c mod 8)
  = default false (bits !! Z.to_nat c).
Proof.
  intros Hc. unfold pack_bits.
  assert (Hq : 0 <= c / 8 < (Z.of_nat (length bits) + 7) / 8)
    by (Z.div_mod_to_equations; lia).
  assert (Hr : 0 <= c mod 8 < 8) by (apply Z.mod_pos_bound; lia).
  rewrite pack_bits_aux_lookup by lia.
  change (default 0 (Some ?x)) with x.
  rewrite pack_byte_testbit by lia.
  rewrite lookup_take. rewrite lookup_drop.
  replace (8 * Z.to_nat (c / 8) + Z.to_nat (c mod 8))%nat with (Z.to_nat c)
    by (Z.div_mod_to_equations; lia).
  destruct (decide (Z.to_nat (c mod 8) < 8)%nat); [reflexivity|lia].
Qed.

Lemma coils_from_lookup (regs : list Z) (start : Z) (n k : nat) :
  (k < n)%nat ->
  coils_from regs start n !! k = Some (coil regs (start + Z.of_nat k)).
Proof.
  intros Hk. unfold coils_from. rewrite list_lookup_fmap, lookup_seq_lt by exact Hk.
  reflexivity.
Qed.

Lemma word_testbit (H L k : Z) :
  0 <= k ->
  Z.testbit (word H L) k
  = if k <? 8 then Z.testbit L k else (k <? 16) && Z.testbit H (k - 8).
Proof.
  intros Hk. unfold word.
  assert (Hw : u8 H * 256 + u8 L = Z.lor (Z.shiftl (u8 H) 8) (u8 L))
    by (symmetry; apply lor_shift_byte; apply u8_range).
  rewrite Hw, Z.lor_spec, Z.shiftl_spec, !u8_testbit by exact Hk.
  destruct (Z.ltb_spec k 8) as [Hlo|Hhi].
  - rewrite (Z.testbit_neg_r H (k - 8)) by lia.
    rewrite andb_false_r. reflexivity.
  - cbn [andb orb]. rewrite orb_false_r.
    destruct (Z.ltb_spec (k - 8) 8); destruct (Z.ltb_spec k 16); try lia; reflexivity.
Qed.

Lemma coil_cons (w : Z) (ws : list Z) (c : Z) :
  0 <= c ->
  coil (w :: ws) c = if c <? 16 then Z.testbit w c else coil ws (c - 16).
Proof.
  intros Hc. unfold coil. destruct (Z.ltb_spec c 16) as [Hlt|Hge].
  - rewrite Z.div_small, Z.mod_small by lia. reflexivity.
  - replace (Z.to_nat (c / 16)) with (S (Z.to_nat ((c - 16) / 16)))
      by (Z.div_mod_to_equations; lia).
    replace (c mod 16) with ((c - 16) mod 16) by (Z.div_mod_to_equations; lia).
    reflexivity.
Qed.

Lemma unpack_coils_coil (payload : list Z) :
  forall (old : list Z) (c : Z),
    0 <= c ->
    c / 8 < Z.of_nat (length payload) ->
    c / 16 < Z.of_nat (length old) ->
    coil (unpack_coils payload old) c
    = Z.testbit (default 0 (payload !! Z.to_nat (c / 8))) (c mod 8).
Proof.
  induction payload as [|lo|lo hi p IH] using list_pair_ind; intros old c Hc Hp Ho.
  - cbn [length] in Hp. Z.div_mod_to_equations; lia.
  - cbn [length] in Hp.
    assert (Hc8 : c < 8) by (Z.div_mod_to_equations; lia).
    destruct old as [|w ws]; [cbn [length] in Ho; Z.div_mod_to_equations; lia|].
    cbn [unpack_coils]. rewrite coil_cons by exact Hc.
    destruct (Z.ltb_spec c 16); [|lia].
    rewrite word_testbit by exact Hc.
    destruct (Z.ltb_spec c 8); [|lia].
    rewrite Z.div_small, Z.mod_small by lia. reflexivity.
  - destruct old as [|w ws]; [cbn [length] in Ho; Z.div_mod_to_equations; lia|].
    cbn [unpack_coils]. rewrite coil_cons by exact Hc.
    destruct (Z.ltb_spec c 16) as [Hlt|Hge].
    + rewrite word_testbit by exact Hc.
      destruct (Z.ltb_spec c 8) as [Hlo|Hhi].
      * rewrite Z.div_small, Z.mod_small by lia. reflexivity.
      * destruct (Z.ltb_spec c 16); [|lia]. cbn [andb].
        replace (c / 8) with 1 by (Z.div_mod_to_equations; lia).
        replace (c mod 8) with (c - 8) by (Z.div_mod_to_equations; lia).
        reflexivity.
    + cbn [length] in Hp, Ho.
      rewrite IH by (Z.div_mod_to_equations; lia).
      replace (Z.to_nat (c / 8)) with (S (S (Z.to_nat ((c - 16) / 8))))
        by (Z.div_mod_to_equations; lia).
      replace (c mod 8) with ((c - 16) mod 8) by (Z.div_mod_to_equations; lia).
      reflexivity.
Qed.

Section CoilTransaction.
Context `{ModbusHeader}.

(** X20.  A whole read of coils.  A master at rest queries [n] coils (1 to
    2000) of a slave with function 1; the slave, given the query the master
    transmitted, answers; the master, given that answer, copies the data
    bytes over the caller's array and notifies the originator with OK_QUERY.
    Coil [c] of the caller's array then is the slave's coil [addr + c] for
    every [c] below [n]; the coils from [n] up to the next multiple of 8 are
    cleared, whatever the caller's array held. *)
Theorem read_coils_transaction (hm hs : modbusHandler_t) (telegram : modbus_t) :
  let addr := tg_u16RegAdd telegram in
  let n := tg_u16CoilsNo telegram in
  let bytesno := (n + 7) / 8 in
  let bits := coils_from (u16regsCoils hs) addr (Z.to_nat n) in
  let q := with_crc (query_header (u8id hs) MB_FC_READ_COILS addr n) in
  let r := with_crc ([u8id hs; MB_FC_READ_COILS; bytesno] ++ pack_bits bits) in
  query_ready telegram hm ->
  tg_u8id telegram = u8id hs ->
  tg_u8fct telegram = MB_FC_READ_COILS ->
  is_word addr ->
  1 <= n <= 2000 ->
  (8 <= length (u8Buffer hm))%nat ->
  rx_fits r hm ->
  bytesno <= 2 * Z.of_nat (length (tg_u16reg telegram)) ->
  DB_COILS = 1 ->
  rx_ready q hs ->
  addr / 16 + (n + 15) / 16 <= u16regCoils_size hs ->
  addr + n <= 65536 ->
  (addr + n + 15) / 16 <= Z.of_nat (length (u16regsCoils hs)) ->
  bytesno + 5 <= Z.of_nat (length (u8Buffer hs)) ->
  exists hm1 hs1 hm2,
    SendQuery telegram hm = Some (0, hm1)
    /\ transmitted (trace hm1) = transmitted (trace hm) ++ [q]
    /\ StartTaskModbusSlave_body (received q hs) = Some (tt, hs1)
    /\ transmitted (trace hs1) = transmitted (trace hs) ++ [r]
    /\ master_on_notify telegram vTimerCallbackT35_value (received r hm1) = Some (tt, hm2)
    /\ (forall c, 0 <= c < n ->
          coil (u16regsCoils hm2) c = coil (u16regsCoils hs) (addr + c))
    /\ (forall c, n <= c < 8 * bytesno -> coil (u16regsCoils hm2) c = false)
    /\ notified (trace hm2)
       = notified (trace hm) ++ [(tg_u32CurrentTask telegram, u32 ERR_OK_QUERY)]
    /\ i8state hm2 = i8 COM_IDLE
    /\ i8lastError hm2 = 0.
Proof.
  intros addr n bytesno bits q r Hready Hsame Hfct Hadd Hn Hbufm Hfits Harr Hdb Hrx
    Hsize Hmax Hbank Hbufs.
  pose proof Hready as (_ & _ & Htid).
  pose proof Hadd as Hadd'. unfold is_word in Hadd'.
  assert (Hnw : is_word n) by (unfold is_word; lia).
  assert (Hidb : is_byte (u8id hs)) by (unfold is_byte; lia).
  assert (Hbr : 1 <= bytesno <= 250) by (unfold bytesno; Z.div_mod_to_equations; lia).
  assert (Hqb : Forall is_byte (query_header (u8id hs) MB_FC_READ_COILS addr n))
    by (apply query_header_bytes; try assumption; unfold is_byte, MB_FC_READ_COILS; lia).
  (* the query *)
  pose proof (SendQuery_read_frame hm telegram Hready
                ltac:(left; exact Hfct) Hadd Hnw Hbufm) as Hsend.
  cbv zeta in Hsend. rewrite Hfct, Hsame in Hsend.
  fold addr n in Hsend. fold q in Hsend.
  change ((MB_FC_READ_COILS =? MB_FC_READ_COILS)
          || (MB_FC_READ_COILS =? MB_FC_READ_DISCRETE_INPUT)) with true in Hsend.
  match type of Hsend with _ = Some (_, ?x) => set (hm1 := x) in * end.
  (* the slave *)
  pose proof (slave_read_coils_turn hs (addr / 256) (addr mod 256)
                (n / 256) (n mod 256)) as Hstep.
  cbv zeta in Hstep. rewrite !word_div_mod in Hstep by assumption.
  destruct (Hstep Hdb Hrx Hqb Hn Hsize Hmax Hbank Hbufs) as (hs1 & Hslave & Htx & _).
  clear Hstep. fold bytesno bits r in Htx. fold q in Hslave.
  (* the answer *)
  assert (Hbl : length bits = Z.to_nat n) by apply coils_from_length.
  assert (Hpl : length (pack_bits bits) = Z.to_nat bytesno).
  { unfold pack_bits. rewrite pack_bits_aux_length, Hbl, Z2Nat.id by lia. reflexivity. }
  set (msg := u8id hs :: MB_FC_READ_COILS :: bytesno :: pack_bits bits).
  assert (Hr : r = with_crc msg) by reflexivity.
  assert (Hml : length msg = (3 + Z.to_nat bytesno)%nat).
  { unfold msg. cbn [length]. rewrite Hpl. lia. }
  assert (Hfits1 : rx_fits r (set_i8lastError 0 hm1)).
  { destruct Hfits as (Hux & Hb & Hmx). unfold rx_fits, hm1.
    cbn [xBufferRX u8Buffer set_i8lastError set_i8state set_trace set_u16OutCnt
         set_u8BufferSize set_u8Buffer set_u16regsCoils].
    split; [exact Hux|]. split; [|exact Hmx].
    rewrite length_app, length_drop.
    unfold q. rewrite with_crc_length. unfold query_header. cbn [length]. lia. }
  pose proof (getRxBuffer_drained (set_i8lastError 0 hm1) r Hfits1) as Hget.
  change (received r (set_i8lastError 0 hm1))
    with (set_i8lastError 0 (received r hm1)) in Hget.
  set (h1 := drained r (set_i8lastError 0 hm1)) in *.
  set (rest := drop (length r) (u8Buffer hm1)).
  assert (Hb1 : u8Buffer h1 = with_crc msg ++ rest)
    by (unfold h1, rest, drained; cbn [u8Buffer]; exact eq_refl).
  assert (Htail : drop 3 (u8Buffer h1)
                  = pack_bits bits ++ crc_wire (crc16_modbus msg) ++ rest).
  { rewrite Hb1. unfold with_crc, msg. cbn [app skipn].
    rewrite <- app_assoc. reflexivity. }
  destruct (master_on_notify_answer (received r hm1) h1 telegram
              (Z.of_nat (length r)) (u8id hs) MB_FC_READ_COILS bytesno
              (pack_bits bits) rest)
    as (hm2 & _ & Hrun & Hnot & Hst & Herr & Hco & _).
  - exact Hget.
  - exact Hb1.
  - reflexivity.
  - rewrite Hpl. lia.
  - fold msg. rewrite with_crc_length, Hml. lia.
  - fold msg. unfold msg.
    constructor; [exact Hidb|]. constructor; [unfold is_byte, MB_FC_READ_COILS; lia|].
    constructor; [unfold is_byte; lia|]. apply pack_bits_aux_bytes.
  - reflexivity.
  - intros _. rewrite Htail. split.
    + rewrite length_app, Hpl. lia.
    + change (u16regsCoils (received r hm1)) with (tg_u16reg telegram). lia.
  - intros Hc. exfalso. unfold MB_FC_READ_COILS in Hc. lia.
  - change ((MB_FC_READ_COILS =? 1) || (MB_FC_READ_COILS =? 2)) with true in Hco.
    rewrite Htail in Hco.
    replace (Z.to_nat bytesno) with (length (pack_bits bits)) in Hco by exact Hpl.
    rewrite take_app_length in Hco.
    change (u16regsCoils (received r hm1)) with (tg_u16reg telegram) in Hco.
    assert (Hcoil : forall c, 0 <= c < 8 * bytesno ->
              coil (u16regsCoils hm2) c = default false (bits !! Z.to_nat c)).
    { intros c Hc. rewrite Hco.
      rewrite unpack_coils_coil.
      - apply pack_bits_testbit. rewrite Hbl, Z2Nat.id by lia. exact Hc.
      - lia.
      - rewrite Hpl. Z.div_mod_to_equations. lia.
      - Z.div_mod_to_equations. lia. }
    exists hm1, hs1, hm2.
    split; [exact Hsend|].
    split.
    { unfold hm1. cbn [trace set_i8lastError set_i8state set_trace].
      rewrite !transmitted_app, transmitted_tx_events. cbn [transmitted].
      rewrite app_nil_r. reflexivity. }
    split; [exact Hslave|]. split; [exact Htx|]. split; [exact Hrun|].
    split.
    { intros c Hc. rewrite Hcoil by (unfold bytesno; Z.div_mod_to_equations; lia).
      unfold bits. rewrite coils_from_lookup by lia.
      rewrite Z2Nat.id by lia. reflexivity. }
    split.
    { intros c Hc. rewrite Hcoil by lia.
      rewrite lookup_ge_None_2 by (rewrite Hbl; lia). reflexivity. }
    split.
    { rewrite Hnot. unfold hm1.
      cbn [trace received set_xBufferRX set_i8lastError set_i8state set_trace].
      rewrite !notified_app, notified_tx_events. cbn [notified].
      rewrite !app_nil_r. reflexivity. }
    split; [exact Hst|exact Herr].
Qed.

End CoilTransaction.

(** ** Write requests for several coils *)

Lemma u16_testbit (x k : Z) : Z.testbit (u16 x) k = (k <? 16) && Z.testbit x k.
Proof. unfold u16. change 65536 with (2 ^ 16). apply Z.testbit_mod_pow2. lia. Qed.

Lemma coil_insert (cs : list Z) (d c w : Z) (b : bool) :
  0 <= d -> 0 <= c ->
  cs !! Z.to_nat (d / 16) = Some w ->
  coil (<[Z.to_nat (d / 16) := u16 (bitWrite w (d mod 16) b)]> cs) c
  = if c =? d then b else coil cs c.
Proof.
  intros Hd Hc Hw. unfold coil.
  assert (Hlt : (Z.to_nat (d / 16) < length cs)%nat)
    by (apply lookup_lt_is_Some; eauto).
  assert (Hcm : 0 <= c mod 16 < 16) by (apply Z.mod_pos_bound; lia).
  assert (Hdm : 0 <= d mod 16 < 16) by (apply Z.mod_pos_bound; lia).
  destruct (Z.eq_dec (c / 16) (d / 16)) as [Heq|Hne].
  - rewrite Heq, list_lookup_insert_eq by exact Hlt.
    change (default 0 (Some ?x)) with x.
    rewrite u16_testbit, bitWrite_testbit by lia.
    destruct (Z.ltb_spec (c mod 16) 16); [|lia]. cbn [andb].
    rewrite Hw. change (default 0 (Some ?x)) with x.
    destruct (Z.eqb_spec (c mod 16) (d mod 16)) as [Hm|Hm];
      destruct (Z.eqb_spec c d) as [Hcd|Hcd]; try reflexivity.
    + exfalso. apply Hcd. Z.div_mod_to_equations. lia.
    + exfalso. apply Hm. rewrite Hcd. reflexivity.
  - rewrite list_lookup_insert_ne
      by (intros E; apply Hne; apply Z2Nat.inj in E;
          [symmetry; exact E| |]; apply Z.div_pos; lia).
    destruct (Z.eqb_spec c d) as [Hcd|Hcd]; [|reflexivity].
    exfalso. apply Hne. rewrite Hcd. reflexivity.
Qed.

Section CoilWrites.
Context `{ModbusHeader}.

Lemma process_FC15_loop_spec (n : nat) :
  forall (start : Z) (k : nat) (h : modbusHandler_t),
    0 <= start ->
    start + Z.of_nat (k + n) <= 65536 ->
    Z.of_nat (k + n) <= 1968 ->
    7 + (Z.of_nat (k + n) + 7) / 8 <= Z.of_nat (length (u8Buffer h)) ->
    (start + Z.of_nat (k + n) + 15) / 16 <= Z.of_nat (length (u16regsCoils h)) ->
    exists cs',
      process_FC15_loop n start (Z.of_nat k) (7 + Z.of_nat k / 8) (Z.of_nat k mod 8) h
      = Some (tt, set_u16regsCoils cs' h)
      /\ length cs' = length (u16regsCoils h)
      /\ forall c, 0 <= c ->
           coil cs' c
           = if (start + Z.of_nat k <=? c) && (c <? start + Z.of_nat (k + n))
             then payload_bit (drop 7 (u8Buffer h)) (c - start)
             else coil (u16regsCoils h) c.
Proof.
  induction n as [|n IH]; intros start k h Hs Hmax Hn Hbuf Hbank.
  - exists (u16regsCoils h). split; [destruct h; reflexivity|]. split; [reflexivity|].
    intros c Hc. rewrite Nat.add_0_r.
    destruct (Z.leb_spec (start + Z.of_nat k) c);
      destruct (Z.ltb_spec c (start + Z.of_nat k)); cbn [andb]; try reflexivity; lia.
  - set (kz := Z.of_nat k) in *.
    assert (Hkz : 0 <= kz) by (unfold kz; lia).
    assert (Hkn : Z.of_nat (k + S n) = kz + Z.of_nat n + 1) by (unfold kz; lia).
    rewrite Hkn in *.
    assert (Hk8 : 0 <= kz mod 8 < 8) by (apply Z.mod_pos_bound; lia).
    assert (Hq8 : 0 <= kz / 8) by (apply Z.div_pos; lia).
    set (d := start + kz).
    assert (Hd : 0 <= d < 65536) by (unfold d; lia).
    assert (Hdm : 0 <= d mod 16 < 16) by (apply Z.mod_pos_bound; lia).
    assert (Hdq : 0 <= d / 16 < 4096) by (Z.div_mod_to_equations; lia).
    cbn [process_FC15_loop]. fold d.
    rewrite (u16_id d), (u16_id (d / 16)), (u8_id (d mod 16)) by lia.
    msimpl.
    rewrite arr_get_nonneg by lia.
    destruct (lookup_lt_is_Some_2 (u8Buffer h) (Z.to_nat (7 + kz / 8))) as [cell Hcell].
    { Z.div_mod_to_equations. lia. }
    rewrite Hcell. cbv beta iota.
    rewrite arr_get_nonneg by lia.
    destruct (lookup_lt_is_Some_2 (u16regsCoils h) (Z.to_nat (d / 16))) as [w Hw].
    { unfold d. Z.div_mod_to_equations. lia. }
    rewrite Hw. cbv beta iota.
    rewrite arr_set_lt by (apply lookup_lt_Some in Hw; lia).
    cbv beta iota.
    rewrite bitRead_eqb by lia.
    set (b := Z.testbit cell (kz mod 8)).
    set (cs1 := <[Z.to_nat (d / 16) := u16 (bitWrite w (d mod 16) b)]> (u16regsCoils h)).
    set (h1 := set_u16regsCoils cs1 h).
    rewrite (u16_id (kz + 1)) by lia.
    assert (Hnext : (if u8 (kz mod 8 + 1) >? 7
                     then process_FC15_loop n start (kz + 1) (u8 (7 + kz / 8 + 1)) 0
                     else process_FC15_loop n start (kz + 1) (7 + kz / 8)
                            (u8 (kz mod 8 + 1)))
                    = process_FC15_loop n start (Z.of_nat (S k))
                        (7 + Z.of_nat (S k) / 8) (Z.of_nat (S k) mod 8)).
    { replace (Z.of_nat (S k)) with (kz + 1) by (unfold kz; lia).
      rewrite (u8_id (kz mod 8 + 1)) by lia.
      destruct (Z.gtb_spec (kz mod 8 + 1) 7) as [Hg|Hg].
      - replace ((kz + 1) / 8) with (kz / 8 + 1) by (Z.div_mod_to_equations; lia).
        replace ((kz + 1) mod 8) with 0 by (Z.div_mod_to_equations; lia).
        rewrite u8_id by (Z.div_mod_to_equations; lia).
        rewrite Z.add_assoc. reflexivity.
      - replace ((kz + 1) / 8) with (kz / 8) by (Z.div_mod_to_equations; lia).
        replace ((kz + 1) mod 8) with (kz mod 8 + 1) by (Z.div_mod_to_equations; lia).
        reflexivity. }
    rewrite Hnext.
    assert (Hl1 : length cs1 = length (u16regsCoils h))
      by (unfold cs1; apply length_insert).
    destruct (IH start (S k) h1) as (cs' & Hrun & Hlen & Hcoil).
    + exact Hs.
    + replace (Z.of_nat (S k + n)) with (kz + Z.of_nat n + 1) by (unfold kz; lia). lia.
    + replace (Z.of_nat (S k + n)) with (kz + Z.of_nat n + 1) by (unfold kz; lia). lia.
    + replace (Z.of_nat (S k + n)) with (kz + Z.of_nat n + 1) by (unfold kz; lia).
      exact Hbuf.
    + replace (Z.of_nat (S k + n)) with (kz + Z.of_nat n + 1) by (unfold kz; lia).
      change (u16regsCoils h1) with cs1. rewrite Hl1. exact Hbank.
    + exists cs'. split; [rewrite Hrun; reflexivity|].
      split; [rewrite Hlen; exact Hl1|].
      intros c Hc. rewrite (Hcoil c Hc).
      replace (Z.of_nat (S k)) with (kz + 1) by (unfold kz; lia).
      replace (Z.of_nat (S k + n)) with (kz + Z.of_nat n + 1) by (unfold kz; lia).
      change (u8Buffer h1) with (u8Buffer h).
      change (u16regsCoils h1) with cs1. unfold cs1.
      rewrite (coil_insert (u16regsCoils h) d c w b) by (first [lia | exact Hw]).
      destruct (Z.leb_spec (start + (kz + 1)) c);
        destruct (Z.leb_spec d c);
        destruct (Z.ltb_spec c (start + (kz + Z.of_nat n + 1)));
        destruct (Z.eqb_spec c d); cbn [andb]; try reflexivity; unfold d in *; try lia.
      subst c. unfold payload_bit.
      replace (start + kz - start) with kz by lia.
      rewrite lookup_drop.
      replace (7 + Z.to_nat (kz / 8))%nat with (Z.to_nat (7 + kz / 8)) by lia.
      rewrite Hcell. reflexivity.
Qed.

Lemma process_FC15_answer (h : modbusHandler_t) (b0 ahi alo nhi nlo : Z)
    (post : list Z) :
  let start := word ahi alo in
  let n := word nhi nlo in
  let msg := [b0; MB_FC_WRITE_MULTIPLE_COILS; ahi; alo; nhi; nlo] in
  u8Buffer h = msg ++ post ->
  Forall is_byte msg ->
  n <= 1968 ->
  start + n <= 65536 ->
  7 + (n + 7) / 8 <= Z.of_nat (length (u8Buffer h)) ->
  (2 <= length post)%nat ->
  (start + n + 15) / 16 <= Z.of_nat (length (u16regsCoils h)) ->
  exists cs',
    process_FC15 h
    = Some (8, sent (with_crc msg) (drop 2 post)
                 (set_u8BufferSize 6 (set_u16regsCoils cs' h)))
    /\ length cs' = length (u16regsCoils h)
    /\ forall c, 0 <= c ->
         coil cs' c
         = if (start <=? c) && (c <? start + n)
           then payload_bit (drop 7 (u8Buffer h)) (c - start)
           else coil (u16regsCoils h) c.
Proof.
  intros start n msg Hbuf Hbytes Hn Hmax Hcells Hpost Hbank.
  pose proof (word_range ahi alo) as Hstart. fold start in Hstart.
  pose proof (word_range nhi nlo) as Hqty. fold n in Hqty.
  unfold process_FC15. msimpl. unfold msg in Hbuf. cbn [app] in Hbuf.
  do 4 (rewrite Hbuf; arr_get_step; cbv beta iota).
  fold start n.
  destruct (process_FC15_loop_spec (Z.to_nat n) start 0 h) as (cs' & Hrun & Hlen & Hcoil).
  - lia.
  - rewrite Nat.add_0_l, Z2Nat.id by lia. exact Hmax.
  - rewrite Nat.add_0_l, Z2Nat.id by lia. exact Hn.
  - rewrite Nat.add_0_l, Z2Nat.id by lia. exact Hcells.
  - rewrite Nat.add_0_l, Z2Nat.id by lia. exact Hbank.
  - change (Z.of_nat 0) with 0 in Hrun. change (7 + 0 / 8) with 7 in Hrun.
    change (0 mod 8) with 0 in Hrun. rewrite Hrun. cbv beta iota.
    rewrite (sendTxBuffer_frame _ msg post).
    + exists cs'. split; [reflexivity|]. split; [exact Hlen|].
      intros c Hc. rewrite (Hcoil c Hc).
      rewrite Nat.add_0_l, Z2Nat.id, Z.add_0_r, ?Hbuf by lia. reflexivity.
    + msimpl. rewrite ?Hbuf. reflexivity.
    + reflexivity.
    + exact Hbytes.
    + unfold msg. cbn [length]. lia.
    + exact Hpost.
Qed.

Lemma slave_write_coils_turn (h : modbusHandler_t) (ahi alo nhi nlo : Z)
    (body : list Z) :
  let head := [u8id h; MB_FC_WRITE_MULTIPLE_COILS; ahi; alo; nhi; nlo] in
  let f := with_crc (head ++ body) in
  let start := word ahi alo in
  let n := word nhi nlo in
  let data := drop 7 (f ++ drop (length f) (u8Buffer h)) in
  rx_ready f h ->
  Forall is_byte (head ++ body) ->
  n <= 1968 ->
  start / 16 + (n + 15) / 16 <= u16regCoils_size h ->
  start + n <= 65536 ->
  (start + n + 15) / 16 <= Z.of_nat (length (u16regsCoils h)) ->
  7 + (n + 7) / 8 <= Z.of_nat (length (u8Buffer h)) ->
  exists h',
    StartTaskModbusSlave_body (received f h) = Some (tt, h')
    /\ length (u16regsCoils h') = length (u16regsCoils h)
    /\ (forall c, 0 <= c ->
          coil (u16regsCoils h') c
          = if (start <=? c) && (c <? start + n)
            then payload_bit data (c - start)
            else coil (u16regsCoils h) c)
    /\ transmitted (trace h') = transmitted (trace h) ++ [with_crc head]
    /\ i8lastError h' = 0
    /\ u16errCnt h' = u16errCnt h
    /\ u16regsHR h' = u16regsHR h
    /\ u16regsRO h' = u16regsRO h
    /\ discrete_inputs h' = discrete_inputs h.
Proof.
  intros head f start n data Hrx Hbytes Hn Hsize Hmax Hbank Hcells.
  pose proof (word_range ahi alo) as Hstart. fold start in Hstart.
  pose proof (word_range nhi nlo) as Hqty. fold n in Hqty.
  set (msg := head ++ body) in *.
  destruct (slave_turn_accepted h MB_FC_WRITE_MULTIPLE_COILS
              (ahi :: alo :: nhi :: nlo :: body) Hrx Hbytes)
    as [Hcrc Hturn]; [cbn [length]; lia|].
  change (u8id h :: MB_FC_WRITE_MULTIPLE_COILS :: ahi :: alo :: nhi :: nlo :: body)
    with msg in Hcrc, Hturn.
  fold f in Hcrc, Hturn.
  set (h1 := drained f (set_i8lastError 0 h)) in *.
  set (stale := drop (length f) (u8Buffer h)) in *.
  set (crc := crc_wire (crc16_modbus msg)) in *.
  assert (Hb1 : u8Buffer h1 = head ++ body ++ crc ++ stale).
  { unfold h1, drained, f, with_crc, msg. cbn [u8Buffer set_i8lastError].
    rewrite <- !app_assoc. reflexivity. }
  assert (Hval : validateRequest h1 = Some (0, h1)).
  { rewrite (validateRequest_coils_check h1 MB_FC_WRITE_MULTIPLE_COILS ahi alo nhi nlo
               Hcrc); try (rewrite Hb1; reflexivity); [|tauto].
    fold start n. change (u16regCoils_size h1) with (u16regCoils_size h).
    destruct (Z.gtb_spec (start / 16 + (n + 15) / 16) (u16regCoils_size h)); [lia|].
    destruct (Z.gtb_spec ((n + 7) / 8 + 5) 256); [|reflexivity].
    exfalso. Z.div_mod_to_equations. lia. }
  rewrite (Hturn Hval).
  set (h2 := set_trace (trace h1 ++ [EvSemTake]) h1).
  assert (Hproc : slave_dispatch h2
                  = match process_FC15 h2 with
                    | Some (r, h') => Some (tt, set_i8state r h')
                    | None => None
                    end) by (unfold slave_dispatch, h2; msimpl; rewrite Hb1; reflexivity).
  rewrite Hproc.
  assert (Hhead : Forall is_byte head)
    by (unfold msg in Hbytes; apply Forall_app in Hbytes; tauto).
  assert (Hlen1 : length (u8Buffer h1) = length (u8Buffer h)).
  { destruct Hrx as (_ & (_ & Hbuf & _) & _).
    unfold h1, drained. cbn [u8Buffer set_i8lastError].
    rewrite length_app, length_drop. lia. }
  destruct (process_FC15_answer h2 (u8id h) ahi alo nhi nlo (body ++ crc ++ stale))
    as (cs' & Hrun & Hlen & Hcoil).
  - exact Hb1.
  - exact Hhead.
  - exact Hn.
  - exact Hmax.
  - change (u8Buffer h2) with (u8Buffer h1). rewrite Hlen1. exact Hcells.
  - rewrite !length_app. unfold crc, crc_wire. cbn [length]. lia.
  - exact Hbank.
  - fold start n in Hrun, Hcoil. rewrite Hrun.
    eexists. split; [reflexivity|].
    unfold sent. msimpl.
    split; [exact Hlen|]. split; [exact Hcoil|].
    rewrite !transmitted_app, transmitted_tx_events.
    change (trace h2) with (trace (drained f (set_i8lastError 0 h)) ++ [EvSemTake]).
    rewrite transmitted_app, transmitted_drained.
    cbn [transmitted set_i8lastError trace]. rewrite !app_nil_r.
    repeat split; reflexivity.
Qed.

(** X21.  A request to write [n] coils (function 15, at most 1968 coils),
    addressed to the slave, with a valid CRC and a range that
    [validateRequest] lets through.  The slave sets coil [start + j] to bit
    [j mod 8] of the byte at offset [7 + j / 8] of the frame buffer, for
    every [j] below [n]: the byte count of the request and the length of the
    frame received are not looked at.  Every other coil keeps its value, and
    the answer is the first six bytes of the request. *)
Theorem slave_write_coils (h : modbusHandler_t) (ahi alo nhi nlo : Z)
    (body : list Z) :
  let head := [u8id h; MB_FC_WRITE_MULTIPLE_COILS; ahi; alo; nhi; nlo] in
  let f := with_crc (head ++ body) in
  let start := word ahi alo in
  let n := word nhi nlo in
  let data := drop 7 (f ++ drop (length f) (u8Buffer h)) in
  rx_ready f h ->
  Forall is_byte (head ++ body) ->
  n <= 1968 ->
  start / 16 + (n + 15) / 16 <= u16regCoils_size h ->
  start + n <= 65536 ->
  (start + n + 15) / 16 <= Z.of_nat (length (u16regsCoils h)) ->
  7 + (n + 7) / 8 <= Z.of_nat (length (u8Buffer h)) ->
  exists h',
    StartTaskModbusSlave_body (received f h) = Some (tt, h')
    /\ length (u16regsCoils h') = length (u16regsCoils h)
    /\ (forall c, 0 <= c ->
          coil (u16regsCoils h') c
          = if (start <=? c) && (c <? start + n)
            then payload_bit data (c - start)
            else coil (u16regsCoils h) c)
    /\ transmitted (trace h') = transmitted (trace h) ++ [with_crc head]
    /\ i8lastError h' = 0
    /\ u16errCnt h' = u16errCnt h
    /\ u16regsHR h' = u16regsHR h
    /\ u16regsRO h' = u16regsRO h
    /\ discrete_inputs h' = discrete_inputs h.
Proof. exact (slave_write_coils_turn h ahi alo nhi nlo body). Qed.

End CoilWrites.

(** ** The query that writes several coils *)

Lemma encode_regs_lookup (regs : list Z) :
  forall (k : nat) (w : Z),
    regs !! Z.to_nat (Z.of_nat k / 2) = Some w ->
    encode_regs regs !! k
    = Some (u8 (if negb (Z.of_nat k mod 2 =? 0) then lowByte w else highByte w)).
Proof.
  induction regs as [|r regs IH]; intros k w Hw; [discriminate|].
  cbn [encode_regs flat_map app]. fold (encode_regs regs).
  destruct k as [|[|k]].
  - cbn in Hw. inversion Hw. reflexivity.
  - cbn in Hw. inversion Hw. reflexivity.
  - cbn [lookup list_lookup].
    replace (Z.to_nat (Z.of_nat (S (S k)) / 2)) with (S (Z.to_nat (Z.of_nat k / 2))) in Hw
      by (Z.div_mod_to_equations; lia).
    cbn [lookup list_lookup] in Hw.
    replace (Z.of_nat (S (S k)) mod 2) with (Z.of_nat k mod 2)
      by (Z.div_mod_to_equations; lia).
    apply IH. exact Hw.
Qed.

Section CoilQuery.
Context `{ModbusHeader}.

Lemma SendQuery_FC15_loop_spec (n : nat) :
  forall (regs : list Z) (k : nat) (h : modbusHandler_t) (pre mid : list Z),
    u8Buffer h = pre ++ mid ->
    u8BufferSize h = Z.of_nat (length pre) ->
    (length pre + n <= 255)%nat ->
    (n <= length mid)%nat ->
    (k + n <= 2 * length regs)%nat ->
    Z.of_nat (k + n) <= 65535 ->
    SendQuery_FC15_loop n regs (Z.of_nat k) h
    = Some (tt, set_u8BufferSize (Z.of_nat (length pre + n))
                  (set_u8Buffer
                     (pre ++ take n (drop k (encode_regs regs)) ++ drop n mid) h)).
Proof.
  induction n as [|n IH]; intros regs k h pre mid Hbuf Hsize Hcap Hmid Hregs Hmax.
  - rewrite take_0, drop_0, Nat.add_0_r. cbn [SendQuery_FC15_loop app].
    rewrite <- Hbuf, <- Hsize. destruct h; reflexivity.
  - destruct mid as [|m0 mid]; cbn [length] in Hmid; [lia|].
    assert (Hq : 0 <= Z.of_nat k / 2) by (apply Z.div_pos; lia).
    destruct (lookup_lt_is_Some_2 regs (Z.to_nat (Z.of_nat k / 2))) as [w Hw].
    { Z.div_mod_to_equations. lia. }
    pose proof (encode_regs_lookup regs k w Hw) as Henc.
    set (x := u8 (if negb (Z.of_nat k mod 2 =? 0) then lowByte w else highByte w)) in *.
    cbn [SendQuery_FC15_loop]. msimpl.
    rewrite arr_get_nonneg, Hw by exact Hq. cbv beta iota.
    rewrite Hsize, Hbuf, arr_set_middle. fold x. msimpl.
    rewrite Hsize, (u8_id (Z.of_nat (length pre) + 1)) by lia.
    rewrite u16_id by lia.
    replace (Z.of_nat k + 1) with (Z.of_nat (S k)) by lia.
    rewrite (IH regs (S k) _ (pre ++ [x]) mid).
    + msimpl. rewrite (drop_S _ x k Henc). cbn [firstn skipn].
      rewrite length_app. cbn [length].
      replace (length pre + 1 + n)%nat with (length pre + S n)%nat by lia.
      rewrite <- !app_assoc. reflexivity.
    + msimpl. rewrite <- app_assoc. reflexivity.
    + msimpl. rewrite length_app. cbn [length]. lia.
    + rewrite length_app. cbn [length]. lia.
    + lia.
    + lia.
    + lia.
Qed.

Lemma coil_bytes_range (n : Z) : 0 <= n <= 1968 -> 0 <= coil_bytes n <= 246.
Proof.
  intros Hn. unfold coil_bytes.
  destruct (Z.eqb_spec (n mod 16) 0); Z.div_mod_to_equations; lia.
Qed.

Lemma SendQuery_coils_frame (h : modbusHandler_t) (telegram : modbus_t) :
  let n := tg_u16CoilsNo telegram in
  let regs := tg_u16reg telegram in
  let bytesno := coil_bytes n in
  let msg := query_header (tg_u8id telegram) MB_FC_WRITE_MULTIPLE_COILS
               (tg_u16RegAdd telegram) n
             ++ [bytesno] ++ take (Z.to_nat bytesno) (encode_regs regs) in
  query_ready telegram h ->
  tg_u8fct telegram = MB_FC_WRITE_MULTIPLE_COILS ->
  is_word (tg_u16RegAdd telegram) ->
  0 <= n <= 1968 ->
  (n + 15) / 16 <= Z.of_nat (length regs) ->
  (9 + Z.to_nat bytesno <= length (u8Buffer h))%nat ->
  SendQuery telegram h
  = Some (0, set_i8lastError 0
               (set_i8state (i8 COM_WAITING)
                  (set_trace
                     (trace h ++ [EvSemTake] ++ tx_events h (with_crc msg) ++ [EvSemGive])
                     (set_u16OutCnt (u16 (u16OutCnt h + 1))
                        (set_u8BufferSize 0
                           (set_u8Buffer
                              (with_crc msg ++ drop (9 + Z.to_nat bytesno) (u8Buffer h))
                              (set_u16regsCoils regs h))))))).
Proof.
  intros n regs bytesno msg (Hid & Hst & Htid) Hfct Hadd Hn Hregs Hbuf.
  destruct (u8Buffer h) as [|x0 [|x1 [|x2 [|x3 [|x4 [|x5 [|x6 rest]]]]]]] eqn:Hb;
    cbn [length] in Hbuf; try lia.
  assert (Hnw : is_word n) by (unfold is_word; lia).
  pose proof (coil_bytes_range n Hn) as Hbr. fold bytesno in Hbr.
  assert (Hn16 : 0 <= n / 16 <= 123) by (Z.div_mod_to_equations; lia).
  unfold SendQuery. msimpl.
  rewrite Hid, Hst, !Z.eqb_refl. cbn [negb].
  destruct (Z.eqb_spec (tg_u8id telegram) 0) as [?|_]; [lia|].
  destruct (Z.gtb_spec (tg_u8id telegram) 247) as [?|_]; [lia|].
  cbn [orb Z.eqb negb].
  rewrite Hfct.
  cbn [Z.eqb Pos.eqb orb MB_FC_READ_COILS MB_FC_READ_DISCRETE_INPUT MB_FC_READ_REGISTERS
       MB_FC_READ_INPUT_REGISTER MB_FC_WRITE_COIL MB_FC_WRITE_MULTIPLE_COILS
       MB_FC_WRITE_REGISTER MB_FC_WRITE_MULTIPLE_REGISTERS].
  msimpl. rewrite Hb.
  rewrite !highByte_word_byte, !lowByte_word_byte by assumption.
  fold n regs.
  replace (if n mod 16 =? 0 then u8 (u8 (n / 16) * 2) else u8 (u8 (u8 (n / 16) * 2) + 1))
    with bytesno
    by (unfold bytesno, coil_bytes; rewrite (u8_id (n / 16)) by lia;
        rewrite (u8_id (n / 16 * 2)) by lia;
        destruct (n mod 16 =? 0); rewrite ?u8_id by lia; lia).
  do 7 (arr_set_step; msimpl).
  cbn [insert list_insert Z.to_nat ID FUNC ADD_HI ADD_LO NB_HI NB_LO BYTE_CNT Pos.to_nat
       Pos.iter_op Nat.add].
  set (pre := [tg_u8id telegram; 15; tg_u16RegAdd telegram / 256;
               tg_u16RegAdd telegram mod 256; n / 256; n mod 256; bytesno]).
  match goal with
  | |- context [SendQuery_FC15_loop _ _ 0 ?h7] =>
      change (SendQuery_FC15_loop (Z.to_nat bytesno) regs 0 h7)
        with (SendQuery_FC15_loop (Z.to_nat bytesno) regs (Z.of_nat 0) h7);
      rewrite (SendQuery_FC15_loop_spec (Z.to_nat bytesno) regs 0 h7 pre rest);
        [|reflexivity|reflexivity|unfold pre; cbn [length]; lia|lia|
          unfold bytesno, coil_bytes in *;
          destruct (Z.eqb_spec (n mod 16) 0); Z.div_mod_to_equations; lia|lia]
  end.
  msimpl. rewrite drop_0.
  assert (Hel : (Z.to_nat bytesno <= length (encode_regs regs))%nat).
  { rewrite encode_regs_length. unfold bytesno, coil_bytes in *.
    destruct (Z.eqb_spec (n mod 16) 0); Z.div_mod_to_equations; lia. }
  assert (Hmsg : msg = pre ++ take (Z.to_nat bytesno) (encode_regs regs)) by reflexivity.
  assert (Hml : length msg = (7 + Z.to_nat bytesno)%nat).
  { rewrite Hmsg, length_app, length_take. unfold pre. cbn [length]. lia. }
  match goal with
  | |- context [sendTxBuffer ?h8] =>
      rewrite (sendTxBuffer_frame h8 msg (drop (Z.to_nat bytesno) rest))
  end.
  - unfold sent, tx_events, with_crc. msimpl.
    rewrite drop_drop. cbn [skipn].
    replace (Z.to_nat bytesno + 2)%nat with (S (S (Z.to_nat bytesno))) by lia.
    rewrite <- !app_assoc. reflexivity.
  - msimpl. rewrite Hmsg, <- app_assoc. reflexivity.
  - msimpl. rewrite Hml. unfold pre. cbn [length]. reflexivity.
  - rewrite Hmsg. apply Forall_app. split; [|apply Forall_take, encode_regs_bytes].
    unfold pre.
    assert (Hq := query_header_bytes (tg_u8id telegram) 15 (tg_u16RegAdd telegram) n).
    unfold query_header in Hq.
    assert (Hall : Forall is_byte
                     [tg_u8id telegram; 15; tg_u16RegAdd telegram / 256;
                      tg_u16RegAdd telegram mod 256; n / 256; n mod 256])
      by (apply Hq; try assumption; unfold is_byte; lia).
    change [tg_u8id telegram; 15; tg_u16RegAdd telegram / 256;
            tg_u16RegAdd telegram mod 256; n / 256; n mod 256; bytesno]
      with ([tg_u8id telegram; 15; tg_u16RegAdd telegram / 256;
             tg_u16RegAdd telegram mod 256; n / 256; n mod 256] ++ [bytesno]).
    apply Forall_app. split; [exact Hall|].
    constructor; [unfold is_byte; lia|constructor].
  - rewrite Hml. lia.
  - rewrite length_drop. lia.
Qed.

End CoilQuery.

(** ** A transaction that writes coils *)

Lemma encode_regs_bit (regs : list Z) (j : Z) :
  0 <= j ->
  j / 16 < Z.of_nat (length regs) ->
  payload_bit (encode_regs regs) j
  = coil regs (if j mod 16 <? 8 then j + 8 else j - 8).
Proof.
  intros Hj Hlen.
  assert (Hq : 0 <= j / 16) by (apply Z.div_pos; lia).
  destruct (lookup_lt_is_Some_2 regs (Z.to_nat (j / 16)) ltac:(lia)) as [w Hw].
  assert (Hk : Z.of_nat (Z.to_nat (j / 8)) = j / 8)
    by (apply Z2Nat.id; apply Z.div_pos; lia).
  assert (Hm8 : 0 <= j mod 8 < 8) by (apply Z.mod_pos_bound; lia).
  unfold payload_bit.
  rewrite (encode_regs_lookup regs (Z.to_nat (j / 8)) w)
    by (rewrite Hk; replace (j / 8 / 2) with (j / 16)
          by (Z.div_mod_to_equations; lia); exact Hw).
  change (default 0 (Some ?x)) with x. rewrite Hk.
  rewrite u8_testbit. destruct (Z.ltb_spec (j mod 8) 8); [|lia]. cbn [andb].
  unfold coil.
  destruct (Z.ltb_spec (j mod 16) 8) as [Hlo|Hhi].
  - replace ((j / 8) mod 2 =? 0) with true
      by (symmetry; apply Z.eqb_eq; Z.div_mod_to_equations; lia).
    cbn [negb]. unfold highByte. rewrite Z.shiftr_spec by lia.
    replace ((j + 8) / 16) with (j / 16) by (Z.div_mod_to_equations; lia).
    replace ((j + 8) mod 16) with (j mod 8 + 8) by (Z.div_mod_to_equations; lia).
    rewrite Hw. reflexivity.
  - replace ((j / 8) mod 2 =? 0) with false
      by (symmetry; apply Z.eqb_neq; Z.div_mod_to_equations; lia).
    cbn [negb]. unfold lowByte. change 255 with (Z.ones 8).
    rewrite Z.land_ones, Z.testbit_mod_pow2 by lia.
    destruct (Z.ltb_spec (j mod 8) 8); [|lia]. cbn [andb].
    replace ((j - 8) / 16) with (j / 16) by (Z.div_mod_to_equations; lia).
    replace ((j - 8) mod 16) with (j mod 8) by (Z.div_mod_to_equations; lia).
    rewrite Hw. reflexivity.
Qed.

Section CoilWriteTransaction.
Context `{ModbusHeader}.

(** X22.  A whole write of coils.  A master at rest sends [n] coils (1 to
    1968) of the caller's array with function 15; the slave, given the query
    the master transmitted, stores them from the address asked and answers;
    the master, given that answer, notifies the originator with OK_QUERY.
    The master sends each register of the caller high byte first, and the
    slave takes the bytes lowest coil first: the slave's coil [addr + j]
    becomes the caller's coil [j + 8] when [j mod 16] is below 8 and the
    caller's coil [j - 8] otherwise.  When [n mod 16] is above 8 the master
    sends one byte less than the slave reads, and the coils of that last
    byte are set from the low byte of the CRC of the query. *)
Theorem write_coils_transaction (hm hs : modbusHandler_t) (telegram : modbus_t) :
  let addr := tg_u16RegAdd telegram in
  let n := tg_u16CoilsNo telegram in
  let regs := tg_u16reg telegram in
  let bytesno := coil_bytes n in
  let head := query_header (u8id hs) MB_FC_WRITE_MULTIPLE_COILS addr n in
  let msg := head ++ [bytesno] ++ take (Z.to_nat bytesno) (encode_regs regs) in
  let q := with_crc msg in
  let r := with_crc head in
  query_ready telegram hm ->
  tg_u8id telegram = u8id hs ->
  tg_u8fct telegram = MB_FC_WRITE_MULTIPLE_COILS ->
  is_word addr ->
  1 <= n <= 1968 ->
  (n + 15) / 16 <= Z.of_nat (length regs) ->
  (9 + Z.to_nat bytesno <= length (u8Buffer hm))%nat ->
  rx_fits r hm ->
  rx_ready q hs ->
  addr / 16 + (n + 15) / 16 <= u16regCoils_size hs ->
  addr + n <= 65536 ->
  (addr + n + 15) / 16 <= Z.of_nat (length (u16regsCoils hs)) ->
  7 + (n + 7) / 8 <= Z.of_nat (length (u8Buffer hs)) ->
  exists hm1 hs1 hm2,
    SendQuery telegram hm = Some (0, hm1)
    /\ transmitted (trace hm1) = transmitted (trace hm) ++ [q]
    /\ StartTaskModbusSlave_body (received q hs) = Some (tt, hs1)
    /\ (forall j, 0 <= j < n ->
          coil (u16regsCoils hs1) (addr + j)
          = if j / 8 <? bytesno
            then coil regs (if j mod 16 <? 8 then j + 8 else j - 8)
            else Z.testbit (crc16_modbus msg) (j mod 8))
    /\ (forall c, 0 <= c -> ~ (addr <= c < addr + n) ->
          coil (u16regsCoils hs1) c = coil (u16regsCoils hs) c)
    /\ transmitted (trace hs1) = transmitted (trace hs) ++ [r]
    /\ master_on_notify telegram vTimerCallbackT35_value (received r hm1) = Some (tt, hm2)
    /\ notified (trace hm2)
       = notified (trace hm) ++ [(tg_u32CurrentTask telegram, u32 ERR_OK_QUERY)]
    /\ i8state hm2 = i8 COM_IDLE
    /\ i8lastError hm2 = 0.
Proof.
  intros addr n regs bytesno head msg q r Hready Hsame Hfct Hadd Hn Harr Hbufm Hfits
    Hrx Hsize Hmax Hbank Hbufs.
  pose proof Hready as (_ & _ & Htid).
  pose proof Hadd as Hadd'. unfold is_word in Hadd'.
  assert (Hnw : is_word n) by (unfold is_word; lia).
  assert (Hidb : is_byte (u8id hs)) by (unfold is_byte; lia).
  pose proof (coil_bytes_range n ltac:(lia)) as Hbr. fold bytesno in Hbr.
  set (enc := take (Z.to_nat bytesno) (encode_regs regs)).
  assert (Hbn : bytesno = 2 * (n / 16) + (if n mod 16 =? 0 then 0 else 1))
    by reflexivity.
  assert (Hencl : length enc = Z.to_nat bytesno).
  { unfold enc. rewrite length_take, encode_regs_length.
    destruct (Z.eqb_spec (n mod 16) 0); Z.div_mod_to_equations; lia. }
  assert (Hqh : Forall is_byte head)
    by (apply query_header_bytes; try assumption;
        unfold is_byte, MB_FC_WRITE_MULTIPLE_COILS; lia).
  (* the query *)
  pose proof (SendQuery_coils_frame hm telegram Hready Hfct Hadd ltac:(fold n; lia)
                Harr Hbufm) as Hsend.
  cbv zeta in Hsend. fold addr n regs in Hsend. rewrite Hsame in Hsend.
  fold bytesno in Hsend. fold head in Hsend. fold msg in Hsend. fold q in Hsend.
  match type of Hsend with _ = Some (_, ?x) => set (hm1 := x) in * end.
  (* the slave *)
  pose proof (slave_write_coils_turn hs (addr / 256) (addr mod 256)
                (n / 256) (n mod 256) ([bytesno] ++ enc)) as Hstep.
  cbv zeta in Hstep. rewrite !word_div_mod in Hstep by assumption.
  change ([u8id hs; MB_FC_WRITE_MULTIPLE_COILS; addr / 256; addr mod 256;
           n / 256; n mod 256]) with head in Hstep.
  change (head ++ [bytesno] ++ enc) with msg in Hstep. fold q in Hstep.
  set (stale := drop (length q) (u8Buffer hs)) in *.
  assert (Hdata : drop 7 (q ++ stale) = enc ++ crc_wire (crc16_modbus msg) ++ stale).
  { unfold q, with_crc, msg, head, query_header. cbn [app skipn].
    rewrite <- app_assoc. reflexivity. }
  rewrite Hdata in Hstep.
  destruct Hstep as (hs1 & Hslave & _ & Hcoil & Htx & _).
  { exact Hrx. }
  { unfold msg. apply Forall_app. split; [exact Hqh|].
    constructor; [unfold is_byte; lia|]. apply Forall_take, encode_regs_bytes. }
  { lia. }
  { exact Hsize. }
  { exact Hmax. }
  { exact Hbank. }
  { exact Hbufs. }
  (* the answer *)
  assert (Hfits1 : rx_fits r (set_i8lastError 0 hm1)).
  { destruct Hfits as (Hux & Hb & Hmx). unfold rx_fits, hm1.
    cbn [xBufferRX u8Buffer set_i8lastError set_i8state set_trace set_u16OutCnt
         set_u8BufferSize set_u8Buffer set_u16regsCoils].
    split; [exact Hux|]. split; [|exact Hmx].
    rewrite length_app, length_drop. unfold q, r.
    rewrite !with_crc_length. unfold msg. rewrite !length_app.
    unfold head, query_header. cbn [length]. fold enc. rewrite Hencl. lia. }
  pose proof (getRxBuffer_drained (set_i8lastError 0 hm1) r Hfits1) as Hget.
  change (received r (set_i8lastError 0 hm1))
    with (set_i8lastError 0 (received r hm1)) in Hget.
  destruct (master_on_notify_answer (received r hm1)
              (drained r (set_i8lastError 0 hm1)) telegram
              (Z.of_nat (length r)) (u8id hs) MB_FC_WRITE_MULTIPLE_COILS (addr / 256)
              [addr mod 256; n / 256; n mod 256] (drop (length r) (u8Buffer hm1)))
    as (hm2 & _ & Hrun & Hnot & Hst & Herr & _ & _).
  - exact Hget.
  - unfold drained. cbn [u8Buffer]. exact eq_refl.
  - unfold drained. cbn [u8BufferSize]. exact eq_refl.
  - cbn [length]. lia.
  - rewrite with_crc_length. cbn [length]. lia.
  - exact Hqh.
  - reflexivity.
  - unfold MB_FC_WRITE_MULTIPLE_COILS. intros [?|?]; discriminate.
  - unfold MB_FC_WRITE_MULTIPLE_COILS. intros [?|?]; discriminate.
  - exists hm1, hs1, hm2.
    split; [exact Hsend|].
    split.
    { unfold hm1. cbn [trace set_i8lastError set_i8state set_trace].
      rewrite !transmitted_app, transmitted_tx_events. cbn [transmitted].
      rewrite app_nil_r. reflexivity. }
    split; [exact Hslave|].
    split.
    { intros j Hj. rewrite Hcoil by lia.
      destruct (Z.leb_spec addr (addr + j)); [|lia].
      destruct (Z.ltb_spec (addr + j) (addr + n)); [|lia]. cbn [andb].
      replace (addr + j - addr) with j by lia.
      assert (Hj8 : 0 <= j / 8) by (apply Z.div_pos; lia).
      destruct (Z.ltb_spec (j / 8) bytesno) as [Hin|Hout].
      - rewrite <- (encode_regs_bit regs j) by (Z.div_mod_to_equations; lia).
        unfold payload_bit. rewrite lookup_app_l by (rewrite Hencl; lia).
        unfold enc. rewrite lookup_take.
        destruct (decide (Z.to_nat (j / 8) < Z.to_nat bytesno)%nat); [reflexivity|lia].
      - assert (Hje : j / 8 = bytesno).
        { destruct (Z.eqb_spec (n mod 16) 0); Z.div_mod_to_equations; lia. }
        unfold payload_bit. rewrite lookup_app_r by (rewrite Hencl; lia).
        rewrite Hencl, Hje, Nat.sub_diag.
        cbn [crc_wire app lookup list_lookup]. change (default 0 (Some ?x)) with x.
        change 256 with (2 ^ 8). rewrite Z.testbit_mod_pow2 by lia.
        assert (Hm8 : 0 <= j mod 8 < 8) by (apply Z.mod_pos_bound; lia).
        destruct (Z.ltb_spec (j mod 8) 8); [reflexivity|lia]. }
    split.
    { intros c Hc Hout. rewrite Hcoil by exact Hc.
      destruct (Z.leb_spec addr c); destruct (Z.ltb_spec c (addr + n));
        cbn [andb]; try reflexivity. lia. }
    split; [exact Htx|]. split; [exact Hrun|].
    split.
    { rewrite Hnot. unfold hm1.
      cbn [trace received set_xBufferRX set_i8lastError set_i8state set_trace].
      rewrite !notified_app, notified_tx_events. cbn [notified].
      rewrite !app_nil_r. reflexivity. }
    split; [exact Hst|exact Herr].
Qed.

End CoilWriteTransaction.

(** ** Transactions that write one register or one coil *)

Section SingleWrites.
Context `{ModbusHeader}.

Lemma single_answer (hm1 : modbusHandler_t) (telegram : modbus_t) (id fct addr nb : Z) :
  let q := with_crc (query_header id fct addr nb) in
  rx_fits q hm1 ->
  0 <= id < 256 ->
  fct = MB_FC_WRITE_COIL \/ fct = MB_FC_WRITE_REGISTER ->
  is_word addr -> is_word nb ->
  exists hm2,
    master_on_notify telegram vTimerCallbackT35_value (received q hm1) = Some (tt, hm2)
    /\ notified (trace hm2)
       = notified (trace hm1) ++ [(tg_u32CurrentTask telegram, u32 ERR_OK_QUERY)]
    /\ i8state hm2 = i8 COM_IDLE
    /\ i8lastError hm2 = 0.
Proof.
  intros q Hfits Hid Hfct Hadd Hnb.
  assert (Hfits1 : rx_fits q (set_i8lastError 0 hm1)) by exact Hfits.
  pose proof (getRxBuffer_drained (set_i8lastError 0 hm1) q Hfits1) as Hget.
  change (received q (set_i8lastError 0 hm1))
    with (set_i8lastError 0 (received q hm1)) in Hget.
  destruct (master_on_notify_answer (received q hm1)
              (drained q (set_i8lastError 0 hm1)) telegram
              (Z.of_nat (length q)) id fct (addr / 256)
              [addr mod 256; nb / 256; nb mod 256] (drop (length q) (u8Buffer hm1)))
    as (hm2 & _ & Hrun & Hnot & Hst & Herr & _ & _).
  - exact Hget.
  - unfold drained. cbn [u8Buffer]. exact eq_refl.
  - unfold drained. cbn [u8BufferSize]. exact eq_refl.
  - cbn [length]. lia.
  - rewrite with_crc_length. cbn [length]. lia.
  - apply (query_header_bytes id fct addr nb); try assumption.
    unfold is_byte, MB_FC_WRITE_COIL, MB_FC_WRITE_REGISTER in *. lia.
  - destruct Hfct as [-> | ->]; reflexivity.
  - unfold MB_FC_WRITE_COIL, MB_FC_WRITE_REGISTER in Hfct. intros [?|?]; lia.
  - unfold MB_FC_WRITE_COIL, MB_FC_WRITE_REGISTER in Hfct. intros [?|?]; lia.
  - exists hm2. split; [exact Hrun|]. split; [|split; [exact Hst|exact Herr]].
    rewrite Hnot. reflexivity.
Qed.

(** X23.  A whole write of one register.  A master at rest sends the first
    cell of the caller's array with function 6; the slave, given the query
    the master transmitted, stores the value at the address asked and
    answers with the query itself; the master, given that answer, notifies
    the originator with OK_QUERY. *)
Theorem write_register_transaction (hm hs : modbusHandler_t) (telegram : modbus_t)
    (v : Z) :
  let addr := tg_u16RegAdd telegram in
  let q := with_crc (query_header (u8id hs) MB_FC_WRITE_REGISTER addr v) in
  query_ready telegram hm ->
  tg_u8id telegram = u8id hs ->
  tg_u8fct telegram = MB_FC_WRITE_REGISTER ->
  is_word addr ->
  tg_u16reg telegram !! 0%nat = Some v ->
  is_word v ->
  (8 <= length (u8Buffer hm))%nat ->
  rx_fits q hm ->
  rx_ready q hs ->
  addr <= u16regHR_size hs ->
  addr < Z.of_nat (length (u16regsHR hs)) ->
  exists hm1 hs1 hm2,
    SendQuery telegram hm = Some (0, hm1)
    /\ transmitted (trace hm1) = transmitted (trace hm) ++ [q]
    /\ StartTaskModbusSlave_body (received q hs) = Some (tt, hs1)
    /\ u16regsHR hs1 = <[Z.to_nat addr := v]> (u16regsHR hs)
    /\ transmitted (trace hs1) = transmitted (trace hs) ++ [q]
    /\ master_on_notify telegram vTimerCallbackT35_value (received q hm1) = Some (tt, hm2)
    /\ notified (trace hm2)
       = notified (trace hm) ++ [(tg_u32CurrentTask telegram, u32 ERR_OK_QUERY)]
    /\ i8state hm2 = i8 COM_IDLE
    /\ i8lastError hm2 = 0.
Proof.
  intros addr q Hready Hsame Hfct Hadd Hv Hword Hbufm Hfits Hrx Hsize Hbank.
  pose proof Hready as (_ & _ & Htid).
  assert (Hqb : Forall is_byte (query_header (u8id hs) MB_FC_WRITE_REGISTER addr v))
    by (apply query_header_bytes; try assumption;
        unfold is_byte, MB_FC_WRITE_REGISTER; lia).
  pose proof (SendQuery_single_frame hm telegram v Hready ltac:(right; exact Hfct)
                Hadd Hv Hword Hbufm) as Hsend.
  cbv zeta in Hsend. rewrite Hfct, Hsame in Hsend.
  change (MB_FC_WRITE_REGISTER =? MB_FC_WRITE_COIL) with false in Hsend.
  cbv beta iota in Hsend. fold addr in Hsend. fold q in Hsend.
  match type of Hsend with _ = Some (_, ?x) => set (hm1 := x) in * end.
  pose proof (slave_write_register_turn hs (addr / 256) (addr mod 256)
                (v / 256) (v mod 256)) as Hstep.
  cbv zeta in Hstep. rewrite !word_div_mod in Hstep by assumption.
  destruct (Hstep Hrx Hqb Hsize Hbank) as (hs1 & Hslave & Hhr & Htx & _).
  clear Hstep. fold q in Hslave, Htx.
  destruct (single_answer hm1 telegram (u8id hs) MB_FC_WRITE_REGISTER addr v)
    as (hm2 & Hrun & Hnot & Hst & Herr); try assumption.
  - destruct Hfits as (Hux & Hb & Hmx). unfold rx_fits, hm1.
    cbn [xBufferRX u8Buffer set_i8lastError set_i8state set_trace set_u16OutCnt
         set_u8BufferSize set_u8Buffer set_u16regsHR].
    split; [exact Hux|]. split; [|exact Hmx].
    rewrite length_app, length_drop. unfold q. rewrite with_crc_length.
    unfold query_header. cbn [length]. lia.
  - lia.
  - right. reflexivity.
  - exists hm1, hs1, hm2.
    split; [exact Hsend|].
    split.
    { unfold hm1. cbn [trace set_i8lastError set_i8state set_trace].
      rewrite !transmitted_app, transmitted_tx_events. cbn [transmitted].
      rewrite app_nil_r. reflexivity. }
    split; [exact Hslave|]. split; [exact Hhr|]. split; [exact Htx|].
    split; [exact Hrun|].
    split.
    { rewrite Hnot. unfold hm1. cbn [trace set_i8lastError set_i8state set_trace].
      rewrite !notified_app, notified_tx_events. cbn [notified].
      rewrite !app_nil_r. reflexivity. }
    split; [exact Hst|exact Herr].
Qed.

(** X24.  A whole write of one coil.  A master at rest sends function 5
    with the value 0xFF00 when the first cell of the caller's array is
    above zero and 0 otherwise; the slave, given the query the master
    transmitted, sets or clears the coil at the address asked accordingly,
    leaves its other coils alone and answers with the query itself; the
    master, given that answer, notifies the originator with OK_QUERY. *)
Theorem write_coil_transaction (hm hs : modbusHandler_t) (telegram : modbus_t)
    (v : Z) :
  let addr := tg_u16RegAdd telegram in
  let q := with_crc (query_header (u8id hs) MB_FC_WRITE_COIL addr
                       (if v >? 0 then 65280 else 0)) in
  query_ready telegram hm ->
  tg_u8id telegram = u8id hs ->
  tg_u8fct telegram = MB_FC_WRITE_COIL ->
  is_word addr ->
  tg_u16reg telegram !! 0%nat = Some v ->
  is_word v ->
  (8 <= length (u8Buffer hm))%nat ->
  rx_fits q hm ->
  rx_ready q hs ->
  (if addr mod 16 =? 0 then addr / 16 else addr / 16 + 1) <= u16regCoils_size hs ->
  addr / 16 < Z.of_nat (length (u16regsCoils hs)) ->
  Forall is_word (u16regsCoils hs) ->
  exists hm1 hs1 hm2,
    SendQuery telegram hm = Some (0, hm1)
    /\ transmitted (trace hm1) = transmitted (trace hm) ++ [q]
    /\ StartTaskModbusSlave_body (received q hs) = Some (tt, hs1)
    /\ (forall c, 0 <= c ->
          coil (u16regsCoils hs1) c
          = if c =? addr then v >? 0 else coil (u16regsCoils hs) c)
    /\ transmitted (trace hs1) = transmitted (trace hs) ++ [q]
    /\ master_on_notify telegram vTimerCallbackT35_value (received q hm1) = Some (tt, hm2)
    /\ notified (trace hm2)
       = notified (trace hm) ++ [(tg_u32CurrentTask telegram, u32 ERR_OK_QUERY)]
    /\ i8state hm2 = i8 COM_IDLE
    /\ i8lastError hm2 = 0.
Proof.
  intros addr q Hready Hsame Hfct Hadd Hv Hword Hbufm Hfits Hrx Hsize Hbank Hwords.
  pose proof Hready as (_ & _ & Htid).
  pose proof Hadd as Hadd'. unfold is_word in Hadd'.
  set (nb := if v >? 0 then 65280 else 0) in *.
  assert (Hnb : is_word nb) by (unfold nb, is_word; destruct (v >? 0); lia).
  assert (Hqb : Forall is_byte (query_header (u8id hs) MB_FC_WRITE_COIL addr nb))
    by (apply query_header_bytes; try assumption;
        unfold is_byte, MB_FC_WRITE_COIL; lia).
  pose proof (SendQuery_single_frame hm telegram v Hready ltac:(left; exact Hfct)
                Hadd Hv Hword Hbufm) as Hsend.
  cbv zeta in Hsend. rewrite Hfct, Hsame in Hsend.
  change (MB_FC_WRITE_COIL =? MB_FC_WRITE_COIL) with true in Hsend.
  cbv beta iota in Hsend. fold addr in Hsend. fold nb in Hsend. fold q in Hsend.
  match type of Hsend with _ = Some (_, ?x) => set (hm1 := x) in * end.
  assert (Hq16 : 0 <= addr / 16) by (apply Z.div_pos; lia).
  destruct (lookup_lt_is_Some_2 (u16regsCoils hs) (Z.to_nat (addr / 16)) ltac:(lia))
    as [w Hw].
  assert (Hww : is_word w).
  { rewrite Forall_forall in Hwords. apply Hwords.
    apply (list_elem_of_lookup_2 _ _ _ Hw). }
  pose proof (slave_write_coil_turn hs (addr / 256) (addr mod 256)
                (nb / 256) (nb mod 256) w) as Hstep.
  cbv zeta in Hstep. rewrite !word_div_mod in Hstep by assumption.
  destruct (Hstep Hrx Hqb Hsize Hw Hww)
    as (hs1 & w' & Hslave & Hco & _ & Hbits & Htx & _).
  clear Hstep. fold q in Hslave, Htx.
  destruct (single_answer hm1 telegram (u8id hs) MB_FC_WRITE_COIL addr nb)
    as (hm2 & Hrun & Hnot & Hst & Herr); try assumption.
  - destruct Hfits as (Hux & Hb & Hmx). unfold rx_fits, hm1.
    cbn [xBufferRX u8Buffer set_i8lastError set_i8state set_trace set_u16OutCnt
         set_u8BufferSize set_u8Buffer set_u16regsCoils].
    split; [exact Hux|]. split; [|exact Hmx].
    rewrite length_app, length_drop. unfold q. rewrite with_crc_length.
    unfold query_header. cbn [length]. lia.
  - lia.
  - left. reflexivity.
  - exists hm1, hs1, hm2.
    split; [exact Hsend|].
    split.
    { unfold hm1. cbn [trace set_i8lastError set_i8state set_trace].
      rewrite !transmitted_app, transmitted_tx_events. cbn [transmitted].
      rewrite app_nil_r. reflexivity. }
    split; [exact Hslave|].
    split.
    { intros c Hc. rewrite Hco. unfold coil.
      assert (Hcm : 0 <= c mod 16 < 16) by (apply Z.mod_pos_bound; lia).
      assert (Hval : (nb / 256 =? 255) = (v >? 0))
        by (unfold nb; destruct (v >? 0); reflexivity).
      destruct (Z.eq_dec (c / 16) (addr / 16)) as [Heq|Hne].
      - rewrite Heq, list_lookup_insert_eq by (apply lookup_lt_Some in Hw; exact Hw).
        change (default 0 (Some ?x)) with x. rewrite Hbits, Hw, Hval by lia.
        change (default 0 (Some ?x)) with x.
        destruct (Z.eqb_spec (c mod 16) (addr mod 16)) as [Hm|Hm];
          destruct (Z.eqb_spec c addr) as [Hcd|Hcd]; try reflexivity.
        + exfalso. apply Hcd. Z.div_mod_to_equations. lia.
        + exfalso. apply Hm. rewrite Hcd. reflexivity.
      - rewrite list_lookup_insert_ne
          by (intros E; apply Hne; apply Z2Nat.inj in E;
              [symmetry; exact E| |]; apply Z.div_pos; lia).
        destruct (Z.eqb_spec c addr) as [Hcd|Hcd]; [|reflexivity].
        exfalso. apply Hne. rewrite Hcd. reflexivity. }
    split; [exact Htx|]. split; [exact Hrun|].
    split.
    { rewrite Hnot. unfold hm1. cbn [trace set_i8lastError set_i8state set_trace].
      rewrite !notified_app, notified_tx_events. cbn [notified].
      rewrite !app_nil_r. reflexivity. }
    split; [exact Hst|exact Herr].
Qed.

End SingleWrites.

(** ** A coil range that runs past the bank *)

Section PastBank.
Context `{ModbusHeader}.

Lemma process_FC1_loop_past (n : nat) :
  forall (regs : list Z) (start cur j : Z) (h : modbusHandler_t),
    0 <= start -> 0 <= cur ->
    start + cur + Z.of_nat n <= 65536 ->
    (1 <= n)%nat ->
    Z.of_nat (length regs) <= (start + cur + Z.of_nat n - 1) / 16 ->
    process_FC1_loop n (Some regs) start cur j h = None.
Proof.
  induction n as [|n IH]; intros regs start cur j h Hs Hc Hmax Hn Hpast; [lia|].
  set (d := start + cur).
  assert (Hd : 0 <= d < 65536) by (unfold d; lia).
  assert (Hdq : 0 <= d / 16 < 4096) by (Z.div_mod_to_equations; lia).
  cbn [process_FC1_loop]. fold d. msimpl.
  rewrite (u16_id d), (u16_id (d / 16)) by lia.
  rewrite arr_get_nonneg by lia.
  destruct (regs !! Z.to_nat (d / 16)) as [w|] eqn:Hw; [|reflexivity].
  cbv beta iota.
  apply lookup_lt_Some in Hw.
  assert (Hn1 : (1 <= n)%nat).
  { destruct n; [|lia]. exfalso. unfold d in *.
    replace (start + cur + Z.of_nat 1 - 1) with (start + cur) in Hpast by lia. lia. }
  destruct (arr_get (u8Buffer h) (u8BufferSize h)) as [cell|]; [|reflexivity].
  cbv beta iota.
  destruct (arr_set (u8Buffer h) (u8BufferSize h) _) as [buf|]; [|reflexivity].
  cbv beta iota.
  rewrite (u16_id (cur + 1)) by lia.
  destruct (u8 (j + 1) >? 7); apply IH; try lia;
    replace (start + (cur + 1) + Z.of_nat n - 1)
      with (start + cur + Z.of_nat (S n) - 1) by lia; exact Hpast.
Qed.

Lemma process_FC1_past (h : modbusHandler_t) (Database b0 b1 ahi alo nhi nlo : Z)
    (post : list Z) :
  let start := word ahi alo in
  let n := word nhi nlo in
  u8Buffer h = b0 :: b1 :: ahi :: alo :: nhi :: nlo :: post ->
  1 <= n ->
  start + n <= 65536 ->
  Z.of_nat (length (u16regsCoils h)) <= (start + n - 1) / 16 ->
  process_FC1 Database h = None.
Proof.
  intros start n Hbuf Hn Hmax Hpast.
  pose proof (word_range ahi alo) as Hstart. fold start in Hstart.
  unfold process_FC1. msimpl.
  do 4 (rewrite Hbuf; arr_get_step; msimpl).
  fold start n.
  rewrite Hbuf. arr_set_step. msimpl.
  match goal with
  | |- context [arr_set ?b ?i 0] => destruct (arr_set b i 0) as [buf|]; [|reflexivity]
  end.
  cbv beta iota. msimpl.
  destruct (Database =? 1).
  - rewrite process_FC1_loop_past; [reflexivity|lia|lia| | |].
    + rewrite Z2Nat.id by lia. lia.
    + lia.
    + rewrite Z2Nat.id by lia. rewrite Z.add_0_r. exact Hpast.
  - destruct (Z.to_nat n) as [|k] eqn:Hk; [lia|].
    cbn [process_FC1_loop]. msimpl. reflexivity.
Qed.

(** X25.  The range check of [validateRequest] for coils counts registers,
    [start / 16 + (n + 15) / 16], and so lets through a read of coils
    (function 1) whose last coil lies in the register after the bank, when
    the range starts inside a register and runs over its end.  For a bank
    of exactly the size declared, the slave accepts such a request and
    [process_FC1] then reads outside the bank: the turn has no defined
    result. *)
Theorem slave_read_coils_past_bank (h : modbusHandler_t) (ahi alo nhi nlo : Z) :
  let msg := [u8id h; MB_FC_READ_COILS; ahi; alo; nhi; nlo] in
  let f := with_crc msg in
  let start := word ahi alo in
  let n := word nhi nlo in
  rx_ready f h ->
  Forall is_byte msg ->
  1 <= n <= 2000 ->
  start + n <= 65536 ->
  Z.of_nat (length (u16regsCoils h)) = u16regCoils_size h ->
  start / 16 + (n + 15) / 16 <= u16regCoils_size h ->
  u16regCoils_size h <= (start + n - 1) / 16 ->
  validateRequest (drained f (set_i8lastError 0 h))
  = Some (0, drained f (set_i8lastError 0 h))
  /\ StartTaskModbusSlave_body (received f h) = None.
Proof.
  intros msg f start n Hrx Hbytes Hn Hmax Hlen Hsize Hpast.
  destruct (slave_turn_accepted h MB_FC_READ_COILS [ahi; alo; nhi; nlo] Hrx Hbytes)
    as [Hcrc Hturn]; [cbn [length]; lia|].
  fold msg f in Hcrc, Hturn.
  set (h1 := drained f (set_i8lastError 0 h)) in *.
  assert (Hval : validateRequest h1 = Some (0, h1)).
  { rewrite (validateRequest_coils_check h1 MB_FC_READ_COILS ahi alo nhi nlo Hcrc);
      try reflexivity; [|tauto].
    fold start n. change (u16regCoils_size h1) with (u16regCoils_size h).
    destruct (Z.gtb_spec (start / 16 + (n + 15) / 16) (u16regCoils_size h)); [lia|].
    destruct (Z.gtb_spec ((n + 7) / 8 + 5) 256); [|reflexivity].
    exfalso. Z.div_mod_to_equations. lia. }
  split; [exact Hval|].
  rewrite (Hturn Hval).
  set (h2 := set_trace (trace h1 ++ [EvSemTake]) h1).
  assert (Hproc : slave_dispatch h2
                  = match process_FC1 DB_COILS h2 with
                    | Some (r, h') => Some (tt, set_i8state r h')
                    | None => None
                    end) by reflexivity.
  rewrite Hproc.
  rewrite (process_FC1_past h2 DB_COILS (u8id h) MB_FC_READ_COILS ahi alo nhi nlo
             (crc_wire (crc16_modbus msg) ++ drop (length f) (u8Buffer h))).
  - reflexivity.
  - reflexivity.
  - fold n. lia.
  - fold start n. exact Hmax.
  - fold start n. change (u16regsCoils h2) with (u16regsCoils h). lia.
Qed.

Lemma process_FC15_loop_past (n : nat) :
  forall (start cur fb j : Z) (h : modbusHandler_t),
    0 <= start -> 0 <= cur ->
    start + cur + Z.of_nat n <= 65536 ->
    (1 <= n)%nat ->
    Z.of_nat (length (u16regsCoils h)) <= (start + cur + Z.of_nat n - 1) / 16 ->
    process_FC15_loop n start cur fb j h = None.
Proof.
  induction n as [|n IH]; intros start cur fb j h Hs Hc Hmax Hn Hpast; [lia|].
  set (d := start + cur).
  assert (Hd : 0 <= d < 65536) by (unfold d; lia).
  assert (Hdq : 0 <= d / 16 < 4096) by (Z.div_mod_to_equations; lia).
  cbn [process_FC15_loop]. fold d. msimpl.
  rewrite (u16_id d), (u16_id (d / 16)) by lia.
  destruct (arr_get (u8Buffer h) fb) as [cell|]; [|reflexivity].
  cbv beta iota.
  rewrite arr_get_nonneg by lia.
  destruct (u16regsCoils h !! Z.to_nat (d / 16)) as [w|] eqn:Hw; [|reflexivity].
  cbv beta iota.
  pose proof (lookup_lt_Some _ _ _ Hw) as Hlt.
  assert (Hn1 : (1 <= n)%nat).
  { destruct n; [|lia]. exfalso. unfold d in *.
    replace (start + cur + Z.of_nat 1 - 1) with (start + cur) in Hpast by lia. lia. }
  rewrite arr_set_lt by lia. cbv beta iota.
  rewrite (u16_id (cur + 1)) by lia.
  destruct (u8 (j + 1) >? 7); apply IH; try lia;
    cbn [u16regsCoils set_u16regsCoils]; rewrite length_insert;
    replace (start + (cur + 1) + Z.of_nat n - 1)
      with (start + cur + Z.of_nat (S n) - 1) by lia; exact Hpast.
Qed.

Lemma process_FC15_past (h : modbusHandler_t) (b0 b1 ahi alo nhi nlo : Z)
    (post : list Z) :
  let start := word ahi alo in
  let n := word nhi nlo in
  u8Buffer h = b0 :: b1 :: ahi :: alo :: nhi :: nlo :: post ->
  1 <= n ->
  start + n <= 65536 ->
  Z.of_nat (length (u16regsCoils h)) <= (start + n - 1) / 16 ->
  process_FC15 h = None.
Proof.
  intros start n Hbuf Hn Hmax Hpast.
  pose proof (word_range ahi alo) as Hstart. fold start in Hstart.
  unfold process_FC15. msimpl.
  do 4 (rewrite Hbuf; arr_get_step; msimpl).
  fold start n.
  rewrite process_FC15_loop_past; [reflexivity|lia|lia| | |].
  - rewrite Z2Nat.id by lia. lia.
  - lia.
  - rewrite Z2Nat.id by lia. rewrite Z.add_0_r. exact Hpast.
Qed.

(** X28.  The same range check lets through a write of coils (function 15)
    whose last coil lies in the register after the bank.  For a bank of
    exactly the size declared, the slave accepts such a request and
    [process_FC15] then reads and writes outside the bank: the turn has no
    defined result. *)
Theorem slave_write_coils_past_bank (h : modbusHandler_t) (ahi alo nhi nlo : Z)
    (body : list Z) :
  let msg := u8id h :: MB_FC_WRITE_MULTIPLE_COILS :: ahi :: alo :: nhi :: nlo :: body in
  let f := with_crc msg in
  let start := word ahi alo in
  let n := word nhi nlo in
  rx_ready f h ->
  Forall is_byte msg ->
  1 <= n <= 1968 ->
  start + n <= 65536 ->
  Z.of_nat (length (u16regsCoils h)) = u16regCoils_size h ->
  start / 16 + (n + 15) / 16 <= u16regCoils_size h ->
  u16regCoils_size h <= (start + n - 1) / 16 ->
  validateRequest (drained f (set_i8lastError 0 h))
  = Some (0, drained f (set_i8lastError 0 h))
  /\ StartTaskModbusSlave_body (received f h) = None.
Proof.
  intros msg f start n Hrx Hbytes Hn Hmax Hlen Hsize Hpast.
  pose proof (word_range ahi alo) as Hstart. fold start in Hstart.
  destruct (slave_turn_accepted h MB_FC_WRITE_MULTIPLE_COILS
              (ahi :: alo :: nhi :: nlo :: body) Hrx Hbytes)
    as [Hcrc Hturn]; [cbn [length]; lia|].
  fold msg f in Hcrc, Hturn.
  set (h1 := drained f (set_i8lastError 0 h)) in *.
  assert (Hb1 : u8Buffer h1
                = u8id h :: MB_FC_WRITE_MULTIPLE_COILS :: ahi :: alo :: nhi :: nlo
                    :: body ++ crc_wire (crc16_modbus msg) ++ drop (length f) (u8Buffer h)).
  { unfold h1, drained, f, with_crc, msg. cbn [u8Buffer set_i8lastError app].
    rewrite <- app_assoc. exact eq_refl. }
  assert (Hval : validateRequest h1 = Some (0, h1)).
  { rewrite (validateRequest_coils_check h1 MB_FC_WRITE_MULTIPLE_COILS ahi alo nhi nlo
               Hcrc); try (rewrite Hb1; reflexivity); [|tauto].
    fold start n. change (u16regCoils_size h1) with (u16regCoils_size h).
    destruct (Z.gtb_spec (start / 16 + (n + 15) / 16) (u16regCoils_size h)); [lia|].
    destruct (Z.gtb_spec ((n + 7) / 8 + 5) 256); [|reflexivity].
    exfalso. Z.div_mod_to_equations. lia. }
  split; [exact Hval|].
  rewrite (Hturn Hval).
  set (h2 := set_trace (trace h1 ++ [EvSemTake]) h1).
  assert (Hproc : slave_dispatch h2
                  = match process_FC15 h2 with
                    | Some (r, h') => Some (tt, set_i8state r h')
                    | None => None
                    end) by (unfold slave_dispatch, h2; msimpl; rewrite Hb1; reflexivity).
  rewrite Hproc.
  rewrite (process_FC15_past h2 (u8id h) MB_FC_WRITE_MULTIPLE_COILS ahi alo nhi nlo
             (body ++ crc_wire (crc16_modbus msg) ++ drop (length f) (u8Buffer h))).
  - reflexivity.
  - exact Hb1.
  - fold n. lia.
  - fold start n. exact Hmax.
  - fold start n. change (u16regsCoils h2) with (u16regsCoils h). lia.
Qed.

End PastBank.

(** X26.  The bit macros, for bit positions within the 32 bits of the
    constant [1UL]: after [bitWrite] of position [bit], [bitRead] gives the
    value written at that position and what it gave before at every other
    one. *)
Theorem bitWrite_bitRead (value bit k : Z) (x : bool) :
  0 <= bit < 32 -> 0 <= k < 32 ->
  bitRead (bitWrite value bit x) k
  = if k =? bit then Z.b2z x else bitRead value k.
Proof.
  intros Hb Hk. rewrite !bitRead_testbit by lia.
  rewrite bitWrite_testbit by lia.
  destruct (k =? bit); reflexivity.
Qed.

(** ** The properties above on concrete frames *)

Section MoreWitnesses.

#[local] Existing Instance sample_header.

Ltac solve_ready :=
  unfold rx_ready, rx_fits, query_ready, ring_wf;
  repeat match goal with |- _ /\ _ => split end;
  first [ left; reflexivity | solve_closed ].

Ltac all_bytes := repeat constructor; unfold is_byte; lia.

Lemma RingAdd_fifo_witness :
  exists r', RingAdd empty_ring 5 = Some r' /\ ring_contents r' = [5].
Proof.
  assert (H1 : ring_wf empty_ring) by solve_ready.
  assert (H2 : MAX_BUFFER <= 255) by solve_closed.
  destruct (RingAdd_fifo empty_ring 5 H1 H2) as (r' & Hadd & _ & _ & _ & Hc).
  exists r'. split; [exact Hadd|]. rewrite Hc. reflexivity.
Defined.

Lemma RingGetNBytes_fifo_witness :
  let r3 := mkRing ([1; 2; 3] ++ replicate 125 0) 0 3 3 false in
  RingGetNBytes r3 [9; 9; 9; 9] 2 = Some (RingClear r3, [1; 2; 9; 9], 2).
Proof.
  intros r3.
  assert (H1 : ring_wf r3) by solve_ready.
  assert (H2 : MAX_BUFFER <= 255) by solve_closed.
  assert (H3 : 0 <= 2 <= 255) by lia.
  assert (H4 : (Z.to_nat (if 2 >? MAX_BUFFER then 0 else Z.min 2 (u8available r3))
                <= length ([9; 9; 9; 9]%Z))%nat) by solve_closed.
  exact (RingGetNBytes_fifo r3 [9; 9; 9; 9] 2 H1 H2 H3 H4).
Defined.

Lemma ring_push_drain_witness :
  exists r',
    RingAddAll empty_ring [1; 2; 3] = Some r'
    /\ RingGetAllBytes r' [9; 9; 9; 9] = Some (RingClear r', [1; 2; 3; 9], 3).
Proof.
  assert (H1 : ring_wf empty_ring) by solve_ready.
  assert (H2 : u8available empty_ring = 0) by reflexivity.
  assert (H3 : MAX_BUFFER <= 255) by solve_closed.
  assert (H4 : [1; 2; 3] <> []) by discriminate.
  assert (H5 : (Z.to_nat MAX_BUFFER `min` length ([1; 2; 3]%Z)
                <= length ([9; 9; 9; 9]%Z))%nat) by solve_closed.
  destruct (ring_push_drain empty_ring [1; 2; 3] [9; 9; 9; 9] H1 H2 H3 H4 H5)
    as (r' & Hadd & _ & _ & Hget).
  exists r'. split; [exact Hadd | exact Hget].
Defined.

Lemma slave_ring_overflow_witness :
  exists h',
    StartTaskModbusSlave_body
      (set_xBufferRX (mkRing (replicate 128 7) 0 0 128 true) demo_slave) = Some (tt, h')
    /\ i8lastError h' = -3
    /\ u16errCnt h' = 1
    /\ transmitted (trace h') = [].
Proof.
  pose (h := set_xBufferRX (mkRing (replicate 128 7) 0 0 128 true) demo_slave).
  assert (H1 : xTypeHW h = USART_HW \/ xTypeHW h = USART_HW_DMA) by (left; reflexivity).
  assert (H2 : overflow (xBufferRX h) = true) by reflexivity.
  assert (H3 : -32768 <= ERR_BUFF_OVERFLOW <= 32767) by solve_closed.
  destruct (slave_ring_overflow h H1 H2 H3)
    as (h' & Hrun & _ & _ & _ & _ & Herr & Hcnt & Htx & _).
  exists h'. split; [exact Hrun|]. split; [exact Herr|]. split; [exact Hcnt|exact Htx].
Defined.

Lemma slave_short_frame_witness :
  exists h',
    StartTaskModbusSlave_body (received [17; 3; 0] demo_slave) = Some (tt, h')
    /\ i8lastError h' = -6
    /\ u16errCnt h' = 1
    /\ transmitted (trace h') = [].
Proof.
  assert (H1 : rx_ready [17; 3; 0] demo_slave) by solve_ready.
  assert (H2 : (length ([17; 3; 0]%Z) < 7)%nat) by solve_closed.
  destruct (slave_short_frame demo_slave [17; 3; 0] H1 H2)
    as (h' & Hrun & Herr & Hcnt & _ & Htx & _).
  exists h'. split; [exact Hrun|]. split; [exact Herr|]. split; [exact Hcnt|exact Htx].
Defined.

Lemma crc_matches_exact_witness :
  let h := holding [17; 3; 0; 0; 0; 1; 0; 0] demo_slave in
  exists ok,
    crc_matches h = Some (ok, h)
    /\ (ok = true <-> [0; 0] = crc_wire (crc16_modbus [17; 3; 0; 0; 0; 1])).
Proof.
  intros h.
  assert (H1 : u8Buffer h = [17; 3; 0; 0; 0; 1] ++ 0 :: 0 :: drop 8 (u8Buffer demo_slave))
    by reflexivity.
  assert (H2 : u8BufferSize h = Z.of_nat (length [17; 3; 0; 0; 0; 1] + 2)) by reflexivity.
  assert (H3 : Forall is_byte [17; 3; 0; 0; 0; 1]) by all_bytes.
  assert (H4 : is_byte 0) by (unfold is_byte; lia).
  assert (H5 : (length ([17; 3; 0; 0; 0; 1]%Z) <= 253)%nat) by solve_closed.
  exact (crc_matches_exact h [17; 3; 0; 0; 0; 1] 0 0 (drop 8 (u8Buffer demo_slave))
           H1 H2 H3 H4 H4 H5).
Defined.

Lemma slave_bad_crc_answered_witness :
  exists h',
    StartTaskModbusSlave_body (received [17; 3; 0; 0; 0; 1; 0; 0] demo_slave)
    = Some (tt, h')
    /\ transmitted (trace h') = [with_crc [17; 131; 252]]
    /\ u16errCnt h' = 1.
Proof.
  assert (H1 : rx_ready ((17 :: 3 :: [0; 0; 0; 1]) ++ [0; 0]) demo_slave) by solve_ready.
  assert (H2 : (3 <= length ([0; 0; 0; 1]%Z))%nat) by solve_closed.
  assert (H3 : Forall is_byte ((17 :: 3 :: [0; 0; 0; 1]) ++ [0; 0])) by all_bytes.
  assert (H4 : [0; 0] <> crc_wire (crc16_modbus (17 :: 3 :: [0; 0; 0; 1])))
    by solve_closed.
  assert (H5 : u8 ERR_BAD_CRC <> 0) by solve_closed.
  assert (H6 : u8 ERR_BAD_CRC <> ERR_TIME_OUT) by solve_closed.
  destruct (slave_bad_crc_answered demo_slave 3 0 0 [0; 0; 0; 1] H1 H2 H3 H4 H5 H6)
    as (h' & Hrun & Htx & _ & Hcnt & _).
  exists h'. split; [exact Hrun|]. split; [exact Htx|exact Hcnt].
Defined.

Lemma slave_write_register_witness :
  exists h',
    StartTaskModbusSlave_body (received (with_crc [17; 6; 0; 1; 0; 42]) demo_slave)
    = Some (tt, h')
    /\ u16regsHR h' = [10; 42; 65535]
    /\ transmitted (trace h') = [with_crc [17; 6; 0; 1; 0; 42]].
Proof.
  assert (H1 : rx_ready (with_crc [17; 6; 0; 1; 0; 42]) demo_slave) by solve_ready.
  assert (H2 : Forall is_byte [17; 6; 0; 1; 0; 42]) by all_bytes.
  assert (H3 : word 0 1 <= u16regHR_size demo_slave) by solve_closed.
  assert (H4 : word 0 1 < Z.of_nat (length (u16regsHR demo_slave))) by solve_closed.
  destruct (slave_write_register demo_slave 0 1 0 42 H1 H2 H3 H4)
    as (h' & Hrun & Hhr & Htx & _).
  exists h'. split; [exact Hrun|]. split; [exact Hhr|exact Htx].
Defined.

Lemma slave_write_coil_witness :
  exists h' w',
    StartTaskModbusSlave_body (received (with_crc [17; 5; 0; 3; 255; 0]) demo_slave)
    = Some (tt, h')
    /\ u16regsCoils h' = [w']
    /\ Z.testbit w' 3 = true
    /\ Z.testbit w' 4 = false.
Proof.
  assert (H1 : rx_ready (with_crc [17; 5; 0; 3; 255; 0]) demo_slave) by solve_ready.
  assert (H2 : Forall is_byte [17; 5; 0; 3; 255; 0]) by all_bytes.
  assert (H3 : (if word 0 3 mod 16 =? 0 then word 0 3 / 16 else word 0 3 / 16 + 1)
               <= u16regCoils_size demo_slave) by solve_closed.
  assert (H4 : u16regsCoils demo_slave !! Z.to_nat (word 0 3 / 16) = Some 0)
    by reflexivity.
  assert (H5 : is_word 0) by (unfold is_word; lia).
  destruct (slave_write_coil demo_slave 0 3 255 0 0 H1 H2 H3 H4 H5)
    as (h' & w' & Hrun & Hco & _ & Hbits & _).
  exists h', w'. split; [exact Hrun|]. split; [exact Hco|].
  split; [apply (Hbits 3); lia | apply (Hbits 4); lia].
Defined.

Lemma slave_write_registers_witness :
  exists h',
    StartTaskModbusSlave_body
      (received (with_crc [17; 16; 0; 1; 0; 2; 4; 0; 5; 0; 6]) demo_slave)
    = Some (tt, h')
    /\ u16regsHR h' = [10; 5; 6]
    /\ transmitted (trace h') = [with_crc [17; 16; 0; 1; 0; 2]].
Proof.
  pose (body := [4; 0; 5; 0; 6]).
  pose (f := with_crc (17 :: 16 :: 0 :: 1 :: 0 :: 2 :: body)).
  assert (H1 : rx_ready f demo_slave) by solve_ready.
  assert (H2 : Forall is_byte (17 :: 16 :: 0 :: 1 :: 0 :: 2 :: body)) by all_bytes.
  assert (H3 : word 0 2 <= 125) by solve_closed.
  assert (H4 : word 0 1 + word 0 2 <= u16regHR_size demo_slave) by solve_closed.
  assert (H5 : word 0 1 + word 0 2 <= Z.of_nat (length (u16regsHR demo_slave)))
    by solve_closed.
  assert (H6 : (2 * Z.to_nat (word 0 2)
                <= length (drop 7 (f ++ drop (length f) (u8Buffer demo_slave))))%nat)
    by solve_closed.
  destruct (slave_write_registers demo_slave 0 1 0 2 body H1 H2 H3 H4 H5 H6)
    as (h' & Hrun & Hhr & Htx & _).
  exists h'. split; [exact Hrun|]. split; [exact Hhr|exact Htx].
Defined.

Lemma slave_read_registers_witness :
  exists h',
    StartTaskModbusSlave_body (received (with_crc [17; 3; 0; 1; 0; 2]) demo_slave)
    = Some (tt, h')
    /\ transmitted (trace h') = [with_crc [17; 3; 4; 1; 2; 255; 255]]
    /\ u16regsHR h' = [10; 258; 65535].
Proof.
  assert (H0 : 3 = MB_FC_READ_REGISTERS \/ 3 = MB_FC_READ_INPUT_REGISTER)
    by (left; reflexivity).
  assert (Hdb : DB_HOLDING_REGISTER <> DB_INPUT_REGISTERS) by solve_closed.
  assert (H1 : rx_ready (with_crc [17; 3; 0; 1; 0; 2]) demo_slave) by solve_ready.
  assert (H2 : Forall is_byte [17; 3; 0; 1; 0; 2]) by all_bytes.
  assert (H3 : word 0 2 <= 125) by solve_closed.
  assert (H4 : word 0 1 + word 0 2 <= u16regHR_size demo_slave) by solve_closed.
  assert (H5 : word 0 1 + word 0 2
               <= Z.of_nat (length (if 3 =? MB_FC_READ_REGISTERS
                                    then u16regsHR demo_slave
                                    else u16regsRO demo_slave)) <= 65535)
    by solve_closed.
  assert (H6 : 2 * word 0 2 + 5 <= Z.of_nat (length (u8Buffer demo_slave)))
    by solve_closed.
  destruct (slave_read_registers demo_slave 3 0 1 0 2 H0 Hdb H1 H2 H3 H4 H5 H6)
    as (h' & Hrun & Htx & _ & _ & Hhr & _).
  exists h'. split; [exact Hrun|]. split; [exact Htx|exact Hhr].
Defined.

Lemma SendQuery_rejected_witness :
  exists h',
    SendQuery (mkTelegram 17 3 0 1 [0] 77) demo_slave = Some (-1, h')
    /\ i8lastError h' = -1
    /\ transmitted (trace h') = [].
Proof.
  pose (telegram := mkTelegram 17 3 0 1 [0] 77).
  assert (H1 : u8id demo_slave <> 0 \/ i8state demo_slave <> COM_IDLE
               \/ (tg_u8id telegram =? 0) || (tg_u8id telegram >? 247) = true)
    by (left; solve_closed).
  assert (H2 : -128 <= -1 <= 127) by lia.
  assert (H3 : -1 <> 0) by lia.
  pose proof (SendQuery_rejected demo_slave telegram H1 H2 H3) as Hrun.
  eexists. split; [exact Hrun|]. split; reflexivity.
Defined.

Lemma SendQuery_read_witness :
  exists h',
    SendQuery (mkTelegram 17 3 0 1 [0] 77) demo_master = Some (0, h')
    /\ transmitted (trace h') = [with_crc [17; 3; 0; 0; 0; 1]]
    /\ u16regsHR h' = [0].
Proof.
  pose (telegram := mkTelegram 17 3 0 1 [0] 77).
  assert (H1 : query_ready telegram demo_master) by solve_ready.
  assert (H2 : tg_u8fct telegram = MB_FC_READ_COILS
               \/ tg_u8fct telegram = MB_FC_READ_DISCRETE_INPUT
               \/ tg_u8fct telegram = MB_FC_READ_REGISTERS
               \/ tg_u8fct telegram = MB_FC_READ_INPUT_REGISTER)
    by (right; right; left; reflexivity).
  assert (H3 : is_word (tg_u16RegAdd telegram)) by (unfold is_word; cbn; lia).
  assert (H4 : is_word (tg_u16CoilsNo telegram)) by (unfold is_word; cbn; lia).
  assert (H5 : (8 <= length (u8Buffer demo_master))%nat) by solve_closed.
  destruct (SendQuery_read demo_master telegram H1 H2 H3 H4 H5)
    as (h' & Hrun & _ & Htx & _ & _ & _ & _ & Hhr).
  exists h'. split; [exact Hrun|]. split; [exact Htx|exact Hhr].
Defined.

Lemma master_short_answer_witness :
  exists h',
    master_on_notify (mkTelegram 17 3 0 1 [0] 77) vTimerCallbackT35_value
      (received (with_crc [17; 131; 2]) demo_master) = Some (tt, h')
    /\ i8lastError h' = -6
    /\ u16errCnt h' = 1.
Proof.
  pose (f := with_crc [17; 131; 2]).
  assert (H1 : rx_fits f demo_master) by solve_ready.
  assert (H2 : (length f < 6)%nat) by solve_closed.
  destruct (master_short_answer demo_master (mkTelegram 17 3 0 1 [0] 77) f H1 H2)
    as (h' & Hrun & _ & Herr & Hcnt & _).
  exists h'. split; [exact Hrun|]. split; [exact Herr|exact Hcnt].
Defined.

Lemma master_bad_crc_witness :
  exists h',
    master_on_notify (mkTelegram 17 3 0 1 [0] 77) vTimerCallbackT35_value
      (received [17; 3; 2; 0; 42; 0; 0] demo_master) = Some (tt, h')
    /\ i8lastError h' = -4
    /\ u16errCnt h' = 1.
Proof.
  assert (H1 : rx_fits ([17; 3; 2; 0; 42] ++ [0; 0]) demo_master) by solve_ready.
  assert (H2 : (4 <= length ([17; 3; 2; 0; 42]%Z))%nat) by solve_closed.
  assert (H3 : Forall is_byte ([17; 3; 2; 0; 42] ++ [0; 0])) by all_bytes.
  assert (H4 : [0; 0] <> crc_wire (crc16_modbus [17; 3; 2; 0; 42])) by solve_closed.
  assert (H5 : -128 <= ERR_BAD_CRC <= 127) by solve_closed.
  assert (H6 : ERR_BAD_CRC <> 0) by solve_closed.
  destruct (master_bad_crc demo_master (mkTelegram 17 3 0 1 [0] 77)
              [17; 3; 2; 0; 42] 0 0 H1 H2 H3 H4 H5 H6)
    as (h' & Hrun & _ & Herr & Hcnt & _).
  exists h'. split; [exact Hrun|]. split; [exact Herr|exact Hcnt].
Defined.

Lemma master_exception_answer_witness :
  exists h',
    master_on_notify (mkTelegram 17 3 0 1 [0] 77) vTimerCallbackT35_value
      (received (with_crc [17; 131; 2; 0]) demo_master) = Some (tt, h')
    /\ i8lastError h' = -5
    /\ u16errCnt h' = 1.
Proof.
  assert (H1 : rx_fits (with_crc (17 :: 131 :: [2; 0])) demo_master) by solve_ready.
  assert (H2 : (2 <= length ([2; 0]%Z))%nat) by solve_closed.
  assert (H3 : Forall is_byte (17 :: 131 :: [2; 0])) by all_bytes.
  assert (H4 : Z.land 131 128 <> 0) by solve_closed.
  assert (H5 : -128 <= ERR_EXCEPTION <= 127) by solve_closed.
  assert (H6 : ERR_EXCEPTION <> 0) by solve_closed.
  destruct (master_exception_answer demo_master (mkTelegram 17 3 0 1 [0] 77)
              17 131 [2; 0] H1 H2 H3 H4 H5 H6)
    as (h' & Hrun & _ & Herr & Hcnt & _).
  exists h'. split; [exact Hrun|]. split; [exact Herr|exact Hcnt].
Defined.

Lemma read_registers_transaction_witness :
  exists hm1 hs1 hm2,
    SendQuery (mkTelegram 17 3 1 2 [0; 0; 0] 77) demo_master = Some (0, hm1)
    /\ StartTaskModbusSlave_body (received (with_crc [17; 3; 0; 1; 0; 2]) demo_slave)
       = Some (tt, hs1)
    /\ master_on_notify (mkTelegram 17 3 1 2 [0; 0; 0] 77) vTimerCallbackT35_value
         (received (with_crc [17; 3; 4; 1; 2; 255; 255]) hm1) = Some (tt, hm2)
    /\ u16regsHR hm2 = [258; 65535; 0].
Proof.
  pose (telegram := mkTelegram 17 3 1 2 [0; 0; 0] 77).
  pose (q := with_crc [17; 3; 0; 1; 0; 2]).
  pose (r := with_crc [17; 3; 4; 1; 2; 255; 255]).
  assert (H1 : query_ready telegram demo_master) by solve_ready.
  assert (H2 : tg_u8id telegram = u8id demo_slave) by reflexivity.
  assert (H3 : tg_u8fct telegram = MB_FC_READ_REGISTERS
               \/ tg_u8fct telegram = MB_FC_READ_INPUT_REGISTER) by (left; reflexivity).
  assert (H4 : is_word (tg_u16RegAdd telegram)) by (unfold is_word; cbn; lia).
  assert (H5 : 1 <= tg_u16CoilsNo telegram <= 125) by (cbn; lia).
  assert (H6 : (8 <= length (u8Buffer demo_master))%nat) by solve_closed.
  assert (H7 : rx_fits r demo_master) by solve_ready.
  assert (H8 : (Z.to_nat (tg_u16CoilsNo telegram) <= length (tg_u16reg telegram))%nat)
    by solve_closed.
  assert (H9 : DB_HOLDING_REGISTER <> DB_INPUT_REGISTERS) by solve_closed.
  assert (H10 : rx_ready q demo_slave) by solve_ready.
  assert (H11 : tg_u16RegAdd telegram + tg_u16CoilsNo telegram
                <= u16regHR_size demo_slave) by solve_closed.
  assert (H12 : tg_u16RegAdd telegram + tg_u16CoilsNo telegram
                <= Z.of_nat (length (u16regsHR demo_slave)) <= 65535) by solve_closed.
  assert (H13 : Forall is_word (u16regsHR demo_slave))
    by (repeat constructor; unfold is_word; lia).
  assert (H14 : 2 * tg_u16CoilsNo telegram + 5 <= Z.of_nat (length (u8Buffer demo_slave)))
    by solve_closed.
  destruct (read_registers_transaction demo_master demo_slave telegram
              H1 H2 H3 H4 H5 H6 H7 H8 H9 H10 H11 H12 H13 H14)
    as (hm1 & hs1 & hm2 & Hsend & _ & Hslave & _ & Hrun & Hhr & _).
  exists hm1, hs1, hm2.
  split; [exact Hsend|]. split; [exact Hslave|]. split; [exact Hrun|exact Hhr].
Defined.

Lemma write_registers_transaction_witness :
  exists hm1 hs1 hm2,
    SendQuery (mkTelegram 17 16 1 2 [5; 6] 77) demo_master = Some (0, hm1)
    /\ StartTaskModbusSlave_body
         (received (with_crc [17; 16; 0; 1; 0; 2; 4; 0; 5; 0; 6]) demo_slave)
       = Some (tt, hs1)
    /\ u16regsHR hs1 = [10; 5; 6]
    /\ master_on_notify (mkTelegram 17 16 1 2 [5; 6] 77) vTimerCallbackT35_value
         (received (with_crc [17; 16; 0; 1; 0; 2]) hm1) = Some (tt, hm2)
    /\ notified (trace hm2) = [(77, u32 ERR_OK_QUERY)].
Proof.
  pose (telegram := mkTelegram 17 16 1 2 [5; 6] 77).
  pose (q := with_crc [17; 16; 0; 1; 0; 2; 4; 0; 5; 0; 6]).
  pose (r := with_crc [17; 16; 0; 1; 0; 2]).
  assert (H1 : query_ready telegram demo_master) by solve_ready.
  assert (H2 : tg_u8id telegram = u8id demo_slave) by reflexivity.
  assert (H3 : tg_u8fct telegram = MB_FC_WRITE_MULTIPLE_REGISTERS) by reflexivity.
  assert (H4 : is_word (tg_u16RegAdd telegram)) by (unfold is_word; cbn; lia).
  assert (H5 : 0 <= tg_u16CoilsNo telegram <= 123) by (cbn; lia).
  assert (H6 : (Z.to_nat (tg_u16CoilsNo telegram) <= length (tg_u16reg telegram))%nat)
    by solve_closed.
  assert (H7 : Forall is_word (tg_u16reg telegram))
    by (repeat constructor; unfold is_word; lia).
  assert (H8 : (9 + 2 * Z.to_nat (tg_u16CoilsNo telegram)
                <= length (u8Buffer demo_master))%nat) by solve_closed.
  assert (H9 : rx_fits r demo_master) by solve_ready.
  assert (H10 : rx_ready q demo_slave) by solve_ready.
  assert (H11 : tg_u16RegAdd telegram + tg_u16CoilsNo telegram
                <= u16regHR_size demo_slave) by solve_closed.
  assert (H12 : tg_u16RegAdd telegram + tg_u16CoilsNo telegram
                <= Z.of_nat (length (u16regsHR demo_slave))) by solve_closed.
  destruct (write_registers_transaction demo_master demo_slave telegram
              H1 H2 H3 H4 H5 H6 H7 H8 H9 H10 H11 H12)
    as (hm1 & hs1 & hm2 & Hsend & _ & Hslave & Hhr & _ & Hrun & Hnot & _).
  exists hm1, hs1, hm2.
  split; [exact Hsend|]. split; [exact Hslave|]. split; [exact Hhr|].
  split; [exact Hrun|exact Hnot].
Defined.

Lemma slave_read_coils_witness :
  exists h',
    StartTaskModbusSlave_body (received (with_crc [17; 1; 0; 0; 0; 10]) demo_coil_slave)
    = Some (tt, h')
    /\ transmitted (trace h') = [with_crc [17; 1; 2; 165; 0]].
Proof.
  assert (H0 : DB_COILS = 1) by reflexivity.
  assert (H1 : rx_ready (with_crc [17; 1; 0; 0; 0; 10]) demo_coil_slave) by solve_ready.
  assert (H2 : Forall is_byte [17; 1; 0; 0; 0; 10]) by all_bytes.
  assert (H3 : 1 <= word 0 10 <= 2000) by solve_closed.
  assert (H4 : word 0 0 / 16 + (word 0 10 + 15) / 16 <= u16regCoils_size demo_coil_slave)
    by solve_closed.
  assert (H5 : word 0 0 + word 0 10 <= 65536) by solve_closed.
  assert (H6 : (word 0 0 + word 0 10 + 15) / 16
               <= Z.of_nat (length (u16regsCoils demo_coil_slave))) by solve_closed.
  assert (H7 : (word 0 10 + 7) / 8 + 5 <= Z.of_nat (length (u8Buffer demo_coil_slave)))
    by solve_closed.
  destruct (slave_read_coils demo_coil_slave 0 0 0 10 H0 H1 H2 H3 H4 H5 H6 H7)
    as (h' & Hrun & Htx & _).
  exists h'. split; [exact Hrun|exact Htx].
Defined.

Lemma read_coils_transaction_witness :
  exists hm1 hs1 hm2,
    SendQuery (mkTelegram 17 1 4 8 [0] 77) demo_master = Some (0, hm1)
    /\ StartTaskModbusSlave_body (received (with_crc [17; 1; 0; 4; 0; 8]) demo_coil_slave)
       = Some (tt, hs1)
    /\ transmitted (trace hs1) = [with_crc [17; 1; 1; 10]]
    /\ master_on_notify (mkTelegram 17 1 4 8 [0] 77) vTimerCallbackT35_value
         (received (with_crc [17; 1; 1; 10]) hm1) = Some (tt, hm2)
    /\ coil (u16regsCoils hm2) 0 = false
    /\ coil (u16regsCoils hm2) 1 = true.
Proof.
  pose (telegram := mkTelegram 17 1 4 8 [0] 77).
  pose (q := with_crc [17; 1; 0; 4; 0; 8]).
  pose (r := with_crc [17; 1; 1; 10]).
  assert (H1 : query_ready telegram demo_master) by solve_ready.
  assert (H2 : tg_u8id telegram = u8id demo_coil_slave) by reflexivity.
  assert (H3 : tg_u8fct telegram = MB_FC_READ_COILS) by reflexivity.
  assert (H4 : is_word (tg_u16RegAdd telegram)) by (unfold is_word; cbn; lia).
  assert (H5 : 1 <= tg_u16CoilsNo telegram <= 2000) by (cbn; lia).
  assert (H6 : (8 <= length (u8Buffer demo_master))%nat) by solve_closed.
  assert (H7 : rx_fits r demo_master) by solve_ready.
  assert (H8 : (tg_u16CoilsNo telegram + 7) / 8
               <= 2 * Z.of_nat (length (tg_u16reg telegram))) by solve_closed.
  assert (H9 : DB_COILS = 1) by reflexivity.
  assert (H10 : rx_ready q demo_coil_slave) by solve_ready.
  assert (H11 : tg_u16RegAdd telegram / 16 + (tg_u16CoilsNo telegram + 15) / 16
                <= u16regCoils_size demo_coil_slave) by solve_closed.
  assert (H12 : tg_u16RegAdd telegram + tg_u16CoilsNo telegram <= 65536)
    by solve_closed.
  assert (H13 : (tg_u16RegAdd telegram + tg_u16CoilsNo telegram + 15) / 16
                <= Z.of_nat (length (u16regsCoils demo_coil_slave))) by solve_closed.
  assert (H14 : (tg_u16CoilsNo telegram + 7) / 8 + 5
                <= Z.of_nat (length (u8Buffer demo_coil_slave))) by solve_closed.
  destruct (read_coils_transaction demo_master demo_coil_slave telegram
              H1 H2 H3 H4 H5 H6 H7 H8 H9 H10 H11 H12 H13 H14)
    as (hm1 & hs1 & hm2 & Hsend & _ & Hslave & Htx & Hrun & Hco & _).
  exists hm1, hs1, hm2.
  split; [exact Hsend|]. split; [exact Hslave|]. split; [exact Htx|].
  split; [exact Hrun|].
  split; [rewrite (Hco 0) by (cbn; lia) | rewrite (Hco 1) by (cbn; lia)]; reflexivity.
Defined.

Lemma slave_write_coils_witness :
  exists h',
    StartTaskModbusSlave_body
      (received (with_crc [17; 15; 0; 0; 0; 8; 1; 255]) demo_coil_slave) = Some (tt, h')
    /\ coil (u16regsCoils h') 3 = true
    /\ coil (u16regsCoils h') 8 = false
    /\ transmitted (trace h') = [with_crc [17; 15; 0; 0; 0; 8]].
Proof.
  pose (head := [17; 15; 0; 0; 0; 8]).
  pose (body := [1; 255]).
  pose (f := with_crc (head ++ body)).
  assert (H1 : rx_ready f demo_coil_slave) by solve_ready.
  assert (H2 : Forall is_byte (head ++ body)) by all_bytes.
  assert (H3 : word 0 8 <= 1968) by solve_closed.
  assert (H4 : word 0 0 / 16 + (word 0 8 + 15) / 16 <= u16regCoils_size demo_coil_slave)
    by solve_closed.
  assert (H5 : word 0 0 + word 0 8 <= 65536) by solve_closed.
  assert (H6 : (word 0 0 + word 0 8 + 15) / 16
               <= Z.of_nat (length (u16regsCoils demo_coil_slave))) by solve_closed.
  assert (H7 : 7 + (word 0 8 + 7) / 8 <= Z.of_nat (length (u8Buffer demo_coil_slave)))
    by solve_closed.
  destruct (slave_write_coils demo_coil_slave 0 0 0 8 body H1 H2 H3 H4 H5 H6 H7)
    as (h' & Hrun & _ & Hco & Htx & _).
  exists h'. split; [exact Hrun|].
  split; [rewrite (Hco 3) by lia; reflexivity|].
  split; [rewrite (Hco 8) by lia; reflexivity|exact Htx].
Defined.

Lemma write_coils_transaction_witness :
  exists hm1 hs1 hm2,
    SendQuery (mkTelegram 17 15 0 16 [255] 77) demo_master = Some (0, hm1)
    /\ transmitted (trace hm1) = [with_crc [17; 15; 0; 0; 0; 16; 2; 0; 255]]
    /\ StartTaskModbusSlave_body
         (received (with_crc [17; 15; 0; 0; 0; 16; 2; 0; 255]) demo_coil_slave)
       = Some (tt, hs1)
    /\ coil (u16regsCoils hs1) 0 = false
    /\ coil (u16regsCoils hs1) 8 = true
    /\ master_on_notify (mkTelegram 17 15 0 16 [255] 77) vTimerCallbackT35_value
         (received (with_crc [17; 15; 0; 0; 0; 16]) hm1) = Some (tt, hm2)
    /\ notified (trace hm2) = [(77, u32 ERR_OK_QUERY)].
Proof.
  pose (telegram := mkTelegram 17 15 0 16 [255] 77).
  pose (q := with_crc [17; 15; 0; 0; 0; 16; 2; 0; 255]).
  pose (r := with_crc [17; 15; 0; 0; 0; 16]).
  assert (H1 : query_ready telegram demo_master) by solve_ready.
  assert (H2 : tg_u8id telegram = u8id demo_coil_slave) by reflexivity.
  assert (H3 : tg_u8fct telegram = MB_FC_WRITE_MULTIPLE_COILS) by reflexivity.
  assert (H4 : is_word (tg_u16RegAdd telegram)) by (unfold is_word; cbn; lia).
  assert (H5 : 1 <= tg_u16CoilsNo telegram <= 1968) by (cbn; lia).
  assert (H6 : (tg_u16CoilsNo telegram + 15) / 16
               <= Z.of_nat (length (tg_u16reg telegram))) by solve_closed.
  assert (H7 : (9 + Z.to_nat (coil_bytes (tg_u16CoilsNo telegram))
                <= length (u8Buffer demo_master))%nat) by solve_closed.
  assert (H8 : rx_fits r demo_master) by solve_ready.
  assert (H9 : rx_ready q demo_coil_slave) by solve_ready.
  assert (H10 : tg_u16RegAdd telegram / 16 + (tg_u16CoilsNo telegram + 15) / 16
                <= u16regCoils_size demo_coil_slave) by solve_closed.
  assert (H11 : tg_u16RegAdd telegram + tg_u16CoilsNo telegram <= 65536)
    by solve_closed.
  assert (H12 : (tg_u16RegAdd telegram + tg_u16CoilsNo telegram + 15) / 16
                <= Z.of_nat (length (u16regsCoils demo_coil_slave))) by solve_closed.
  assert (H13 : 7 + (tg_u16CoilsNo telegram + 7) / 8
                <= Z.of_nat (length (u8Buffer demo_coil_slave))) by solve_closed.
  destruct (write_coils_transaction demo_master demo_coil_slave telegram
              H1 H2 H3 H4 H5 H6 H7 H8 H9 H10 H11 H12 H13)
    as (hm1 & hs1 & hm2 & Hsend & Hq & Hslave & Hco & _ & _ & Hrun & Hnot & _).
  exists hm1, hs1, hm2.
  split; [exact Hsend|]. split; [exact Hq|]. split; [exact Hslave|].
  split; [exact (Hco 0 ltac:(cbn; lia))|].
  split; [exact (Hco 8 ltac:(cbn; lia))|].
  split; [exact Hrun|exact Hnot].
Defined.

Lemma write_register_transaction_witness :
  exists hm1 hs1 hm2,
    SendQuery (mkTelegram 17 6 1 0 [42] 77) demo_master = Some (0, hm1)
    /\ StartTaskModbusSlave_body (received (with_crc [17; 6; 0; 1; 0; 42]) demo_slave)
       = Some (tt, hs1)
    /\ u16regsHR hs1 = [10; 42; 65535]
    /\ master_on_notify (mkTelegram 17 6 1 0 [42] 77) vTimerCallbackT35_value
         (received (with_crc [17; 6; 0; 1; 0; 42]) hm1) = Some (tt, hm2)
    /\ notified (trace hm2) = [(77, u32 ERR_OK_QUERY)].
Proof.
  pose (telegram := mkTelegram 17 6 1 0 [42] 77).
  pose (q := with_crc [17; 6; 0; 1; 0; 42]).
  assert (H1 : query_ready telegram demo_master) by solve_ready.
  assert (H2 : tg_u8id telegram = u8id demo_slave) by reflexivity.
  assert (H3 : tg_u8fct telegram = MB_FC_WRITE_REGISTER) by reflexivity.
  assert (H4 : is_word (tg_u16RegAdd telegram)) by (unfold is_word; cbn; lia).
  assert (H5 : tg_u16reg telegram !! 0%nat = Some 42) by reflexivity.
  assert (H6 : is_word 42) by (unfold is_word; lia).
  assert (H7 : (8 <= length (u8Buffer demo_master))%nat) by solve_closed.
  assert (H8 : rx_fits q demo_master) by solve_ready.
  assert (H9 : rx_ready q demo_slave) by solve_ready.
  assert (H10 : tg_u16RegAdd telegram <= u16regHR_size demo_slave) by solve_closed.
  assert (H11 : tg_u16RegAdd telegram < Z.of_nat (length (u16regsHR demo_slave)))
    by solve_closed.
  destruct (write_register_transaction demo_master demo_slave telegram 42
              H1 H2 H3 H4 H5 H6 H7 H8 H9 H10 H11)
    as (hm1 & hs1 & hm2 & Hsend & _ & Hslave & Hhr & _ & Hrun & Hnot & _).
  exists hm1, hs1, hm2.
  split; [exact Hsend|]. split; [exact Hslave|]. split; [exact Hhr|].
  split; [exact Hrun|exact Hnot].
Defined.

Lemma write_coil_transaction_witness :
  exists hm1 hs1 hm2,
    SendQuery (mkTelegram 17 5 3 0 [1] 77) demo_master = Some (0, hm1)
    /\ transmitted (trace hm1) = [with_crc [17; 5; 0; 3; 255; 0]]
    /\ StartTaskModbusSlave_body (received (with_crc [17; 5; 0; 3; 255; 0]) demo_slave)
       = Some (tt, hs1)
    /\ coil (u16regsCoils hs1) 3 = true
    /\ coil (u16regsCoils hs1) 4 = false
    /\ master_on_notify (mkTelegram 17 5 3 0 [1] 77) vTimerCallbackT35_value
         (received (with_crc [17; 5; 0; 3; 255; 0]) hm1) = Some (tt, hm2)
    /\ notified (trace hm2) = [(77, u32 ERR_OK_QUERY)].
Proof.
  pose (telegram := mkTelegram 17 5 3 0 [1] 77).
  pose (q := with_crc [17; 5; 0; 3; 255; 0]).
  assert (H1 : query_ready telegram demo_master) by solve_ready.
  assert (H2 : tg_u8id telegram = u8id demo_slave) by reflexivity.
  assert (H3 : tg_u8fct telegram = MB_FC_WRITE_COIL) by reflexivity.
  assert (H4 : is_word (tg_u16RegAdd telegram)) by (unfold is_word; cbn; lia).
  assert (H5 : tg_u16reg telegram !! 0%nat = Some 1) by reflexivity.
  assert (H6 : is_word 1) by (unfold is_word; lia).
  assert (H7 : (8 <= length (u8Buffer demo_master))%nat) by solve_closed.
  assert (H8 : rx_fits q demo_master) by solve_ready.
  assert (H9 : rx_ready q demo_slave) by solve_ready.
  assert (H10 : (if tg_u16RegAdd telegram mod 16 =? 0 then tg_u16RegAdd telegram / 16
                 else tg_u16RegAdd telegram / 16 + 1) <= u16regCoils_size demo_slave)
    by solve_closed.
  assert (H11 : tg_u16RegAdd telegram / 16 < Z.of_nat (length (u16regsCoils demo_slave)))
    by solve_closed.
  assert (H12 : Forall is_word (u16regsCoils demo_slave))
    by (repeat constructor; unfold is_word; lia).
  destruct (write_coil_transaction demo_master demo_slave telegram 1
              H1 H2 H3 H4 H5 H6 H7 H8 H9 H10 H11 H12)
    as (hm1 & hs1 & hm2 & Hsend & Hq & Hslave & Hco & _ & Hrun & Hnot & _).
  exists hm1, hs1, hm2.
  split; [exact Hsend|]. split; [exact Hq|]. split; [exact Hslave|].
  split; [exact (Hco 3 ltac:(lia))|].
  split; [exact (Hco 4 ltac:(lia))|].
  split; [exact Hrun|exact Hnot].
Defined.

Lemma slave_read_coils_past_bank_witness :
  let f := with_crc [17; 1; 0; 15; 0; 2] in
  u16regCoils_size demo_slave = 1
  /\ validateRequest (drained f (set_i8lastError 0 demo_slave))
     = Some (0, drained f (set_i8lastError 0 demo_slave))
  /\ StartTaskModbusSlave_body (received f demo_slave) = None.
Proof.
  intros f.
  assert (H1 : rx_ready f demo_slave) by solve_ready.
  assert (H2 : Forall is_byte [17; 1; 0; 15; 0; 2]) by all_bytes.
  assert (H3 : 1 <= word 0 2 <= 2000) by solve_closed.
  assert (H4 : word 0 15 + word 0 2 <= 65536) by solve_closed.
  assert (H5 : Z.of_nat (length (u16regsCoils demo_slave)) = u16regCoils_size demo_slave)
    by reflexivity.
  assert (H6 : word 0 15 / 16 + (word 0 2 + 15) / 16 <= u16regCoils_size demo_slave)
    by solve_closed.
  assert (H7 : u16regCoils_size demo_slave <= (word 0 15 + word 0 2 - 1) / 16)
    by solve_closed.
  split; [reflexivity|].
  exact (slave_read_coils_past_bank demo_slave 0 15 0 2 H1 H2 H3 H4 H5 H6 H7).
Defined.

Lemma bitWrite_bitRead_witness :
  bitRead (bitWrite 5 1 true) 1 = 1 /\ bitRead (bitWrite 5 1 true) 2 = 1.
Proof.
  split.
  - exact (bitWrite_bitRead 5 1 1 true ltac:(lia) ltac:(lia)).
  - exact (bitWrite_bitRead 5 1 2 true ltac:(lia) ltac:(lia)).
Defined.

Lemma master_unsupported_answer_witness :
  exists h',
    master_on_notify (mkTelegram 17 3 0 1 [0] 77) vTimerCallbackT35_value
      (received (with_crc [17; 7; 0; 0]) demo_master) = Some (tt, h')
    /\ i8lastError h' = 1
    /\ u16errCnt h' = 1
    /\ notified (trace h') = [(77, 1)].
Proof.
  assert (H1 : rx_fits (with_crc (17 :: 7 :: [0; 0])) demo_master) by solve_ready.
  assert (H2 : (2 <= length ([0; 0]%Z))%nat) by solve_closed.
  assert (H3 : Forall is_byte (17 :: 7 :: [0; 0])) by all_bytes.
  assert (H4 : Z.land 7 128 = 0) by reflexivity.
  assert (H5 : isSupported 7 = false) by reflexivity.
  destruct (master_unsupported_answer demo_master (mkTelegram 17 3 0 1 [0] 77)
              17 7 [0; 0] H1 H2 H3 H4 H5)
    as (h' & Hrun & _ & Herr & Hcnt & Hnot & _).
  exists h'. split; [exact Hrun|]. split; [exact Herr|]. split; [exact Hcnt|exact Hnot].
Defined.

Lemma slave_write_coils_past_bank_witness :
  let f := with_crc [17; 15; 0; 15; 0; 2; 1; 3] in
  u16regCoils_size demo_slave = 1
  /\ validateRequest (drained f (set_i8lastError 0 demo_slave))
     = Some (0, drained f (set_i8lastError 0 demo_slave))
  /\ StartTaskModbusSlave_body (received f demo_slave) = None.
Proof.
  intros f.
  assert (H1 : rx_ready f demo_slave) by solve_ready.
  assert (H2 : Forall is_byte [17; 15; 0; 15; 0; 2; 1; 3]) by all_bytes.
  assert (H3 : 1 <= word 0 2 <= 1968) by solve_closed.
  assert (H4 : word 0 15 + word 0 2 <= 65536) by solve_closed.
  assert (H5 : Z.of_nat (length (u16regsCoils demo_slave)) = u16regCoils_size demo_slave)
    by reflexivity.
  assert (H6 : word 0 15 / 16 + (word 0 2 + 15) / 16 <= u16regCoils_size demo_slave)
    by solve_closed.
  assert (H7 : u16regCoils_size demo_slave <= (word 0 15 + word 0 2 - 1) / 16)
    by solve_closed.
  split; [reflexivity|].
  exact (slave_write_coils_past_bank demo_slave 0 15 0 2 [1; 3] H1 H2 H3 H4 H5 H6 H7).
Defined.

End MoreWitnesses.
